(** * Agama: particle arrays and the generic evaluation wrapper

    A shallow embedding of

    - [src/particles_base.h]: the [PointMassArray] container and the
      [Converter] strategy table, and
    - [src/py_wrapper.cpp]: [callAnyFunctionOnArray], the routine that
      applies a computation to one point or to an array of points, the
      methods of [Potential], [ActionFinder] and [SplineApprox] that go
      through it, [set_units], and the constructors of the three classes
      with the table of arguments of the first,

    together with the properties that the specification states about
    them and further properties that the code shows.

    Conventions.  A C++ [double] is a binary64 float, [PrimFloat.float].
    [unsigned int] and [int] are 32 bits wide and are computed in [Z]
    with the wrap-around written out; [size_t] and [npy_intp] hold every
    container size and are plain [Z].  A [std::vector] is a [list]. *)

From Stdlib Require Import ZArith Lia PrimFloat.
From Stdlib Require Uint63 FloatOps Ascii.
From stdpp Require Import gmap strings list fin_maps pretty.

Local Open Scope Z_scope.
Local Set Warnings "-register-all".

(** ** Machine integers *)

Module MachineInt.

Definition UINT_MAX : Z := 2 ^ 32 - 1.
Definition INT_MAX : Z := 2 ^ 31 - 1.
Definition INT_MIN : Z := - 2 ^ 31.

(** Conversion of a wider value to [unsigned int]. *)
Definition to_unsigned (z : Z) : Z := z mod 2 ^ 32.

(** Conversion of a wider value to [int] (two's complement). *)
Definition to_int (z : Z) : Z := (z + 2 ^ 31) mod 2 ^ 32 - 2 ^ 31.

(** Whether the mathematical result of an [int] operation is an [int];
    when it is not, the operation has undefined behaviour. *)
Definition in_int (z : Z) : bool := (INT_MIN <=? z) && (z <=? INT_MAX).

End MachineInt.

Import MachineInt.

(** ** Completion of a C++ computation *)

(** A call returns normally, leaves by a [std::exception] carrying its
    [what()] text, or has undefined behaviour. *)
Inductive completion (A : Type) : Type :=
| Done (a : A)
| Thrown (what : string)
| Undefined.
Arguments Done {A} a.
Arguments Thrown {A} what.
Arguments Undefined {A}.

(** * particles_base.h *)

Module particles.

(** ** [PointMassArray<ParticleT>] *)

(** [typedef std::pair<ParticleT, double> ElemType] *)
Abbreviation ElemType ParticleT := (ParticleT * float)%type.

(** [typedef std::vector<ElemType> ArrayType] *)
Abbreviation ArrayType ParticleT := (list (ElemType ParticleT)).

Section PointMassArray.
Context {ParticleT : Type}.

Record PointMassArray : Type := { data : ArrayType ParticleT }.

(** [PointMassArray() {}] *)
Definition empty : PointMassArray := {| data := [] |}.

(** [unsigned int size() const { return data.size(); }]:
    the vector's size, converted to [unsigned int]. *)
Definition size (a : PointMassArray) : Z :=
  to_unsigned (Z.of_nat (length (data a))).

(** [void add(const ParticleT &first, const double second)
     { data.push_back(ElemType(first, second)); }] *)
Definition add (first : ParticleT) (second : float)
    (a : PointMassArray) : PointMassArray :=
  {| data := data a ++ [(first, second)] |}.

(** [ElemType& at(unsigned int index) { return data.at(index); }]:
    the parameter is an [unsigned int], so the integer that the caller
    passes is converted first (-1 becomes [UINT_MAX], [2^32] becomes 0).
    [std::vector::at] throws [std::out_of_range] outside the vector (the
    text of [what()] is the library's; the name of the class stands for
    it here). *)
Definition at_ (index : Z) (a : PointMassArray)
    : completion (ElemType ParticleT) :=
  match data a !! Z.to_nat (to_unsigned index) with
  | Some e => Done e
  | None => Thrown "std::out_of_range"
  end.

(** [ElemType& operator[](unsigned int index) { return data[index]; }]:
    unchecked; outside the vector the behaviour is undefined.  The
    index is converted to [unsigned int] as in [at]. *)
Definition subscript (index : Z) (a : PointMassArray)
    : completion (ElemType ParticleT) :=
  match data a !! Z.to_nat (to_unsigned index) with
  | Some e => Done e
  | None => Undefined
  end.

(** [const ParticleT& point(unsigned int index) const] *)
Definition point (index : Z) (a : PointMassArray) : completion ParticleT :=
  match data a !! Z.to_nat (to_unsigned index) with
  | Some e => Done e.1
  | None => Undefined
  end.

(** [double mass(unsigned int index) const] *)
Definition mass (index : Z) (a : PointMassArray) : completion float :=
  match data a !! Z.to_nat (to_unsigned index) with
  | Some e => Done e.2
  | None => Undefined
  end.

(** The loop of [totalMass]:
    [for(unsigned int i=0; i<data.size(); i++) sum += data[i].second;]
    The counter [i] is an [unsigned int] compared with the vector's
    [size_t] size, so [i++] wraps at [2^32]; [fuel] bounds the number
    of iterations that are run, and [None] means they did not suffice
    (or that [data[i]] left the vector). *)
Fixpoint totalMass_loop (fuel : nat) (a : PointMassArray)
    (i : Z) (sum : float) : option float :=
  match fuel with
  | O => None
  | S fuel' =>
      if i <? Z.of_nat (length (data a)) then
        match data a !! Z.to_nat i with
        | Some e =>
            totalMass_loop fuel' a (to_unsigned (i + 1)) (PrimFloat.add sum e.2)
        | None => None
        end
      else Some sum
  end.

(** [double totalMass() const { double sum=0; for(...) ...; return sum; }] *)
Definition totalMass (fuel : nat) (a : PointMassArray) : option float :=
  totalMass_loop fuel a 0 0%float.

End PointMassArray.

Arguments PointMassArray ParticleT : clear implicits.

(** ** The converting constructor *)

Section Conversion.
Context {OtherParticleT ParticleT : Type}.
(** [Converter<OtherParticleT, ParticleT> conv] *)
Variable conv : OtherParticleT -> ParticleT.

(** The body of the constructor's loop, run [n] more times from
    counter [i]:
    [data.push_back(ElemType(conv(src[i].first), src[i].second))]. *)
Fixpoint convert_loop (src : PointMassArray OtherParticleT) (n : nat) (i : Z)
    (data' : ArrayType ParticleT) : completion (ArrayType ParticleT) :=
  match n with
  | O => Done data'
  | S n' =>
      match subscript i src with
      | Done e => convert_loop src n' (i + 1) (data' ++ [(conv e.1, e.2)])
      | Thrown w => Thrown w
      | Undefined => Undefined
      end
  end.

(** [template<typename OtherParticleT>
     PointMassArray(const PointMassArray<OtherParticleT> &src)]:
    [for(unsigned int i=0; i<src.size(); i++)] runs [src.size()] times,
    both sides of the comparison being [unsigned int]. *)
Definition PointMassArray_from (src : PointMassArray OtherParticleT)
    : completion (PointMassArray ParticleT) :=
  match convert_loop src (Z.to_nat (size src)) 0 [] with
  | Done d => Done {| data := d |}
  | Thrown w => Thrown w
  | Undefined => Undefined
  end.

End Conversion.

End particles.

(** ** coord.h *)

Module coord.

(** The three standard coordinate systems, [coord::Car], [coord::Cyl]
    and [coord::Sph]. *)
Inductive CoordT : Type := Car | Cyl | Sph.

(** Modelled from the spec: coord.h is not among the sources.  The
    specification describes an entity as an immutable value that is
    either a position or a position with a velocity, expressed in one
    coordinate system, and the coordinate transforms as external pure
    primitives, one for each ordered pair of coordinate systems.  The
    two families of entity types and the three transforms that
    particles_base.h calls are therefore the fields of an interface. *)
Class Library : Type := {
  PosT : CoordT -> Type;
  PosVelT : CoordT -> Type;
  (** [coord::toPos<SrcCoordT, DestCoordT>] on a position *)
  toPos : forall SrcCoordT DestCoordT, PosT SrcCoordT -> PosT DestCoordT;
  (** [coord::toPos<SrcCoordT, DestCoordT>] on a position with velocity *)
  toPos_of_PosVel : forall SrcCoordT DestCoordT, PosVelT SrcCoordT -> PosT DestCoordT;
  (** [coord::toPosVel<SrcCoordT, DestCoordT>] *)
  toPosVel : forall SrcCoordT DestCoordT, PosVelT SrcCoordT -> PosVelT DestCoordT
}.

End coord.

(** ** The [Converter] strategy table *)

Module converter.
Import coord particles.

(** The particle types that [PointMassArray] is documented to hold:
    [coord::PosT<coordT>] or [coord::PosVelT<coordT>]. *)
Inductive ParticleType : Type :=
| PosType (coordT : CoordT)
| PosVelType (coordT : CoordT).



(** What building a program gives.  The primary template,
    [template<typename SrcT, typename DestT> struct Converter
     { DestT operator()(const SrcT& src); };],
    declares [operator()] and does not define it.  A conversion that no
    specialisation matches compiles to a call of the declared operator,
    which the linker cannot resolve: the header's comment says that a
    linker error about a missing templated Converter class means that
    a conversion was tried which is not supported.  There is then no
    executable, and nothing is run. *)
Inductive Build (A : Type) : Type :=
| Executable (run : A)
| LinkerError (missing : ParticleType * ParticleType).
Arguments Executable {A} run.
Arguments LinkerError {A} missing.

Section Table.
Context `{Library}.

Definition Particle (t : ParticleType) : Type :=
  match t with
  | PosType c => PosT c
  | PosVelType c => PosVelT c
  end.

(** [template<typename SrcT, typename DestT> struct Converter] and its
    three partial specialisations.  The primary template only declares
    [operator()]: where no specialisation matches there is no
    definition to link against, which is [None] here. *)
Definition Converter (SrcT DestT : ParticleType)
    : option (Particle SrcT -> Particle DestT) :=
  match SrcT as s, DestT as d return option (Particle s -> Particle d) with
  | PosVelType SrcCoordT, PosVelType DestCoordT =>
      Some (toPosVel SrcCoordT DestCoordT)
  | PosVelType SrcCoordT, PosType DestCoordT =>
      Some (toPos_of_PosVel SrcCoordT DestCoordT)
  | PosType SrcCoordT, PosType DestCoordT =>
      Some (toPos SrcCoordT DestCoordT)
  | PosType _, PosVelType _ => None
  end.

(** Instantiating the converting constructor of
    [PointMassArray<ParticleT>] at a source type [OtherParticleT]:
    it exists when [Converter<OtherParticleT, ParticleT>] does. *)
Definition PointMassArray_convert (OtherParticleT ParticleT : ParticleType)
    : option (PointMassArray (Particle OtherParticleT) ->
              completion (PointMassArray (Particle ParticleT))) :=
  match Converter OtherParticleT ParticleT with
  | Some conv => Some (PointMassArray_from conv)
  | None => None
  end.

(** Building a program that constructs a [PointMassArray<ParticleT>]
    from a [PointMassArray<OtherParticleT>].  What is built takes the
    source array when it is run. *)
Definition build_conversion (OtherParticleT ParticleT : ParticleType)
    : Build (PointMassArray (Particle OtherParticleT) ->
             completion (PointMassArray (Particle ParticleT))) :=
  match PointMassArray_convert OtherParticleT ParticleT with
  | Some ctor => Executable ctor
  | None => LinkerError (OtherParticleT, ParticleT)
  end.

End Table.

End converter.

(** * py_wrapper.cpp: the general interface for evaluating a function *)

Module py_wrapper.

(** ** Python objects and interpreter state *)

(** The identity of a NumPy array object. *)
Abbreviation loc := positive.

(** An array of [NPY_DOUBLE] in C order (what [NPY_ARRAY_IN_ARRAY]
    guarantees): its shape and its data, row after row. *)
Record PyArrayObject : Type := {
  PyArray_DIMS : list Z;
  PyArray_DATA : list float
}.

Definition PyArray_NDIM (arr : PyArrayObject) : Z :=
  Z.of_nat (length (PyArray_DIMS arr)).

Definition PyArray_DIM (arr : PyArrayObject) (n : nat) : Z :=
  nth n (PyArray_DIMS arr) 0.

(** The Python values that reach or leave the wrapper: a number, a tuple,
    a reference to an array, or an object that is neither a number nor
    convertible to an array of doubles. *)
Inductive PyObject : Type :=
| PyFloat (d : float)
| PyTuple (items : list PyObject)
| PyArray (l : loc)
| PyOpaque.

Inductive PyExc : Type := PyExc_ValueError | PyExc_TypeError.

(** The part of the interpreter state that the wrapper touches: the
    arrays, by identity, and the error indicator. *)
Record PyState : Type := {
  heap : gmap loc PyArrayObject;
  error : option (PyExc * string)
}.

(** ** Computations over the interpreter state *)

Definition M (A : Type) : Type := PyState -> completion A * PyState.

Definition ret {A} (a : A) : M A := fun s => (Done a, s).

Definition bind {A B} (m : M A) (k : A -> M B) : M B :=
  fun s =>
    match m s with
    | (Done a, s') => k a s'
    | (Thrown w, s') => (Thrown w, s')
    | (Undefined, s') => (Undefined, s')
    end.

Definition undefined {A} : M A := fun s => (Undefined, s).

Definition lift {A} (c : completion A) : M A := fun s => (c, s).

(** [try { body } catch(std::exception& e) { handler(e.what()) }] *)
Definition try_catch {A} (body : M A) (handler : string -> M A) : M A :=
  fun s =>
    match body s with
    | (Thrown w, s') => handler w s'
    | r => r
    end.

Notation "'let*' x ':=' m 'in' k" := (bind m (fun x => k))
  (at level 10, x name, m at level 100, k at level 200,
   format "'[v' 'let*'  x  ':='  m  'in' '/' k ']'").

(** [for(int d=0; d<n; d++) body(d)], given the values that [d] takes. *)
Fixpoint for_each (ds : list Z) (body : Z -> M unit) : M unit :=
  match ds with
  | [] => ret tt
  | d :: ds' => let* _ := body d in for_each ds' body
  end.

(** An [int] expression: undefined when its value is not an [int]. *)
Definition int_value (z : Z) : M Z :=
  if in_int z then ret z else undefined.

(** ** The calls into the Python and NumPy C API *)

Section API.

(** Contents of memory that has been allocated but not written: of a new
    array, by its identity, and of the local array [result]. *)
Variable heap_garbage : loc -> nat -> float.
Variable stack_garbage : nat -> float.

Definition PyErr_SetString (exc : PyExc) (msg : string) : M unit :=
  fun s => (Done tt, {| heap := heap s; error := Some (exc, msg) |}).

Definition PyErr_Clear : M unit :=
  fun s => (Done tt, {| heap := heap s; error := None |}).

(** What the format unit [d] accepts: a number, or an array of exactly
    one element. *)
Definition PyFloat_AsDouble (h : gmap loc PyArrayObject) (o : PyObject)
    : option float :=
  match o with
  | PyFloat d => Some d
  | PyArray l =>
      match h !! l with
      | Some arr =>
          match PyArray_DATA arr with
          | [d] => Some d
          | _ => None
          end
      | None => None
      end
  | _ => None
  end.

(** [PyArg_ParseTuple(args, "d...d", ...)] with [n] format units: the
    argument tuple must hold exactly [n] numbers.  On failure it sets
    [TypeError] and returns 0, here [None].  (The wrapper clears or
    replaces the error that a failed parse or conversion sets, so that
    the text given to it here is never seen.) *)
Definition PyArg_ParseTuple_d (n : nat) (args : list PyObject)
    : M (option (list float)) :=
  fun s =>
    match (if decide (length args = n)
           then mapM (PyFloat_AsDouble (heap s)) args else None) with
    | Some input => (Done (Some input), s)
    | None =>
        (Done None,
         {| heap := heap s;
            error := Some (PyExc_TypeError, "bad argument list") |})
    end.

(** [PyArg_ParseTuple(args, "O", &obj)]: exactly one argument, of any type. *)
Definition PyArg_ParseTuple_O (args : list PyObject) : M (option PyObject) :=
  fun s =>
    match args with
    | [obj] => (Done (Some obj), s)
    | _ =>
        (Done None,
         {| heap := heap s;
            error := Some (PyExc_TypeError, "bad argument list") |})
    end.

(** The array of doubles that NumPy builds from an object: a number is a
    0-d array, an array is itself, a tuple of objects that convert to
    arrays of one common shape is the array of one more dimension. *)
Fixpoint array_of (h : gmap loc PyArrayObject) (o : PyObject)
    : option PyArrayObject :=
  match o with
  | PyFloat d => Some {| PyArray_DIMS := []; PyArray_DATA := [d] |}
  | PyArray l => h !! l
  | PyTuple items =>
      match (fix all (os : list PyObject) : option (list PyArrayObject) :=
               match os with
               | [] => Some []
               | o' :: os' =>
                   match array_of h o', all os' with
                   | Some a, Some r => Some (a :: r)
                   | _, _ => None
                   end
               end) items with
      | Some [] => Some {| PyArray_DIMS := [0]; PyArray_DATA := [] |}
      | Some (a :: r) =>
          if forallb (fun b => bool_decide (PyArray_DIMS b = PyArray_DIMS a)) r
          then Some {| PyArray_DIMS := Z.of_nat (length items) :: PyArray_DIMS a;
                       PyArray_DATA := concat (map PyArray_DATA (a :: r)) |}
          else None
      | None => None
      end
  | PyOpaque => None
  end.

(** A new array object. *)
Definition new_array (make : loc -> PyArrayObject) : M loc :=
  fun s =>
    let l := fresh (dom (heap s)) in
    (Done l, {| heap := <[l := make l]> (heap s); error := error s |}).

(** [PyArray_FROM_OTF(obj, NPY_DOUBLE, NPY_ARRAY_IN_ARRAY)]: a new
    reference to [obj] when it is an array already, a new array when
    [obj] converts to one, [NULL] with an error set otherwise. *)
Definition PyArray_FROM_OTF (obj : PyObject) : M (option loc) :=
  fun s =>
    match obj with
    | PyArray l =>
        match heap s !! l with
        | Some _ => (Done (Some l), s)
        | None => (Undefined, s)
        end
    | _ =>
        match array_of (heap s) obj with
        | Some a => (let* l := new_array (fun _ => a) in ret (Some l)) s
        | None =>
            (let* _ := PyErr_SetString PyExc_ValueError
                         "cannot convert to an array" in
             ret None) s
        end
    end.

(** [PyArray_SimpleNew(nd, dims, NPY_DOUBLE)]: a new array of the given
    shape whose data is not initialised; [NULL] with [ValueError] when a
    dimension is negative. *)
Definition PyArray_SimpleNew (dims : list Z) : M (option loc) :=
  if forallb (fun d => 0 <=? d) dims then
    let* l := new_array (fun l =>
                {| PyArray_DIMS := dims;
                   PyArray_DATA :=
                     map (heap_garbage l)
                         (seq 0 (Z.to_nat (foldr Z.mul 1 dims))) |}) in
    ret (Some l)
  else
    let* _ := PyErr_SetString PyExc_ValueError
                "negative dimensions are not allowed" in
    ret None.

(** The array behind a pointer to [PyArrayObject]. *)
Definition array_at (l : loc) : M PyArrayObject :=
  fun s =>
    match heap s !! l with
    | Some arr => (Done arr, s)
    | None => (Undefined, s)
    end.

(** The [n] doubles read through a [const double*] that points
    [offset] doubles into the data of an array. *)
Definition read_doubles (l : loc) (offset : Z) (n : nat) : M (list float) :=
  let* arr := array_at l in
  let row := take n (drop (Z.to_nat offset) (PyArray_DATA arr)) in
  if (0 <=? offset) && bool_decide (length row = n) then ret row else undefined.

(** A store into the data of an array, [PyArray_DATA(arr)[offset] = v]. *)
Definition write_double (l : loc) (offset : Z) (v : float) : M unit :=
  fun s =>
    match heap s !! l with
    | Some arr =>
        if (0 <=? offset) && (offset <? Z.of_nat (length (PyArray_DATA arr)))
        then (Done tt,
              {| heap := <[l := {| PyArray_DIMS := PyArray_DIMS arr;
                                   PyArray_DATA := <[Z.to_nat offset := v]>
                                                     (PyArray_DATA arr) |}]>
                           (heap s);
                 error := error s |})
        else (Undefined, s)
    | None => (Undefined, s)
    end.

(** The cast of [resultObj] to a pointer to [PyArrayObject]. *)
Definition as_array (resultObj : option PyObject) : M loc :=
  match resultObj with
  | Some (PyArray l) => ret l
  | _ => undefined
  end.

(** [PyTuple_GET_ITEM(resultObj, k)], cast to a pointer to
    [PyArrayObject]. *)
Definition PyTuple_GET_ITEM (resultObj : option PyObject) (k : nat) : M loc :=
  match resultObj with
  | Some (PyTuple items) => as_array (items !! k)
  | _ => undefined
  end.

(** ** Input and output descriptors *)

(** [enum INPUT_VALUE] *)
Inductive INPUT_VALUE : Type :=
| INPUT_VALUE_SINGLE
| INPUT_VALUE_TRIPLET
| INPUT_VALUE_SEXTET.

(** The enumerators' values, which are the template arguments. *)
Definition INPUT_VALUE_int (numArgs : INPUT_VALUE) : Z :=
  match numArgs with
  | INPUT_VALUE_SINGLE => 1
  | INPUT_VALUE_TRIPLET => 3
  | INPUT_VALUE_SEXTET => 6
  end.

(** [enum OUTPUT_VALUE] *)
Inductive OUTPUT_VALUE : Type :=
| OUTPUT_VALUE_SINGLE
| OUTPUT_VALUE_TRIPLET
| OUTPUT_VALUE_SEXTET
| OUTPUT_VALUE_TRIPLET_AND_TRIPLET
| OUTPUT_VALUE_TRIPLET_AND_SEXTET.

Definition OUTPUT_VALUE_int (numOutput : OUTPUT_VALUE) : Z :=
  match numOutput with
  | OUTPUT_VALUE_SINGLE => 1
  | OUTPUT_VALUE_TRIPLET => 3
  | OUTPUT_VALUE_SEXTET => 6
  | OUTPUT_VALUE_TRIPLET_AND_TRIPLET => 33
  | OUTPUT_VALUE_TRIPLET_AND_SEXTET => 36
  end.

(** [template<int numArgs> size_t inputLength()] *)
Definition inputLength (numArgs : INPUT_VALUE) : nat :=
  match numArgs with
  | INPUT_VALUE_SINGLE => 1
  | INPUT_VALUE_TRIPLET => 3
  | INPUT_VALUE_SEXTET => 6
  end.

(** [template<int numOutput> size_t outputLength()] *)
Definition outputLength (numOutput : OUTPUT_VALUE) : nat :=
  match numOutput with
  | OUTPUT_VALUE_SINGLE => 1
  | OUTPUT_VALUE_TRIPLET => 3
  | OUTPUT_VALUE_SEXTET => 6
  | OUTPUT_VALUE_TRIPLET_AND_TRIPLET => 6
  | OUTPUT_VALUE_TRIPLET_AND_SEXTET => 9
  end.

(** The function templates below are declared for every descriptor and
    specialised for some: [None] where the file has no specialisation,
    so that a use would not link. *)

(** [template<int numArgs> int parseTuple(PyObject* args, double
    inputArray[])]: the parsed [input] on success. *)
Definition parseTuple (numArgs : INPUT_VALUE)
    : option (list PyObject -> M (option (list float))) :=
  match numArgs with
  | INPUT_VALUE_SINGLE => None
  | INPUT_VALUE_TRIPLET => Some (PyArg_ParseTuple_d 3)
  | INPUT_VALUE_SEXTET => Some (PyArg_ParseTuple_d 6)
  end.

(** [template<int numArgs> const char* errStrInvalidArrayDim()] *)
Definition errStrInvalidArrayDim (numArgs : INPUT_VALUE) : option string :=
  match numArgs with
  | INPUT_VALUE_SINGLE => None
  | INPUT_VALUE_TRIPLET => Some "Input does not contain valid Nx3 array"
  | INPUT_VALUE_SEXTET => Some "Input does not contain valid Nx6 array"
  end.

(** [template<int numArgs> const char* errStrInvalidInput()] *)
Definition errStrInvalidInput (numArgs : INPUT_VALUE) : option string :=
  match numArgs with
  | INPUT_VALUE_SINGLE => None
  | INPUT_VALUE_TRIPLET =>
      Some ("Input does not contain valid data " +:+
            "(either 3 numbers for a single point or a Nx3 array)")
  | INPUT_VALUE_SEXTET =>
      Some ("Input does not contain valid data " +:+
            "(either 6 numbers for a single point or a Nx6 array)")
  end.

(** [result[k]], for [k] inside the local array. *)
Definition at_index (result : list float) (k : nat) : float :=
  nth k result 0%float.

(** [template<int numOutput> PyObject* formatTuple(const double result[])]:
    [Py_BuildValue] with the formats ["d"], ["ddd"] and ["(ddd)(dddddd)"]. *)
Definition formatTuple (numOutput : OUTPUT_VALUE)
    : option (list float -> PyObject) :=
  match numOutput with
  | OUTPUT_VALUE_SINGLE =>
      Some (fun result => PyFloat (at_index result 0))
  | OUTPUT_VALUE_TRIPLET =>
      Some (fun result =>
              PyTuple [PyFloat (at_index result 0); PyFloat (at_index result 1);
                       PyFloat (at_index result 2)])
  | OUTPUT_VALUE_TRIPLET_AND_SEXTET =>
      Some (fun result =>
              PyTuple
                [PyTuple [PyFloat (at_index result 0); PyFloat (at_index result 1);
                          PyFloat (at_index result 2)];
                 PyTuple [PyFloat (at_index result 3); PyFloat (at_index result 4);
                          PyFloat (at_index result 5); PyFloat (at_index result 6);
                          PyFloat (at_index result 7); PyFloat (at_index result 8)]])
  | _ => None
  end.

(** [template<int numOutput> PyObject* allocOutputArr(int size)];
    [None] inside [M] is [NULL].  [Py_BuildValue("NN", arr1, arr2)] is
    [NULL] when one of its arguments is. *)
Definition allocOutputArr (numOutput : OUTPUT_VALUE)
    : option (Z -> M (option PyObject)) :=
  match numOutput with
  | OUTPUT_VALUE_SINGLE =>
      Some (fun size =>
              let* arr := PyArray_SimpleNew [size] in
              ret (PyArray <$> arr))
  | OUTPUT_VALUE_TRIPLET =>
      Some (fun size =>
              let* arr := PyArray_SimpleNew [size; 3] in
              ret (PyArray <$> arr))
  | OUTPUT_VALUE_TRIPLET_AND_SEXTET =>
      Some (fun size =>
              let* arr1 := PyArray_SimpleNew [size; 3] in
              let* arr2 := PyArray_SimpleNew [size; 6] in
              ret (match arr1, arr2 with
                   | Some l1, Some l2 => Some (PyTuple [PyArray l1; PyArray l2])
                   | _, _ => None
                   end))
  | _ => None
  end.

(** [template<int numOutput> void formatOutputArr(const double result[],
    const int index, PyObject* resultObj)] *)
Definition formatOutputArr (numOutput : OUTPUT_VALUE)
    : option (list float -> Z -> option PyObject -> M unit) :=
  match numOutput with
  | OUTPUT_VALUE_SINGLE =>
      Some (fun result index resultObj =>
              let* arr := as_array resultObj in
              write_double arr index (at_index result 0))
  | OUTPUT_VALUE_TRIPLET =>
      Some (fun result index resultObj =>
              for_each [0; 1; 2] (fun d =>
                let* arr := as_array resultObj in
                let* row := int_value (index * 3) in
                let* offset := int_value (row + d) in
                write_double arr offset (at_index result (Z.to_nat d))))
  | OUTPUT_VALUE_TRIPLET_AND_SEXTET =>
      Some (fun result index resultObj =>
              let* arr1 := PyTuple_GET_ITEM resultObj 0 in
              let* arr2 := PyTuple_GET_ITEM resultObj 1 in
              let* _ :=
                for_each [0; 1; 2] (fun d =>
                  let* row := int_value (index * 3) in
                  let* offset := int_value (row + d) in
                  write_double arr1 offset (at_index result (Z.to_nat d))) in
              for_each [0; 1; 2; 3; 4; 5] (fun d =>
                let* row := int_value (index * 6) in
                let* offset := int_value (row + d) in
                let* k := int_value (d + 3) in
                write_double arr2 offset (at_index result (Z.to_nat k))))
  | _ => None
  end.

(** ** The dispatcher *)

(** [typedef void ( *anyFunction)(PyObject* obj, const double input[],
    double *result)], for a fixed [obj]: from the input point and the
    contents of [result] before the call to the contents of [result]
    after it, unless the call throws. *)
Definition anyFunction : Type := list float -> list float -> completion (list float).

Section Dispatcher.
Variable numArgs : INPUT_VALUE.
Variable numOutput : OUTPUT_VALUE.
(** The specialisations that the instantiation refers to. *)
Variable parseTuple' : list PyObject -> M (option (list float)).
Variable errStrInvalidArrayDim' errStrInvalidInput' : string.
Variable formatTuple' : list float -> PyObject.
Variable allocOutputArr' : Z -> M (option PyObject).
Variable formatOutputArr' : list float -> Z -> option PyObject -> M unit.
Variable fnc : anyFunction.

(** The loop over the input array, [n] more iterations from counter [i]:
    [fnc(self, PyArray_GETPTR2(arr, i, 0), result);
     formatOutputArr<numOutput>(result, i, resultObj);]
    Row [i] of a C-ordered array starts [i * PyArray_DIM(arr, 1)] doubles
    into its data. *)
Fixpoint batch_loop (arr : loc) (resultObj : option PyObject)
    (n : nat) (i : Z) (result : list float) : M unit :=
  match n with
  | O => ret tt
  | S n' =>
      let* a := array_at arr in
      let* input := read_doubles arr (i * PyArray_DIM a 1)
                      (inputLength numArgs) in
      let* result := lift (fnc input result) in
      let* _ := formatOutputArr' result i resultObj in
      batch_loop arr resultObj n' (i + 1) result
  end.

(** The [try] block of [callAnyFunctionOnArray].  The result is the
    returned pointer, [None] for [NULL].  Reference counts are not part
    of the state, so that [Py_DECREF(arr)] leaves no trace here. *)
Definition callAnyFunctionOnArray_try (args : list PyObject)
    : M (option PyObject) :=
  let result := map stack_garbage (seq 0 (outputLength numOutput)) in
  let* parsed := parseTuple' args in
  match parsed with
  | Some input =>
      (* one point *)
      let* result := lift (fnc input result) in
      ret (Some (formatTuple' result))
  | None =>
      let* _ := PyErr_Clear in
      let* parsed := PyArg_ParseTuple_O args in
      match parsed with
      | Some obj =>
          let* arr := PyArray_FROM_OTF obj in
          match arr with
          | None =>
              let* _ := PyErr_SetString PyExc_ValueError
                          "Input does not contain a valid array" in
              ret None
          | Some arr =>
              let* a := array_at arr in
              if (PyArray_NDIM a =? 1)
                 && (PyArray_DIM a 0 =? INPUT_VALUE_int numArgs)
              then
                (* 1d array of length numArgs - a single point *)
                let* input := read_doubles arr 0 (inputLength numArgs) in
                let* result := lift (fnc input result) in
                ret (Some (formatTuple' result))
              else if (PyArray_NDIM a =? 2)
                      && (PyArray_DIM a 1 =? INPUT_VALUE_int numArgs)
              then
                let numpt := to_int (PyArray_DIM a 0) in
                (* allocate an appropriate output object *)
                let* resultObj := allocOutputArr' numpt in
                (* loop over input array *)
                let* _ := batch_loop arr resultObj (Z.to_nat numpt) 0 result in
                ret resultObj
              else
                let* _ := PyErr_SetString PyExc_ValueError
                            errStrInvalidArrayDim' in
                ret None
          end
      | None =>
          let* _ := PyErr_SetString PyExc_ValueError errStrInvalidInput' in
          ret None
      end
  end.

(** [catch(std::exception& e) { PyErr_SetString(PyExc_ValueError,
    (std::string("Exception occured: ")+e.what()).c_str()); return NULL; }] *)
Definition callAnyFunctionOnArray_catch (what : string) : M (option PyObject) :=
  let* _ := PyErr_SetString PyExc_ValueError ("Exception occured: " +:+ what) in
  ret None.

End Dispatcher.

(** [template<int numArgs, int numOutput> static PyObject*
    callAnyFunctionOnArray(PyObject* self, PyObject* args, anyFunction fnc)].
    The instantiation exists when every specialisation it uses does. *)
Definition callAnyFunctionOnArray (numArgs : INPUT_VALUE) (numOutput : OUTPUT_VALUE)
    : option (list PyObject -> anyFunction -> M (option PyObject)) :=
  match parseTuple numArgs, errStrInvalidArrayDim numArgs,
        errStrInvalidInput numArgs, formatTuple numOutput,
        allocOutputArr numOutput, formatOutputArr numOutput with
  | Some parseTuple', Some errStrInvalidArrayDim', Some errStrInvalidInput',
    Some formatTuple', Some allocOutputArr', Some formatOutputArr' =>
      Some (fun args fnc =>
              try_catch
                (callAnyFunctionOnArray_try numArgs numOutput parseTuple'
                   errStrInvalidArrayDim' errStrInvalidInput' formatTuple'
                   allocOutputArr' formatOutputArr' fnc args)
                callAnyFunctionOnArray_catch)
  | _, _, _, _, _, _ => None
  end.

End API.

End py_wrapper.

(** * py_wrapper.cpp: the classes of the module *)

(** ** The libraries behind the classes

    The headers that py_wrapper.cpp includes are not among the sources.
    What the file uses of them is declared here as it is used there:
    the members that are read are fields, and the functions, methods and
    constructors that are called are parameters, which return, throw or
    have undefined behaviour. *)

(** [completion] as a monad, for code that does not touch the
    interpreter state. *)
#[global] Instance completion_ret : MRet completion := fun A a => Done a.
#[global] Instance completion_bind : MBind completion := fun A B k c =>
  match c with
  | Done a => k a
  | Thrown w => Thrown w
  | Undefined => Undefined
  end.

Module units.

(** units.h: physical constants, [units::InternalUnits] and
    [units::ExternalUnits] with its four conversion factors. *)
Class Units : Type := {
  InternalUnits : Type;
  ExternalUnits : Type;
  Kpc : float;
  Myr : float;
  kms : float;
  Msun : float;
  (** [units::InternalUnits(length, time)] *)
  InternalUnits_new : float -> float -> InternalUnits;
  (** [units::ExternalUnits()] *)
  ExternalUnits_default : ExternalUnits;
  (** [units::ExternalUnits(unit, length, velocity, mass)] *)
  ExternalUnits_new : InternalUnits -> float -> float -> float -> ExternalUnits;
  lengthUnit : ExternalUnits -> float;
  velocityUnit : ExternalUnits -> float;
  timeUnit : ExternalUnits -> float;
  massUnit : ExternalUnits -> float
}.

End units.

Module cartesian.
Import coord.

(** [coord::GradCar] and [coord::HessCar], by the members that are read. *)
Record GradCar : Type := { dx : float; dy : float; dz : float }.

Record HessCar : Type := {
  dx2 : float; dy2 : float; dz2 : float;
  dxdy : float; dydz : float; dxdz : float
}.

(** The constructors of [coord::PosCar] and [coord::PosVelCar], and
    [coord::toPosVelCyl]. *)
Class Cartesian `{Library} : Type := {
  PosCar : float -> float -> float -> PosT Car;
  PosVelCar : float -> float -> float -> float -> float -> float -> PosVelT Car;
  toPosVelCyl : PosVelT Car -> PosVelT Cyl
}.

End cartesian.

Module math.

(** [pow_2], and the methods of [math::CubicSpline] that are called:
    [value(x)], [evalDeriv(x, NULL, &result)] and
    [evalDeriv(x, NULL, NULL, &result)]. *)
Class Math : Type := {
  pow_2 : float -> float
}.

Record CubicSpline : Type := {
  value : float -> completion float;
  evalDeriv_first : float -> completion float;
  evalDeriv_second : float -> completion float
}.

(** math_spline.h: [math::SplineApprox], by its constructor from the
    x values and the knots and by its two fits, which give the values
    of the spline at the knots and the derivatives at the two ends; and
    the constructor of [math::CubicSpline] from these. *)
Class Splines : Type := {
  SplineApprox : Type;
  SplineApprox_new : list float -> list float -> completion SplineApprox;
  fitDataOversmooth :
    SplineApprox -> list float -> float -> completion (list float * float * float);
  fitData :
    SplineApprox -> list float -> float -> completion (list float * float * float);
  CubicSpline_new :
    list float -> list float -> float -> float -> completion CubicSpline
}.

End math.

Module potential.
Import coord cartesian particles.

Section Interface.
Context `{Library}.

(** [potential::BasePotential], by the methods that are called:
    [value(point)], [density(point)], [eval(point, NULL, &grad)] and
    [eval(point, NULL, &grad, &hess)]. *)
Record BasePotential : Type := {
  value : PosT Car -> completion float;
  density : PosT Car -> completion float;
  eval_grad : PosT Car -> completion GradCar;
  eval_grad_hess : PosT Car -> completion (GradCar * HessCar)
}.

End Interface.

(** potential_factory.h: the types of potential, of density profile and
    of symmetry, and their lookup by name. *)
Class Names : Type := {
  PotentialType : Type;
  PotentialType_eq_dec :: EqDecision PotentialType;
  PT_BSE : PotentialType;
  PT_SPLINE : PotentialType;
  PT_CYLSPLINE : PotentialType;
  DensityType : Type;
  SymmetryType : Type;
  getPotentialTypeByName : string -> completion PotentialType;
  getDensityTypeByName : string -> completion DensityType;
  getSymmetryTypeByName : string -> completion SymmetryType
}.

(** [potential::ConfigPotential], by the members that the wrapper reads
    and writes.  The three numbers of coefficients are written through
    a pointer to [int]. *)
Record ConfigPotential `{Names} : Type := {
  mass : float;
  scaleRadius : float;
  scaleRadius2 : float;
  q : float;
  p : float;
  gamma : float;
  sersicIndex : float;
  numCoefsRadial : Z;
  numCoefsAngular : Z;
  numCoefsVertical : Z;
  alpha : float;
  splineSmoothFactor : float;
  splineRMin : float;
  splineRMax : float;
  splineZMin : float;
  splineZMax : float;
  fileName : string;
  potentialType : PotentialType;
  densityType : DensityType;
  symmetryType : SymmetryType
}.

(** potential_factory.h and potential_composite.h.  The factory returns
    a pointer that is not [NULL], as its callers assert. *)
Class Factory `{Library} `{Names} : Type := {
  (** the configuration that the default constructor makes *)
  ConfigPotential_default : ConfigPotential;
  createPotential : ConfigPotential -> completion BasePotential;
  createPotentialFromPoints :
    ConfigPotential -> PointMassArray (PosT Car) -> completion BasePotential;
  (** [new potential::CompositeCyl(components)], on a vector of pointers
      some of which may be [NULL] *)
  CompositeCyl : list (option BasePotential) -> completion BasePotential
}.

End potential.

Module actions_staeckel.
Import coord potential.

(** [actions::Actions] *)
Record Actions : Type := { Jr : float; Jz : float; Jphi : float }.

Section Interface.
Context `{Library}.

(** [actions::BaseActionFinder] with its method [actions(point)] *)
Record BaseActionFinder : Type := {
  actions : PosVelT Cyl -> completion Actions
}.

End Interface.

(** [new actions::ActionFinderAxisymFudge(pot)] *)
Class Finders `{Library} : Type := {
  ActionFinderAxisymFudge : BasePotential -> completion BaseActionFinder
}.

End actions_staeckel.

(** ** The functions that compute, and the methods that call them *)

Module py_methods.
Import MachineInt coord cartesian units py_wrapper.

(** [input[k]], [result[k] = v] and [p->], on the arrays and the pointer
    that a function is given: outside the array, or through [NULL], the
    behaviour is undefined. *)
Definition load (input : list float) (k : nat) : completion float :=
  match input !! k with
  | Some v => Done v
  | None => Undefined
  end.

Definition store (k : nat) (v : float) (result : list float)
    : completion (list float) :=
  if decide (k < length result)%nat then Done (<[k := v]> result) else Undefined.

Definition deref {A : Type} (p : option A) : completion A :=
  match p with
  | Some a => Done a
  | None => Undefined
  end.

Section Methods.
Context `{Library} `{!Cartesian} `{Units} `{math.Math}.
Variable heap_garbage : loc -> nat -> float.
Variable stack_garbage : nat -> float.
(** [static const units::ExternalUnits* conv], which the functions of
    this part read and do not change. *)
Variable conv : ExternalUnits.

(** [typedef struct { PyObject_HEAD const potential::BasePotential* pot; }
    PotentialObject] *)
Record PotentialObject : Type := { pot : option potential.BasePotential }.

(** [typedef struct { PyObject_HEAD const actions::BaseActionFinder* finder;
    PyObject* pot; } ActionFinderObject]; the second member refers to
    an instance of [Potential]. *)
Record ActionFinderObject : Type := {
  finder : option actions_staeckel.BaseActionFinder;
  finder_pot : option loc
}.

(** [const coord::PosCar point(input[0] * conv->lengthUnit,
    input[1] * conv->lengthUnit, input[2] * conv->lengthUnit)], with
    which four of the functions start. *)
Definition PosCar_point (input : list float) : completion (PosT Car) :=
  x ← load input 0;
  y ← load input 1;
  z ← load input 2;
  mret (PosCar (x * lengthUnit conv) (y * lengthUnit conv) (z * lengthUnit conv))%float.

(** [const coord::PosVelCar point(input[0] * conv->lengthUnit, ...,
    input[5] * conv->velocityUnit)] *)
Definition PosVelCar_point (input : list float) : completion (PosVelT Car) :=
  x ← load input 0;
  y ← load input 1;
  z ← load input 2;
  vx ← load input 3;
  vy ← load input 4;
  vz ← load input 5;
  mret (PosVelCar (x * lengthUnit conv) (y * lengthUnit conv) (z * lengthUnit conv)
          (vx * velocityUnit conv) (vy * velocityUnit conv)
          (vz * velocityUnit conv))%float.

(** [((PotentialObject* )obj)->pot] *)
Definition pot_of (obj : option PotentialObject)
    : completion potential.BasePotential :=
  self ← deref obj;
  deref (pot self).

(** [static void fncPotential(PyObject* obj, const double input[],
    double *result)] *)
Definition fncPotential (obj : option PotentialObject) : anyFunction :=
  fun input result =>
    point ← PosCar_point input;
    p ← pot_of obj;
    v ← potential.value p point;
    (* unit of potential is V^2 *)
    store 0 (v / math.pow_2 (velocityUnit conv))%float result.

(** [static void fncDensity(...)] *)
Definition fncDensity (obj : option PotentialObject) : anyFunction :=
  fun input result =>
    point ← PosCar_point input;
    p ← pot_of obj;
    v ← potential.density p point;
    (* unit of density is M/L^3 *)
    store 0 (v / (massUnit conv / math.pow_2 (lengthUnit conv)))%float result.

(** [static void fncForce(...)] *)
Definition fncForce (obj : option PotentialObject) : anyFunction :=
  fun input result =>
    point ← PosCar_point input;
    p ← pot_of obj;
    grad ← potential.eval_grad p point;
    (* unit of force per unit mass is V/T *)
    let convF := (1 / (velocityUnit conv / timeUnit conv))%float in
    result ← store 0 (- dx grad * convF)%float result;
    result ← store 1 (- dy grad * convF)%float result;
    store 2 (- dz grad * convF)%float result.

(** [static void fncForceDeriv(...)] *)
Definition fncForceDeriv (obj : option PotentialObject) : anyFunction :=
  fun input result =>
    point ← PosCar_point input;
    p ← pot_of obj;
    '(grad, hess) ← potential.eval_grad_hess p point;
    (* unit of force per unit mass is V/T *)
    let convF := (1 / (velocityUnit conv / timeUnit conv))%float in
    (* unit of force deriv per unit mass is V/T^2 *)
    let convD := (1 / (velocityUnit conv / math.pow_2 (timeUnit conv)))%float in
    result ← store 0 (- dx grad * convF)%float result;
    result ← store 1 (- dy grad * convF)%float result;
    result ← store 2 (- dz grad * convF)%float result;
    result ← store 3 (- dx2 hess * convD)%float result;
    result ← store 4 (- dy2 hess * convD)%float result;
    result ← store 5 (- dz2 hess * convD)%float result;
    result ← store 6 (- dxdy hess * convD)%float result;
    result ← store 7 (- dydz hess * convD)%float result;
    store 8 (- dxdz hess * convD)%float result.

(** [static void fncActions(...)]: the body is a [try] block whose
    handler stores [NAN] three times.  The stores of the [try] block
    come after the last call that can throw, so that the handler finds
    [result] as it was on entry. *)
Definition fncActions (obj : option ActionFinderObject) : anyFunction :=
  fun input result =>
    match
      point ← PosVelCar_point input;
      self ← deref obj;
      f ← deref (finder self);
      acts ← actions_staeckel.actions f (toPosVelCyl point);
      (* unit of action is V*L *)
      let convA := (1 / (velocityUnit conv * lengthUnit conv))%float in
      result ← store 0 (actions_staeckel.Jr acts * convA)%float result;
      result ← store 1 (actions_staeckel.Jz acts * convA)%float result;
      store 2 (actions_staeckel.Jphi acts * convA)%float result
    with
    | Thrown _ =>
        (* indicates an error, e.g., positive value of energy *)
        result ← store 2 nan result;
        result ← store 1 nan result;
        store 0 nan result
    | r => r
    end.

(** [static bool Potential_isCorrect(PyObject* self)] *)
Definition Potential_isCorrect (self : option PotentialObject) : M bool :=
  match self with
  | None =>
      let* _ := PyErr_SetString PyExc_ValueError
                  "Should be called as method of Potential object" in
      ret false
  | Some obj =>
      match pot obj with
      | None =>
          let* _ := PyErr_SetString PyExc_ValueError
                      "Potential is not initialized properly" in
          ret false
      | Some _ => ret true
      end
  end.

(** The instantiation of the dispatcher that a method names.  The four
    that this file names exist; a call of one that did not would be
    undefined. *)
Definition instantiation (numArgs : INPUT_VALUE) (numOutput : OUTPUT_VALUE)
    : list PyObject -> anyFunction -> M (option PyObject) :=
  default (fun _ _ => undefined)
    (callAnyFunctionOnArray heap_garbage stack_garbage numArgs numOutput).

(** [static PyObject* Potential_potential(PyObject* self, PyObject* args)] *)
Definition Potential_potential (self : option PotentialObject)
    (args : list PyObject) : M (option PyObject) :=
  let* correct := Potential_isCorrect self in
  if negb correct then ret None
  else instantiation INPUT_VALUE_TRIPLET OUTPUT_VALUE_SINGLE
         args (fncPotential self).

(** [static PyObject* Potential_value(PyObject* self, PyObject* args,
    PyObject* namedargs)]; the named arguments are not looked at. *)
Definition Potential_value (self : option PotentialObject)
    (args : list PyObject) : M (option PyObject) :=
  let* correct := Potential_isCorrect self in
  if negb correct then ret None
  else Potential_potential self args.

(** [static PyObject* Potential_density(PyObject* self, PyObject* args)] *)
Definition Potential_density (self : option PotentialObject)
    (args : list PyObject) : M (option PyObject) :=
  let* correct := Potential_isCorrect self in
  if negb correct then ret None
  else instantiation INPUT_VALUE_TRIPLET OUTPUT_VALUE_SINGLE
         args (fncDensity self).

(** [static PyObject* Potential_force(PyObject* self, PyObject* args)] *)
Definition Potential_force (self : option PotentialObject)
    (args : list PyObject) : M (option PyObject) :=
  let* correct := Potential_isCorrect self in
  if negb correct then ret None
  else instantiation INPUT_VALUE_TRIPLET OUTPUT_VALUE_TRIPLET
         args (fncForce self).

(** [static PyObject* Potential_force_deriv(PyObject* self, PyObject* args)] *)
Definition Potential_force_deriv (self : option PotentialObject)
    (args : list PyObject) : M (option PyObject) :=
  let* correct := Potential_isCorrect self in
  if negb correct then ret None
  else instantiation INPUT_VALUE_TRIPLET OUTPUT_VALUE_TRIPLET_AND_SEXTET
         args (fncForceDeriv self).

(** [static PyObject* ActionFinder_actions(PyObject* self, PyObject* args)]:
    [self] is read without a test for [NULL]. *)
Definition ActionFinder_actions (self : option ActionFinderObject)
    (args : list PyObject) : M (option PyObject) :=
  let* obj := lift (deref self) in
  match finder obj with
  | None => ret None
  | Some _ =>
      instantiation INPUT_VALUE_SEXTET OUTPUT_VALUE_TRIPLET
        args (fncActions self)
  end.

End Methods.

End py_methods.

(** ** The module's state, [set_units] and the constructors *)

Module py_classes.
Import Stdlib.Strings.Ascii.
Import MachineInt coord cartesian units particles potential py_wrapper py_methods.

(** *** The arguments of a call *)

(** An object that is passed to a function of the module: an instance
    of the type [Potential], by identity, a string of type [str], an
    integer of type [int], whose value is a [long] of C, or an object
    of another kind. *)
Inductive PyItem : Type :=
| PotentialInstance (l : loc)
| PyString (s : string)
| PyInt (z : Z)
| Other (o : PyObject).

(** [PyObject_TypeCheck(item, PotentialTypePtr)] *)
Definition is_Potential (item : PyItem) : bool :=
  match item with
  | PotentialInstance _ => true
  | _ => false
  end.

(** The number conversions behind [PyFloat_AsDouble] and [PyInt_AsLong]:
    the [double] nearest to a [long], as the cast of C gives it, and
    the integer that Python makes of a float, towards zero, which there
    is none of for an infinity or a NaN. *)
Definition double_of_long (z : Z) : float :=
  if z =? - 2 ^ 63 then (-9223372036854775808)%float
  else if z <? 0 then (- of_uint63 (Uint63.of_Z (- z)))%float
  else of_uint63 (Uint63.of_Z z).

Definition long_of_double (d : float) : option Z :=
  match FloatOps.Prim2SF d with
  | SpecFloat.S754_zero _ => Some 0
  | SpecFloat.S754_finite s m e =>
      let v := if 0 <=? e then Z.pos m * 2 ^ e else Z.pos m / 2 ^ (- e) in
      Some (if s then - v else v)
  | _ => None
  end.

(** The format units that the wrapper uses, and what each of them
    stores: a string, an [int], a [double], an object. *)
Inductive format_unit : Type := unit_s | unit_i | unit_d | unit_O.

#[global] Instance format_unit_eq_dec : EqDecision format_unit.
Proof. solve_decision. Defined.

Inductive parsed : Type :=
| parsed_s (s : string)
| parsed_i (i : Z)
| parsed_d (d : float)
| parsed_O (o : PyItem).

Definition format_unit_of (c : ascii) : option format_unit :=
  match c with
  | "s"%char => Some unit_s
  | "i"%char => Some unit_i
  | "d"%char => Some unit_d
  | "O"%char => Some unit_O
  | _ => None
  end.

(** [PyErr_Occurred()] *)
Definition PyErr_Occurred (s : PyState) : bool := bool_decide (is_Some (error s)).

(** [PyFloat_AsDouble] and [PyInt_AsLong] on an item.  A string and an
    instance of [Potential] have neither conversion.  Of the other
    objects, only an array of one element converts to an integer. *)
Definition PyFloat_AsDouble_item (s : PyState) (arg : PyItem) : option float :=
  match arg with
  | PyInt z => Some (double_of_long z)
  | Other o => PyFloat_AsDouble (heap s) o
  | _ => None
  end.

Definition PyInt_AsLong (s : PyState) (arg : PyItem) : option Z :=
  match arg with
  | PyInt z => Some z
  | Other (PyArray l) => PyFloat_AsDouble (heap s) (PyArray l) ≫= long_of_double
  | _ => None
  end.

(** The conversion of one argument by one format unit, as CPython 2
    makes it; [None] when it fails.  The unit [s] takes a string that
    holds no null character.  The unit [i] refuses a [float], and an
    integer that is no [int] of C; the unit [d] takes what converts to a
    [double].  Both look at the error indicator to tell whether the
    conversion has failed: [d] fails whenever an error is pending, [i]
    when one is pending and the integer is -1. *)
Definition convertitem (s : PyState) (u : format_unit) (arg : PyItem)
    : option parsed :=
  match u with
  | unit_s =>
      match arg with
      | PyString str =>
          if forallb (fun c => negb (Ascii.eqb c "000")) (String.list_ascii_of_string str)
          then Some (parsed_s str) else None
      | _ => None
      end
  | unit_i =>
      match arg with
      | Other (PyFloat _) => None
      | _ =>
          ival ← PyInt_AsLong s arg;
          if (ival =? -1) && PyErr_Occurred s then None
          else if in_int ival then Some (parsed_i ival) else None
      end
  | unit_d =>
      dval ← PyFloat_AsDouble_item s arg;
      if PyErr_Occurred s then None else Some (parsed_d dval)
  | unit_O => Some (parsed_O arg)
  end.

(** [IS_END_OF_FORMAT] *)
Definition IS_END_OF_FORMAT (format : list ascii) : bool :=
  match format with
  | [] => true
  | c :: _ => Ascii.eqb c ";" || Ascii.eqb c ":"
  end.

(** [*format == '|'] *)
Definition at_bar (format : list ascii) : bool :=
  match format with
  | [] => false
  | c :: _ => Ascii.eqb c "|"
  end.

(** The loop of [PyArg_ParseTupleAndKeywords] over the keyword list, as
    CPython 2 has it, from keyword number [i] on, with [nkeywords] named
    arguments not yet met and [min] the number of required arguments,
    which a bar in the format sets.  An argument is taken by name, else
    by position; one that is given both ways, one that does not convert,
    and a required one that is missing, fail the parse; so does a
    keyword that no named argument has while some are left and an error
    is pending.  When no named argument is left and none is required,
    the parse succeeds at once.  After the loop, a named argument that
    was not met has a name that is not a keyword, which fails the parse
    too.  Of the format units, the four of [format_unit] are read; any
    other character fails the parse where it is met.  The result tells,
    keyword by keyword, what was stored: [None] where nothing was given,
    so that the variable keeps its value. *)
Fixpoint parse_keywords (s : PyState) (args : list PyItem)
    (namedArgs : gmap string PyItem) (min : Z) (i nkeywords : nat)
    (format : list ascii) (kwlist : list string)
    : option (list (option parsed)) :=
  match kwlist with
  | [] =>
      if negb (IS_END_OF_FORMAT format) && negb (at_bar format) then None
      else if decide (0 < nkeywords)%nat then None else Some []
  | keyword :: kwlist' =>
      let min := if at_bar format then Z.of_nat i else min in
      let format := if at_bar format then tail format else format in
      if IS_END_OF_FORMAT format then None
      else
        match (if decide (0 < nkeywords)%nat then namedArgs !! keyword else None),
              format with
        | _, [] => None
        | Some current_arg, c :: format' =>
            if decide (i < length args)%nat then None
            else
              u ← format_unit_of c;
              v ← convertitem s u current_arg;
              rest ← parse_keywords s args namedArgs min (S i) (pred nkeywords)
                       format' kwlist';
              Some (Some v :: rest)
        | None, c :: format' =>
            if bool_decide (0 < nkeywords)%nat && PyErr_Occurred s then None
            else
              match args !! i with
              | Some current_arg =>
                  u ← format_unit_of c;
                  v ← convertitem s u current_arg;
                  rest ← parse_keywords s args namedArgs min (S i) nkeywords
                           format' kwlist';
                  Some (Some v :: rest)
              | None =>
                  if Z.of_nat i <? min then None
                  else if decide (nkeywords = 0)%nat
                       then Some (None :: map (fun _ => None) kwlist')
                       else
                         _ ← format_unit_of c;
                         rest ← parse_keywords s args namedArgs min (S i) nkeywords
                                  format' kwlist';
                         Some (None :: rest)
              end
        end
  end.

(** [PyArg_ParseTupleAndKeywords(args, namedArgs, format, keywords, ...)].
    A [NULL] dictionary is the empty one.  On failure the error
    indicator is set and the result is 0, here [None].  (Each caller
    replaces the error of a failed parse, so that the class and the text
    given to it here are never seen.) *)
Definition PyArg_ParseTupleAndKeywords (args : list PyItem)
    (namedArgs : gmap string PyItem) (format : string) (keywords : list string)
    : M (option (list (option parsed))) :=
  fun s =>
    match (if decide (length args + base.size namedArgs <= length keywords)%nat
           then parse_keywords s args namedArgs INT_MAX 0 (base.size namedArgs)
                  (String.list_ascii_of_string format) keywords
           else None) with
    | Some stored => (Done (Some stored), s)
    | None =>
        (Done None,
         {| heap := heap s;
            error := Some (PyExc_TypeError, "bad argument list") |})
    end.

(** The value of a variable that started as [initial] and was handed to
    the parser as number [k], for a variable of each type. *)
Definition stored_string (initial : string) (stored : list (option parsed))
    (k : nat) : string :=
  match stored !! k with
  | Some (Some (parsed_s s)) => s
  | _ => initial
  end.

Definition stored_int (initial : Z) (stored : list (option parsed))
    (k : nat) : Z :=
  match stored !! k with
  | Some (Some (parsed_i i)) => i
  | _ => initial
  end.

Definition stored_double (initial : float) (stored : list (option parsed))
    (k : nat) : float :=
  match stored !! k with
  | Some (Some (parsed_d d)) => d
  | _ => initial
  end.

Definition stored_object (initial : option PyItem) (stored : list (option parsed))
    (k : nat) : option PyItem :=
  match stored !! k with
  | Some (Some (parsed_O o)) => Some o
  | _ => initial
  end.

(** *** The arguments of the constructor of [Potential] *)

(** [struct ArgDescription]; a pointer to characters is [None] when it
    is [NULL]. *)
Record ArgDescription : Type := Arg {
  name : option string;
  type : ascii;
  descr : option string
}.

(** [static const char* argTypeDescr(char type)] *)
Definition argTypeDescr (type : ascii) : string :=
  match type with
  | "s"%char => "string"
  | "i"%char => "int"
  | "d"%char => "float"
  | "O"%char => "object"
  | _ => "unknown type"
  end.

Definition MAX_NUM_KEYWORDS : Z := 64.

Definition MAX_LEN_DOCSTRING : Z := 4096.

(** [static const ArgDescription potentialArgs[]] *)
Definition potentialArgs : list ArgDescription := [
  Arg (Some "file") "s" (Some
    ("the name of ini file, potential coefficients file, or " +:+
     "N-body snapshot file"));
  Arg (Some "type") "s" (Some
    ("potential type, such as 'Plummer', 'Ferrers', or " +:+
     "potential expansion type, such as 'SplineExp'"));
  Arg (Some "density") "s" (Some
    ("density model for potential expansion, like 'Dehnen', " +:+
     "'MGE'"));
  Arg (Some "symmetry") "s" (Some
    ("assumed symmetry for potential expansion constructed from " +:+
     "an N-body snapshot"));
  Arg (Some "points") "O" (Some
    ("array of point masses to be used in construction of a " +:+
     "potential expansion: should be a tuple with two arrays - " +:+
     "coordinates and mass, where the first one is a " +:+
     "two-dimensional Nx3 array and the second one is a " +:+
     "one-dimensional array of length N"));
  Arg (Some "mass") "d" (Some
    ("total mass of the model"));
  Arg (Some "scaleradius") "d" (Some
    ("scale radius of the model (if applicable)"));
  Arg (Some "scaleradius2") "d" (Some
    ("second scale radius of the model (if applicable)"));
  Arg (Some "q") "d" (Some
    ("axis ratio y/x, i.e., intermediate to long axis (if " +:+
     "applicable)"));
  Arg (Some "p") "d" (Some
    ("axis ratio z/x, i.e., short to long axis (if applicable)"));
  Arg (Some "gamma") "d" (Some
    ("central cusp slope (applicable for Dehnen model)"));
  Arg (Some "sersicindex") "d" (Some
    ("Sersic index (applicable for Sersic density model)"));
  Arg (Some "numcoefsradial") "i" (Some
    ("number of radial terms in BasisSetExp or grid points in " +:+
     "spline potentials"));
  Arg (Some "numcoefsangular") "i" (Some
    ("order of spherical-harmonic expansion (max.index of " +:+
     "angular harmonic coefficient)"));
  Arg (Some "numcoefsvertical") "i" (Some
    ("number of coefficients in z-direction for CylSplineExp " +:+
     "potential"));
  Arg (Some "alpha") "d" (Some
    ("parameter that determines functional form of BasisSetExp " +:+
     "potential"));
  Arg (Some "splinesmoothfactor") "d" (Some
    ("amount of smoothing in SplineExp initialized from an " +:+
     "N-body snapshot"));
  Arg (Some "splinermin") "d" (Some
    ("if nonzero, specifies the innermost grid node radius for " +:+
     "SplineExp and CylSplineExp"));
  Arg (Some "splinermax") "d" (Some
    ("if nonzero, specifies the outermost grid node radius for " +:+
     "SplineExp and CylSplineExp"));
  Arg (Some "splinezmin") "d" (Some
    ("if nonzero, specifies the z-value of the innermost grid " +:+
     "node in CylSplineExp"));
  Arg (Some "splinezmax") "d" (Some
    ("if nonzero, specifies the z-value of the outermost grid " +:+
     "node in CylSplineExp"));
  Arg None "000" None
].

(** The null character and the line feed. *)
Definition NUL : ascii := "000".

Definition LF : string := String "010" "".

(** The three arrays that [buildDocstringPotential] fills:
    [docstringPotential], of [MAX_LEN_DOCSTRING] characters,
    [keywordsPotential], of [MAX_NUM_KEYWORDS] pointers, and
    [keywordTypesPotential], of one character more than that. *)
Record Globals : Type := {
  docstringPotential : list ascii;
  keywordsPotential : list (option string);
  keywordTypesPotential : list ascii
}.

(** The arrays as their definitions initialise them: null characters,
    null pointers, and the string of one bar. *)
Definition Globals_initial : Globals := {|
  docstringPotential := replicate (Z.to_nat MAX_LEN_DOCSTRING) NUL;
  keywordsPotential := replicate (Z.to_nat MAX_NUM_KEYWORDS) None;
  keywordTypesPotential := "|"%char :: replicate (Z.to_nat MAX_NUM_KEYWORDS) NUL
|}.

(** The string that an array of characters holds, up to its first null
    character, and the strings that an array of pointers holds, up to
    its first null pointer.  Reading on past the end of the array is
    not defined. *)
Fixpoint c_string (buf : list ascii) : completion string :=
  match buf with
  | [] => Undefined
  | c :: buf' =>
      if Ascii.eqb c NUL then Done EmptyString
      else str ← c_string buf'; Done (String c str)
  end.

Fixpoint null_terminated (a : list (option string)) : completion (list string) :=
  match a with
  | [] => Undefined
  | None :: _ => Done []
  | Some str :: a' => strs ← null_terminated a'; Done (str :: strs)
  end.

(** [snprintf(buf + bufIndex, size, ...)], where the format and its
    arguments give [text]: at most [size - 1] characters of the text
    and a null character are stored, and the length of the whole text
    is returned. *)
Definition snprintf (buf : list ascii) (bufIndex size : Z) (text : string)
    : list ascii * Z :=
  (if 0 <? size
   then list_inserts (Z.to_nat bufIndex)
          (take (Z.to_nat (size - 1)) (String.list_ascii_of_string text) ++ [NUL]) buf
   else buf,
   Z.of_nat (String.length text)).

(** The loop of [buildDocstringPotential], with [rest] the entries of
    the table from number [argIndex] on; reading past the last entry of
    the table is not defined. *)
Fixpoint docstring_loop (rest : list ArgDescription) (g : Globals)
    (bufIndex argIndex : Z) : completion (Globals * Z * Z) :=
  match rest with
  | [] => Undefined
  | a :: rest' =>
      match name a with
      | Some n =>
          if (bufIndex <? MAX_LEN_DOCSTRING) && (argIndex <? MAX_NUM_KEYWORDS)
          then
            d ← deref (descr a);
            let printed :=
              snprintf (docstringPotential g) bufIndex
                (MAX_LEN_DOCSTRING - bufIndex)
                ("    " +:+ n +:+ " (" +:+ argTypeDescr (type a) +:+ ") - " +:+
                 d +:+ LF) in
            docstring_loop rest'
              {| docstringPotential := printed.1;
                 keywordsPotential :=
                   <[Z.to_nat argIndex := Some n]> (keywordsPotential g);
                 keywordTypesPotential :=
                   <[Z.to_nat (argIndex + 1) := type a]> (keywordTypesPotential g) |}
              (to_unsigned (bufIndex + printed.2)) (to_unsigned (argIndex + 1))
          else Done (g, bufIndex, argIndex)
      | None => Done (g, bufIndex, argIndex)
      end
  end.

Definition docstring_header : string :=
  "Potential is a class that represents a wide range of gravitational potentials"
  +:+ LF +:+
  "There are a number of possible named arguments for the constructor:"
  +:+ LF +:+ LF.

Definition docstring_footer : string :=
  LF +:+ "Required parameters are either 'type' or 'file' (or both)" +:+ LF +:+
  "Alternatively, a composite potential may be created by passing a tuple " +:+
  "of Potential objects as the argument list for the constructor; " +:+
  "NOTE that these components will no longer be usable after being incorporated " +:+
  "into the composite potential!".

(** [static void buildDocstringPotential()], on a table and on the
    arrays; the result tells whether the warning is printed. *)
Definition buildDocstringPotential (potentialArgs : list ArgDescription)
    (g : Globals) : completion (Globals * bool) :=
  (* header line, store the number of symbols printed *)
  let printed := snprintf (docstringPotential g) 0 MAX_LEN_DOCSTRING
                   docstring_header in
  '(g, bufIndex, argIndex) ←
    docstring_loop potentialArgs
      {| docstringPotential := printed.1;
         keywordsPotential := keywordsPotential g;
         keywordTypesPotential := keywordTypesPotential g |}
      (to_unsigned printed.2) 0;
  let printed :=
    if bufIndex <? MAX_LEN_DOCSTRING
    then snprintf (docstringPotential g) bufIndex (MAX_LEN_DOCSTRING - bufIndex)
           docstring_footer
    else (docstringPotential g, 0) in
  let bufIndex := to_unsigned (bufIndex + printed.2) in
  Done ({| docstringPotential := printed.1;
           keywordsPotential := keywordsPotential g;
           keywordTypesPotential := keywordTypesPotential g |},
        (MAX_LEN_DOCSTRING <=? bufIndex) || (MAX_NUM_KEYWORDS <=? argIndex)).

(** The format units of a format, up to its end, without the bars;
    [None] when a character is no format unit. *)
Fixpoint format_units (format : list ascii) : option (list format_unit) :=
  match format with
  | [] => Some []
  | c :: format' =>
      if Ascii.eqb c ";" || Ascii.eqb c ":" then Some []
      else if Ascii.eqb c "|" then format_units format'
      else u ← format_unit_of c; us ← format_units format'; Some (u :: us)
  end.

(** The types of the variables whose addresses [Potential_init] hands
    to the parser, as format units. *)
Definition Potential_variables : list format_unit :=
  [unit_s; unit_s; unit_s; unit_s;
   unit_O;
   unit_d; unit_d; unit_d; unit_d; unit_d; unit_d; unit_d;
   unit_i; unit_i; unit_i;
   unit_d; unit_d; unit_d; unit_d; unit_d; unit_d].

Section Classes.
Context `{Library} `{!Cartesian} `{Units}.
Context `{potential.Names} `{!potential.Factory} `{!actions_staeckel.Finders}.

(** The state that the functions of this part share: the interpreter
    state, the unit conversion that [conv] points to, and the instances
    of [Potential] and of [ActionFinder], by identity.  Deallocation and
    reference counts are not part of it. *)
Record ModuleState : Type := {
  py : PyState;
  conv : ExternalUnits;
  potentials : gmap loc PotentialObject;
  finders : gmap loc ActionFinderObject
}.

Definition W (A : Type) : Type := ModuleState -> completion A * ModuleState.

#[export] Instance W_ret : MRet W := fun A a w => (Done a, w).

#[export] Instance W_bind : MBind W := fun A B k m w =>
  match m w with
  | (Done a, w') => k a w'
  | (Thrown what, w') => (Thrown what, w')
  | (Undefined, w') => (Undefined, w')
  end.

(** A computation on the interpreter state alone. *)
Definition in_py {A : Type} (m : M A) : W A :=
  fun w =>
    ((m (py w)).1,
     {| py := (m (py w)).2; conv := conv w;
        potentials := potentials w; finders := finders w |}).

Definition w_lift {A : Type} (c : completion A) : W A := fun w => (c, w).

(** [try { body } catch(std::exception& e) { handler(e.what()) }] *)
Definition w_try_catch {A : Type} (body : W A) (handler : string -> W A) : W A :=
  fun w =>
    match body w with
    | (Thrown what, w') => handler what w'
    | r => r
    end.

(** [PyErr_SetString(PyExc_ValueError, msg); return -1;] and the like *)
Definition fail_with {A : Type} (exc : PyExc) (msg : string) (r : A) : W A :=
  _ ← in_py (PyErr_SetString exc msg);
  mret r.

Definition get_conv : W ExternalUnits := fun w => (Done (conv w), w).

(** The object behind a pointer to [PotentialObject]. *)
Definition potential_at (l : loc) : W PotentialObject :=
  fun w =>
    match potentials w !! l with
    | Some obj => (Done obj, w)
    | None => (Undefined, w)
    end.

(** [((PotentialObject* )l)->pot = p] *)
Definition set_pot (l : loc) (p : option potential.BasePotential) : W unit :=
  fun w =>
    match potentials w !! l with
    | Some _ =>
        (Done tt,
         {| py := py w; conv := conv w;
            potentials := <[l := {| pot := p |}]> (potentials w);
            finders := finders w |})
    | None => (Undefined, w)
    end.

(** *** [set_units] *)

(** [static const units::InternalUnits unit(units::Kpc, units::Myr)] *)
Definition unit : InternalUnits := InternalUnits_new Kpc Myr.

(** [static PyObject* set_units(PyObject* self, PyObject* args,
    PyObject* namedArgs)]; [Some tt] is [Py_None]. *)
Definition set_units (args : list PyItem) (namedArgs : gmap string PyItem)
    : W (option ()) :=
  stored ← in_py (PyArg_ParseTupleAndKeywords args namedArgs "|dddd"
                    ["mass"; "length"; "velocity"; "time"]);
  let mass := stored_double 0 (default [] stored) 0 in
  let length := stored_double 0 (default [] stored) 1 in
  let velocity := stored_double 0 (default [] stored) 2 in
  let time := stored_double 0 (default [] stored) 3 in
  if negb (bool_decide (is_Some stored))
     || (mass <? 0)%float || (length <? 0)%float
     || (velocity <? 0)%float || (time <? 0)%float
  then fail_with PyExc_ValueError "Invalid arguments passed to setUnits()" None
  else if (0 <? length)%float && (0 <? velocity)%float && (0 <? time)%float
  then fail_with PyExc_ValueError
         "You may not assign length, velocity and time units simultaneously" None
  else if (mass =? 0)%float
  then fail_with PyExc_ValueError "You must specify mass unit" None
  else
    let newConv :=
      if (0 <? length)%float && (0 <? time)%float then
        Some (ExternalUnits_new unit (length * Kpc) (length / time * Kpc / Myr)
                (mass * Msun))%float
      else if (0 <? length)%float && (0 <? velocity)%float then
        Some (ExternalUnits_new unit (length * Kpc) (velocity * kms)
                (mass * Msun))%float
      else if (0 <? time)%float && (0 <? velocity)%float then
        Some (ExternalUnits_new unit (velocity * time * kms * Myr) (velocity * kms)
                (mass * Msun))%float
      else None in
    match newConv with
    | None =>
        fail_with PyExc_ValueError
          ("You must specify exactly two out of three units: " +:+
           "length, time and velocity") None
    | Some newConv =>
        fun w =>
          (Done (Some tt),
           {| py := py w; conv := newConv;
              potentials := potentials w; finders := finders w |})
    end.

(** *** The constructors of [Potential] *)

(** [static void Potential_initMemberVar(PyObject* self,
    const potential::BasePotential* pot)] *)
Definition Potential_initMemberVar (self : loc) (p : potential.BasePotential)
    : W () :=
  set_pot self (Some p).

(** The second loop of [Potential_initComposite]:
    [components.push_back(item->pot); item->pot = NULL;] for each item,
    which the first loop has found to be an instance of [Potential]. *)
Fixpoint take_components (args : list PyItem)
    (components : list (option potential.BasePotential))
    : W (list (option potential.BasePotential)) :=
  match args with
  | [] => mret components
  | PotentialInstance l :: args' =>
      obj ← potential_at l;
      _ ← set_pot l None;
      take_components args' (components ++ [pot obj])
  | _ :: _ => w_lift Undefined
  end.

(** [static int Potential_initComposite(PyObject* self, PyObject* args)];
    [args] is the argument tuple. *)
Definition Potential_initComposite (self : loc) (args : list PyItem) : W Z :=
  if decide (0 < length args)%nat then
    (* the first loop stops at the first item that is not a Potential *)
    let correct := forallb is_Potential args in
    if negb correct then
      fail_with PyExc_ValueError
        "The arguments of constructor are not a tuple of Potential objects" (-1)
    else
      components ← take_components args [];
      w_try_catch
        (p ← w_lift (potential.CompositeCyl components);
         _ ← Potential_initMemberVar self p;
         mret 0)
        (fun what =>
           fail_with PyExc_ValueError
             ("Error in creating composite potential: " +:+ what) (-1))
  else mret (-1).

(** One [double] read through [PyArray_GETPTR1] or [PyArray_GETPTR2]. *)
Definition read_double (l : loc) (offset : Z) : M float :=
  let* row := read_doubles l offset 1 in
  match row with
  | [v] => ret v
  | _ => undefined
  end.

(** The loop of [Potential_initFromParticles], [n] more iterations from
    counter [i]. *)
Fixpoint points_loop (pointCoordArr pointMassArr : loc) (n : nat) (i : Z)
    (pointArray : PointMassArray (PosT Car)) : W (PointMassArray (PosT Car)) :=
  match n with
  | O => mret pointArray
  | S n' =>
      u ← get_conv;
      x ← in_py (read_double pointCoordArr (i * 3 + 0));
      y ← in_py (read_double pointCoordArr (i * 3 + 1));
      z ← in_py (read_double pointCoordArr (i * 3 + 2));
      m ← in_py (read_double pointMassArr i);
      points_loop pointCoordArr pointMassArr n' (i + 1)
        (add (PosCar (x * lengthUnit u) (y * lengthUnit u) (z * lengthUnit u))
           (m * massUnit u) pointArray)%float
  end.

(** [static int Potential_initFromParticles(PyObject* self,
    const potential::ConfigPotential& cfg, PyObject* points)] *)
Definition Potential_initFromParticles (self : loc)
    (cfg : potential.ConfigPotential) (points : PyItem) : W Z :=
  if negb (bool_decide (potential.fileName cfg = "")) then
    fail_with PyExc_ValueError "Cannot provide both points and filename" (-1)
  else if negb (bool_decide (potential.potentialType cfg = potential.PT_BSE))
          && negb (bool_decide (potential.potentialType cfg = potential.PT_SPLINE))
          && negb (bool_decide (potential.potentialType cfg = potential.PT_CYLSPLINE))
  then fail_with PyExc_ValueError "Potential should be of an expansion type" (-1)
  else
    match points with
    | Other (PyTuple [pointCoordObj; pointMassObj]) =>
        pointCoordArr ← in_py (PyArray_FROM_OTF pointCoordObj);
        pointMassArr ← in_py (PyArray_FROM_OTF pointMassObj);
        match pointCoordArr, pointMassArr with
        | Some pointCoordArr, Some pointMassArr =>
            coords ← in_py (array_at pointCoordArr);
            masses ← in_py (array_at pointMassArr);
            let numpt :=
              if PyArray_NDIM masses =? 1 then to_int (PyArray_DIM masses 0)
              else 0 in
            if (numpt =? 0) || negb (PyArray_NDIM coords =? 2)
               || negb (PyArray_DIM coords 0 =? numpt)
               || negb (PyArray_DIM coords 1 =? 3)
            then
              fail_with PyExc_ValueError
                ("'points' does not contain valid arrays " +:+
                 "(the first one must be 2d array of shape Nx3 " +:+
                 "and the second one must be 1d array of length N)") (-1)
            else
              w_try_catch
                (pointArray ← points_loop pointCoordArr pointMassArr
                                (Z.to_nat numpt) 0 empty;
                 p ← w_lift (potential.createPotentialFromPoints cfg pointArray);
                 _ ← Potential_initMemberVar self p;
                 mret 0)
                (fun what =>
                   fail_with PyExc_ValueError
                     ("Error in creating potential from points: " +:+ what) (-1))
        | _, _ =>
            fail_with PyExc_ValueError "'points' does not contain valid arrays" (-1)
        end
    | _ =>
        fail_with PyExc_ValueError
          ("'points' must be a tuple with two arrays - " +:+
           "coordinates and mass, where the first one is a two-dimensional " +:+
           "Nx3 array and the second one is a one-dimensional array of length N")
          (-1)
    end.

(** [static int Potential_init(PyObject* self, PyObject* args,
    PyObject* namedArgs)], with the arrays that
    [buildDocstringPotential] has filled.  The call of the parser is
    defined when the format names, unit by unit, the types of the
    variables that follow it.  The lookup of the three types by name
    is made before the [try] block. *)
Definition Potential_init (g : Globals) (self : loc) (args : list PyItem)
    (namedArgs : gmap string PyItem) : W Z :=
  (* check if the input was a tuple of Potential objects, and if so,
     return a composite potential *)
  composite ← Potential_initComposite self args;
  if composite =? 0 then mret 0
  else
    format ← w_lift (c_string (keywordTypesPotential g));
    keywords ← w_lift (null_terminated (keywordsPotential g));
    if negb (bool_decide (format_units (String.list_ascii_of_string format)
                          = Some Potential_variables))
    then w_lift Undefined
    else
      stored ← in_py (PyArg_ParseTupleAndKeywords args namedArgs format keywords);
      match stored with
      | None =>
          fail_with PyExc_ValueError
            ("Invalid arguments passed to the Potential constructor;" +:+ LF +:+
             "type 'help(Potential)' to get the list of possible arguments " +:+
             "and their types") (-1)
      | Some stored =>
          let cfg := potential.ConfigPotential_default in
          let file := stored_string "" stored 0 in
          let type := stored_string "" stored 1 in
          let density := stored_string "" stored 2 in
          let symmetry := stored_string "" stored 3 in
          let points := stored_object None stored 4 in
          potentialType ← w_lift (potential.getPotentialTypeByName type);
          densityType ← w_lift (potential.getDensityTypeByName density);
          symmetryType ← w_lift (potential.getSymmetryTypeByName symmetry);
          u ← get_conv;
          let cfg := {|
            potential.mass :=
              stored_double (potential.mass cfg) stored 5 * massUnit u;
            potential.scaleRadius :=
              stored_double (potential.scaleRadius cfg) stored 6 * lengthUnit u;
            potential.scaleRadius2 :=
              stored_double (potential.scaleRadius2 cfg) stored 7 * lengthUnit u;
            potential.q := stored_double (potential.q cfg) stored 8;
            potential.p := stored_double (potential.p cfg) stored 9;
            potential.gamma := stored_double (potential.gamma cfg) stored 10;
            potential.sersicIndex :=
              stored_double (potential.sersicIndex cfg) stored 11;
            potential.numCoefsRadial :=
              stored_int (potential.numCoefsRadial cfg) stored 12;
            potential.numCoefsAngular :=
              stored_int (potential.numCoefsAngular cfg) stored 13;
            potential.numCoefsVertical :=
              stored_int (potential.numCoefsVertical cfg) stored 14;
            potential.alpha := stored_double (potential.alpha cfg) stored 15;
            potential.splineSmoothFactor :=
              stored_double (potential.splineSmoothFactor cfg) stored 16;
            potential.splineRMin :=
              stored_double (potential.splineRMin cfg) stored 17 * lengthUnit u;
            potential.splineRMax :=
              stored_double (potential.splineRMax cfg) stored 18 * lengthUnit u;
            potential.splineZMin :=
              stored_double (potential.splineZMin cfg) stored 19 * lengthUnit u;
            potential.splineZMax :=
              stored_double (potential.splineZMax cfg) stored 20 * lengthUnit u;
            potential.fileName := file;
            potential.potentialType := potentialType;
            potential.densityType := densityType;
            potential.symmetryType := symmetryType
          |}%float in
          (* the code below may generate exceptions which shouldn't
             propagate to Python *)
          w_try_catch
            (match points with
             | Some points =>
                 (* a list of particles was provided *)
                 Potential_initFromParticles self cfg points
             | None =>
                 (* attempt to create potential from configuration
                    parameters *)
                 if bool_decide (type = "") && bool_decide (file = "")
                 then
                   fail_with PyExc_ValueError
                     "Should provide type='...' or file='...' parameter" (-1)
                 else
                   pot ← w_lift (potential.createPotential cfg);
                   _ ← Potential_initMemberVar self pot;
                   mret 0
             end)
            (fun what =>
               fail_with PyExc_ValueError
                 ("Error in creating potential: " +:+ what) (-1))
      end.

(** *** The constructor of [ActionFinder] *)

(** [((ActionFinderObject* )self)->finder = finder;
    ((ActionFinderObject* )self)->pot = objPot;] *)
Definition set_finder (self : loc) (f : actions_staeckel.BaseActionFinder)
    (objPot : loc) : W () :=
  fun w =>
    match finders w !! self with
    | Some _ =>
        (Done tt,
         {| py := py w; conv := conv w; potentials := potentials w;
            finders := <[self := {| finder := Some f; finder_pot := Some objPot |}]>
                         (finders w) |})
    | None => (Undefined, w)
    end.

(** [static int ActionFinder_init(PyObject* self, PyObject* args,
    PyObject* namedargs)]; the named arguments are not looked at. *)
Definition ActionFinder_init (self : loc) (args : list PyItem) : W Z :=
  match args with
  | [objPot] =>
      match objPot with
      | PotentialInstance l =>
          obj ← potential_at l;
          match pot obj with
          | Some p =>
              w_try_catch
                (f ← w_lift (actions_staeckel.ActionFinderAxisymFudge p);
                 (* replace the member variables with freshly created ones *)
                 _ ← set_finder self f l;
                 mret 0)
                (fun what =>
                   fail_with PyExc_ValueError
                     ("Error in ActionFinder initialization: " +:+ what) (-1))
          | None =>
              fail_with PyExc_TypeError
                "Argument must be a valid instance of Potential class" (-1)
          end
      | _ =>
          fail_with PyExc_TypeError
            "Argument must be a valid instance of Potential class" (-1)
      end
  | _ =>
      fail_with PyExc_ValueError
        ("Incorrect parameters for ActionFinder constructor: " +:+
         "must provide an instance of Potential to work with.") (-1)
  end.

End Classes.

End py_classes.

(** ** The class [SplineApprox] *)

Module py_spline.
Import MachineInt py_wrapper py_methods py_classes.

(** An argument of the call operator: an object, or a Python integer. *)
Inductive PyArg : Type :=
| Obj (o : PyObject)
| Int (z : Z).

(** [typedef struct { PyObject_HEAD math::CubicSpline* spl; }
    SplineApproxObject] *)
Record SplineApproxObject : Type := { spl : option math.CubicSpline }.

(** [static double spl_eval(const math::CubicSpline* spl, double x,
    int der=0)] *)
Definition spl_eval (spl : math.CubicSpline) (x : float) (der : Z)
    : completion float :=
  match der with
  | 0 => math.value spl x
  | 1 => math.evalDeriv_first spl x
  | 2 => math.evalDeriv_second spl x
  | _ => Done nan
  end.

Section SplineApprox.

(** The interpreter state once the parser has raised [OverflowError],
    a class of exception that [PyExc] does not name, and the number
    that NumPy reads in a string, if it reads one. *)
Variable raise_OverflowError : PyState -> PyState.
Variable double_of_string : string -> option float.

(** [PyArg_ParseTuple(args, "O|i", &ptx, &der)]: one object, and
    optionally an integer that fits an [int]; [None] for [der] when
    only the object is given, so that the variable keeps its value. *)
Definition PyArg_ParseTuple_Oi (args : list PyArg)
    : M (option (PyArg * option Z)) :=
  match args with
  | [ptx] => ret (Some (ptx, None))
  | [ptx; Int z] =>
      if in_int z then ret (Some (ptx, Some z))
      else fun s => (Done None, raise_OverflowError s)
  | _ =>
      let* _ := PyErr_SetString PyExc_TypeError "bad argument list" in
      ret None
  end.

(** [PyArray_FROM_OTF(ptx, NPY_DOUBLE, NPY_ARRAY_OUT_ARRAY |
    NPY_ARRAY_ENSURECOPY)]: always a new array, which holds what the
    object converts to; [NULL] with an error set when it does not
    convert. *)
Definition PyArray_FROM_OTF_copy (ptx : PyArg) : M (option loc) :=
  fun s =>
    match (match ptx with
           | Obj o => array_of (heap s) o
           | Int z => Some {| PyArray_DIMS := [];
                              PyArray_DATA := [double_of_long z] |}
           end) with
    | Some a => (let* l := new_array (fun _ => a) in ret (Some l)) s
    | None =>
        (let* _ := PyErr_SetString PyExc_ValueError
                     "cannot convert to an array" in
         ret None) s
    end.

(** [PyArray_SIZE(arr)] *)
Definition PyArray_SIZE (arr : PyArrayObject) : Z :=
  foldr Z.mul 1 (PyArray_DIMS arr).

(** [PyArray_Return(arr)]: the array, or its element when it has no
    dimension. *)
Definition PyArray_Return (l : loc) : M (option PyObject) :=
  let* arr := array_at l in
  match PyArray_DIMS arr, PyArray_DATA arr with
  | [], [d] => ret (Some (PyFloat d))
  | [], _ => undefined
  | _, _ => ret (Some (PyArray l))
  end.

(** The loop of [SplineApprox_value], [n] more iterations from counter
    [i]: [data[i] = spl_eval(spl, data[i], der)], then [i++]. *)
Fixpoint value_loop (s : math.CubicSpline) (der : Z) (arr : loc)
    (n : nat) (i : Z) : M () :=
  match n with
  | O => ret tt
  | S n' =>
      let* x := read_double arr i in
      let* y := lift (spl_eval s x der) in
      let* _ := write_double arr i y in
      let* i := int_value (i + 1) in
      value_loop s der arr n' i
  end.

(** [static PyObject* SplineApprox_value(PyObject* self, PyObject* args,
    PyObject* kw)]; the named arguments are not looked at.  Nothing
    catches what the spline throws. *)
Definition SplineApprox_value (self : option SplineApproxObject)
    (args : list PyArg) : M (option PyObject) :=
  match self with
  | None => ret None
  | Some obj =>
      match spl obj with
      | None => ret None
      | Some s =>
          let* parsed := PyArg_ParseTuple_Oi args in
          match parsed with
          | None => ret None
          | Some (ptx, given) =>
              let der := default 0 given in
              if 2 <? der then
                let* _ := PyErr_SetString PyExc_ValueError
                            "Can only compute derivatives up to 2nd" in
                ret None
              else
                match ptx with
                | Obj (PyFloat d) =>
                    (* PyFloat_Check(ptx): one value *)
                    let* y := lift (spl_eval s d der) in
                    ret (Some (PyFloat y))
                | _ =>
                    (* else an array of values *)
                    let* arr := PyArray_FROM_OTF_copy ptx in
                    match arr with
                    | None =>
                        let* _ := PyErr_SetString PyExc_ValueError
                                    ("Argument must be either float, " +:+
                                     "list or numpy array") in
                        ret None
                    | Some arr =>
                        (* replace elements of the copy of input array
                           with computed values *)
                        let* a := array_at arr in
                        let* _ := value_loop s der arr
                                    (Z.to_nat (PyArray_SIZE a)) 0 in
                        PyArray_Return arr
                    end
                end
          end
      end
  end.

(** *** The constructor *)

(** The object as a call of the constructor leaves it: with a member
    that is [NULL] or points to a spline, or with a member that points
    to a spline that has been deleted. *)
Inductive SplineApprox_after : Type :=
| intact (self : SplineApproxObject)
| dangling.

(** [PyArray_FROM_OTF(obj, NPY_DOUBLE, NPY_ARRAY_IN_ARRAY)] on an item:
    an integer, and a string in which a number is read, give a new
    array of no dimension; an instance of [Potential] does not
    convert. *)
Definition PyArray_FROM_OTF_item (obj : PyItem) : M (option loc) :=
  match obj with
  | Other o => PyArray_FROM_OTF o
  | PyInt z =>
      let* l := new_array (fun _ => {| PyArray_DIMS := [];
                                       PyArray_DATA := [double_of_long z] |}) in
      ret (Some l)
  | PyString str =>
      match double_of_string str with
      | Some d =>
          let* l := new_array (fun _ => {| PyArray_DIMS := [];
                                           PyArray_DATA := [d] |}) in
          ret (Some l)
      | None =>
          let* _ := PyErr_SetString PyExc_ValueError "cannot convert to an array" in
          ret None
      end
  | PotentialInstance _ =>
      let* _ := PyErr_SetString PyExc_ValueError "cannot convert to an array" in
      ret None
  end.

(** The [catch] block of [SplineApprox_init], entered with the object
    as the [try] block has left it. *)
Definition SplineApprox_init_catch (what : string) (after : SplineApprox_after)
    : M (Z * SplineApprox_after) :=
  let* _ := PyErr_SetString PyExc_ValueError
              ("Error in SplineApprox initialization: " +:+ what) in
  ret (-1, after).

(** [static int SplineApprox_init(PyObject* self, PyObject* args,
    PyObject* namedargs)]; the result is the value returned and the
    object as the call leaves it.  The spline that the object has is
    deleted before the new one is constructed. *)
Definition SplineApprox_init `{math.Splines} (self : SplineApproxObject)
    (args : list PyItem) (namedargs : gmap string PyItem)
    : M (Z * SplineApprox_after) :=
  let* stored := PyArg_ParseTupleAndKeywords args namedargs "OOO|d"
                   ["x"; "y"; "knots"; "smooth"] in
  match stored with
  | None =>
      let* _ := PyErr_SetString PyExc_ValueError
                  ("Incorrect parameters passed to the SplineApprox constructor: " +:+
                   "must provide two arrays of equal length (input x and y points), " +:+
                   "a third array of spline knots, and optionally a float " +:+
                   "(smooth factor)") in
      ret (-1, intact self)
  | Some stored =>
      let smoothfactor := stored_double 0 stored 3 in
      match stored_object None stored 0, stored_object None stored 1,
            stored_object None stored 2 with
      | Some objx, Some objy, Some objk =>
          let* arrx := PyArray_FROM_OTF_item objx in
          let* arry := PyArray_FROM_OTF_item objy in
          let* arrk := PyArray_FROM_OTF_item objk in
          match arrx, arry, arrk with
          | Some arrx, Some arry, Some arrk =>
              let* ax := array_at arrx in
              let* ay := array_at arry in
              let* ak := array_at arrk in
              let numpt :=
                if PyArray_NDIM ax =? 1 then to_int (PyArray_DIM ax 0) else 0 in
              let numknots :=
                if PyArray_NDIM ak =? 1 then to_int (PyArray_DIM ak 0) else 0 in
              if (numpt <=? 0) || (numknots <=? 4)
                 || negb (PyArray_NDIM ay =? 1)
                 || negb (PyArray_DIM ay 0 =? numpt)
              then
                let* _ := PyErr_SetString PyExc_ValueError
                            ("Arguments must be two arrays of equal length " +:+
                             "(x and y) and a third array (knots, at least 4)") in
                ret (-1, intact self)
              else
                let* xvalues := read_doubles arrx 0 (Z.to_nat numpt) in
                let* yvalues := read_doubles arry 0 (Z.to_nat numpt) in
                let* knots := read_doubles arrk 0 (Z.to_nat numknots) in
                (* try *)
                match (spl ← math.SplineApprox_new xvalues knots;
                       if (0 <? smoothfactor)%float
                       then math.fitDataOversmooth spl yvalues smoothfactor
                       else math.fitData spl yvalues (- smoothfactor)%float) with
                | Done (splinevals, der1, der2) =>
                    (* check if this is not the first time that
                       constructor is called *)
                    let deleted :=
                      match spl self with
                      | Some _ => dangling
                      | None => intact self
                      end in
                    match math.CubicSpline_new knots splinevals der1 der2 with
                    | Done c => ret (0, intact {| spl := Some c |})
                    | Thrown what => SplineApprox_init_catch what deleted
                    | Undefined => undefined
                    end
                | Thrown what => SplineApprox_init_catch what (intact self)
                | Undefined => undefined
                end
          | _, _, _ =>
              let* _ := PyErr_SetString PyExc_ValueError
                          "Input does not contain valid arrays" in
              ret (-1, intact self)
          end
      | _, _, _ => undefined
      end
  end.

End SplineApprox.

End py_spline.

(** * Definitions used to state the properties *)

Module observe.
Import particles coord converter.

(** The specification's wording of what [totalMass] computes: the sum of
    the weights of all elements, accumulated from zero in sequence
    order. *)
Definition sum_of_weights {ParticleT : Type} (l : ArrayType ParticleT) : float :=
  foldl (fun s e => PrimFloat.add s e.2) 0%float l.





(** What the converting constructor makes of one element: the particle
    converted, the mass as it is. *)
Definition converted {OtherParticleT ParticleT : Type}
    (conv : OtherParticleT -> ParticleT)
    (el : ElemType OtherParticleT) : ElemType ParticleT :=
  (conv el.1, el.2).

(** An instance of the coordinate library to run examples on: a position
    is three doubles, a position with velocity is six, and the transforms
    keep the components. *)
Definition triples : Library := {|
  PosT := fun _ => (float * float * float)%type;
  PosVelT := fun _ => ((float * float * float) * (float * float * float))%type;
  toPos := fun _ _ p => p;
  toPos_of_PosVel := fun _ _ pv => pv.1;
  toPosVel := fun _ _ pv => pv
|}.

End observe.

Module observe_py.
Import MachineInt py_wrapper.

(** The numbers held by the value that a single-point call returns, in
    order: a float is one number, a tuple holds those of its items. *)
Fixpoint tuple_values (o : PyObject) : list float :=
  match o with
  | PyFloat d => [d]
  | PyTuple items =>
      (fix items_values (os : list PyObject) : list float :=
         match os with
         | [] => []
         | o' :: os' => tuple_values o' ++ items_values os'
         end) items
  | _ => []
  end.

(** Row [i] of an input array whose rows hold [n] doubles. *)
Definition input_row (n : nat) (a : PyArrayObject) (i : nat) : list float :=
  take n (drop (i * n) (PyArray_DATA a)).

(** The rows of an input array of [N] rows. *)
Definition input_rows (n : nat) (a : PyArrayObject) (N : nat) : list (list float) :=
  map (input_row n a) (seq 0 N).

(** Row [i] of an output array: the doubles that share the first index
    [i], as many as the product of the remaining dimensions. *)
Definition row_width (a : PyArrayObject) : nat :=
  Z.to_nat (foldr Z.mul 1 (tail (PyArray_DIMS a))).

Definition array_row (a : PyArrayObject) (i : nat) : list float :=
  take (row_width a) (drop (i * row_width a) (PyArray_DATA a)).

(** The [w] values of [result] from index [k0] on. *)
Definition slice (k0 w : nat) (result : list float) : list float :=
  map (at_index result) (seq k0 w).

(** The successive contents of the local array [result] as the
    computation is called on the rows in order, each call starting from
    what the previous one left, up to the first call that does not return;
    and how the sequence of calls ends. *)
Fixpoint results_of (fnc : anyFunction) (rows : list (list float))
    (result : list float) : list (list float) * completion unit :=
  match rows with
  | [] => ([], Done tt)
  | input :: rows' =>
      match fnc input result with
      | Done r => let '(rs, c) := results_of fnc rows' r in (r :: rs, c)
      | Thrown w => ([], Thrown w)
      | Undefined => ([], Undefined)
      end
  end.

(** An output buffer of a batch: the array behind it, the number of
    doubles in one of its rows, and the index in [result] at which the
    values for a row start. *)
Record buffer : Type := Buf {
  buf_array : loc;
  buf_width : nat;
  buf_start : nat
}.

(** The output buffers of a batch, for each output descriptor that has
    specialisations. *)
Definition output_bufs (numOutput : OUTPUT_VALUE) (resultObj : PyObject)
    : option (list buffer) :=
  match numOutput, resultObj with
  | OUTPUT_VALUE_SINGLE, PyArray l => Some [Buf l 1 0]
  | OUTPUT_VALUE_TRIPLET, PyArray l => Some [Buf l 3 0]
  | OUTPUT_VALUE_TRIPLET_AND_SEXTET, PyTuple [PyArray l1; PyArray l2] =>
      Some [Buf l1 3 0; Buf l2 6 3]
  | _, _ => None
  end.

(** The row widths of the output buffers. *)
Definition output_widths (numOutput : OUTPUT_VALUE) : list Z :=
  match numOutput with
  | OUTPUT_VALUE_SINGLE => [1]
  | OUTPUT_VALUE_TRIPLET => [3]
  | OUTPUT_VALUE_TRIPLET_AND_SEXTET => [3; 6]
  | _ => []
  end.

(** The shape of an output buffer of [N] rows of [w] doubles: the scalar
    output is a 1-d array. *)
Definition output_dims (numOutput : OUTPUT_VALUE) (N : Z) (w : nat) : list Z :=
  match numOutput with
  | OUTPUT_VALUE_SINGLE => [N]
  | _ => [N; Z.of_nat w]
  end.

(** One store, and the stores of one row, as functions on the array. *)
Definition set_cell (k : nat) (v : float) (a : PyArrayObject) : PyArrayObject :=
  {| PyArray_DIMS := PyArray_DIMS a;
     PyArray_DATA := <[k := v]> (PyArray_DATA a) |}.

Definition put_row (w k0 i : nat) (r : list float) (a : PyArrayObject)
    : PyArrayObject :=
  foldl (fun a d => set_cell (i * w + d) (at_index r (k0 + d)) a) a (seq 0 w).

(** The heap after the stores of row [i] into each output buffer. *)
Definition rows_stored (bufs : list buffer) (i : nat) (r : list float)
    (h : gmap loc PyArrayObject) : gmap loc PyArrayObject :=
  foldl (fun h b => alter (put_row (buf_width b) (buf_start b) i r)
                      (buf_array b) h) h bufs.

(** Each output buffer has room for row [i], at offsets that are [int]s. *)
Definition room_for_row (h : gmap loc PyArrayObject) (i : nat)
    (b : buffer) : Prop :=
  exists a, h !! buf_array b = Some a /\
            (i * buf_width b + buf_width b <= length (PyArray_DATA a))%nat /\
            Z.of_nat (i * buf_width b + buf_width b) <= INT_MAX + 1.

(** The arrays behind a list of output buffers. *)
Definition buf_locs (bufs : list buffer) : list loc :=
  map buf_array bufs.

(** The state of the output buffers once the rows whose results are
    [done'] have been stored: those rows hold the results, the rest of
    each buffer is as it was allocated, and no other array has changed. *)
Definition filled (bufs : list buffer)
    (h0 h : gmap loc PyArrayObject) (done' : list (list float)) : Prop :=
  (forall l, l ∉ buf_locs bufs -> h !! l = h0 !! l) /\
  Forall (fun b => exists a0,
            h0 !! buf_array b = Some a0 /\
            h !! buf_array b =
            Some {| PyArray_DIMS := PyArray_DIMS a0;
                    PyArray_DATA :=
                      concat (map (slice (buf_start b) (buf_width b)) done') ++
                      drop (length done' * buf_width b) (PyArray_DATA a0) |}) bufs.

(** The array that [PyArray_SimpleNew] makes at [l]. *)
Definition new_double_array (heap_garbage : loc -> nat -> float)
    (l : loc) (dims : list Z) : PyArrayObject :=
  {| PyArray_DIMS := dims;
     PyArray_DATA := map (heap_garbage l) (seq 0 (Z.to_nat (foldr Z.mul 1 dims))) |}.

(** The outcome of the single-point path once the input point is known:
    the formatted result when the computation returns, [NULL] with
    [ValueError] set when it throws. *)
Definition single_point (formatTuple' : list float -> PyObject)
    (fnc : anyFunction) (input result : list float) (s : PyState)
    : completion (option PyObject) * PyState :=
  match fnc input result with
  | Done r => (Done (Some (formatTuple' r)), s)
  | Thrown w =>
      (Done None,
       {| heap := heap s;
          error := Some (PyExc_ValueError, "Exception occured: " +:+ w) |})
  | Undefined => (Undefined, s)
  end.

(** The contents of the local array [result] on entry. *)
Definition result_on_entry (stack_garbage : nat -> float)
    (numOutput : OUTPUT_VALUE) : list float :=
  map stack_garbage (seq 0 (outputLength numOutput)).

(** Row [i] of what a batch call returns: row [i] of the array, or of
    each array of the tuple, end to end. *)
Definition output_row (h : gmap loc PyArrayObject) (resultObj : PyObject)
    (i : nat) : list float :=
  let row_of (o : PyObject) : list float :=
    match o with
    | PyArray l =>
        match h !! l with
        | Some a => array_row a i
        | None => []
        end
    | _ => []
    end in
  match resultObj with
  | PyTuple items => concat (map row_of items)
  | o => row_of o
  end.

(** On a [result] array of [n] doubles the function leaves [n] doubles,
    and what it does is settled by the input point. *)
Definition settled_by_input (n : nat) (fnc : anyFunction) : Prop :=
  forall input result result',
    length result = n -> length result' = n ->
    fnc input result = fnc input result' /\
    (forall r, fnc input result = Done r -> length r = n).

(** The arrays that an object returned by the wrapper refers to. *)
Definition obj_locs (o : option PyObject) : list loc :=
  let loc_of (o : PyObject) : list loc :=
    match o with
    | PyArray l => [l]
    | _ => []
    end in
  match o with
  | Some (PyTuple items) => concat (map loc_of items)
  | Some o' => loc_of o'
  | None => []
  end.

(** A computation keeps the arrays of [h0]: run from a state that has
    them, it ends in a state that has them, unchanged; and what it
    returns satisfies [post]. *)
Definition keeps (h0 : gmap loc PyArrayObject) {A : Type} (m : M A)
    (post : A -> Prop) : Prop :=
  forall s c s',
    h0 ⊆ heap s -> m s = (c, s') ->
    h0 ⊆ heap s' /\ (forall x, c = Done x -> post x).

(** A computation to run examples on: it leaves in [result] the
    coordinates of the input point with the opposite sign. *)
Definition opposite : anyFunction := fun input _ => Done (map PrimFloat.opp input).

(** A computation that fails from the second row on: it throws unless
    the first coordinate is below 2. *)
Definition picky : anyFunction :=
  fun input _ =>
    if PrimFloat.ltb (nth 0 input 0%float) 2%float
    then Done (input ++ input ++ input)
    else Thrown "bad point".

(** A computation that leaves in [result] the input point three times
    over. *)
Definition thrice : anyFunction := fun input _ => Done (input ++ input ++ input).

(** An interpreter state that holds one array of four rows of three. *)
Definition four_by_three : PyState :=
  {| heap := {[ 5%positive :=
                  {| PyArray_DIMS := [4; 3];
                     PyArray_DATA := [1; 2; 3; 4; 5; 6;
                                      7; 8; 9; 10; 11; 12]%float |} ]};
     error := None |}.

(** An interpreter state that holds one array of four rows of four. *)
Definition four_by_four : PyState :=
  {| heap := {[ 5%positive :=
                  {| PyArray_DIMS := [4; 4];
                     PyArray_DATA := [1; 2; 3; 4; 5; 6; 7; 8;
                                      9; 10; 11; 12; 13; 14; 15; 16]%float |} ]};
     error := None |}.

(** An interpreter state that holds one array of no rows of three. *)
Definition no_points : PyState :=
  {| heap := {[ 5%positive := {| PyArray_DIMS := [0; 3]; PyArray_DATA := [] |} ]};
     error := None |}.

(** An interpreter state that holds one array, of two rows of three, and
    no error. *)
Definition two_points : PyState :=
  {| heap := {[ 5%positive :=
                  {| PyArray_DIMS := [2; 3];
                     PyArray_DATA := [1; 2; 3; 4; 5; 6]%float |} ]};
     error := None |}.

(** The instantiation of the dispatcher for the given descriptors, for
    uninitialised memory that happens to hold zeros (when there is no
    such instantiation, a call is undefined). *)
Definition instance_of (numArgs : INPUT_VALUE) (numOutput : OUTPUT_VALUE)
    : list PyObject -> anyFunction -> M (option PyObject) :=
  default (fun _ _ => undefined)
    (callAnyFunctionOnArray (fun _ _ => 0%float) (fun _ => 0%float)
       numArgs numOutput).

End observe_py.

Module observe_methods.
Import MachineInt coord cartesian units py_wrapper py_methods observe observe_py.

(** The methods of [Potential] that evaluate something at points, the
    call operator among them. *)
Inductive evaluation : Type :=
| by_potential
| by_value
| by_density
| by_force
| by_force_deriv.

Definition output_of (m : evaluation) : OUTPUT_VALUE :=
  match m with
  | by_potential | by_value | by_density => OUTPUT_VALUE_SINGLE
  | by_force => OUTPUT_VALUE_TRIPLET
  | by_force_deriv => OUTPUT_VALUE_TRIPLET_AND_SEXTET
  end.

Section Methods.
Context `{Library} `{!Cartesian} `{Units} `{math.Math}.
Variable heap_garbage : loc -> nat -> float.
Variable stack_garbage : nat -> float.
Variable conv : ExternalUnits.

Definition method_of (m : evaluation)
    : option PotentialObject -> list PyObject -> M (option PyObject) :=
  match m with
  | by_potential => Potential_potential heap_garbage stack_garbage conv
  | by_value => Potential_value heap_garbage stack_garbage conv
  | by_density => Potential_density heap_garbage stack_garbage conv
  | by_force => Potential_force heap_garbage stack_garbage conv
  | by_force_deriv => Potential_force_deriv heap_garbage stack_garbage conv
  end.

Definition function_of (m : evaluation) : option PotentialObject -> anyFunction :=
  match m with
  | by_potential | by_value => fncPotential conv
  | by_density => fncDensity conv
  | by_force => fncForce conv
  | by_force_deriv => fncForceDeriv conv
  end.

End Methods.

(** Libraries to run examples on.  A system of units is its four
    factors (length, velocity, time, mass); the constants are 1. *)
Definition plain_units : Units := {|
  InternalUnits := float * float;
  ExternalUnits := float * float * float * float;
  Kpc := 1; Myr := 1; kms := 1; Msun := 1;
  InternalUnits_new := fun l t => (l, t);
  ExternalUnits_default := (1, 1, 1, 1)%float;
  ExternalUnits_new := fun _ l v m => (l, v, l / v, m)%float;
  lengthUnit := fun u => u.1.1.1;
  velocityUnit := fun u => u.1.1.2;
  timeUnit := fun u => u.1.2;
  massUnit := fun u => u.2
|}.

Definition plain_cartesian : @Cartesian triples := {|
  PosCar := fun x y z => (x, y, z) : @PosT triples Car;
  PosVelCar := fun x y z vx vy vz => ((x, y, z), (vx, vy, vz)) : @PosVelT triples Car;
  toPosVelCyl := fun pv => pv
|}.

Definition plain_math : math.Math := {| math.pow_2 := fun x => (x * x)%float |}.

(** A potential whose value is the sum of the coordinates and whose
    gradient is the point itself; it has no density where [x] is
    negative. *)
Definition sum_potential : @potential.BasePotential triples := {|
  potential.value := fun p : @PosT triples Car => Done (p.1.1 + p.1.2 + p.2)%float;
  potential.density := fun p : @PosT triples Car =>
    if PrimFloat.ltb p.1.1 0 then Thrown "no density" else Done 1%float;
  potential.eval_grad := fun p : @PosT triples Car =>
    Done {| dx := p.1.1; dy := p.1.2; dz := p.2 |};
  potential.eval_grad_hess := fun p : @PosT triples Car =>
    Done ({| dx := p.1.1; dy := p.1.2; dz := p.2 |},
          {| dx2 := 1; dy2 := 1; dz2 := 1; dxdy := 0; dydz := 0; dxdz := 0 |})
|}.

(** An action finder that gives the velocity for actions, and fails
    unless [x] is below 3. *)
Definition fussy_finder : @actions_staeckel.BaseActionFinder triples := {|
  actions_staeckel.actions := fun pv : @PosVelT triples Cyl =>
    if PrimFloat.ltb pv.1.1.1 3
    then Done {| actions_staeckel.Jr := pv.2.1.1;
                 actions_staeckel.Jz := pv.2.1.2;
                 actions_staeckel.Jphi := pv.2.2 |}
    else Thrown "positive energy"
|}.

(** Units of two for lengths, four for velocities, a half for times
    and ten for masses. *)
Definition some_units : @ExternalUnits plain_units := (2, 4, 0.5, 10)%float.

(** A computation to run examples on: the force of [sum_potential] in
    the units [some_units], as the method [force] of a [Potential]
    object that holds it passes it to the dispatcher. *)
Definition sum_force : anyFunction :=
  @fncForce triples plain_cartesian plain_units some_units
    (Some {| pot := Some sum_potential |}).

(** An interpreter state that holds one array of two rows of six. *)
Definition two_orbits : PyState :=
  {| heap := {[ 5%positive :=
                  {| PyArray_DIMS := [2; 6];
                     PyArray_DATA := [1; 2; 3; 4; 5; 6;
                                      7; 8; 9; 10; 11; 12]%float |} ]};
     error := None |}.

End observe_methods.

Module observe_classes.
Import Stdlib.Strings.Ascii.
Import MachineInt coord cartesian units particles potential.
Import py_wrapper py_methods py_classes observe observe_py observe_methods.

(** How many of the three scales are given, that is, positive. *)
Definition scales_given (length velocity time : float) : nat :=
  List.length (List.filter (fun x => (0 <? x)%float) [length; velocity; time]).

(** What [set_units] is given: the four numbers that the parser stores,
    zero where nothing is given; [None] when the arguments do not parse. *)
Definition units_given (s : PyState) (args : list PyItem)
    (namedArgs : gmap string PyItem) : option (float * float * float * float) :=
  match (PyArg_ParseTupleAndKeywords args namedArgs "|dddd"
           ["mass"; "length"; "velocity"; "time"] s).1 with
  | Done (Some stored) =>
      Some (stored_double 0 stored 0, stored_double 0 stored 1,
            stored_double 0 stored 2, stored_double 0 stored 3)
  | _ => None
  end.

(** The line that [buildDocstringPotential] prints for an entry of the
    table, the lines of some entries, and the whole text when nothing is
    cut. *)
Definition docstring_line (a : ArgDescription) : string :=
  "    " +:+ default "" (name a) +:+ " (" +:+ argTypeDescr (type a) +:+ ") - " +:+
  default "" (descr a) +:+ LF.

Definition docstring_lines (entries : list ArgDescription) : string :=
  foldr (fun a text => docstring_line a +:+ text) "" entries.

Definition docstring_text (entries : list ArgDescription) : string :=
  docstring_header +:+ docstring_lines entries +:+ docstring_footer.

(** An array of [size] elements that starts with [elements] and holds
    [filler] after them. *)
Definition padded {A : Type} (size : Z) (filler : A) (elements : list A) : list A :=
  elements ++ replicate (Z.to_nat size - length elements) filler.

Section Classes.
Context `{Library} `{!Cartesian} `{Units}.
Context `{Names} `{!Factory} `{!actions_staeckel.Finders}.

(** The pointers that the second loop of [Potential_initComposite]
    collects from the objects [ls]: the potential of each object, and
    [NULL] for an object that has none or that occurs earlier in the
    tuple. *)
Definition components_of (store : gmap loc PotentialObject) (ls : list loc)
    : list (option BasePotential) :=
  imap (fun i l =>
          if bool_decide (l ∈ take i ls) then None
          else store !! l ≫= pot) ls.

(** The pointers as the loop collects them, one object after the
    other. *)
Fixpoint handed_over (store : gmap loc PotentialObject) (ls : list loc)
    : list (option BasePotential) :=
  match ls with
  | [] => []
  | l :: ls' =>
      (store !! l ≫= pot) :: handed_over (<[l := {| pot := None |}]> store) ls'
  end.

(** The instances of [Potential] once the objects [ls] have given their
    potentials away. *)
Definition emptied (ls : list loc) (store : gmap loc PotentialObject)
    : gmap loc PotentialObject :=
  foldl (fun st l => <[l := {| pot := None |}]> st) store ls.

(** Two module states have the same objects: the instances of both
    classes and the unit conversion. *)
Definition same_objects (w w' : ModuleState) : Prop :=
  potentials w' = potentials w /\ conv w' = conv w /\ finders w' = finders w.

(** A computation that leaves the objects as they are, and one that
    does so unless it returns [ok]. *)
Definition keeps_objects {A : Type} (m : W A) : Prop :=
  forall w r w', m w = (r, w') -> same_objects w w'.

Definition changes_to_return {A : Type} (ok : A) (m : W A) : Prop :=
  forall w r w', m w = (r, w') -> r <> Done ok -> same_objects w w'.

(** The particle that [Potential_initFromParticles] makes of row [i] of
    the two arrays. *)
Definition particle_of (u : ExternalUnits) (coords masses : PyArrayObject)
    (i : nat) : ElemType (PosT Car) :=
  (PosCar (nth (i * 3) (PyArray_DATA coords) 0 * lengthUnit u)
          (nth (i * 3 + 1) (PyArray_DATA coords) 0 * lengthUnit u)
          (nth (i * 3 + 2) (PyArray_DATA coords) 0 * lengthUnit u),
   nth i (PyArray_DATA masses) 0 * massUnit u)%float.

(** What a step of a constructor does to the error indicator: when it
    returns a value that is not [bad], the indicator is what it was;
    what it throws is [thrown]. *)
Definition step_of {A : Type} (thrown : string -> Prop) (bad : A -> Prop)
    (m : W A) : Prop :=
  forall w,
    match m w with
    | (Done a, w') => bad a \/ error (py w') = error (py w)
    | (Thrown what, _) => thrown what
    | (Undefined, _) => True
    end.

(** A computation that returns -1 with [ValueError] set when it
    returns, and one that may also return 0 with the error indicator as
    it was. *)
Definition refusing (thrown : string -> Prop) (m : W Z) : Prop :=
  forall w,
    match m w with
    | (Done r, w') =>
        r = -1 /\ exists msg, error (py w') = Some (PyExc_ValueError, msg)
    | (Thrown what, _) => thrown what
    | (Undefined, _) => True
    end.

Definition disciplined (thrown : string -> Prop) (m : W Z) : Prop :=
  forall w,
    match m w with
    | (Done r, w') =>
        (r = 0 /\ error (py w') = error (py w)) \/
        (r = -1 /\ exists msg, error (py w') = Some (PyExc_ValueError, msg))
    | (Thrown what, _) => thrown what
    | (Undefined, _) => True
    end.

(** Nothing is thrown, and anything may be. *)
Definition nothing : string -> Prop := fun _ => False.

Definition anything : string -> Prop := fun _ => True.

(** One of the three lookups by name throws [what]. *)
Definition lookup_throws (what : string) : Prop :=
  exists name,
    getPotentialTypeByName name = Thrown what \/
    getDensityTypeByName name = Thrown what \/
    getSymmetryTypeByName name = Thrown what.

End Classes.

(** A factory to run examples on: the types are numbers, which a name
    gives by its length; the potential made from points has their total
    mass for its value, the one made from a configuration has the mass
    of the configuration, and the composite has the number of its
    components; no composite is made of a component that is [NULL], and
    no potential from a file. *)
Definition flat_potential (v : float) : @BasePotential triples := {|
  potential.value := fun _ => Done v;
  potential.density := fun _ => Done 0%float;
  potential.eval_grad := fun _ => Done {| dx := 0; dy := 0; dz := 0 |};
  potential.eval_grad_hess := fun _ =>
    Done ({| dx := 0; dy := 0; dz := 0 |},
          {| dx2 := 0; dy2 := 0; dz2 := 0; dxdy := 0; dydz := 0; dxdz := 0 |})
|}.

Definition plain_names : Names := {|
  PotentialType := nat;
  PT_BSE := 1%nat;
  PT_SPLINE := 2%nat;
  PT_CYLSPLINE := 3%nat;
  DensityType := nat;
  SymmetryType := nat;
  getPotentialTypeByName := fun name => Done (String.length name);
  getDensityTypeByName := fun name => Done (String.length name);
  getSymmetryTypeByName := fun name => Done (String.length name)
|}.

(** A configuration with the given file name and type. *)
Definition plain_config (file : string) (type : nat) : @ConfigPotential plain_names := {|
  mass := 1; scaleRadius := 1; scaleRadius2 := 1; q := 1; p := 1;
  gamma := 1; sersicIndex := 4;
  numCoefsRadial := 20; numCoefsAngular := 6; numCoefsVertical := 20;
  alpha := 0; splineSmoothFactor := 1;
  splineRMin := 0; splineRMax := 0; splineZMin := 0; splineZMax := 0;
  fileName := file;
  potentialType := type : @PotentialType plain_names;
  densityType := 0%nat : @DensityType plain_names;
  symmetryType := 0%nat : @SymmetryType plain_names
|}.

Definition plain_factory : @Factory triples plain_names := {|
  ConfigPotential_default := plain_config "" 0;
  createPotential := fun cfg =>
    if bool_decide (fileName cfg = "") then Done (flat_potential (mass cfg))
    else Thrown "cannot read the file";
  createPotentialFromPoints := fun _ points =>
    Done (flat_potential (sum_of_weights (data points)));
  CompositeCyl := fun components =>
    if forallb (fun c => bool_decide (is_Some c)) components
    then Done (flat_potential (foldr (fun _ n => n + 1)%float 0%float components))
    else Thrown "a component is missing"
|}.

(** The arrays as the initialisation of the module leaves them. *)
Definition Globals_loaded : Globals :=
  match buildDocstringPotential potentialArgs Globals_initial with
  | Done (g, _) => g
  | _ => Globals_initial
  end.

Definition plain_finders : @actions_staeckel.Finders triples := {|
  actions_staeckel.ActionFinderAxisymFudge := fun _ => Done fussy_finder
|}.

(** A module state with three instances of [Potential], the third of
    which has no potential, and the arrays of [two_points] with an array
    of two masses. *)
Definition three_potentials : @ModuleState triples plain_units := {|
  py := {| heap := <[ 7%positive := {| PyArray_DIMS := [2];
                                        PyArray_DATA := [10; 20]%float |} ]>
                     (heap two_points);
           error := None |};
  conv := some_units;
  potentials := {[ 1%positive := {| pot := Some sum_potential |};
                   2%positive := {| pot := Some (flat_potential 1) |};
                   3%positive := {| pot := None |} ]};
  finders := {[ 4%positive := {| finder := None; finder_pot := None |} ]}
|}.

End observe_classes.

Module observe_spline.
Import MachineInt py_wrapper py_methods py_classes py_spline.

(** The arguments of a call of a [SplineApprox]: the points, and the
    index of the derivative when one is given. *)
Definition call_arguments (ptx : PyArg) (given : option Z) : list PyArg :=
  ptx :: match given with
         | Some z => [Int z]
         | None => []
         end.

(** A spline to run examples on, the square of its argument, and one
    that cannot be evaluated. *)
Definition parabola : math.CubicSpline := {|
  math.value := fun x => Done (x * x)%float;
  math.evalDeriv_first := fun x => Done (2 * x)%float;
  math.evalDeriv_second := fun _ => Done 2%float
|}.

Definition broken : math.CubicSpline := {|
  math.value := fun _ => Thrown "no spline";
  math.evalDeriv_first := fun _ => Thrown "no spline";
  math.evalDeriv_second := fun _ => Thrown "no spline"
|}.

(** What the constructor of [SplineApprox] is given: the three objects
    and the smoothing factor that the parser stores, zero when none is
    given; [None] when the arguments do not parse. *)
Definition spline_arguments (s : PyState) (args : list PyItem)
    (namedargs : gmap string PyItem) : option (PyItem * PyItem * PyItem * float) :=
  match (PyArg_ParseTupleAndKeywords args namedargs "OOO|d"
           ["x"; "y"; "knots"; "smooth"] s).1 with
  | Done (Some stored) =>
      match stored_object None stored 0, stored_object None stored 1,
            stored_object None stored 2 with
      | Some objx, Some objy, Some objk =>
          Some (objx, objy, objk, stored_double 0 stored 3)
      | _, _, _ => None
      end
  | _ => None
  end.

(** The fit that the constructor makes for a smoothing factor. *)
Definition fit_of `{math.Splines} (smoothfactor : float)
    (xvalues yvalues knots : list float) : completion (list float * float * float) :=
  spl ← math.SplineApprox_new xvalues knots;
  if (0 <? smoothfactor)%float
  then math.fitDataOversmooth spl yvalues smoothfactor
  else math.fitData spl yvalues (- smoothfactor)%float.

(** A call of the interpreter that throws nothing and that leaves the
    error indicator as it was unless what it returns is [bad]; and a
    computation that throws nothing and returns a value that is [good],
    with the error indicator as it was, or one that is [failed], with
    [ValueError] set. *)
Definition quiet {A : Type} (bad : A -> Prop) (m : M A) : Prop :=
  forall s,
    match m s with
    | (Done a, s') => bad a \/ error s' = error s
    | (Thrown _, _) => False
    | (Undefined, _) => True
    end.

Definition ruled {A : Type} (good failed : A -> Prop) (m : M A) : Prop :=
  forall s,
    match m s with
    | (Done a, s') =>
        (good a /\ error s' = error s) \/
        (failed a /\ exists msg, error s' = Some (PyExc_ValueError, msg))
    | (Thrown _, _) => False
    | (Undefined, _) => True
    end.

(** An array of one dimension that holds [values]. *)
Definition vector (values : list float) : PyArrayObject :=
  {| PyArray_DIMS := [Z.of_nat (length values)]; PyArray_DATA := values |}.

(** Splines to run examples on: the fit without smoothing gives one
    value for each knot, the fit with smoothing one for each point; a
    spline is made of as many values as it has knots, and has their sum
    for its value. *)
Definition plain_splines : math.Splines := {|
  math.SplineApprox := list float * list float;
  math.SplineApprox_new := fun xvalues knots => Done (xvalues, knots);
  math.fitDataOversmooth := fun _ yvalues _ => Done (yvalues, 0%float, 0%float);
  math.fitData := fun spl _ lambda =>
    Done (map (fun k => (k + lambda)%float) spl.2, 0%float, 0%float);
  math.CubicSpline_new := fun knots values _ _ =>
    if bool_decide (length values = length knots)
    then Done {| math.value := fun _ => Done (foldr PrimFloat.add 0%float values);
                 math.evalDeriv_first := fun _ => Done 0%float;
                 math.evalDeriv_second := fun _ => Done 0%float |}
    else Thrown "as many values as knots are needed"
|}.

(** Six points, five knots and four knots. *)
Definition six_points : PyState :=
  {| heap := {[ 1%positive := vector [0; 1; 2; 3; 4; 5]%float;
                2%positive := vector [0; 1; 4; 9; 16; 25]%float;
                3%positive := vector [0; 1; 2; 3; 5]%float;
                4%positive := vector [0; 1; 3; 5]%float ]};
     error := None |}.

End observe_spline.

(** * Properties *)

(** ** Machine integers *)

Section MachineIntFacts.

Lemma to_unsigned_small z : 0 <= z <= UINT_MAX -> to_unsigned z = z.
Proof. unfold to_unsigned, UINT_MAX. intros. apply Z.mod_small. lia. Qed.

Lemma to_int_small z : INT_MIN <= z <= INT_MAX -> to_int z = z.
Proof.
  unfold to_int, INT_MIN, INT_MAX. intros.
  rewrite Z.mod_small; lia.
Qed.

Lemma in_int_true z : INT_MIN <= z <= INT_MAX -> in_int z = true.
Proof. unfold in_int. intros. apply andb_true_iff. rewrite !Z.leb_le. lia. Qed.

End MachineIntFacts.

(** ** particles_base.h *)

Module particles_facts.
Import particles observe.

Section Container.
Context {ParticleT : Type}.
Implicit Types (a : PointMassArray ParticleT) (e : ParticleT) (w : float).

Lemma size_small a :
  Z.of_nat (length (data a)) <= UINT_MAX -> size a = Z.of_nat (length (data a)).
Proof. intros. unfold size. apply to_unsigned_small. lia. Qed.

(** The loop of [totalMass], entered at counter [i] with enough fuel for
    the elements that remain, adds their weights to [sum] in order. *)
Lemma totalMass_loop_spec a : forall fuel i sum,
  Z.of_nat (length (data a)) <= UINT_MAX ->
  0 <= i <= Z.of_nat (length (data a)) ->
  (Z.of_nat (length (data a)) - i < Z.of_nat fuel) ->
  totalMass_loop fuel a i sum =
  Some (foldl (fun s el => PrimFloat.add s el.2) sum (drop (Z.to_nat i) (data a))).
Proof.
  induction fuel as [|fuel IH]; intros i sum Hmax Hi Hfuel; [lia|].
  cbn [totalMass_loop].
  destruct (Z.ltb_spec i (Z.of_nat (length (data a)))) as [Hlt|Hge].
  - destruct (lookup_lt_is_Some_2 (data a) (Z.to_nat i)) as [el Hel]; [lia|].
    rewrite Hel.
    rewrite to_unsigned_small by lia.
    rewrite IH by lia.
    rewrite (drop_S _ _ _ Hel). cbn [foldl].
    replace (Z.to_nat (i + 1)) with (S (Z.to_nat i)) by lia.
    reflexivity.
  - rewrite drop_ge by lia. reflexivity.
Qed.

Lemma totalMass_enough_fuel a fuel :
  Z.of_nat (length (data a)) <= UINT_MAX ->
  (length (data a) < fuel)%nat ->
  totalMass fuel a = Some (sum_of_weights (data a)).
Proof.
  intros Hmax Hfuel. unfold totalMass.
  rewrite totalMass_loop_spec by lia. reflexivity.
Qed.

End Container.

Section Conversion.
Context {OtherParticleT ParticleT : Type} (conv : OtherParticleT -> ParticleT).
Local Abbreviation converted := (observe.converted conv).

Lemma convert_loop_spec (src : PointMassArray OtherParticleT) : forall n i data',
  (i + n <= length (data src))%nat ->
  Z.of_nat (i + n) <= UINT_MAX + 1 ->
  convert_loop conv src n (Z.of_nat i) data' =
  Done (data' ++ map converted (take n (drop i (data src)))).
Proof.
  induction n as [|n IH]; intros i data' Hle Hmax; cbn [convert_loop].
  - rewrite take_0, app_nil_r. reflexivity.
  - unfold subscript. rewrite to_unsigned_small by lia. rewrite Nat2Z.id.
    destruct (lookup_lt_is_Some_2 (data src) i) as [el Hel]; [lia|].
    rewrite Hel.
    replace (Z.of_nat i + 1) with (Z.of_nat (S i)) by lia.
    rewrite IH by lia.
    rewrite (drop_S _ _ _ Hel). cbn [take map].
    rewrite <- app_assoc. reflexivity.
Qed.

Lemma PointMassArray_from_spec (src : PointMassArray OtherParticleT) :
  Z.of_nat (length (data src)) <= UINT_MAX ->
  PointMassArray_from conv src = Done {| data := map converted (data src) |}.
Proof.
  intros Hmax. unfold PointMassArray_from.
  rewrite size_small by done. rewrite Nat2Z.id.
  rewrite (convert_loop_spec src _ 0%nat) by (cbn; lia).
  rewrite drop_0, firstn_all. reflexivity.
Qed.


Lemma sum_of_weights_converted (l : ArrayType OtherParticleT) :
  sum_of_weights (map converted l) = sum_of_weights l.
Proof.
  unfold sum_of_weights. generalize 0%float.
  induction l as [|el l IH]; intros s; cbn; [reflexivity|]. apply IH.
Qed.

End Conversion.


(** C8: with enough iterations allowed, and the size of the vector within
    the range of the loop counter, [totalMass] returns the sum of the
    weights of all elements, accumulated in order; on the empty array it
    returns zero. *)
Theorem totalMass_sums_weights {ParticleT : Type}
    (a : PointMassArray ParticleT) (fuel : nat) :
  Z.of_nat (length (data a)) <= UINT_MAX ->
  (length (data a) < fuel)%nat ->
  totalMass fuel a = Some (sum_of_weights (data a)) /\
  (data a = [] -> totalMass fuel a = Some 0%float).
Proof.
  intros Hmax Hfuel.
  pose proof (totalMass_enough_fuel a fuel Hmax Hfuel) as Hsum.
  split; [exact Hsum|].
  intros Hnil. rewrite Hsum, Hnil. reflexivity.
Qed.

Lemma totalMass_sums_weights_witness :
  totalMass 3 (add (4%float, 5%float, 6%float) 2%float
                 (add (1%float, 2%float, 3%float) 0.5%float empty))
    = Some 2.5%float /\
  totalMass 1 (empty (ParticleT := float * float * float)) = Some 0%float.
Proof.
  split.
  - apply (totalMass_sums_weights
             (add (4%float, 5%float, 6%float) 2%float
                (add (1%float, 2%float, 3%float) 0.5%float empty)) 3).
    + vm_compute. discriminate.
    + simpl. lia.
  - apply (totalMass_sums_weights (empty (ParticleT := float * float * float)) 1).
    + vm_compute. discriminate.
    + simpl. lia.
    + reflexivity.
Defined.


(** C2 (counterexample): [add] has no check on the weight.  Appending a
    particle of weight -1 to the empty array leaves an array of one
    element, the one that was appended. *)
Lemma add_negative_weight_counterexample :
  let a := empty (ParticleT := float * float * float) in
  let a' := add (1%float, 2%float, 3%float) (-1)%float a in
  PrimFloat.ltb (-1)%float 0%float = true /\
  data a' <> data a /\
  size a = 0 /\ size a' = 1 /\
  at_ 0 a' = Done ((1%float, 2%float, 3%float), (-1)%float).
Proof.
  cbv zeta. split; [reflexivity|]. split; [discriminate|].
  split; [reflexivity|]. split; reflexivity.
Qed.

(** C2 (amended): for every array and every weight, negative or not,
    [add] appends: the elements that were there are still there at their
    indices, the new pair is the last element, and the vector is one
    element longer.  [at] reads the new pair at the index that was the
    length when that index is an [unsigned int], and whatever [at]
    returned before [add] it returns after, at every index. *)
Theorem add_appends {ParticleT : Type}
    (a : PointMassArray ParticleT) (first : ParticleT) (second : float) :
  data (add first second a) = data a ++ [(first, second)] /\
  length (data (add first second a)) = S (length (data a)) /\
  data (add first second a) !! length (data a) = Some (first, second) /\
  (forall (i : nat) el, data a !! i = Some el ->
                        data (add first second a) !! i = Some el) /\
  (Z.of_nat (length (data a)) <= UINT_MAX ->
   at_ (Z.of_nat (length (data a))) (add first second a) = Done (first, second)) /\
  (forall index el, at_ index a = Done el ->
                    at_ index (add first second a) = Done el).
Proof.
  unfold at_, add. cbn [data]. repeat split.
  - rewrite length_app. cbn. lia.
  - rewrite lookup_app_r by lia. rewrite Nat.sub_diag. reflexivity.
  - intros i el Hel. apply lookup_app_l_Some, Hel.
  - intros Hmax. rewrite to_unsigned_small by lia.
    rewrite Nat2Z.id, lookup_app_r by lia.
    rewrite Nat.sub_diag. reflexivity.
  - intros index el Hat.
    destruct (data a !! Z.to_nat (to_unsigned index)) as [el'|] eqn:Hel;
      [|discriminate].
    rewrite (lookup_app_l_Some _ _ _ _ Hel). exact Hat.
Qed.

Lemma add_appends_witness :
  let a := add (1%float, 2%float, 3%float) 0.5%float empty in
  let a' := add (4%float, 5%float, 6%float) 2%float a in
  length (data a') = 2%nat /\
  at_ 1 a' = Done ((4%float, 5%float, 6%float), 2%float) /\
  at_ 0 a' = Done ((1%float, 2%float, 3%float), 0.5%float).
Proof.
  cbv zeta.
  destruct (add_appends (add (1%float, 2%float, 3%float) 0.5%float empty)
              (4%float, 5%float, 6%float) 2%float)
    as (_ & Hlen & _ & _ & Hnew & Hold).
  split; [exact Hlen|]. split.
  - apply Hnew. vm_compute. discriminate.
  - apply (Hold 0). reflexivity.
Defined.

End particles_facts.

(** ** The [Converter] strategy table *)

Module converter_facts.
Import coord particles converter observe particles_facts.


(** The build of a conversion from positions to positions and
    velocities fails; the conversion the other way is built, and run on
    two particles it returns their positions with the masses. *)
Example build_example :
  @build_conversion observe.triples (PosType Car) (PosVelType Cyl)
    = LinkerError (PosType Car, PosVelType Cyl) /\
  match @build_conversion observe.triples (PosVelType Sph) (PosType Car) with
  | Executable run =>
      run (add ((4%float, 5%float, 6%float), (0%float, 0%float, 1%float)) 2%float
             (add ((1%float, 2%float, 3%float), (1%float, 0%float, 0%float))
                0.5%float empty))
      = Done (add (4%float, 5%float, 6%float) 2%float
                (add (1%float, 2%float, 3%float) 0.5%float empty))
  | LinkerError _ => False
  end.
Proof. split; vm_compute; reflexivity. Qed.

(** C4: for a pair of particle types that has a conversion strategy, the
    converting constructor applied to an array whose size is within the
    range of its loop counter returns an array of as many elements; the
    element at each index is the converted particle of the source element
    at that index with the mass unchanged, and the total mass is the
    same. *)
Theorem conversion_preserves_elements `{Library} (SrcT DestT : ParticleType)
    (conv : Particle SrcT -> Particle DestT)
    (src : PointMassArray (Particle SrcT)) :
  Converter SrcT DestT = Some conv ->
  Z.of_nat (length (data src)) <= UINT_MAX ->
  exists ctor dst,
    PointMassArray_convert SrcT DestT = Some ctor /\
    ctor src = Done dst /\
    length (data dst) = length (data src) /\
    (forall (i : nat) p m, data src !! i = Some (p, m) ->
                           data dst !! i = Some (conv p, m)) /\
    (forall fuel, (length (data src) < fuel)%nat ->
                  totalMass fuel dst = totalMass fuel src).
Proof.
  intros Hconv Hmax.
  exists (PointMassArray_from conv),
    {| data := map (observe.converted conv) (data src) |}.
  split; [unfold PointMassArray_convert; rewrite Hconv; reflexivity|].
  split; [apply PointMassArray_from_spec, Hmax|].
  cbn [data]. split; [apply length_map|]. split.
  - intros i p m Hi. rewrite list_lookup_fmap, Hi. reflexivity.
  - intros fuel Hfuel.
    rewrite (totalMass_enough_fuel src fuel Hmax Hfuel).
    rewrite totalMass_enough_fuel; cbn [data]; rewrite ?length_map; try done.
    rewrite sum_of_weights_converted. reflexivity.
Qed.

Lemma conversion_preserves_elements_witness :
  let src : PointMassArray (@Particle observe.triples (PosVelType Sph)) :=
    add ((4%float, 5%float, 6%float), (0%float, 0%float, 1%float)) 2%float
      (add ((1%float, 2%float, 3%float), (1%float, 0%float, 0%float)) 0.5%float
         empty) in
  exists ctor dst,
    @PointMassArray_convert observe.triples (PosVelType Sph) (PosType Car)
      = Some ctor /\
    ctor src = Done dst /\
    length (data dst) = 2%nat /\
    (forall (i : nat) p m, data src !! i = Some (p, m) ->
                           data dst !! i = Some (p.1, m)) /\
    (forall fuel, (2 < fuel)%nat -> totalMass fuel dst = totalMass fuel src).
Proof.
  cbv zeta.
  apply (@conversion_preserves_elements observe.triples
           (PosVelType Sph) (PosType Car) fst).
  - reflexivity.
  - vm_compute. discriminate.
Defined.

End converter_facts.

(** ** py_wrapper.cpp *)

Module py_wrapper_facts.
Import py_wrapper observe_py.

Section Monad.
Context {A B : Type}.

Lemma bind_Done (m : M A) (k : A -> M B) s a s' :
  m s = (Done a, s') -> bind m k s = k a s'.
Proof. unfold bind. intros ->. reflexivity. Qed.

End Monad.

Section Cells.
Implicit Types (a : PyArrayObject) (h : gmap loc PyArrayObject).

Lemma insert_as_alter h l a (f : PyArrayObject -> PyArrayObject) :
  h !! l = Some a -> <[l := f a]> h = alter f l h.
Proof.
  intros Hl. apply map_eq. intros l'.
  destruct (decide (l = l')) as [<-|Hne].
  - rewrite lookup_insert_eq, lookup_alter_eq, Hl. reflexivity.
  - rewrite lookup_insert_ne, lookup_alter_ne by done. reflexivity.
Qed.

Lemma put_row_dims w k0 i r a :
  PyArray_DIMS (put_row w k0 i r a) = PyArray_DIMS a.
Proof.
  unfold put_row. generalize (seq 0 w). intros ds. revert a.
  induction ds as [|d ds IH]; intros a; cbn; [reflexivity|].
  rewrite IH. reflexivity.
Qed.

(** The stores of one row overwrite that row and nothing else. *)
Lemma foldl_set_cell_data base (v : nat -> float) : forall n start a,
  PyArray_DATA
    (foldl (fun a d => set_cell (base + d) (v d) a) a (seq start n)) =
  list_inserts (base + start) (map v (seq start n)) (PyArray_DATA a).
Proof.
  induction n as [|n IH]; intros start a; cbn; [reflexivity|].
  rewrite IH. cbn.
  replace (base + S start)%nat with (S (base + start)) by lia.
  rewrite list_insert_inserts_lt by lia. reflexivity.
Qed.

Lemma list_inserts_app_at (p k q : list float) :
  (length k <= length q)%nat ->
  list_inserts (length p) k (p ++ q) = p ++ k ++ drop (length k) q.
Proof.
  intros Hk.
  rewrite <- (Nat.add_0_r (length p)), list_inserts_app_r. f_equal.
  rewrite <- (take_drop (length k) q) at 1.
  apply list_inserts_0_r. rewrite length_take. lia.
Qed.

Lemma slice_length k0 w r : length (slice k0 w r) = w.
Proof. unfold slice. rewrite length_map, length_seq. reflexivity. Qed.

Lemma put_row_data w k0 i r a (done' : list float) :
  length done' = (i * w)%nat ->
  (w <= length (drop (i * w) (PyArray_DATA a)))%nat ->
  take (i * w) (PyArray_DATA a) = done' ->
  PyArray_DATA (put_row w k0 i r a) =
  done' ++ slice k0 w r ++ drop ((i + 1) * w) (PyArray_DATA a).
Proof.
  intros Hlen Hroom Hdone. unfold put_row.
  rewrite (foldl_set_cell_data (i * w) (fun d => at_index r (k0 + d)) w 0 a).
  rewrite Nat.add_0_r.
  rewrite <- (take_drop (i * w) (PyArray_DATA a)) at 1.
  rewrite Hdone, <- Hlen.
  replace (map (fun d => at_index r (k0 + d)%nat) (seq 0 w)) with (slice k0 w r).
  2:{ unfold slice.
      transitivity (map (at_index r) (Nat.add k0 <$> seq 0 w)).
      - rewrite fmap_add_seq, Nat.add_0_r. reflexivity.
      - rewrite <- list_fmap_compose. reflexivity. }
  rewrite list_inserts_app_at by (rewrite slice_length, Hlen; exact Hroom).
  rewrite slice_length, drop_drop, Hlen. do 3 f_equal. lia.
Qed.

End Cells.


Section Stores.
Implicit Types (a : PyArrayObject) (s : PyState).

Lemma write_double_spec l (offset : nat) v s a :
  heap s !! l = Some a ->
  (offset < length (PyArray_DATA a))%nat ->
  write_double l (Z.of_nat offset) v s =
  (Done tt, {| heap := alter (set_cell offset v) l (heap s); error := error s |}).
Proof.
  intros Hl Hoff. unfold write_double. rewrite Hl.
  replace (0 <=? Z.of_nat offset) with true by (symmetry; apply Z.leb_le; lia).
  replace (Z.of_nat offset <? Z.of_nat (length (PyArray_DATA a))) with true
    by (symmetry; apply Z.ltb_lt; lia).
  cbn [andb]. rewrite Nat2Z.id.
  rewrite <- (insert_as_alter _ _ _ (set_cell offset v) Hl). reflexivity.
Qed.

Lemma int_value_spec z s :
  INT_MIN <= z <= INT_MAX -> int_value z s = (Done z, s).
Proof. intros Hz. unfold int_value. rewrite in_int_true by done. reflexivity. Qed.

(** The address computation [index*w+d] followed by the store. *)
Lemma store_at_spec l (index w d : nat) v s a :
  heap s !! l = Some a ->
  (index * w + d < length (PyArray_DATA a))%nat ->
  Z.of_nat (index * w + d) <= INT_MAX ->
  (let* row := int_value (Z.of_nat index * Z.of_nat w) in
   let* offset := int_value (row + Z.of_nat d) in
   write_double l offset v) s =
  (Done tt, {| heap := alter (set_cell (index * w + d) v) l (heap s);
               error := error s |}).
Proof.
  intros Hl Hoff Hint.
  assert (Hrow : INT_MIN <= Z.of_nat index * Z.of_nat w <= INT_MAX)
    by (unfold INT_MIN; lia).
  assert (Hcell : INT_MIN <= Z.of_nat index * Z.of_nat w + Z.of_nat d <= INT_MAX)
    by (unfold INT_MIN; lia).
  rewrite (bind_Done _ _ _ _ _ (int_value_spec _ s Hrow)).
  rewrite (bind_Done _ _ _ _ _ (int_value_spec _ s Hcell)).
  replace (Z.of_nat index * Z.of_nat w + Z.of_nat d)
    with (Z.of_nat (index * w + d)) by lia.
  apply (write_double_spec l (index * w + d) v s a Hl Hoff).
Qed.

(** A loop whose body stores the value for [d] at [base + d]. *)
Lemma for_each_stores (body : Z -> M unit) l (base : nat) (v : nat -> float) :
  forall n start s a,
    (forall d s' a', (start <= d < start + n)%nat ->
       heap s' !! l = Some a' ->
       length (PyArray_DATA a') = length (PyArray_DATA a) ->
       body (Z.of_nat d) s' =
       (Done tt, {| heap := alter (set_cell (base + d) (v d)) l (heap s');
                    error := error s' |})) ->
    heap s !! l = Some a ->
    for_each (map Z.of_nat (seq start n)) body s =
    (Done tt,
     {| heap := alter (fun a => foldl (fun a d => set_cell (base + d) (v d) a)
                                  a (seq start n)) l (heap s);
        error := error s |}).
Proof.
  induction n as [|n IH]; intros start s a Hbody Hl; cbn [seq map for_each foldl].
  - unfold ret. f_equal. destruct s as [h e]; cbn. f_equal.
    symmetry. apply alter_id. reflexivity.
  - rewrite (bind_Done _ _ _ _ _ (Hbody start s a ltac:(lia) Hl eq_refl)).
    rewrite (IH (S start) _ (set_cell (base + start) (v start) a)).
    + cbn [heap error]. f_equal. f_equal.
      rewrite alter_alter_eq. reflexivity.
    + intros d s' a' Hd Hl' Hlen. apply (Hbody d s' a'); [lia|exact Hl'|].
      rewrite Hlen. cbn. apply length_insert.
    + cbn [heap]. rewrite lookup_alter_eq, Hl. reflexivity.
Qed.

End Stores.


Section FormatOutputArr.
Implicit Types (a : PyArrayObject) (s : PyState).

Lemma row_loop_spec (body : Z -> M unit) l (i w k0 : nat) r s a :
  heap s !! l = Some a ->
  (forall d s' a', (d < w)%nat ->
     heap s' !! l = Some a' ->
     length (PyArray_DATA a') = length (PyArray_DATA a) ->
     body (Z.of_nat d) s' =
     (Done tt,
      {| heap := alter (set_cell (i * w + d) (at_index r (k0 + d))) l (heap s');
         error := error s' |})) ->
  for_each (map Z.of_nat (seq 0 w)) body s =
  (Done tt, {| heap := alter (put_row w k0 i r) l (heap s); error := error s |}).
Proof.
  intros Hl Hbody.
  apply (for_each_stores body l (i * w) (fun d => at_index r (k0 + d)) w 0 s a);
    [|exact Hl].
  intros d s' a' Hd. apply Hbody. lia.
Qed.

Lemma formatOutputArr_spec numOutput f resultObj bufs r (i : nat) s :
  formatOutputArr numOutput = Some f ->
  output_bufs numOutput resultObj = Some bufs ->
  NoDup (buf_locs bufs) ->
  Forall (room_for_row (heap s) i) bufs ->
  f r (Z.of_nat i) (Some resultObj) s =
  (Done tt, {| heap := rows_stored bufs i r (heap s); error := error s |}).
Proof.
  intros Hf Hbufs Hnodup Hroom.
  destruct numOutput; try discriminate Hf;
    apply (inj Some) in Hf; subst f.
  - (* a scalar for each point *)
    destruct resultObj as [| |l|]; try discriminate Hbufs. injection Hbufs as <-.
    apply Forall_cons in Hroom as [(a & Hl & Hlen & Hint) _]. cbn in Hl, Hlen, Hint.
    cbn [as_array rows_stored foldl buf_array buf_width buf_start].
    unfold bind at 1, ret at 1.
    rewrite (write_double_spec l i _ s a Hl) by lia.
    do 2 f_equal. apply alter_ext. intros a' _.
    unfold put_row. cbn [seq foldl]. do 2 f_equal; lia.
  - (* a triplet for each point *)
    destruct resultObj as [| |l|]; try discriminate Hbufs. injection Hbufs as <-.
    apply Forall_cons in Hroom as [(a & Hl & Hlen & Hint) _]. cbn in Hl, Hlen, Hint.
    cbn [rows_stored foldl buf_array buf_width buf_start].
    apply (row_loop_spec _ l i 3 0 r s a Hl).
    intros d s' a' Hd Hl' Hlen'.
    cbn [as_array]. unfold bind at 1, ret at 1.
    rewrite Nat2Z.id.
    apply (store_at_spec l i 3 d _ s' a' Hl'); lia.
  - (* a triplet and a sextet for each point *)
    destruct resultObj as [|[|[| |l1|] [|[| |l2|] [|]]]| |]; try discriminate Hbufs.
    injection Hbufs as <-.
    apply Forall_cons in Hroom as [(a1 & Hl1 & Hlen1 & Hint1) Hroom].
    apply Forall_cons in Hroom as [(a2 & Hl2 & Hlen2 & Hint2) _].
    cbn in Hl1, Hlen1, Hint1, Hl2, Hlen2, Hint2.
    apply NoDup_cons in Hnodup as [Hne _].
    assert (l1 <> l2) as Hne' by (intros ->; apply Hne; left).
    cbn [rows_stored foldl buf_array buf_width buf_start PyTuple_GET_ITEM
         lookup list_lookup as_array].
    unfold bind at 1, ret at 1. unfold bind at 1, ret at 1.
    erewrite bind_Done; cycle 1.
    { apply (row_loop_spec _ l1 i 3 0 r s a1 Hl1).
      intros d s' a' Hd Hl' Hlen'.
      rewrite Nat2Z.id.
      apply (store_at_spec l1 i 3 d _ s' a' Hl'); lia. }
    change [0; 1; 2; 3; 4; 5] with (map Z.of_nat (seq 0 6)).
    etrans; [apply (row_loop_spec _ l2 i 6 3 r
               {| heap := alter (put_row 3 0 i r) l1 (heap s); error := error s |} a2)
            |reflexivity].
    + cbn [heap]. rewrite lookup_alter_ne by done. exact Hl2.
    + intros d s' a' Hd Hl' Hlen'.
      assert (Hrow : INT_MIN <= Z.of_nat i * 6 <= INT_MAX) by (unfold INT_MIN; lia).
      assert (Hcell : INT_MIN <= Z.of_nat i * 6 + Z.of_nat d <= INT_MAX)
        by (unfold INT_MIN; lia).
      assert (Hk : INT_MIN <= Z.of_nat d + 3 <= INT_MAX)
        by (unfold INT_MIN, INT_MAX; lia).
      rewrite (bind_Done _ _ _ _ _ (int_value_spec _ s' Hrow)).
      rewrite (bind_Done _ _ _ _ _ (int_value_spec _ s' Hcell)).
      rewrite (bind_Done _ _ _ _ _ (int_value_spec _ s' Hk)).
      replace (Z.of_nat i * 6 + Z.of_nat d) with (Z.of_nat (i * 6 + d)) by lia.
      replace (Z.to_nat (Z.of_nat d + 3)) with (3 + d)%nat by lia.
      apply (write_double_spec l2 (i * 6 + d) _ s' a' Hl'). lia.
Qed.

End FormatOutputArr.


Section RowsStored.
Implicit Types (a : PyArrayObject) (h : gmap loc PyArrayObject).
Implicit Types (bufs : list buffer).

Lemma rows_stored_lookup_notin bufs i r : forall h l,
  l ∉ buf_locs bufs -> rows_stored bufs i r h !! l = h !! l.
Proof.
  induction bufs as [|b bufs IH]; intros h l Hl; cbn; [reflexivity|].
  apply not_elem_of_cons in Hl as [Hne Hl].
  change (rows_stored bufs i r
            (alter (put_row (buf_width b) (buf_start b) i r) (buf_array b) h) !! l
          = h !! l).
  rewrite IH by done. apply lookup_alter_ne. congruence.
Qed.

Lemma rows_stored_lookup_in bufs i r : forall h b,
  NoDup (buf_locs bufs) -> b ∈ bufs ->
  rows_stored bufs i r h !! buf_array b =
  put_row (buf_width b) (buf_start b) i r <$> h !! buf_array b.
Proof.
  induction bufs as [|b' bufs IH]; intros h b Hnodup Hin.
  - apply elem_of_nil in Hin as [].
  - cbn in Hnodup. apply NoDup_cons in Hnodup as [Hnotin Hnodup].
    change (rows_stored bufs i r
              (alter (put_row (buf_width b') (buf_start b') i r) (buf_array b') h)
              !! buf_array b
            = put_row (buf_width b) (buf_start b) i r <$> h !! buf_array b).
    apply elem_of_cons in Hin as [->|Hin].
    + rewrite rows_stored_lookup_notin by exact Hnotin.
      apply lookup_alter_eq.
    + rewrite IH by done.
      rewrite lookup_alter_ne; [reflexivity|].
      intros Heq. apply Hnotin. rewrite Heq.
      apply list_elem_of_fmap. exists b. done.
Qed.

Lemma concat_slices_length k0 w (rs : list (list float)) :
  length (concat (map (slice k0 w) rs)) = (length rs * w)%nat.
Proof.
  induction rs as [|r rs IH]; cbn; [reflexivity|].
  rewrite length_app, slice_length, IH. reflexivity.
Qed.

Lemma filled_start bufs h0 :
  Forall (fun b => is_Some (h0 !! buf_array b)) bufs -> filled bufs h0 h0 [].
Proof.
  intros Hbufs. split; [reflexivity|].
  eapply Forall_impl; [exact Hbufs|]. intros b [a0 Ha0]. exists a0.
  split; [exact Ha0|]. rewrite Ha0. cbn. rewrite drop_0. destruct a0; reflexivity.
Qed.

Lemma filled_step bufs h0 h done' r :
  NoDup (buf_locs bufs) ->
  filled bufs h0 h done' ->
  Forall (fun b => forall a0, h0 !! buf_array b = Some a0 ->
            (length done' * buf_width b + buf_width b
             <= length (PyArray_DATA a0))%nat) bufs ->
  filled bufs h0 (rows_stored bufs (length done') r h) (done' ++ [r]).
Proof.
  intros Hnodup [Hother Hbufs] Hroom. split.
  - intros l Hl. rewrite rows_stored_lookup_notin by done. apply Hother, Hl.
  - apply Forall_forall. intros b Hb.
    rewrite Forall_forall in Hbufs. destruct (Hbufs b Hb) as (a0 & Ha0 & Hcur).
    rewrite Forall_forall in Hroom. specialize (Hroom b Hb a0 Ha0).
    exists a0. split; [exact Ha0|].
    rewrite rows_stored_lookup_in by done. rewrite Hcur.
    cbn [fmap option_fmap option_map].
    f_equal.
    set (cur := {| PyArray_DIMS := PyArray_DIMS a0; PyArray_DATA := _ |}).
    assert (Hdata :
              PyArray_DATA (put_row (buf_width b) (buf_start b) (length done') r cur) =
              concat (map (slice (buf_start b) (buf_width b)) done') ++
              slice (buf_start b) (buf_width b) r ++
              drop ((length done' + 1) * buf_width b) (PyArray_DATA cur)).
    { apply put_row_data.
      - apply concat_slices_length.
      - subst cur. cbn [PyArray_DATA].
        rewrite drop_app_length' by (symmetry; apply concat_slices_length).
        rewrite length_drop. lia.
      - subst cur. cbn [PyArray_DATA].
        rewrite take_app_length' by (symmetry; apply concat_slices_length).
        reflexivity. }
    pose proof (put_row_dims (buf_width b) (buf_start b) (length done') r cur) as Hdims.
    destruct (put_row (buf_width b) (buf_start b) (length done') r cur)
      as [dims' data'].
    cbn in Hdata, Hdims. subst dims' data'. f_equal.
    rewrite map_app, concat_app. cbn [map concat]. rewrite app_nil_r, <- app_assoc.
    do 2 f_equal. subst cur. cbn [PyArray_DATA].
    rewrite length_app. cbn [length].
    rewrite drop_app_ge by (rewrite concat_slices_length; lia).
    rewrite concat_slices_length, drop_drop. f_equal. lia.
Qed.

End RowsStored.


Section BatchLoop.
Implicit Types (a : PyArrayObject) (s : PyState).

Lemma array_at_spec l s a : heap s !! l = Some a -> array_at l s = (Done a, s).
Proof. intros Hl. unfold array_at. rewrite Hl. reflexivity. Qed.

Lemma read_doubles_spec l (offset n : nat) s a :
  heap s !! l = Some a ->
  (offset + n <= length (PyArray_DATA a))%nat ->
  read_doubles l (Z.of_nat offset) n s =
  (Done (take n (drop offset (PyArray_DATA a))), s).
Proof.
  intros Hl Hlen. unfold read_doubles.
  rewrite (bind_Done _ _ _ _ _ (array_at_spec l s a Hl)).
  rewrite Nat2Z.id.
  replace (0 <=? Z.of_nat offset) with true by (symmetry; apply Z.leb_le; lia).
  rewrite bool_decide_eq_true_2; [reflexivity|].
  rewrite length_take, length_drop. lia.
Qed.

(** The buffers that [filled] describes have room for the next row. *)
Lemma filled_room bufs h0 h done' (N : nat) :
  filled bufs h0 h done' ->
  (length done' < N)%nat ->
  Forall (fun b => exists a0, h0 !! buf_array b = Some a0 /\
            length (PyArray_DATA a0) = (N * buf_width b)%nat /\
            Z.of_nat (N * buf_width b) <= INT_MAX + 1) bufs ->
  Forall (room_for_row h (length done')) bufs.
Proof.
  intros [_ Hbufs] Hlt Hsize. apply Forall_forall. intros b Hb.
  rewrite Forall_forall in Hbufs. destruct (Hbufs b Hb) as (a0 & Ha0 & Hcur).
  rewrite Forall_forall in Hsize. destruct (Hsize b Hb) as (a0' & Ha0' & Hlen & Hint).
  assert (a0' = a0) as -> by congruence.
  eexists. split; [exact Hcur|]. cbn [PyArray_DATA].
  rewrite length_app, concat_slices_length, length_drop, Hlen.
  split; nia.
Qed.

Lemma batch_loop_spec numArgs numOutput f (fnc : anyFunction) la a_in
    resultObj bufs h0 (N : nat) :
  formatOutputArr numOutput = Some f ->
  output_bufs numOutput resultObj = Some bufs ->
  NoDup (buf_locs bufs) ->
  la ∉ buf_locs bufs ->
  h0 !! la = Some a_in ->
  PyArray_DIM a_in 1 = Z.of_nat (inputLength numArgs) ->
  length (PyArray_DATA a_in) = (N * inputLength numArgs)%nat ->
  Forall (fun b => exists a0, h0 !! buf_array b = Some a0 /\
            length (PyArray_DATA a0) = (N * buf_width b)%nat /\
            Z.of_nat (N * buf_width b) <= INT_MAX + 1) bufs ->
  forall n i done' r s,
    (i + n = N)%nat -> length done' = i ->
    filled bufs h0 (heap s) done' ->
    exists s',
      batch_loop numArgs f fnc la (Some resultObj) n (Z.of_nat i) r s =
        ((results_of fnc
            (map (input_row (inputLength numArgs) a_in) (seq i n)) r).2, s') /\
      filled bufs h0 (heap s')
        (done' ++ (results_of fnc
                     (map (input_row (inputLength numArgs) a_in) (seq i n)) r).1) /\
      error s' = error s.
Proof.
  intros Hf Hbufs Hnodup Hla Hin Hdim Hlen Hsize.
  induction n as [|n IH]; intros i done' r s HN Hdone Hfilled;
    cbn [batch_loop seq map results_of].
  - exists s. rewrite app_nil_r. done.
  - assert (Hcur : heap s !! la = Some a_in).
    { destruct Hfilled as [Hother _]. rewrite Hother by done. exact Hin. }
    rewrite (bind_Done _ _ _ _ _ (array_at_spec la s a_in Hcur)).
    rewrite Hdim.
    replace (Z.of_nat i * Z.of_nat (inputLength numArgs))
      with (Z.of_nat (i * inputLength numArgs)) by lia.
    assert (Hrow : (i * inputLength numArgs + inputLength numArgs
                    <= length (PyArray_DATA a_in))%nat) by nia.
    rewrite (bind_Done _ _ _ _ _
               (read_doubles_spec la _ (inputLength numArgs) s a_in Hcur Hrow)).
    fold (input_row (inputLength numArgs) a_in i).
    unfold bind at 1, lift at 1.
    destruct (fnc (input_row (inputLength numArgs) a_in i) r) as [r'| |].
    + pose proof (filled_room bufs h0 (heap s) done' N Hfilled ltac:(lia) Hsize)
        as Hroom.
      rewrite Hdone in Hroom.
      rewrite (bind_Done _ _ _ _ _
                 (formatOutputArr_spec numOutput f resultObj bufs r' i s
                    Hf Hbufs Hnodup Hroom)).
      replace (Z.of_nat i + 1) with (Z.of_nat (S i)) by lia.
      destruct (IH (S i) (done' ++ [r']) r'
                  {| heap := rows_stored bufs i r' (heap s); error := error s |})
        as (s' & Hrun & Hfilled' & Herr).
      * lia.
      * rewrite length_app. cbn. lia.
      * cbn [heap]. rewrite <- Hdone. apply filled_step; [done|done|].
        eapply Forall_impl; [exact Hsize|].
        intros b (a0 & Ha0 & Hlen0 & _) a0' Ha0'.
        assert (a0' = a0) as -> by congruence. nia.
      * exists s'.
        destruct (results_of fnc
                    (map (input_row (inputLength numArgs) a_in) (seq (S i) n)) r')
          as [rs c].
        cbn [fst snd] in *. rewrite <- app_assoc in Hfilled'. done.
    + exists s. rewrite app_nil_r. done.
    + exists s. rewrite app_nil_r. done.
Qed.

End BatchLoop.


Section Allocation.
Variable heap_garbage : loc -> nat -> float.
Implicit Types (a : PyArrayObject) (s : PyState).

Lemma PyArray_SimpleNew_spec dims s :
  Forall (fun d => 0 <= d) dims ->
  PyArray_SimpleNew heap_garbage dims s =
  (Done (Some (fresh (dom (heap s)))),
   {| heap := <[fresh (dom (heap s)) :=
                  new_double_array heap_garbage (fresh (dom (heap s))) dims]>
                (heap s);
      error := error s |}).
Proof.
  intros Hdims. unfold PyArray_SimpleNew.
  replace (forallb (fun d => 0 <=? d) dims) with true; [reflexivity|].
  symmetry. apply forallb_forall. intros d Hd.
  apply Z.leb_le. rewrite Forall_forall in Hdims. apply Hdims.
  apply list_elem_of_In, Hd.
Qed.

Lemma fresh_lookup_None (h : gmap loc PyArrayObject) : h !! fresh (dom h) = None.
Proof. apply not_elem_of_dom. apply is_fresh. Qed.

Lemma new_double_array_length l numOutput (N w : nat) :
  In (Z.of_nat w) (output_widths numOutput) ->
  length (PyArray_DATA (new_double_array heap_garbage l
                          (output_dims numOutput (Z.of_nat N) w))) = (N * w)%nat.
Proof.
  intros Hw. unfold new_double_array. cbn [PyArray_DATA].
  rewrite length_map, length_seq.
  destruct numOutput; cbn in Hw |- *; try (destruct Hw; fail).
  - destruct Hw as [Hw|[]]. lia.
  - lia.
  - lia.
Qed.

Lemma allocOutputArr_spec numOutput alloc (N : nat) s :
  allocOutputArr heap_garbage numOutput = Some alloc ->
  exists resultObj bufs s',
    alloc (Z.of_nat N) s = (Done (Some resultObj), s') /\
    output_bufs numOutput resultObj = Some bufs /\
    NoDup (buf_locs bufs) /\
    Forall (fun l => heap s !! l = None) (buf_locs bufs) /\
    (forall l, l ∉ buf_locs bufs -> heap s' !! l = heap s !! l) /\
    error s' = error s /\
    map (fun b => Z.of_nat (buf_width b)) bufs = output_widths numOutput /\
    Forall (fun b => heap s' !! buf_array b =
                     Some (new_double_array heap_garbage (buf_array b)
                             (output_dims numOutput (Z.of_nat N) (buf_width b)))) bufs.
Proof.
  intros Halloc.
  destruct numOutput; try discriminate Halloc;
    apply (inj Some) in Halloc; subst alloc.
  - set (l := fresh (dom (heap s))).
    exists (PyArray l), [Buf l 1 0]. eexists. split.
    { erewrite bind_Done; cycle 1.
      - apply PyArray_SimpleNew_spec. repeat constructor. lia.
      - reflexivity. }
    cbn [heap error]. split; [reflexivity|]. split.
    { repeat constructor. apply not_elem_of_nil. }
    split; [repeat constructor; apply fresh_lookup_None|].
    split.
    { intros l' Hl'. apply lookup_insert_ne. intros <-. apply Hl'. left. }
    split; [reflexivity|]. split; [reflexivity|].
    repeat constructor. cbn. apply lookup_insert_eq.
  - set (l := fresh (dom (heap s))).
    exists (PyArray l), [Buf l 3 0]. eexists. split.
    { erewrite bind_Done; cycle 1.
      - apply PyArray_SimpleNew_spec. repeat constructor; lia.
      - reflexivity. }
    cbn [heap error]. split; [reflexivity|]. split.
    { repeat constructor. apply not_elem_of_nil. }
    split; [repeat constructor; apply fresh_lookup_None|].
    split.
    { intros l' Hl'. apply lookup_insert_ne. intros <-. apply Hl'. left. }
    split; [reflexivity|]. split; [reflexivity|].
    repeat constructor. cbn. apply lookup_insert_eq.
  - set (l1 := fresh (dom (heap s))).
    set (a1 := new_double_array heap_garbage l1 [Z.of_nat N; 3]).
    set (l2 := fresh (dom (<[l1 := a1]> (heap s)))).
    assert (Hl2 : <[l1 := a1]> (heap s) !! l2 = None) by apply fresh_lookup_None.
    assert (Hne : l1 <> l2).
    { intros Heq. rewrite <- Heq, lookup_insert_eq in Hl2. discriminate. }
    rewrite lookup_insert_ne in Hl2 by done.
    exists (PyTuple [PyArray l1; PyArray l2]), [Buf l1 3 0; Buf l2 6 3].
    eexists. split.
    { erewrite bind_Done; cycle 1.
      - apply PyArray_SimpleNew_spec. repeat constructor; lia.
      - erewrite bind_Done; cycle 1.
        + apply PyArray_SimpleNew_spec. repeat constructor; lia.
        + reflexivity. }
    cbn [heap error]. split; [reflexivity|]. split.
    { cbn. apply NoDup_cons. split.
      - intros Hin. apply list_elem_of_singleton in Hin. done.
      - apply NoDup_singleton. }
    split; [repeat constructor; [apply fresh_lookup_None|exact Hl2]|].
    split.
    { intros l' Hl'. cbn in Hl'.
      rewrite !lookup_insert_ne; [reflexivity| |].
      - intros <-. apply Hl'. left.
      - intros <-. apply Hl'. right. left. }
    split; [reflexivity|]. split; [reflexivity|].
    repeat constructor; cbn.
    + rewrite lookup_insert_ne by done. apply lookup_insert_eq.
    + apply lookup_insert_eq.
Qed.

End Allocation.


Section Dispatch.
Variable heap_garbage : loc -> nat -> float.
Variable stack_garbage : nat -> float.
Implicit Types (a : PyArrayObject) (s : PyState).

Local Abbreviation callAnyFunctionOnArray :=
  (py_wrapper.callAnyFunctionOnArray heap_garbage stack_garbage).
Local Abbreviation result_on_entry := (observe_py.result_on_entry stack_garbage).

(** An instantiation of the template is the [try] block under the
    [catch] handler, with the specialisations for its two arguments. *)
Lemma call_unfold numArgs numOutput call :
  callAnyFunctionOnArray numArgs numOutput = Some call ->
  exists parseTuple' errDim errInput formatTuple' alloc' formatOut',
    parseTuple numArgs = Some parseTuple' /\
    errStrInvalidArrayDim numArgs = Some errDim /\
    errStrInvalidInput numArgs = Some errInput /\
    formatTuple numOutput = Some formatTuple' /\
    allocOutputArr heap_garbage numOutput = Some alloc' /\
    formatOutputArr numOutput = Some formatOut' /\
    call = fun args fnc =>
             try_catch
               (callAnyFunctionOnArray_try stack_garbage numArgs numOutput
                  parseTuple' errDim errInput formatTuple' alloc' formatOut' fnc args)
               callAnyFunctionOnArray_catch.
Proof.
  unfold py_wrapper.callAnyFunctionOnArray. intros Hcall.
  destruct (parseTuple numArgs) as [p|]; [|discriminate].
  destruct (errStrInvalidArrayDim numArgs) as [eD|]; [|discriminate].
  destruct (errStrInvalidInput numArgs) as [eI|]; [|discriminate].
  destruct (formatTuple numOutput) as [fT|]; [|discriminate].
  destruct (allocOutputArr heap_garbage numOutput) as [al|]; [|discriminate].
  destruct (formatOutputArr numOutput) as [fO|]; [|discriminate].
  apply (inj Some) in Hcall. subst call.
  exists p, eD, eI, fT, al, fO. done.
Qed.

Lemma parseTuple_spec numArgs parseTuple' :
  parseTuple numArgs = Some parseTuple' ->
  parseTuple' = PyArg_ParseTuple_d (inputLength numArgs) /\
  INPUT_VALUE_int numArgs = Z.of_nat (inputLength numArgs) /\
  (1 < inputLength numArgs)%nat.
Proof.
  destruct numArgs; intros Hp; try discriminate Hp;
    apply (inj Some) in Hp; subst parseTuple'; cbn; split; try split;
    try reflexivity; lia.
Qed.

Lemma PyArg_ParseTuple_d_floats n (input : list float) s :
  length input = n ->
  PyArg_ParseTuple_d n (map PyFloat input) s = (Done (Some input), s).
Proof.
  intros Hlen. unfold PyArg_ParseTuple_d.
  rewrite decide_True by (rewrite length_map; exact Hlen).
  replace (mapM (PyFloat_AsDouble (heap s)) (map PyFloat input)) with (Some input);
    [reflexivity|].
  clear Hlen. induction input as [|d input IH]; [reflexivity|].
  cbn. rewrite <- IH. reflexivity.
Qed.

Lemma PyArg_ParseTuple_d_length n args s :
  length args <> n ->
  PyArg_ParseTuple_d n args s =
  (Done None, {| heap := heap s;
                 error := Some (PyExc_TypeError, "bad argument list") |}).
Proof.
  intros Hlen. unfold PyArg_ParseTuple_d.
  rewrite decide_False by done. reflexivity.
Qed.

Lemma PyArray_FROM_OTF_spec obj s a :
  array_of (heap s) obj = Some a ->
  exists la s1,
    PyArray_FROM_OTF obj s = (Done (Some la), s1) /\
    heap s1 !! la = Some a /\
    heap s ⊆ heap s1 /\
    (forall l, l <> la -> heap s1 !! l = heap s !! l) /\
    error s1 = error s.
Proof.
  intros Ha.
  assert (Hnew : exists la s1,
             (let* l := new_array (fun _ => a) in ret (Some l)) s
             = (Done (Some la), s1) /\
             heap s1 !! la = Some a /\ heap s ⊆ heap s1 /\
             (forall l, l <> la -> heap s1 !! l = heap s !! l) /\
             error s1 = error s).
  { eexists _, _. split; [reflexivity|]. cbn [heap error].
    split; [apply lookup_insert_eq|].
    split; [apply insert_subseteq, fresh_lookup_None|].
    split; [|reflexivity].
    intros l Hl. apply lookup_insert_ne. congruence. }
  destruct obj as [d|items|l|]; unfold PyArray_FROM_OTF.
  - rewrite Ha. exact Hnew.
  - rewrite Ha. exact Hnew.
  - cbn in Ha. rewrite Ha. exists l, s. done.
  - discriminate Ha.
Qed.

Lemma PyErr_Clear_spec s :
  PyErr_Clear s = (Done tt, {| heap := heap s; error := None |}).
Proof. reflexivity. Qed.

Lemma PyErr_SetString_spec exc msg s :
  PyErr_SetString exc msg s =
  (Done tt, {| heap := heap s; error := Some (exc, msg) |}).
Proof. reflexivity. Qed.

(** The flat-argument path. *)
Lemma path_flat numArgs numOutput call formatTuple' args input fnc s :
  callAnyFunctionOnArray numArgs numOutput = Some call ->
  formatTuple numOutput = Some formatTuple' ->
  PyArg_ParseTuple_d (inputLength numArgs) args s = (Done (Some input), s) ->
  call args fnc s = single_point formatTuple' fnc input (result_on_entry numOutput) s.
Proof.
  intros Hcall HfT Hparse.
  destruct (call_unfold _ _ _ Hcall)
    as (p & eD & eI & fT & al & fO & Hp & HeD & HeI & HfT' & Hal & HfO & ->).
  destruct (parseTuple_spec _ _ Hp) as (-> & Harity & Hn).
  assert (fT = formatTuple') as -> by congruence.
  unfold try_catch, callAnyFunctionOnArray_try.
  rewrite (bind_Done _ _ _ _ _ Hparse).
  unfold bind at 1, lift at 1, single_point, result_on_entry.
  destruct (fnc input _); reflexivity.
Qed.

(** The steps that every call on a single object shares, up to the
    conversion of the object to an array. *)
Ltac on_single_object Hcall Harr la s1 Hfrom Hla Hsub Hother Herr :=
  let Hp := fresh "Hp" in
  destruct (call_unfold _ _ _ Hcall)
    as (? & eD0 & eI0 & fT & alloc' & formatOut' &
        Hp & HeD0 & HeI0 & HfT' & Halloc & HformatOut & ->);
  destruct (parseTuple_spec _ _ Hp) as (-> & Harity & Hn);
  unfold try_catch, callAnyFunctionOnArray_try;
  erewrite bind_Done;
    [|apply PyArg_ParseTuple_d_length; cbn [length]; lia];
  cbv beta match;
  rewrite (bind_Done _ _ _ _ _ (PyErr_Clear_spec _));
  cbn [heap error];
  erewrite (bind_Done (PyArg_ParseTuple_O _)); [|reflexivity];
  cbv beta match;
  destruct (PyArray_FROM_OTF_spec _ {| heap := heap _; error := None |} _ Harr)
    as (la & s1 & Hfrom & Hla & Hsub & Hother & Herr);
  rewrite (bind_Done _ _ _ _ _ Hfrom);
  cbv beta match;
  rewrite (bind_Done _ _ _ _ _ (array_at_spec _ _ _ Hla)).

(** The path of a 1-d array of the length of one point. *)
Lemma path_1d numArgs numOutput call formatTuple' obj a fnc s :
  callAnyFunctionOnArray numArgs numOutput = Some call ->
  formatTuple numOutput = Some formatTuple' ->
  array_of (heap s) obj = Some a ->
  PyArray_DIMS a = [INPUT_VALUE_int numArgs] ->
  length (PyArray_DATA a) = inputLength numArgs ->
  exists la s1,
    PyArray_FROM_OTF obj {| heap := heap s; error := None |} = (Done (Some la), s1) /\
    call [obj] fnc s =
    single_point formatTuple' fnc (PyArray_DATA a) (result_on_entry numOutput) s1.
Proof.
  intros Hcall HfT Harr Hdims Hlen.
  on_single_object Hcall Harr la s1 Hfrom Hla Hsub Hother Herr.
  exists la, s1. split; [exact Hfrom|].
  unfold PyArray_NDIM, PyArray_DIM. rewrite Hdims. cbn [length nth].
  rewrite !Z.eqb_refl. cbn [andb].
  assert (Hrow : (0 + inputLength numArgs <= length (PyArray_DATA a))%nat) by lia.
  pose proof (read_doubles_spec la 0 (inputLength numArgs) s1 a Hla Hrow) as Hread.
  cbn [Z.of_nat] in Hread.
  rewrite (bind_Done _ _ _ _ _ Hread).
  rewrite drop_0, <- Hlen, firstn_all.
  unfold bind at 1, lift at 1, single_point, result_on_entry.
  assert (fT = formatTuple') as -> by congruence.
  destruct (fnc (PyArray_DATA a) _); reflexivity.
Qed.

(** The path of an array of any other shape. *)
Lemma path_bad_shape numArgs numOutput call errDim obj a fnc s :
  callAnyFunctionOnArray numArgs numOutput = Some call ->
  errStrInvalidArrayDim numArgs = Some errDim ->
  array_of (heap s) obj = Some a ->
  PyArray_DIMS a <> [INPUT_VALUE_int numArgs] ->
  (forall N, PyArray_DIMS a <> [N; INPUT_VALUE_int numArgs]) ->
  exists la s1,
    PyArray_FROM_OTF obj {| heap := heap s; error := None |} = (Done (Some la), s1) /\
    call [obj] fnc s =
    (Done None, {| heap := heap s1; error := Some (PyExc_ValueError, errDim) |}).
Proof.
  intros Hcall HeD Harr Hnot1 Hnot2.
  on_single_object Hcall Harr la s1 Hfrom Hla Hsub Hother Herr.
  exists la, s1. split; [exact Hfrom|].
  assert (eD0 = errDim) as -> by congruence.
  assert (Hcond1 : (PyArray_NDIM a =? 1) &&
                   (PyArray_DIM a 0 =? INPUT_VALUE_int numArgs) = false).
  { unfold PyArray_NDIM, PyArray_DIM.
    destruct (PyArray_DIMS a) as [|d0 [|d1 ds]]; cbn [length nth].
    - reflexivity.
    - apply andb_false_iff. right. apply Z.eqb_neq. congruence.
    - apply andb_false_iff. left. apply Z.eqb_neq. lia. }
  assert (Hcond2 : (PyArray_NDIM a =? 2) &&
                   (PyArray_DIM a 1 =? INPUT_VALUE_int numArgs) = false).
  { unfold PyArray_NDIM, PyArray_DIM.
    destruct (PyArray_DIMS a) as [|d0 [|d1 [|d2 ds]]]; cbn [length nth].
    - reflexivity.
    - reflexivity.
    - apply andb_false_iff. right. apply Z.eqb_neq.
      intros ->. exact (Hnot2 d0 eq_refl).
    - apply andb_false_iff. left. apply Z.eqb_neq. lia. }
  rewrite Hcond1, Hcond2.
  rewrite (bind_Done _ _ _ _ _ (PyErr_SetString_spec _ _ _)). reflexivity.
Qed.

Lemma output_widths_positive numOutput alloc' :
  allocOutputArr heap_garbage numOutput = Some alloc' ->
  output_widths numOutput <> [] /\ Forall (fun w => 1 <= w) (output_widths numOutput).
Proof.
  destruct numOutput; intros Halloc; try discriminate Halloc; cbn;
    (split; [discriminate|repeat constructor; lia]).
Qed.

(** The path of a 2-d array of [N] rows, each of the length of one
    point: the outcome in terms of the successive contents of [result]. *)
Lemma path_2d numArgs numOutput call obj a (N : nat) fnc s :
  callAnyFunctionOnArray numArgs numOutput = Some call ->
  array_of (heap s) obj = Some a ->
  PyArray_DIMS a = [Z.of_nat N; INPUT_VALUE_int numArgs] ->
  length (PyArray_DATA a) = (N * inputLength numArgs)%nat ->
  Forall (fun w => Z.of_nat N * w <= INT_MAX) (output_widths numOutput) ->
  let run := results_of fnc (input_rows (inputLength numArgs) a N)
               (result_on_entry numOutput) in
  exists la s1 resultObj bufs s3,
    PyArray_FROM_OTF obj {| heap := heap s; error := None |} = (Done (Some la), s1) /\
    output_bufs numOutput resultObj = Some bufs /\
    NoDup (buf_locs bufs) /\
    Forall (fun l => heap s1 !! l = None) (buf_locs bufs) /\
    map (fun b => Z.of_nat (buf_width b)) bufs = output_widths numOutput /\
    call [obj] fnc s =
      match run.2 with
      | Done _ => (Done (Some resultObj), s3)
      | Thrown w =>
          (Done None,
           {| heap := heap s3;
              error := Some (PyExc_ValueError, "Exception occured: " +:+ w) |})
      | Undefined => (Undefined, s3)
      end /\
    error s3 = None /\
    (forall l, l ∉ buf_locs bufs -> heap s3 !! l = heap s1 !! l) /\
    Forall (fun b =>
              heap s3 !! buf_array b =
              Some {| PyArray_DIMS := output_dims numOutput (Z.of_nat N) (buf_width b);
                      PyArray_DATA :=
                        concat (map (slice (buf_start b) (buf_width b)) run.1) ++
                        drop (length run.1 * buf_width b)
                          (PyArray_DATA
                             (new_double_array heap_garbage (buf_array b)
                                (output_dims numOutput (Z.of_nat N) (buf_width b)))) |})
           bufs.
Proof.
  intros Hcall Harr Hdims Hlen Hint run.
  on_single_object Hcall Harr la s1 Hfrom Hla Hsub Hother Herr.
  destruct (output_widths_positive _ _ Halloc) as [Hsome Hpos].
  assert (HN : Z.of_nat N <= INT_MAX).
  { destruct (output_widths numOutput) as [|w ws]; [done|].
    apply Forall_cons in Hint as [Hint _]. apply Forall_cons in Hpos as [Hpos _].
    nia. }
  unfold PyArray_NDIM, PyArray_DIM. rewrite Hdims. cbn [length nth].
  rewrite !Z.eqb_refl.
  replace (Z.of_nat 2 =? 1) with false by reflexivity. cbn [andb].
  rewrite to_int_small by (unfold INT_MIN; lia).
  destruct (allocOutputArr_spec heap_garbage numOutput alloc' N s1 Halloc)
    as (resultObj & bufs & s2 & Hrun2 & Hbufs & Hnodup & Hfresh & Hframe2 &
        Herr2 & Hwidths & Hnew).
  rewrite (bind_Done _ _ _ _ _ Hrun2). rewrite Nat2Z.id.
  assert (Hla_notin : la ∉ buf_locs bufs).
  { intros Hin. rewrite Forall_forall in Hfresh.
    specialize (Hfresh la Hin). congruence. }
  assert (Hsize : Forall (fun b => exists a0, heap s2 !! buf_array b = Some a0 /\
                            length (PyArray_DATA a0) = (N * buf_width b)%nat /\
                            Z.of_nat (N * buf_width b) <= INT_MAX + 1) bufs).
  { apply Forall_forall. intros b Hb.
    rewrite Forall_forall in Hnew. eexists. split; [exact (Hnew b Hb)|].
    assert (Hw : In (Z.of_nat (buf_width b)) (output_widths numOutput)).
    { rewrite <- Hwidths. apply (in_map (fun b => Z.of_nat (buf_width b))).
      apply list_elem_of_In, Hb. }
    split; [apply new_double_array_length, Hw|].
    rewrite Forall_forall in Hint.
    specialize (Hint _ (proj2 (list_elem_of_In _ _) Hw)). lia. }
  destruct (batch_loop_spec numArgs numOutput formatOut' fnc la a resultObj bufs
              (heap s2) N HformatOut Hbufs Hnodup Hla_notin
              ltac:(rewrite Hframe2 by done; exact Hla)
              ltac:(unfold PyArray_DIM; rewrite Hdims; exact Harity)
              Hlen Hsize
              N 0%nat [] (result_on_entry numOutput) s2 eq_refl eq_refl)
    as (s3 & Hloop & [Hother3 Hfilled] & Herr3).
  { apply filled_start. eapply Forall_impl; [exact Hsize|].
    intros b (a0 & -> & _). eauto. }
  cbn [app] in Hfilled. fold (input_rows (inputLength numArgs) a N) in Hloop, Hfilled.
  fold run in Hloop, Hfilled.
  exists la, s1, resultObj, bufs, s3.
  split; [exact Hfrom|]. split; [exact Hbufs|]. split; [exact Hnodup|].
  split; [exact Hfresh|]. split; [exact Hwidths|].
  split.
  { unfold result_on_entry in Hloop. change (Z.of_nat 0) with 0 in Hloop.
    unfold bind at 1. rewrite Hloop.
    destruct run.2 as [[]| |]; reflexivity. }
  split; [cbn [error] in Herr; congruence|].
  split.
  { intros l Hl. rewrite Hother3 by done. apply Hframe2, Hl. }
  apply Forall_forall. intros b Hb.
  rewrite Forall_forall in Hfilled. destruct (Hfilled b Hb) as (a0 & Ha0 & Hcur).
  rewrite Forall_forall in Hnew. rewrite (Hnew b Hb) in Ha0.
  apply (inj Some) in Ha0. subst a0. exact Hcur.
Qed.

(** The path of a 2-d array without rows: the output is allocated and
    returned, and no part of the outcome comes from the computation. *)
Lemma path_2d_empty numArgs numOutput call obj a (fnc : anyFunction) s :
  callAnyFunctionOnArray numArgs numOutput = Some call ->
  array_of (heap s) obj = Some a ->
  PyArray_DIMS a = [0; INPUT_VALUE_int numArgs] ->
  exists la s1 alloc',
    PyArray_FROM_OTF obj {| heap := heap s; error := None |} = (Done (Some la), s1) /\
    error s1 = None /\
    allocOutputArr heap_garbage numOutput = Some alloc' /\
    call [obj] fnc s =
    match alloc' 0 s1 with
    | (Done resultObj, s2) => (Done resultObj, s2)
    | (Thrown w, s2) => callAnyFunctionOnArray_catch w s2
    | (Undefined, s2) => (Undefined, s2)
    end.
Proof.
  intros Hcall Harr Hdims.
  on_single_object Hcall Harr la s1 Hfrom Hla Hsub Hother Herr.
  exists la, s1, alloc'. split; [exact Hfrom|]. split; [exact Herr|].
  split; [exact Halloc|].
  unfold PyArray_NDIM, PyArray_DIM. rewrite Hdims. cbn [length nth].
  rewrite !Z.eqb_refl.
  replace (Z.of_nat 2 =? 1) with false by reflexivity. cbn [andb].
  change (to_int 0) with 0. change (Z.to_nat 0) with 0%nat.
  cbn [batch_loop]. unfold bind, ret.
  destruct (alloc' 0 s1) as [[resultObj| |] s2]; reflexivity.
Qed.

End Dispatch.


Section Results.
Implicit Types (fnc : anyFunction) (rows : list (list float)).

Lemma results_of_length fnc rows : forall result,
  (results_of fnc rows result).2 = Done tt ->
  length (results_of fnc rows result).1 = length rows.
Proof.
  induction rows as [|input rows IH]; intros result; cbn; [reflexivity|].
  destruct (fnc input result) as [r| |]; try discriminate.
  specialize (IH r). destruct (results_of fnc rows r) as [rs c]. cbn in *.
  intros Hc. rewrite IH by exact Hc. reflexivity.
Qed.

(** Each entry of the successive results is what the call on the row of
    that index left in [result], which it found as the call before it
    had left it, and the first call as it was on entry. *)
Lemma results_of_chain fnc rows : forall result rs c i r,
  results_of fnc rows result = (rs, c) ->
  rs !! i = Some r ->
  exists input prev,
    rows !! i = Some input /\ (result :: rs) !! i = Some prev /\
    fnc input prev = Done r.
Proof.
  induction rows as [|input rows IH]; intros result rs c i r; cbn [results_of].
  - intros [= <- <-]. discriminate.
  - destruct (fnc input result) as [r0| |] eqn:Hfnc;
      [|intros [= <- <-]; discriminate..].
    destruct (results_of fnc rows r0) as [rs0 c0] eqn:Hrest.
    intros [= <- <-]. destruct i as [|i]; cbn.
    + intros [= ->]. exists input, result. done.
    + intros Hi. destruct (IH r0 rs0 c0 i r Hrest Hi) as (input' & prev & ? & ? & ?).
      exists input', prev. done.
Qed.

(** The successive contents of [result] over the rows of a batch, for a
    function that is settled by its input on arrays of [n] doubles: the
    calls all return, and each leaves what the call on [result0] would. *)
Lemma results_of_settled n (fnc : anyFunction) (result0 : list float)
    (rows : list (list float)) :
  settled_by_input n fnc ->
  length result0 = n ->
  (forall input, input ∈ rows -> exists r, fnc input result0 = Done r) ->
  forall result, length result = n ->
    (results_of fnc rows result).2 = Done tt /\
    forall i input, rows !! i = Some input ->
      exists r, fnc input result0 = Done r /\
                (results_of fnc rows result).1 !! i = Some r.
Proof.
  intros Hsettled Hn0 Hret.
  induction rows as [|input rows IH]; intros result Hn; cbn [results_of].
  - split; [reflexivity|]. intros i input Hi. discriminate Hi.
  - destruct (Hret input ltac:(left)) as [r Hr].
    destruct (Hsettled input result result0 Hn Hn0) as [Hsame Hlen].
    rewrite Hsame, Hr.
    destruct (IH ltac:(intros input' Hin; apply Hret; right; exact Hin) r)
      as [Hdone Hrows].
    { apply Hlen. rewrite Hsame. exact Hr. }
    destruct (results_of fnc rows r) as [rs c]. cbn [fst snd] in *.
    split; [exact Hdone|].
    intros [|i] input' Hi; cbn in Hi.
    + injection Hi as <-. exists r. done.
    + apply Hrows, Hi.
Qed.

Lemma take_drop_concat_slices k0 w (rs : list (list float)) rest i r :
  rs !! i = Some r ->
  take w (drop (i * w) (concat (map (slice k0 w) rs) ++ rest)) = slice k0 w r.
Proof.
  revert i. induction rs as [|r0 rs IH]; intros i Hi; [done|].
  destruct i as [|i]; cbn in Hi; cbn [map concat]; rewrite <- app_assoc.
  - injection Hi as ->. rewrite Nat.mul_0_l, drop_0.
    rewrite take_app_length' by (rewrite slice_length; reflexivity). reflexivity.
  - replace (S i * w)%nat with (length (slice k0 w r0) + i * w)%nat
      by (rewrite slice_length; lia).
    rewrite <- drop_drop, drop_app_length. apply IH, Hi.
Qed.

Lemma row_width_output numOutput (N : Z) (w : nat) data :
  In (Z.of_nat w) (output_widths numOutput) ->
  row_width {| PyArray_DIMS := output_dims numOutput N w; PyArray_DATA := data |} = w.
Proof.
  unfold row_width. cbn [PyArray_DIMS].
  destruct numOutput; cbn; intros Hw; try (destruct Hw; fail).
  - destruct Hw as [Hw|[]]. lia.
  - lia.
  - lia.
Qed.

(** Row [i] of the returned arrays, read off the description of the
    buffers. *)
Lemma output_row_spec numOutput resultObj bufs h (N : Z) rs rest i r :
  output_bufs numOutput resultObj = Some bufs ->
  map (fun b => Z.of_nat (buf_width b)) bufs = output_widths numOutput ->
  Forall (fun b =>
            h !! buf_array b =
            Some {| PyArray_DIMS := output_dims numOutput N (buf_width b);
                    PyArray_DATA :=
                      concat (map (slice (buf_start b) (buf_width b)) rs) ++
                      rest b |})
         bufs ->
  rs !! i = Some r ->
  output_row h resultObj i =
  concat (map (fun b => slice (buf_start b) (buf_width b) r) bufs).
Proof.
  intros Hbufs Hwidths Hcontent Hi.
  assert (Hrow : forall b, b ∈ bufs ->
            match h !! buf_array b with Some a => array_row a i | None => [] end
            = slice (buf_start b) (buf_width b) r).
  { intros b Hb. rewrite Forall_forall in Hcontent. rewrite (Hcontent b Hb).
    unfold array_row. rewrite row_width_output.
    - cbn [PyArray_DATA]. apply take_drop_concat_slices, Hi.
    - rewrite <- Hwidths. apply (in_map (fun b => Z.of_nat (buf_width b))).
      apply list_elem_of_In, Hb. }
  destruct numOutput; try discriminate Hbufs.
  - destruct resultObj as [| |l|]; try discriminate Hbufs. injection Hbufs as <-.
    unfold output_row. cbn [map concat buf_array buf_width buf_start].
    rewrite app_nil_r.
    apply (Hrow (Buf l 1 0)). left.
  - destruct resultObj as [| |l|]; try discriminate Hbufs. injection Hbufs as <-.
    unfold output_row. cbn [map concat buf_array buf_width buf_start].
    rewrite app_nil_r.
    apply (Hrow (Buf l 3 0)). left.
  - destruct resultObj as [|[|[| |l1|] [|[| |l2|] [|]]]| |]; try discriminate Hbufs.
    injection Hbufs as <-.
    unfold output_row. cbn [map concat buf_array buf_width buf_start].
    rewrite !app_nil_r.
    pose proof (Hrow (Buf l1 3 0) ltac:(left)) as Hrow1.
    pose proof (Hrow (Buf l2 6 3) ltac:(right; left)) as Hrow2.
    cbn [buf_array buf_width buf_start] in Hrow1, Hrow2.
    rewrite Hrow1, Hrow2. reflexivity.
Qed.

(** The numbers of the single-point result are the same slices of
    [result], in the same order. *)
Lemma tuple_values_format numOutput formatTuple' resultObj bufs r :
  formatTuple numOutput = Some formatTuple' ->
  output_bufs numOutput resultObj = Some bufs ->
  tuple_values (formatTuple' r) =
  concat (map (fun b => slice (buf_start b) (buf_width b) r) bufs).
Proof.
  intros HfT Hbufs.
  destruct numOutput; try discriminate HfT; apply (inj Some) in HfT; subst formatTuple'.
  - destruct resultObj as [| |l|]; try discriminate Hbufs. injection Hbufs as <-.
    reflexivity.
  - destruct resultObj as [| |l|]; try discriminate Hbufs. injection Hbufs as <-.
    reflexivity.
  - destruct resultObj as [|[|[| |l1|] [|[| |l2|] [|]]]| |]; try discriminate Hbufs.
    injection Hbufs as <-. reflexivity.
Qed.

(** The slices that go to the output buffers make up the whole of a
    [result] array of the length that the output has. *)
Lemma slices_whole numOutput resultObj bufs (r : list float) :
  output_bufs numOutput resultObj = Some bufs ->
  length r = outputLength numOutput ->
  concat (map (fun b => slice (buf_start b) (buf_width b) r) bufs) = r.
Proof.
  intros Hbufs Hlen.
  destruct numOutput; try discriminate Hbufs; cbn [outputLength] in Hlen.
  - destruct resultObj as [| |l|]; try discriminate Hbufs. injection Hbufs as <-.
    do 2 (destruct r as [|? r]; try discriminate Hlen). reflexivity.
  - destruct resultObj as [| |l|]; try discriminate Hbufs. injection Hbufs as <-.
    do 4 (destruct r as [|? r]; try discriminate Hlen). reflexivity.
  - destruct resultObj as [|[|[| |l1|] [|[| |l2|] [|]]]| |]; try discriminate Hbufs.
    injection Hbufs as <-.
    do 10 (destruct r as [|? r]; try discriminate Hlen). reflexivity.
Qed.

End Results.


Section Frame.
Variable heap_garbage : loc -> nat -> float.
Variable stack_garbage : nat -> float.
Variable h0 : gmap loc PyArrayObject.
Implicit Types (s : PyState).

Lemma keeps_ret {A} (x : A) (post : A -> Prop) : post x -> keeps h0 (ret x) post.
Proof.
  intros Hx s c s' Hsub [= <- <-]. split; [exact Hsub|].
  intros y [= <-]. exact Hx.
Qed.

Lemma keeps_bind {A B} (m : M A) (k : A -> M B) (P : A -> Prop) (Q : B -> Prop) :
  keeps h0 m P -> (forall x, P x -> keeps h0 (k x) Q) -> keeps h0 (bind m k) Q.
Proof.
  intros Hm Hk s c s' Hsub. unfold bind.
  destruct (m s) as [[x|w|] s1] eqn:Hms;
    destruct (Hm s _ s1 Hsub Hms) as [Hsub1 Hpost].
  - intros Hks. exact (Hk x (Hpost x eq_refl) s1 c s' Hsub1 Hks).
  - intros [= <- <-]. split; [exact Hsub1|discriminate].
  - intros [= <- <-]. split; [exact Hsub1|discriminate].
Qed.

(** A computation that leaves the arrays as they are keeps them. *)
Lemma keeps_heap_same {A} (m : M A) :
  (forall s, heap (m s).2 = heap s) -> keeps h0 m (fun _ => True).
Proof.
  intros Hsame s c s' Hsub Hms. specialize (Hsame s). rewrite Hms in Hsame.
  cbn in Hsame. rewrite Hsame. done.
Qed.

Lemma keeps_lift {A} (c : completion A) : keeps h0 (lift c) (fun _ => True).
Proof. apply keeps_heap_same. reflexivity. Qed.

Lemma keeps_int_value z : keeps h0 (int_value z) (fun _ => True).
Proof.
  apply keeps_heap_same. intros s. unfold int_value.
  destruct (in_int z); reflexivity.
Qed.

Lemma keeps_PyErr_SetString exc msg :
  keeps h0 (PyErr_SetString exc msg) (fun _ => True).
Proof. apply keeps_heap_same. reflexivity. Qed.

Lemma keeps_PyArg_ParseTuple_d n args :
  keeps h0 (PyArg_ParseTuple_d n args) (fun _ => True).
Proof.
  apply keeps_heap_same. intros s. unfold PyArg_ParseTuple_d.
  destruct (if decide (length args = n) then _ else _); reflexivity.
Qed.

Lemma keeps_PyArg_ParseTuple_O args :
  keeps h0 (PyArg_ParseTuple_O args) (fun _ => True).
Proof.
  apply keeps_heap_same. intros s. unfold PyArg_ParseTuple_O.
  destruct args as [|obj [|obj' args]]; reflexivity.
Qed.

Lemma keeps_array_at l : keeps h0 (array_at l) (fun _ => True).
Proof.
  apply keeps_heap_same. intros s. unfold array_at. destruct (heap s !! l); reflexivity.
Qed.

Lemma keeps_read_doubles l offset n :
  keeps h0 (read_doubles l offset n) (fun _ => True).
Proof.
  unfold read_doubles. eapply keeps_bind; [apply keeps_array_at|].
  intros arr _. apply keeps_heap_same. intros s.
  destruct (_ && _); reflexivity.
Qed.

(** A new array is none of the arrays that are kept. *)
Lemma keeps_new_array (make : loc -> PyArrayObject) :
  keeps h0 (new_array make) (fun l => h0 !! l = None).
Proof.
  intros s c s' Hsub [= <- <-]. cbn [heap].
  pose proof (fresh_lookup_None (heap s)) as Hfresh.
  split.
  - apply insert_subseteq_r; [|exact Hsub].
    eapply lookup_weaken_None; [exact Hfresh|exact Hsub].
  - intros l [= <-]. eapply lookup_weaken_None; [exact Hfresh|exact Hsub].
Qed.

Lemma keeps_PyArray_SimpleNew dims :
  keeps h0 (PyArray_SimpleNew heap_garbage dims)
    (fun arr => forall l, arr = Some l -> h0 !! l = None).
Proof.
  unfold PyArray_SimpleNew. destruct (forallb _ dims).
  - eapply keeps_bind; [apply keeps_new_array|].
    intros l Hl. apply keeps_ret. intros l' [= <-]. exact Hl.
  - eapply keeps_bind; [apply keeps_PyErr_SetString|].
    intros _ _. apply keeps_ret. discriminate.
Qed.

Lemma keeps_PyArray_FROM_OTF obj : keeps h0 (PyArray_FROM_OTF obj) (fun _ => True).
Proof.
  assert (Hnew : forall a, keeps h0
            (let* l := new_array (fun _ => a) in ret (Some l)) (fun _ => True)).
  { intros a. eapply keeps_bind; [apply keeps_new_array|].
    intros l _. apply keeps_ret. done. }
  intros s c s' Hsub. unfold PyArray_FROM_OTF.
  destruct obj as [d|items|l|].
  - destruct (array_of (heap s) (PyFloat d)) as [a|].
    + apply (Hnew a s c s' Hsub).
    + intros [= <- <-]. done.
  - destruct (array_of (heap s) (PyTuple items)) as [a|].
    + apply (Hnew a s c s' Hsub).
    + intros [= <- <-]. done.
  - destruct (heap s !! l); intros [= <- <-]; done.
  - intros [= <- <-]. done.
Qed.

(** A store into an array that is none of those kept. *)
Lemma keeps_write_double l offset v :
  h0 !! l = None -> keeps h0 (write_double l offset v) (fun _ => True).
Proof.
  intros Hl s c s' Hsub. unfold write_double.
  destruct (heap s !! l) as [arr|]; [|intros [= <- <-]; done].
  destruct (_ && _); intros [= <- <-]; [|done].
  cbn [heap]. split; [|done]. apply insert_subseteq_r; done.
Qed.

Lemma keeps_as_array resultObj :
  keeps h0 (as_array resultObj) (fun l => l ∈ obj_locs resultObj).
Proof.
  destruct resultObj as [[d|items|l|]|]; cbn [as_array];
    try (intros s c s' Hsub [= <- <-]; split; [exact Hsub|discriminate]).
  apply keeps_ret. cbn. left.
Qed.

Lemma keeps_PyTuple_GET_ITEM resultObj k :
  keeps h0 (PyTuple_GET_ITEM resultObj k) (fun l => l ∈ obj_locs resultObj).
Proof.
  destruct resultObj as [[d|items|l|]|]; cbn [PyTuple_GET_ITEM];
    try (intros s c s' Hsub [= <- <-]; split; [exact Hsub|discriminate]).
  destruct (items !! k) as [item|] eqn:Hitem;
    [|intros s c s' Hsub [= <- <-]; split; [exact Hsub|discriminate]].
  destruct item as [d|items'|l'|]; cbn [as_array];
    try (intros s c s' Hsub [= <- <-]; split; [exact Hsub|discriminate]).
  apply keeps_ret. cbn [obj_locs].
  apply list_elem_of_In, in_concat. exists [l']. split; [|left; reflexivity].
  apply in_map_iff. exists (PyArray l'). split; [reflexivity|].
  apply list_elem_of_In, list_elem_of_lookup. exists k. exact Hitem.
Qed.

Lemma keeps_for_each ds (body : Z -> M unit) :
  (forall d, keeps h0 (body d) (fun _ => True)) ->
  keeps h0 (for_each ds body) (fun _ => True).
Proof.
  intros Hbody. induction ds as [|d ds IH]; cbn [for_each].
  - apply keeps_ret. done.
  - eapply keeps_bind; [apply Hbody|]. intros _ _. exact IH.
Qed.

(** The address computation and the store of one value. *)
Lemma keeps_store l (row d : Z) v :
  h0 !! l = None ->
  keeps h0 (let* row := int_value row in
            let* offset := int_value (row + d) in
            write_double l offset v) (fun _ => True).
Proof.
  intros Hl. eapply keeps_bind; [apply keeps_int_value|]. intros row' _.
  eapply keeps_bind; [apply keeps_int_value|]. intros offset _.
  apply keeps_write_double, Hl.
Qed.

Lemma keeps_formatOutputArr numOutput f r i resultObj :
  formatOutputArr numOutput = Some f ->
  Forall (fun l => h0 !! l = None) (obj_locs resultObj) ->
  keeps h0 (f r i resultObj) (fun _ => True).
Proof.
  intros Hf Hlocs. rewrite Forall_forall in Hlocs.
  destruct numOutput; try discriminate Hf; apply (inj Some) in Hf; subst f.
  - eapply keeps_bind; [apply keeps_as_array|]. intros l Hl.
    apply keeps_write_double, Hlocs, Hl.
  - apply keeps_for_each. intros d.
    eapply keeps_bind; [apply keeps_as_array|]. intros l Hl.
    apply keeps_store, Hlocs, Hl.
  - eapply keeps_bind; [apply keeps_PyTuple_GET_ITEM|]. intros l1 Hl1.
    eapply keeps_bind; [apply keeps_PyTuple_GET_ITEM|]. intros l2 Hl2.
    eapply keeps_bind.
    + apply keeps_for_each. intros d. apply keeps_store, Hlocs, Hl1.
    + intros _ _. apply keeps_for_each. intros d.
      eapply keeps_bind; [apply keeps_int_value|]. intros row' _.
      eapply keeps_bind; [apply keeps_int_value|]. intros offset _.
      eapply keeps_bind; [apply keeps_int_value|]. intros k _.
      apply keeps_write_double, Hlocs, Hl2.
Qed.

Lemma keeps_allocOutputArr numOutput alloc' size :
  allocOutputArr heap_garbage numOutput = Some alloc' ->
  keeps h0 (alloc' size)
    (fun resultObj => Forall (fun l => h0 !! l = None) (obj_locs resultObj)).
Proof.
  intros Halloc.
  destruct numOutput; try discriminate Halloc;
    apply (inj Some) in Halloc; subst alloc'.
  - eapply keeps_bind; [apply keeps_PyArray_SimpleNew|]. intros arr Harr.
    apply keeps_ret. destruct arr as [l|]; cbn; repeat constructor. auto.
  - eapply keeps_bind; [apply keeps_PyArray_SimpleNew|]. intros arr Harr.
    apply keeps_ret. destruct arr as [l|]; cbn; repeat constructor. auto.
  - eapply keeps_bind; [apply keeps_PyArray_SimpleNew|]. intros arr1 Harr1.
    eapply keeps_bind; [apply keeps_PyArray_SimpleNew|]. intros arr2 Harr2.
    apply keeps_ret.
    destruct arr1 as [l1|], arr2 as [l2|]; cbn; repeat constructor; auto.
Qed.

Lemma keeps_batch_loop numArgs numOutput f (fnc : anyFunction) arr resultObj :
  formatOutputArr numOutput = Some f ->
  Forall (fun l => h0 !! l = None) (obj_locs resultObj) ->
  forall n i result,
    keeps h0 (batch_loop numArgs f fnc arr resultObj n i result) (fun _ => True).
Proof.
  intros Hf Hlocs. induction n as [|n IH]; intros i result; cbn [batch_loop].
  - apply keeps_ret. done.
  - eapply keeps_bind; [apply keeps_array_at|]. intros a _.
    eapply keeps_bind; [apply keeps_read_doubles|]. intros input _.
    eapply keeps_bind; [apply keeps_lift|]. intros result' _.
    eapply keeps_bind; [apply (keeps_formatOutputArr numOutput); done|].
    intros _ _. apply IH.
Qed.

Lemma keeps_try_catch {A} (body : M A) (handler : string -> M A) (P : A -> Prop) :
  keeps h0 body P -> (forall w, keeps h0 (handler w) P) ->
  keeps h0 (try_catch body handler) P.
Proof.
  intros Hbody Hhandler s c s' Hsub. unfold try_catch.
  destruct (body s) as [[x|w|] s1] eqn:Hrun;
    destruct (Hbody s _ s1 Hsub Hrun) as [Hsub1 Hpost].
  - intros [= <- <-]. done.
  - intros Hh. exact (Hhandler w s1 c s' Hsub1 Hh).
  - intros [= <- <-]. split; [exact Hsub1|discriminate].
Qed.

(** Every instantiation of the dispatcher keeps the arrays that exist
    when it is called. *)
Lemma keeps_call numArgs numOutput call args (fnc : anyFunction) :
  callAnyFunctionOnArray heap_garbage stack_garbage numArgs numOutput = Some call ->
  keeps h0 (call args fnc) (fun _ => True).
Proof.
  intros Hcall.
  destruct (call_unfold _ _ _ _ _ Hcall)
    as (p & eD & eI & fT & al & fO & Hp & HeD & HeI & HfT & Hal & HfO & ->).
  destruct (parseTuple_spec _ _ Hp) as (-> & _ & _).
  apply keeps_try_catch.
  2:{ intros w. unfold callAnyFunctionOnArray_catch.
      eapply keeps_bind; [apply keeps_PyErr_SetString|].
      intros _ _. apply keeps_ret. done. }
  unfold callAnyFunctionOnArray_try.
  eapply keeps_bind; [apply keeps_PyArg_ParseTuple_d|]. intros [input|] _.
  { eapply keeps_bind; [apply keeps_lift|]. intros r _. apply keeps_ret. done. }
  eapply keeps_bind; [apply keeps_heap_same; reflexivity|]. intros _ _.
  eapply keeps_bind; [apply keeps_PyArg_ParseTuple_O|]. intros [obj|] _.
  2:{ eapply keeps_bind; [apply keeps_PyErr_SetString|].
      intros _ _. apply keeps_ret. done. }
  eapply keeps_bind; [apply keeps_PyArray_FROM_OTF|]. intros [arr|] _.
  2:{ eapply keeps_bind; [apply keeps_PyErr_SetString|].
      intros _ _. apply keeps_ret. done. }
  eapply keeps_bind; [apply keeps_array_at|]. intros a _.
  destruct (_ && _).
  { eapply keeps_bind; [apply keeps_read_doubles|]. intros input _.
    eapply keeps_bind; [apply keeps_lift|]. intros r _. apply keeps_ret. done. }
  destruct (_ && _).
  - eapply keeps_bind; [apply (keeps_allocOutputArr numOutput), Hal|].
    intros resultObj Hlocs.
    eapply keeps_bind; [apply (keeps_batch_loop numArgs numOutput); done|].
    intros _ _. apply keeps_ret. done.
  - eapply keeps_bind; [apply keeps_PyErr_SetString|].
    intros _ _. apply keeps_ret. done.
Qed.

End Frame.

Section Claims.
Variable heap_garbage : loc -> nat -> float.
Variable stack_garbage : nat -> float.
Implicit Types (a : PyArrayObject) (s : PyState).

Local Abbreviation callAnyFunctionOnArray :=
  (py_wrapper.callAnyFunctionOnArray heap_garbage stack_garbage).
Local Abbreviation result_on_entry := (observe_py.result_on_entry stack_garbage).

Lemma input_row_length (n N : nat) a i :
  length (PyArray_DATA a) = (N * n)%nat -> (i < N)%nat ->
  length (input_row n a i) = n.
Proof.
  intros Hlen Hi. unfold input_row. rewrite length_take, length_drop. nia.
Qed.

Lemma input_rows_lookup (n N : nat) a i :
  (i < N)%nat -> input_rows n a N !! i = Some (input_row n a i).
Proof.
  intros Hi. unfold input_rows. rewrite list_lookup_fmap.
  rewrite lookup_seq_lt by exact Hi. reflexivity.
Qed.

Lemma result_on_entry_length numOutput :
  length (result_on_entry numOutput) = outputLength numOutput.
Proof. unfold observe_py.result_on_entry. rewrite length_map, length_seq. reflexivity. Qed.

(** A batch on whose rows the computation returns, one call after the
    other on the same [result]: the call returns the output arrays, of
    as many rows as the input has and as wide as the output descriptor
    says, and row [i] of them holds the slices of what call [i] left in
    [result]. *)
Lemma batch_rows numArgs numOutput call obj a (N : nat) (fnc : anyFunction) s rs :
  callAnyFunctionOnArray numArgs numOutput = Some call ->
  array_of (heap s) obj = Some a ->
  PyArray_DIMS a = [Z.of_nat N; INPUT_VALUE_int numArgs] ->
  length (PyArray_DATA a) = (N * inputLength numArgs)%nat ->
  Forall (fun w => Z.of_nat N * w <= INT_MAX) (output_widths numOutput) ->
  results_of fnc (input_rows (inputLength numArgs) a N) (result_on_entry numOutput)
    = (rs, Done tt) ->
  exists resultObj bufs s',
    call [obj] fnc s = (Done (Some resultObj), s') /\
    output_bufs numOutput resultObj = Some bufs /\
    length rs = N /\
    Forall (fun b => exists a',
              heap s' !! buf_array b = Some a' /\
              PyArray_DIMS a' = output_dims numOutput (Z.of_nat N) (buf_width b) /\
              length (PyArray_DATA a') = (N * buf_width b)%nat) bufs /\
    forall i r, rs !! i = Some r ->
      output_row (heap s') resultObj i =
      concat (map (fun b => slice (buf_start b) (buf_width b) r) bufs).
Proof.
  intros Hcall Harr Hdims Hlen Hint Hresults.
  destruct (path_2d heap_garbage stack_garbage numArgs numOutput call obj a N fnc s
              Hcall Harr Hdims Hlen Hint)
    as (la & s1 & resultObj & bufs & s3 & Hfrom & Hbufs & Hnodup & Hfresh &
        Hwidths & Hrun & Herr & Hother & Hcontent).
  pose proof (results_of_length fnc (input_rows (inputLength numArgs) a N)
                (result_on_entry numOutput)) as Hlength.
  rewrite Hresults in Hrun, Hcontent, Hlength.
  cbn [fst snd] in Hrun, Hcontent, Hlength.
  specialize (Hlength eq_refl).
  unfold input_rows in Hlength. rewrite length_map, length_seq in Hlength.
  exists resultObj, bufs, s3.
  split; [exact Hrun|]. split; [exact Hbufs|]. split; [exact Hlength|]. split.
  - rewrite Forall_forall in Hcontent. apply Forall_forall. intros b Hb.
    eexists. split; [apply (Hcontent b Hb)|]. cbn [PyArray_DIMS PyArray_DATA].
    split; [reflexivity|].
    rewrite length_app, concat_slices_length, length_drop.
    rewrite (new_double_array_length heap_garbage (buf_array b) numOutput N).
    + lia.
    + rewrite <- Hwidths. apply (in_map (fun b => Z.of_nat (buf_width b))).
      apply list_elem_of_In, Hb.
  - intros i r Hr.
    eapply (output_row_spec numOutput resultObj bufs (heap s3) (Z.of_nat N));
      [exact Hbufs|exact Hwidths|exact Hcontent|exact Hr].
Qed.

(** A batch, for a computation that is settled by its input and returns
    on every row: the call returns the output arrays, of as many rows as
    the input has, and row [i] of them, read end to end, is what the
    computation on row [i] leaves in a [result] that is as it was on
    entry. *)
Lemma batch_of_settled numArgs numOutput call obj a (N : nat) (fnc : anyFunction) s :
  callAnyFunctionOnArray numArgs numOutput = Some call ->
  array_of (heap s) obj = Some a ->
  PyArray_DIMS a = [Z.of_nat N; INPUT_VALUE_int numArgs] ->
  length (PyArray_DATA a) = (N * inputLength numArgs)%nat ->
  Forall (fun w => Z.of_nat N * w <= INT_MAX) (output_widths numOutput) ->
  settled_by_input (outputLength numOutput) fnc ->
  (forall i, (i < N)%nat ->
     exists r, fnc (input_row (inputLength numArgs) a i)
                 (result_on_entry numOutput) = Done r) ->
  exists resultObj bufs s',
    call [obj] fnc s = (Done (Some resultObj), s') /\
    output_bufs numOutput resultObj = Some bufs /\
    Forall (fun b => exists a',
              heap s' !! buf_array b = Some a' /\
              PyArray_DIMS a' = output_dims numOutput (Z.of_nat N) (buf_width b) /\
              length (PyArray_DATA a') = (N * buf_width b)%nat) bufs /\
    forall i, (i < N)%nat ->
      exists r,
        fnc (input_row (inputLength numArgs) a i) (result_on_entry numOutput)
          = Done r /\
        length r = outputLength numOutput /\
        output_row (heap s') resultObj i = r.
Proof.
  intros Hcall Harr Hdims Hlen Hint Hsettled Hret.
  destruct (results_of_settled (outputLength numOutput) fnc
              (result_on_entry numOutput)
              (input_rows (inputLength numArgs) a N) Hsettled
              (result_on_entry_length numOutput)) with (result := result_on_entry numOutput)
    as [Hdone Hrows].
  { intros input Hin. apply list_elem_of_lookup in Hin as [i Hi].
    assert (Hi' : (i < N)%nat).
    { apply lookup_lt_Some in Hi. unfold input_rows in Hi.
      rewrite length_map, length_seq in Hi. exact Hi. }
    rewrite input_rows_lookup in Hi by exact Hi'. injection Hi as <-.
    apply Hret, Hi'. }
  { apply result_on_entry_length. }
  destruct (results_of fnc (input_rows (inputLength numArgs) a N)
              (result_on_entry numOutput)) as [rs c] eqn:Hresults.
  cbn [fst snd] in Hdone, Hrows. subst c.
  destruct (batch_rows numArgs numOutput call obj a N fnc s rs
              Hcall Harr Hdims Hlen Hint Hresults)
    as (resultObj & bufs & s' & Hrun & Hbufs & Hlength & Hshape & Hrow).
  exists resultObj, bufs, s'.
  split; [exact Hrun|]. split; [exact Hbufs|]. split; [exact Hshape|].
  intros i Hi.
  destruct (Hrows i _ (input_rows_lookup _ N a i Hi)) as (r & Hr & Hlook).
  assert (Hsize : length r = outputLength numOutput).
  { destruct (Hsettled (input_row (inputLength numArgs) a i)
                (result_on_entry numOutput) (result_on_entry numOutput)
                (result_on_entry_length numOutput) (result_on_entry_length numOutput))
      as [_ Hsize].
    apply Hsize, Hr. }
  exists r. split; [exact Hr|]. split; [exact Hsize|].
  rewrite (Hrow i r Hlook).
  apply (slices_whole numOutput resultObj); [exact Hbufs|exact Hsize].
Qed.

(** C1: the dispatcher is called on a 2-d array of [N] rows, each of as
    many doubles as one point has, with a computation that returns on
    every row and that leaves in [result] what the input point alone
    settles.  It returns the output arrays, of [N] rows and of the
    widths of the output descriptor, and for every [i], with [r] what
    the computation on row [i] of the input leaves in [result]: row [i]
    of the output arrays, read end to end, is [r], and the single-point
    call on the flat arguments of row [i] returns [r] formatted, the
    same numbers.  A batch of one row is the case [N = 1].  The number
    of rows is such that every offset into the output arrays is an
    [int]. *)
Theorem batch_rows_are_single_point_results numArgs numOutput call formatTuple'
    obj a (N : nat) (fnc : anyFunction) s :
  callAnyFunctionOnArray numArgs numOutput = Some call ->
  formatTuple numOutput = Some formatTuple' ->
  array_of (heap s) obj = Some a ->
  PyArray_DIMS a = [Z.of_nat N; INPUT_VALUE_int numArgs] ->
  length (PyArray_DATA a) = (N * inputLength numArgs)%nat ->
  Forall (fun w => Z.of_nat N * w <= INT_MAX) (output_widths numOutput) ->
  settled_by_input (outputLength numOutput) fnc ->
  (forall i, (i < N)%nat ->
     exists r, fnc (input_row (inputLength numArgs) a i)
                 (result_on_entry numOutput) = Done r) ->
  exists resultObj bufs s',
    call [obj] fnc s = (Done (Some resultObj), s') /\
    output_bufs numOutput resultObj = Some bufs /\
    Forall (fun b => exists a',
              heap s' !! buf_array b = Some a' /\
              PyArray_DIMS a' = output_dims numOutput (Z.of_nat N) (buf_width b) /\
              length (PyArray_DATA a') = (N * buf_width b)%nat) bufs /\
    forall i, (i < N)%nat ->
      exists r,
        fnc (input_row (inputLength numArgs) a i) (result_on_entry numOutput)
          = Done r /\
        output_row (heap s') resultObj i = r /\
        call (map PyFloat (input_row (inputLength numArgs) a i)) fnc s =
          (Done (Some (formatTuple' r)), s) /\
        tuple_values (formatTuple' r) = r.
Proof.
  intros Hcall HfT Harr Hdims Hlen Hint Hsettled Hret.
  destruct (batch_of_settled numArgs numOutput call obj a N fnc s
              Hcall Harr Hdims Hlen Hint Hsettled Hret)
    as (resultObj & bufs & s' & Hrun & Hbufs & Hshape & Hrows).
  exists resultObj, bufs, s'.
  split; [exact Hrun|]. split; [exact Hbufs|]. split; [exact Hshape|].
  intros i Hi.
  destruct (Hrows i Hi) as (r & Hr & Hsize & Hrow).
  exists r. split; [exact Hr|]. split; [exact Hrow|]. split.
  - rewrite (path_flat heap_garbage stack_garbage numArgs numOutput call formatTuple'
               _ (input_row (inputLength numArgs) a i) fnc s Hcall HfT).
    + unfold single_point. rewrite Hr. reflexivity.
    + apply PyArg_ParseTuple_d_floats.
      apply (input_row_length _ N); done.
  - rewrite (tuple_values_format numOutput formatTuple' resultObj bufs r HfT Hbufs).
    apply (slices_whole numOutput resultObj); [exact Hbufs|exact Hsize].
Qed.

(** C10: a 2-d array of no rows, each of as many doubles as one point
    has, is accepted: the call returns the output arrays, which hold no
    data, and the same state and arrays whatever the computation is, so
    that the computation is not called. *)
Theorem empty_batch_returns_empty_arrays numArgs numOutput call obj a
    (fnc : anyFunction) s :
  callAnyFunctionOnArray numArgs numOutput = Some call ->
  array_of (heap s) obj = Some a ->
  PyArray_DIMS a = [0; INPUT_VALUE_int numArgs] ->
  exists resultObj bufs s',
    call [obj] fnc s = (Done (Some resultObj), s') /\
    error s' = None /\
    output_bufs numOutput resultObj = Some bufs /\
    Forall (fun b => heap s' !! buf_array b =
                     Some {| PyArray_DIMS := output_dims numOutput 0 (buf_width b);
                             PyArray_DATA := [] |}) bufs /\
    forall fnc' : anyFunction, call [obj] fnc' s = call [obj] fnc s.
Proof.
  intros Hcall Harr Hdims.
  destruct (path_2d_empty heap_garbage stack_garbage numArgs numOutput call obj a
              fnc s Hcall Harr Hdims)
    as (la & s1 & alloc' & Hfrom & Herr & Halloc & Hrun).
  destruct (allocOutputArr_spec heap_garbage numOutput alloc' 0 s1 Halloc)
    as (resultObj & bufs & s2 & Hrun2 & Hbufs & Hnodup & Hfresh & Hframe2 &
        Herr2 & Hwidths & Hnew).
  change (Z.of_nat 0) with 0 in Hrun2, Hnew. rewrite Hrun2 in Hrun.
  exists resultObj, bufs, s2.
  split; [exact Hrun|]. split; [congruence|]. split; [exact Hbufs|]. split.
  - eapply Forall_impl; [exact Hnew|]. intros b ->. f_equal.
    unfold new_double_array. f_equal.
    destruct numOutput; reflexivity.
  - intros fnc'.
    destruct (path_2d_empty heap_garbage stack_garbage numArgs numOutput call obj a
                fnc' s Hcall Harr Hdims)
      as (la' & s1' & alloc'' & Hfrom' & _ & Halloc' & Hrun').
    rewrite Hfrom in Hfrom'. injection Hfrom' as <- <-.
    rewrite Halloc in Halloc'. injection Halloc' as <-.
    rewrite Hrun', Hrun2. symmetry. exact Hrun.
Qed.

(** C6: when the computation throws, on the single point or on some row
    of a batch, the call returns [NULL] with [ValueError] set to the text
    of the exception: no object is returned, and so none of the output
    arrays into which earlier rows were stored. *)
Theorem exception_aborts_call numArgs numOutput call (fnc : anyFunction) s :
  callAnyFunctionOnArray numArgs numOutput = Some call ->
  (forall input w,
     length input = inputLength numArgs ->
     fnc input (result_on_entry numOutput) = Thrown w ->
     call (map PyFloat input) fnc s =
     (Done None,
      {| heap := heap s;
         error := Some (PyExc_ValueError, "Exception occured: " +:+ w) |})) /\
  (forall obj a w,
     array_of (heap s) obj = Some a ->
     PyArray_DIMS a = [INPUT_VALUE_int numArgs] ->
     length (PyArray_DATA a) = inputLength numArgs ->
     fnc (PyArray_DATA a) (result_on_entry numOutput) = Thrown w ->
     exists s',
       call [obj] fnc s = (Done None, s') /\
       error s' = Some (PyExc_ValueError, "Exception occured: " +:+ w)) /\
  (forall obj a (N : nat) rs w,
     array_of (heap s) obj = Some a ->
     PyArray_DIMS a = [Z.of_nat N; INPUT_VALUE_int numArgs] ->
     length (PyArray_DATA a) = (N * inputLength numArgs)%nat ->
     Forall (fun w => Z.of_nat N * w <= INT_MAX) (output_widths numOutput) ->
     results_of fnc (input_rows (inputLength numArgs) a N)
       (result_on_entry numOutput) = (rs, Thrown w) ->
     exists s',
       call [obj] fnc s = (Done None, s') /\
       error s' = Some (PyExc_ValueError, "Exception occured: " +:+ w)).
Proof.
  intros Hcall.
  destruct (call_unfold _ _ _ _ _ Hcall)
    as (p & eD & eI & fT & al & fO & Hp & HeD & HeI & HfT & Hal & HfO & _).
  split; [|split].
  - intros input w Hlen Hthrow.
    rewrite (path_flat heap_garbage stack_garbage numArgs numOutput call fT
               _ input fnc s Hcall HfT (PyArg_ParseTuple_d_floats _ _ _ Hlen)).
    unfold single_point. rewrite Hthrow. reflexivity.
  - intros obj a w Harr Hdims Hlen Hthrow.
    destruct (path_1d heap_garbage stack_garbage numArgs numOutput call fT obj a fnc s
                Hcall HfT Harr Hdims Hlen) as (la & s1 & _ & ->).
    unfold single_point. rewrite Hthrow. eexists. split; reflexivity.
  - intros obj a N rs w Harr Hdims Hlen Hint Hresults.
    destruct (path_2d heap_garbage stack_garbage numArgs numOutput call obj a N fnc s
                Hcall Harr Hdims Hlen Hint)
      as (la & s1 & resultObj & bufs & s3 & _ & _ & _ & _ & _ & Hrun & _).
    rewrite Hresults in Hrun. cbn [snd] in Hrun.
    eexists. split; [exact Hrun|reflexivity].
Qed.

(** C5: for the output of a triplet and a sextet, a batch call whose
    computation returns on every row returns a tuple of two distinct
    arrays, of [N] rows of 3 and [N] rows of 6; row [i] of the first
    holds the first three and row [i] of the second the last six of the
    nine values that the call on row [i] left in [result].  A
    single-point call returns a tuple of two tuples, of the first three
    and of the last six values. *)
Theorem triplet_and_sextet_outputs numArgs call (fnc : anyFunction) s :
  callAnyFunctionOnArray numArgs OUTPUT_VALUE_TRIPLET_AND_SEXTET = Some call ->
  (forall obj a (N : nat) rs,
     array_of (heap s) obj = Some a ->
     PyArray_DIMS a = [Z.of_nat N; INPUT_VALUE_int numArgs] ->
     length (PyArray_DATA a) = (N * inputLength numArgs)%nat ->
     Z.of_nat N * 6 <= INT_MAX ->
     results_of fnc (input_rows (inputLength numArgs) a N)
       (result_on_entry OUTPUT_VALUE_TRIPLET_AND_SEXTET) = (rs, Done tt) ->
     exists l1 l2 a1 a2 s',
       call [obj] fnc s = (Done (Some (PyTuple [PyArray l1; PyArray l2])), s') /\
       l1 <> l2 /\
       heap s' !! l1 = Some a1 /\ heap s' !! l2 = Some a2 /\
       PyArray_DIMS a1 = [Z.of_nat N; 3] /\ PyArray_DIMS a2 = [Z.of_nat N; 6] /\
       length (PyArray_DATA a1) = (N * 3)%nat /\
       length (PyArray_DATA a2) = (N * 6)%nat /\
       forall i r, rs !! i = Some r ->
         array_row a1 i = [at_index r 0; at_index r 1; at_index r 2] /\
         array_row a2 i = [at_index r 3; at_index r 4; at_index r 5;
                           at_index r 6; at_index r 7; at_index r 8]) /\
  (forall input r,
     length input = inputLength numArgs ->
     fnc input (result_on_entry OUTPUT_VALUE_TRIPLET_AND_SEXTET) = Done r ->
     call (map PyFloat input) fnc s =
     (Done (Some (PyTuple
                    [PyTuple [PyFloat (at_index r 0); PyFloat (at_index r 1);
                              PyFloat (at_index r 2)];
                     PyTuple [PyFloat (at_index r 3); PyFloat (at_index r 4);
                              PyFloat (at_index r 5); PyFloat (at_index r 6);
                              PyFloat (at_index r 7); PyFloat (at_index r 8)]])),
      s)).
Proof.
  intros Hcall. split.
  - intros obj a N rs Harr Hdims Hlen Hint Hresults.
    destruct (path_2d heap_garbage stack_garbage numArgs
                OUTPUT_VALUE_TRIPLET_AND_SEXTET call obj a N fnc s
                Hcall Harr Hdims Hlen)
      as (la & s1 & resultObj & bufs & s3 & Hfrom & Hbufs & Hnodup & Hfresh &
          Hwidths & Hrun & Herr & Hother & Hcontent).
    { cbn. repeat constructor; lia. }
    pose proof (results_of_length fnc (input_rows (inputLength numArgs) a N)
                  (result_on_entry OUTPUT_VALUE_TRIPLET_AND_SEXTET)) as Hlength.
    rewrite Hresults in Hrun, Hcontent, Hlength.
    cbn [fst snd] in Hrun, Hcontent, Hlength.
    specialize (Hlength eq_refl).
    unfold input_rows in Hlength. rewrite length_map, length_seq in Hlength.
    destruct resultObj as [|[|[| |l1|] [|[| |l2|] [|]]]| |]; try discriminate Hbufs.
    injection Hbufs as <-.
    apply Forall_cons in Hcontent as [Hl1 Hcontent].
    apply Forall_cons in Hcontent as [Hl2 _].
    cbn [buf_array buf_width buf_start] in Hl1, Hl2.
    apply NoDup_cons in Hnodup as [Hne _].
    eexists l1, l2, _, _, s3.
    split; [exact Hrun|]. split; [intros ->; apply Hne; left|].
    split; [exact Hl1|]. split; [exact Hl2|].
    cbn [PyArray_DIMS PyArray_DATA].
    split; [reflexivity|]. split; [reflexivity|].
    split.
    { rewrite length_app, concat_slices_length, length_drop.
      rewrite (new_double_array_length heap_garbage l1
                 OUTPUT_VALUE_TRIPLET_AND_SEXTET N 3) by (left; reflexivity). lia. }
    split.
    { rewrite length_app, concat_slices_length, length_drop.
      rewrite (new_double_array_length heap_garbage l2
                 OUTPUT_VALUE_TRIPLET_AND_SEXTET N 6) by (right; left; reflexivity).
      lia. }
    intros i r Hi. unfold array_row, row_width.
    cbn [PyArray_DIMS PyArray_DATA tail foldr].
    split.
    + change (Z.to_nat (3 * 1)) with 3%nat.
      rewrite (take_drop_concat_slices 0 3 rs _ i r Hi). reflexivity.
    + change (Z.to_nat (6 * 1)) with 6%nat.
      rewrite (take_drop_concat_slices 3 6 rs _ i r Hi). reflexivity.
  - intros input r Hlen Hdone.
    rewrite (path_flat heap_garbage stack_garbage numArgs
               OUTPUT_VALUE_TRIPLET_AND_SEXTET call _
               _ input fnc s Hcall eq_refl (PyArg_ParseTuple_d_floats _ _ _ Hlen)).
    unfold single_point. rewrite Hdone. reflexivity.
Qed.

(** C3: how the dispatcher treats its arguments.  Exactly as many
    numbers as one point has, or an object that converts to a 1-d array
    of that length, is one point, and the formatted result of the
    computation on it is returned.  An object that converts to a 2-d
    array whose second dimension is that length is as many points as the
    first dimension, when the computation returns on each of them in
    turn: the returned arrays have that many rows and the widths of the
    output descriptor, and row [i] holds, formatted, what the
    computation on row [i] of the input left in [result], which it
    found as the call on the row before had left it.  An object that converts to an array of any other shape
    makes the call return [NULL] with [ValueError] set to the message of
    [errStrInvalidArrayDim], which names the length of a point, and no
    array other than the converted input is created or changed. *)
Theorem dispatch_by_shape numArgs numOutput call formatTuple' errDim
    (fnc : anyFunction) s :
  callAnyFunctionOnArray numArgs numOutput = Some call ->
  formatTuple numOutput = Some formatTuple' ->
  errStrInvalidArrayDim numArgs = Some errDim ->
  (forall input r,
     length input = inputLength numArgs ->
     fnc input (result_on_entry numOutput) = Done r ->
     call (map PyFloat input) fnc s = (Done (Some (formatTuple' r)), s)) /\
  (forall obj a r,
     array_of (heap s) obj = Some a ->
     PyArray_DIMS a = [INPUT_VALUE_int numArgs] ->
     length (PyArray_DATA a) = inputLength numArgs ->
     fnc (PyArray_DATA a) (result_on_entry numOutput) = Done r ->
     exists s', call [obj] fnc s = (Done (Some (formatTuple' r)), s')) /\
  (forall obj a (N : nat) rs,
     array_of (heap s) obj = Some a ->
     PyArray_DIMS a = [Z.of_nat N; INPUT_VALUE_int numArgs] ->
     length (PyArray_DATA a) = (N * inputLength numArgs)%nat ->
     Forall (fun w => Z.of_nat N * w <= INT_MAX) (output_widths numOutput) ->
     results_of fnc (input_rows (inputLength numArgs) a N)
       (result_on_entry numOutput) = (rs, Done tt) ->
     exists resultObj bufs s',
       call [obj] fnc s = (Done (Some resultObj), s') /\
       output_bufs numOutput resultObj = Some bufs /\
       length rs = N /\
       Forall (fun b => exists a',
                 heap s' !! buf_array b = Some a' /\
                 PyArray_DIM a' 0 = Z.of_nat N /\
                 PyArray_DIMS a' = output_dims numOutput (Z.of_nat N) (buf_width b) /\
                 length (PyArray_DATA a') = (N * buf_width b)%nat) bufs /\
       forall i, (i < N)%nat ->
         exists prev r,
           (result_on_entry numOutput :: rs) !! i = Some prev /\
           rs !! i = Some r /\
           fnc (input_row (inputLength numArgs) a i) prev = Done r /\
           output_row (heap s') resultObj i = tuple_values (formatTuple' r)) /\
  (forall obj a,
     array_of (heap s) obj = Some a ->
     PyArray_DIMS a <> [INPUT_VALUE_int numArgs] ->
     (forall N, PyArray_DIMS a <> [N; INPUT_VALUE_int numArgs]) ->
     exists la s',
       call [obj] fnc s = (Done None, s') /\
       error s' = Some (PyExc_ValueError, errDim) /\
       errDim = "Input does not contain valid Nx" +:+
                pretty (INPUT_VALUE_int numArgs) +:+ " array" /\
       heap s' !! la = Some a /\
       forall l, l <> la -> heap s' !! l = heap s !! l).
Proof.
  intros Hcall HfT HeD. split; [|split; [|split]].
  - intros input r Hlen Hdone.
    rewrite (path_flat heap_garbage stack_garbage numArgs numOutput call formatTuple'
               _ input fnc s Hcall HfT (PyArg_ParseTuple_d_floats _ _ _ Hlen)).
    unfold single_point. rewrite Hdone. reflexivity.
  - intros obj a r Harr Hdims Hlen Hdone.
    destruct (path_1d heap_garbage stack_garbage numArgs numOutput call formatTuple'
                obj a fnc s Hcall HfT Harr Hdims Hlen) as (la & s1 & _ & ->).
    unfold single_point. rewrite Hdone. eexists. reflexivity.
  - intros obj a N rs Harr Hdims Hlen Hint Hresults.
    destruct (batch_rows numArgs numOutput call obj a N fnc s rs
                Hcall Harr Hdims Hlen Hint Hresults)
      as (resultObj & bufs & s' & Hrun & Hbufs & Hlength & Hshape & Hrow).
    exists resultObj, bufs, s'.
    split; [exact Hrun|]. split; [exact Hbufs|]. split; [exact Hlength|]. split.
    + eapply Forall_impl; [exact Hshape|]. intros b (a' & Ha' & Hd & Hl).
      exists a'. split; [exact Ha'|]. split; [|split; [exact Hd|exact Hl]].
      unfold PyArray_DIM. rewrite Hd. destruct numOutput; reflexivity.
    + intros i Hi.
      destruct (lookup_lt_is_Some_2 rs i) as [r Hr]; [lia|].
      destruct (results_of_chain _ _ _ _ _ _ _ Hresults Hr)
        as (input & prev & Hinput & Hprev & Hfnc).
      rewrite input_rows_lookup in Hinput by exact Hi. injection Hinput as <-.
      exists prev, r. split; [exact Hprev|]. split; [exact Hr|].
      split; [exact Hfnc|].
      rewrite (tuple_values_format numOutput formatTuple' resultObj bufs r HfT Hbufs).
      apply Hrow, Hr.
  - intros obj a Harr Hnot1 Hnot2.
    destruct (path_bad_shape heap_garbage stack_garbage numArgs numOutput call errDim
                obj a fnc s Hcall HeD Harr Hnot1 Hnot2) as (la & s1 & Hfrom & ->).
    destruct (PyArray_FROM_OTF_spec obj {| heap := heap s; error := None |} a Harr)
      as (la' & s1' & Hfrom' & Hla & _ & Hother & _).
    rewrite Hfrom in Hfrom'. injection Hfrom' as <- <-.
    exists la. eexists. split; [reflexivity|]. cbn [heap error].
    split; [reflexivity|]. split; [|split; [exact Hla|exact Hother]].
    destruct numArgs; try discriminate HeD; injection HeD as <-; reflexivity.
Qed.

(** C9: whatever the arguments and the computation, every array that
    exists when the dispatcher is called, the input array among them,
    holds after the call what it held before (on a path where the
    behaviour is undefined, at the point where it becomes so). *)
Theorem inputs_not_mutated numArgs numOutput call args (fnc : anyFunction) s c s' :
  callAnyFunctionOnArray numArgs numOutput = Some call ->
  call args fnc s = (c, s') ->
  forall l a, heap s !! l = Some a -> heap s' !! l = Some a.
Proof.
  intros Hcall Hrun l a Hl.
  destruct (keeps_call heap_garbage stack_garbage (heap s) numArgs numOutput call
              args fnc Hcall s c s' ltac:(reflexivity) Hrun) as [Hsub _].
  eapply lookup_weaken; [exact Hl|exact Hsub].
Qed.

End Claims.

Lemma empty_batch_returns_empty_arrays_witness :
  exists resultObj bufs s',
    instance_of INPUT_VALUE_TRIPLET OUTPUT_VALUE_TRIPLET_AND_SEXTET
      [PyArray 5] thrice no_points = (Done (Some resultObj), s') /\
    error s' = None /\
    output_bufs OUTPUT_VALUE_TRIPLET_AND_SEXTET resultObj = Some bufs /\
    Forall (fun b => heap s' !! buf_array b =
                     Some {| PyArray_DIMS :=
                               output_dims OUTPUT_VALUE_TRIPLET_AND_SEXTET 0 (buf_width b);
                             PyArray_DATA := [] |}) bufs /\
    forall fnc' : anyFunction,
      instance_of INPUT_VALUE_TRIPLET OUTPUT_VALUE_TRIPLET_AND_SEXTET
        [PyArray 5] fnc' no_points =
      instance_of INPUT_VALUE_TRIPLET OUTPUT_VALUE_TRIPLET_AND_SEXTET
        [PyArray 5] thrice no_points.
Proof.
  apply (empty_batch_returns_empty_arrays
           (fun _ _ => 0%float) (fun _ => 0%float)
           INPUT_VALUE_TRIPLET OUTPUT_VALUE_TRIPLET_AND_SEXTET
           (instance_of INPUT_VALUE_TRIPLET OUTPUT_VALUE_TRIPLET_AND_SEXTET)
           (PyArray 5) {| PyArray_DIMS := [0; 3]; PyArray_DATA := [] |}
           thrice no_points).
  - reflexivity.
  - reflexivity.
  - reflexivity.
Defined.

Lemma exception_aborts_call_witness :
  instance_of INPUT_VALUE_TRIPLET OUTPUT_VALUE_TRIPLET_AND_SEXTET
    (map PyFloat [4; 5; 6]%float) picky two_points =
    (Done None,
     {| heap := heap two_points;
        error := Some (PyExc_ValueError, "Exception occured: bad point") |}) /\
  exists s',
    instance_of INPUT_VALUE_TRIPLET OUTPUT_VALUE_TRIPLET_AND_SEXTET
      [PyArray 5] picky two_points = (Done None, s') /\
    error s' = Some (PyExc_ValueError, "Exception occured: bad point").
Proof.
  pose proof (exception_aborts_call
                (fun _ _ => 0%float) (fun _ => 0%float)
                INPUT_VALUE_TRIPLET OUTPUT_VALUE_TRIPLET_AND_SEXTET
                (instance_of INPUT_VALUE_TRIPLET OUTPUT_VALUE_TRIPLET_AND_SEXTET)
                picky two_points eq_refl) as (Hflat & _ & Hbatch).
  split.
  - apply (Hflat [4; 5; 6]%float "bad point"); reflexivity.
  - apply (Hbatch (PyArray 5)
             {| PyArray_DIMS := [2; 3]; PyArray_DATA := [1; 2; 3; 4; 5; 6]%float |}
             2%nat [[1; 2; 3; 1; 2; 3; 1; 2; 3]%float] "bad point").
    + reflexivity.
    + reflexivity.
    + reflexivity.
    + repeat constructor; unfold INT_MAX; lia.
    + reflexivity.
Defined.

Lemma triplet_and_sextet_outputs_witness :
  (exists l1 l2 a1 a2 s',
     instance_of INPUT_VALUE_TRIPLET OUTPUT_VALUE_TRIPLET_AND_SEXTET
       [PyArray 5] thrice two_points =
       (Done (Some (PyTuple [PyArray l1; PyArray l2])), s') /\
     l1 <> l2 /\
     heap s' !! l1 = Some a1 /\ heap s' !! l2 = Some a2 /\
     PyArray_DIMS a1 = [2; 3] /\ PyArray_DIMS a2 = [2; 6] /\
     length (PyArray_DATA a1) = 6%nat /\
     length (PyArray_DATA a2) = 12%nat /\
     forall i r,
       [[1; 2; 3; 1; 2; 3; 1; 2; 3]; [4; 5; 6; 4; 5; 6; 4; 5; 6]]%float !! i = Some r ->
       array_row a1 i = [at_index r 0; at_index r 1; at_index r 2] /\
       array_row a2 i = [at_index r 3; at_index r 4; at_index r 5;
                         at_index r 6; at_index r 7; at_index r 8]) /\
  instance_of INPUT_VALUE_TRIPLET OUTPUT_VALUE_TRIPLET_AND_SEXTET
    (map PyFloat [1; 2; 3]%float) thrice two_points =
    (Done (Some (PyTuple [PyTuple [PyFloat 1; PyFloat 2; PyFloat 3];
                          PyTuple [PyFloat 1; PyFloat 2; PyFloat 3;
                                   PyFloat 1; PyFloat 2; PyFloat 3]])),
     two_points).
Proof.
  pose proof (triplet_and_sextet_outputs
                (fun _ _ => 0%float) (fun _ => 0%float)
                INPUT_VALUE_TRIPLET
                (instance_of INPUT_VALUE_TRIPLET OUTPUT_VALUE_TRIPLET_AND_SEXTET)
                thrice two_points eq_refl) as (Hbatch & Hsingle).
  split.
  - apply (Hbatch (PyArray 5)
             {| PyArray_DIMS := [2; 3]; PyArray_DATA := [1; 2; 3; 4; 5; 6]%float |}
             2%nat).
    + reflexivity.
    + reflexivity.
    + reflexivity.
    + unfold INT_MAX; lia.
    + reflexivity.
  - apply (Hsingle [1; 2; 3]%float [1; 2; 3; 1; 2; 3; 1; 2; 3]%float); reflexivity.
Defined.

Lemma dispatch_by_shape_witness :
  instance_of INPUT_VALUE_TRIPLET OUTPUT_VALUE_TRIPLET
    (map PyFloat [1; 2; 3]%float) opposite four_by_four =
    (Done (Some (PyTuple [PyFloat (-1); PyFloat (-2); PyFloat (-3)])), four_by_four) /\
  (exists s',
     instance_of INPUT_VALUE_TRIPLET OUTPUT_VALUE_TRIPLET
       [PyTuple [PyFloat 1; PyFloat 2; PyFloat 3]] opposite four_by_four =
       (Done (Some (PyTuple [PyFloat (-1); PyFloat (-2); PyFloat (-3)])), s')) /\
  (exists resultObj bufs s',
     instance_of INPUT_VALUE_TRIPLET OUTPUT_VALUE_TRIPLET
       [PyArray 5] observe_methods.sum_force two_points = (Done (Some resultObj), s') /\
     output_bufs OUTPUT_VALUE_TRIPLET resultObj = Some bufs /\
     length [[-0.25; -0.5; -0.75]; [-1; -1.25; -1.5]]%float = 2%nat /\
     Forall (fun b => exists a',
               heap s' !! buf_array b = Some a' /\
               PyArray_DIM a' 0 = 2 /\
               PyArray_DIMS a' = output_dims OUTPUT_VALUE_TRIPLET 2 (buf_width b) /\
               length (PyArray_DATA a') = (2 * buf_width b)%nat) bufs /\
     forall i, (i < 2)%nat ->
       exists prev r,
         ([0; 0; 0] :: [[-0.25; -0.5; -0.75]; [-1; -1.25; -1.5]])%float !! i
           = Some prev /\
         [[-0.25; -0.5; -0.75]; [-1; -1.25; -1.5]]%float !! i = Some r /\
         observe_methods.sum_force
           (input_row 3 {| PyArray_DIMS := [2; 3];
                           PyArray_DATA := [1; 2; 3; 4; 5; 6]%float |} i) prev
           = Done r /\
         output_row (heap s') resultObj i =
         tuple_values (PyTuple [PyFloat (at_index r 0); PyFloat (at_index r 1);
                                PyFloat (at_index r 2)])) /\
  (exists la s',
     instance_of INPUT_VALUE_TRIPLET OUTPUT_VALUE_TRIPLET
       [PyArray 5] opposite four_by_four = (Done None, s') /\
     error s' = Some (PyExc_ValueError, "Input does not contain valid Nx3 array") /\
     "Input does not contain valid Nx3 array" =
       "Input does not contain valid Nx" +:+ pretty 3 +:+ " array" /\
     heap s' !! la = heap four_by_four !! 5%positive /\
     forall l, l <> la -> heap s' !! l = heap four_by_four !! l).
Proof.
  pose proof (dispatch_by_shape
                (fun _ _ => 0%float) (fun _ => 0%float)
                INPUT_VALUE_TRIPLET OUTPUT_VALUE_TRIPLET
                (instance_of INPUT_VALUE_TRIPLET OUTPUT_VALUE_TRIPLET)
                _ _ opposite four_by_four eq_refl eq_refl eq_refl)
    as (Hflat & H1d & _ & Hbad).
  pose proof (dispatch_by_shape
                (fun _ _ => 0%float) (fun _ => 0%float)
                INPUT_VALUE_TRIPLET OUTPUT_VALUE_TRIPLET
                (instance_of INPUT_VALUE_TRIPLET OUTPUT_VALUE_TRIPLET)
                _ _ observe_methods.sum_force two_points eq_refl eq_refl eq_refl)
    as (_ & _ & Hbatch & _).
  split; [|split; [|split]].
  - apply (Hflat [1; 2; 3]%float [-1; -2; -3]%float); reflexivity.
  - apply (H1d (PyTuple [PyFloat 1; PyFloat 2; PyFloat 3])
             {| PyArray_DIMS := [3]; PyArray_DATA := [1; 2; 3]%float |}
             [-1; -2; -3]%float); reflexivity.
  - apply (Hbatch (PyArray 5)
             {| PyArray_DIMS := [2; 3]; PyArray_DATA := [1; 2; 3; 4; 5; 6]%float |}
             2%nat [[-0.25; -0.5; -0.75]; [-1; -1.25; -1.5]]%float).
    + reflexivity.
    + reflexivity.
    + reflexivity.
    + repeat constructor. unfold INT_MAX. lia.
    + vm_compute. reflexivity.
  - apply (Hbad (PyArray 5)).
    + reflexivity.
    + discriminate.
    + intros N. discriminate.
Defined.

Lemma inputs_not_mutated_witness :
  heap (instance_of INPUT_VALUE_TRIPLET OUTPUT_VALUE_TRIPLET_AND_SEXTET
          [PyArray 5] picky two_points).2 !! 5%positive =
  Some {| PyArray_DIMS := [2; 3]; PyArray_DATA := [1; 2; 3; 4; 5; 6]%float |}.
Proof.
  apply (inputs_not_mutated
           (fun _ _ => 0%float) (fun _ => 0%float)
           INPUT_VALUE_TRIPLET OUTPUT_VALUE_TRIPLET_AND_SEXTET
           (instance_of INPUT_VALUE_TRIPLET OUTPUT_VALUE_TRIPLET_AND_SEXTET)
           [PyArray 5] picky two_points
           (instance_of INPUT_VALUE_TRIPLET OUTPUT_VALUE_TRIPLET_AND_SEXTET
              [PyArray 5] picky two_points).1).
  - reflexivity.
  - symmetry. apply surjective_pairing.
  - reflexivity.
Defined.

(** *** The dispatcher on the inputs that the specification tests *)

(** One point given as three numbers: the result is what the computation
    leaves in [result], as a tuple. *)
Example single_point_example :
  instance_of INPUT_VALUE_TRIPLET OUTPUT_VALUE_TRIPLET
    [PyFloat 1; PyFloat 2; PyFloat 3] opposite four_by_three =
  (Done (Some (PyTuple [PyFloat (-1); PyFloat (-2); PyFloat (-3)])), four_by_three).
Proof. reflexivity. Qed.

(** A batch of four points: a new array of four rows of three, row [i]
    holding the result for row [i]; the input array is as it was. *)
Example batch_example :
  let out := instance_of INPUT_VALUE_TRIPLET OUTPUT_VALUE_TRIPLET
               [PyArray 5] opposite four_by_three in
  out.1 = Done (Some (PyArray 6)) /\
  heap out.2 !! 6%positive =
    Some {| PyArray_DIMS := [4; 3];
            PyArray_DATA := [-1; -2; -3; -4; -5; -6;
                             -7; -8; -9; -10; -11; -12]%float |} /\
  heap out.2 !! 5%positive = heap four_by_three !! 5%positive /\
  error out.2 = None.
Proof. cbv zeta. repeat split; vm_compute; reflexivity. Qed.

(** The scalar output of a batch is a 1-d array. *)
Example scalar_batch_example :
  let out := instance_of INPUT_VALUE_TRIPLET OUTPUT_VALUE_SINGLE
               [PyArray 5] opposite four_by_three in
  out.1 = Done (Some (PyArray 6)) /\
  heap out.2 !! 6%positive =
    Some {| PyArray_DIMS := [4]; PyArray_DATA := [-1; -4; -7; -10]%float |}.
Proof. cbv zeta. repeat split; vm_compute; reflexivity. Qed.

(** Six numbers per point are not three: an array of four rows of three
    is refused by the instantiation for six. *)
Example wrong_arity_example :
  let out := instance_of INPUT_VALUE_SEXTET OUTPUT_VALUE_TRIPLET
               [PyArray 5] opposite four_by_three in
  out.1 = Done None /\
  error out.2 = Some (PyExc_ValueError, "Input does not contain valid Nx6 array").
Proof. cbv zeta. repeat split; vm_compute; reflexivity. Qed.

(** Arguments that are neither the numbers of one point nor one object. *)
Example bad_arguments_example :
  let out := instance_of INPUT_VALUE_TRIPLET OUTPUT_VALUE_TRIPLET
               [PyFloat 1; PyFloat 2] opposite four_by_three in
  out.1 = Done None /\
  error out.2 =
    Some (PyExc_ValueError,
          "Input does not contain valid data " +:+
          "(either 3 numbers for a single point or a Nx3 array)").
Proof. cbv zeta. repeat split; vm_compute; reflexivity. Qed.

End py_wrapper_facts.

(** * Further properties of particles_base.h *)

Module particles_laws.
Import particles observe particles_facts.

Section Container.
Context {ParticleT : Type}.
Implicit Types (a : PointMassArray ParticleT).

Lemma size_le a : 0 <= size a <= Z.of_nat (length (data a)).
Proof.
  unfold size, to_unsigned.
  pose proof (Z.mod_pos_bound (Z.of_nat (length (data a))) (2 ^ 32) ltac:(lia)).
  pose proof (Z.mod_le (Z.of_nat (length (data a))) (2 ^ 32) ltac:(lia) ltac:(lia)).
  lia.
Qed.

(** Past the range of its counter the loop of [totalMass] never leaves:
    the counter wraps to zero before it can reach the size. *)
Lemma totalMass_loop_wraps a : forall fuel i sum,
  UINT_MAX < Z.of_nat (length (data a)) ->
  0 <= i <= UINT_MAX ->
  totalMass_loop fuel a i sum = None.
Proof.
  induction fuel as [|fuel IH]; intros i sum Hbig Hi; [reflexivity|].
  cbn [totalMass_loop].
  destruct (Z.ltb_spec i (Z.of_nat (length (data a)))) as [Hlt|Hge]; [|lia].
  destruct (lookup_lt_is_Some_2 (data a) (Z.to_nat i)) as [el Hel]; [lia|].
  rewrite Hel. apply IH; [exact Hbig|].
  unfold to_unsigned, UINT_MAX.
  pose proof (Z.mod_pos_bound (i + 1) (2 ^ 32) ltac:(lia)). lia.
Qed.

End Container.

(** X1: appending an element adds its weight to the total: the total
    mass after [add] is the total mass before, plus the new weight, in
    floating point. *)
Theorem totalMass_add {ParticleT : Type} (a : PointMassArray ParticleT)
    (first : ParticleT) (second : float) (fuel : nat) :
  Z.of_nat (length (data a)) < UINT_MAX ->
  (S (length (data a)) < fuel)%nat ->
  exists m,
    totalMass fuel a = Some m /\
    totalMass fuel (add first second a) = Some (PrimFloat.add m second).
Proof.
  intros Hmax Hfuel. exists (sum_of_weights (data a)). split.
  - apply totalMass_enough_fuel; lia.
  - rewrite totalMass_enough_fuel.
    + unfold add, sum_of_weights. cbn [data]. rewrite foldl_app. reflexivity.
    + unfold add. cbn [data]. rewrite length_app. cbn [length]. lia.
    + unfold add. cbn [data]. rewrite length_app. cbn [length]. lia.
Qed.

Lemma totalMass_add_witness :
  exists m,
    totalMass 3 (add (1%float, 2%float, 3%float) 0.5%float empty) = Some m /\
    totalMass 3 (add (4%float, 5%float, 6%float) 2%float
                   (add (1%float, 2%float, 3%float) 0.5%float empty))
      = Some (PrimFloat.add m 2%float).
Proof.
  apply (totalMass_add (add (1%float, 2%float, 3%float) 0.5%float empty)
           (4%float, 5%float, 6%float) 2%float 3).
  - vm_compute. reflexivity.
  - simpl. lia.
Defined.

(** X2: [totalMass] returns exactly on the arrays whose size fits its
    [unsigned int] counter, and what it then returns is the sum of the
    weights in order; on a larger array the loop does not end, however
    many iterations are allowed. *)
Theorem totalMass_returns_iff {ParticleT : Type} (a : PointMassArray ParticleT)
    (m : float) :
  (exists fuel, totalMass fuel a = Some m) <->
  Z.of_nat (length (data a)) <= UINT_MAX /\ m = sum_of_weights (data a).
Proof.
  split.
  - intros [fuel Hrun].
    destruct (Z.le_gt_cases (Z.of_nat (length (data a))) UINT_MAX) as [Hle|Hgt].
    + split; [exact Hle|].
      destruct (Nat.lt_ge_cases (length (data a)) fuel) as [Hfuel|Hfuel].
      * rewrite (totalMass_enough_fuel a fuel Hle Hfuel) in Hrun. congruence.
      * exfalso. revert Hrun. unfold totalMass.
        assert (Hshort : forall fuel i sum,
                  0 <= i -> (Z.to_nat i + fuel <= length (data a))%nat ->
                  totalMass_loop fuel a i sum <> Some m).
        { clear fuel Hfuel. induction fuel as [|fuel IH]; intros i sum Hi Hlen;
            [discriminate|].
          cbn [totalMass_loop].
          destruct (Z.ltb_spec i (Z.of_nat (length (data a)))) as [Hlt|Hge]; [|lia].
          destruct (data a !! Z.to_nat i) as [el|]; [|discriminate].
          rewrite to_unsigned_small by lia. apply IH; lia. }
        apply Hshort; simpl; lia.
    + unfold totalMass in Hrun.
      rewrite totalMass_loop_wraps in Hrun by (unfold UINT_MAX in *; lia).
      discriminate.
  - intros [Hle ->]. exists (S (length (data a))).
    apply totalMass_enough_fuel; [exact Hle|lia].
Qed.

Section Conversion.
Context {OtherParticleT ParticleT : Type} (conv : OtherParticleT -> ParticleT).

(** X3: the converting constructor always returns, and what it builds
    is the first [src.size()] elements of the source, converted, in
    order.  [size()] is the element count as an [unsigned int], so that
    an array of at most [UINT_MAX] elements is converted whole and a
    larger one is cut short. *)
Theorem conversion_copies_size_elements (src : PointMassArray OtherParticleT) :
  PointMassArray_from conv src =
  Done {| data := map (converted conv)
                    (take (Z.to_nat (size src)) (data src)) |}.
Proof.
  unfold PointMassArray_from.
  pose proof (size_le src) as Hsize.
  pose proof (convert_loop_spec conv src (Z.to_nat (size src)) 0 []) as Hloop.
  change (Z.of_nat 0) with 0 in Hloop. rewrite Hloop.
  - rewrite drop_0. reflexivity.
  - lia.
  - assert (0 <= size src <= UINT_MAX)
      by (unfold size, to_unsigned, UINT_MAX;
          pose proof (Z.mod_pos_bound (Z.of_nat (length (data src))) (2 ^ 32)); lia).
    lia.
Qed.

(** X4: conversion commutes with [add]: converting an array to which an
    element was appended gives the converted array with the converted
    element appended, the weight as it was. *)
Theorem conversion_commutes_with_add (src : PointMassArray OtherParticleT)
    (first : OtherParticleT) (second : float) :
  Z.of_nat (length (data src)) < UINT_MAX ->
  exists dst,
    PointMassArray_from conv src = Done dst /\
    PointMassArray_from conv (add first second src) =
    Done (add (conv first) second dst).
Proof.
  intros Hmax. eexists. split.
  - apply PointMassArray_from_spec. lia.
  - rewrite PointMassArray_from_spec.
    + unfold add. cbn [data]. rewrite map_app. reflexivity.
    + unfold add. cbn [data]. rewrite length_app. cbn [length]. lia.
Qed.

End Conversion.

Lemma conversion_commutes_with_add_witness :
  exists dst,
    PointMassArray_from (fun p : float * float => p.1)
      (add (1%float, 2%float) 0.5%float empty) = Done dst /\
    PointMassArray_from (fun p : float * float => p.1)
      (add (3%float, 4%float) 2%float (add (1%float, 2%float) 0.5%float empty)) =
    Done (add 3%float 2%float dst).
Proof.
  apply (conversion_commutes_with_add (fun p : float * float => p.1)
           (add (1%float, 2%float) 0.5%float empty) (3%float, 4%float) 2%float).
  vm_compute. reflexivity.
Defined.

(** X5: converting in two steps is converting once with the composed
    converter: the array built from the array built from [src] is the
    array built from [src] by the composition. *)
Theorem conversion_composes {A B C : Type} (f : A -> B) (g : B -> C)
    (src : PointMassArray A) :
  Z.of_nat (length (data src)) <= UINT_MAX ->
  exists mid,
    PointMassArray_from f src = Done mid /\
    PointMassArray_from g mid = PointMassArray_from (g ∘ f) src.
Proof.
  intros Hmax. eexists. split; [apply PointMassArray_from_spec, Hmax|].
  rewrite !PointMassArray_from_spec; cbn [data]; rewrite ?length_map; try done.
  f_equal. f_equal. rewrite <- list_fmap_compose. reflexivity.
Qed.

Lemma conversion_composes_witness :
  exists mid,
    PointMassArray_from (fun p : float * float => p.1)
      (add (3%float, 4%float) 2%float (add (1%float, 2%float) 0.5%float empty))
      = Done mid /\
    PointMassArray_from PrimFloat.opp mid =
    PointMassArray_from (PrimFloat.opp ∘ (fun p : float * float => p.1))
      (add (3%float, 4%float) 2%float (add (1%float, 2%float) 0.5%float empty)).
Proof.
  apply (conversion_composes (fun p : float * float => p.1) PrimFloat.opp
           (add (3%float, 4%float) 2%float (add (1%float, 2%float) 0.5%float empty))).
  vm_compute. discriminate.
Defined.

(** X27: what [add] appends is read back at the index that was the
    size, by each of the four accessors, when that index is an
    [unsigned int]; the elements before it are read as they were; past
    the new element, up to [UINT_MAX], [at] throws [std::out_of_range],
    where the unchecked accessors [operator[]], [point] and [mass] have
    no defined result; and since the index is converted to
    [unsigned int], an index and that index plus [2^32] read the same. *)
Theorem add_then_read_back {ParticleT : Type} (a : PointMassArray ParticleT)
    (first : ParticleT) (second : float) (index : Z) :
  let n := Z.of_nat (length (data a)) in
  let a' := add first second a in
  (n <= UINT_MAX ->
   at_ n a' = Done (first, second) /\ subscript n a' = Done (first, second) /\
   point n a' = Done first /\ mass n a' = Done second) /\
  (0 <= index < n ->
   at_ index a' = at_ index a /\ subscript index a' = subscript index a /\
   point index a' = point index a /\ mass index a' = mass index a) /\
  (n < index <= UINT_MAX ->
   at_ index a' = Thrown "std::out_of_range" /\ subscript index a' = Undefined /\
   point index a' = Undefined /\ mass index a' = Undefined) /\
  (at_ (index + 2 ^ 32) a' = at_ index a' /\
   subscript (index + 2 ^ 32) a' = subscript index a' /\
   point (index + 2 ^ 32) a' = point index a' /\
   mass (index + 2 ^ 32) a' = mass index a').
Proof.
  cbv zeta. unfold at_, subscript, point, mass, add. cbn [data].
  split; [|split; [|split]].
  - intros Hmax. rewrite to_unsigned_small by lia. rewrite Nat2Z.id.
    rewrite lookup_app_r by lia. rewrite Nat.sub_diag. cbn. done.
  - intros Hindex.
    assert (0 <= to_unsigned index <= index).
    { unfold to_unsigned. split; [apply Z.mod_pos_bound|apply Z.mod_le]; lia. }
    rewrite lookup_app_l by lia. done.
  - intros Hindex. rewrite to_unsigned_small by lia.
    rewrite lookup_ge_None_2 by (rewrite length_app; cbn [length]; lia). done.
  - replace (to_unsigned (index + 2 ^ 32)) with (to_unsigned index); [done|].
    unfold to_unsigned.
    replace (index + 2 ^ 32) with (index + 1 * 2 ^ 32) by lia.
    symmetry. apply Z_mod_plus_full.
Qed.

Lemma add_then_read_back_witness :
  let a := add (1%float, 2%float, 3%float) 0.5%float empty in
  let a' := add (4%float, 5%float, 6%float) 2%float a in
  (at_ 1 a' = Done ((4%float, 5%float, 6%float), 2%float) /\
   point 1 a' = Done (4%float, 5%float, 6%float) /\ mass 1 a' = Done 2%float) /\
  (at_ 0 a' = at_ 0 a /\ mass 0 a' = Done 0.5%float) /\
  (at_ 2 a' = Thrown "std::out_of_range" /\ mass 2 a' = Undefined) /\
  (at_ 4294967296 a' = Done ((1%float, 2%float, 3%float), 0.5%float) /\
   at_ (-1) a' = Thrown "std::out_of_range").
Proof.
  cbv zeta.
  pose proof (add_then_read_back (add (1%float, 2%float, 3%float) 0.5%float empty)
                (4%float, 5%float, 6%float) 2%float 0) as [Hnew [Hold [_ Hwrap]]].
  pose proof (add_then_read_back (add (1%float, 2%float, 3%float) 0.5%float empty)
                (4%float, 5%float, 6%float) 2%float 2) as [_ [_ [Hpast _]]].
  pose proof (add_then_read_back (add (1%float, 2%float, 3%float) 0.5%float empty)
                (4%float, 5%float, 6%float) 2%float (-1)) as [_ [_ [_ Hminus]]].
  pose proof (add_then_read_back (add (1%float, 2%float, 3%float) 0.5%float empty)
                (4%float, 5%float, 6%float) 2%float 4294967295) as [_ [_ [Hlast _]]].
  cbv zeta in Hnew, Hold, Hpast, Hwrap, Hminus, Hlast.
  cbn [length data add app] in Hnew, Hold, Hpast, Hlast.
  destruct Hnew as (Hat & _ & Hpoint & Hmass); [vm_compute; discriminate|].
  destruct Hold as (Hat0 & _ & _ & Hmass0);
    [vm_compute; split; [discriminate|reflexivity]|].
  destruct Hpast as (Hat2 & _ & _ & Hmass2);
    [vm_compute; split; [reflexivity|discriminate]|].
  destruct Hlast as (Hatlast & _);
    [vm_compute; split; [reflexivity|discriminate]|].
  destruct Hwrap as (Hatwrap & _). destruct Hminus as (Hatminus & _).
  split; [|split; [|split]].
  - split; [exact Hat|]. split; [exact Hpoint|exact Hmass].
  - split; [exact Hat0|]. rewrite Hmass0. reflexivity.
  - split; [exact Hat2|exact Hmass2].
  - split.
    + change 4294967296 with (0 + 2 ^ 32). rewrite Hatwrap. reflexivity.
    + rewrite <- Hatminus. change (-1 + 2 ^ 32) with 4294967295. exact Hatlast.
Defined.

End particles_laws.

(** * Properties of the methods that evaluate at points *)

Module py_methods_facts.
Import MachineInt coord cartesian units py_wrapper py_methods.
Import observe observe_py observe_methods py_wrapper_facts.

Section Buffers.

Lemma store_lt k v (result : list float) :
  (k < length result)%nat -> store k v result = Done (<[k := v]> result).
Proof. intros Hk. unfold store. rewrite decide_True by exact Hk. reflexivity. Qed.

End Buffers.

Section Batch.
Variable heap_garbage : loc -> nat -> float.
Variable stack_garbage : nat -> float.

Local Abbreviation callAnyFunctionOnArray :=
  (py_wrapper.callAnyFunctionOnArray heap_garbage stack_garbage).
Local Abbreviation instantiation := (py_methods.instantiation heap_garbage stack_garbage).
Local Abbreviation result_on_entry := (observe_py.result_on_entry stack_garbage).

Lemma instantiation_is_call numArgs numOutput call :
  callAnyFunctionOnArray numArgs numOutput = Some call ->
  instantiation numArgs numOutput = call.
Proof. unfold py_methods.instantiation. intros ->. reflexivity. Qed.


End Batch.

Section Callbacks.
Context `{Library} `{!Cartesian} `{Units} `{math.Math}.
Variable conv : ExternalUnits.

(** Case analysis for a function on a [result] array of known length:
    the arrays are taken apart and every call that the function makes is
    followed into its three outcomes. *)
Ltac sized_result :=
  intros input result result' Hn Hn';
  repeat (destruct result as [|? result]; try discriminate Hn);
  repeat (destruct result' as [|? result']; try discriminate Hn');
  unfold mbind, completion_bind, mret, completion_ret;
  repeat first
    [ rewrite store_lt by (cbn; lia)
    | progress cbv beta iota
    | match goal with
      | |- context [match ?c with Done _ => _ | Thrown _ => _ | Undefined => _ end] =>
          lazymatch c with
          | context [store] => fail
          | _ => destruct c
          end
      | |- context [let (_, _) := ?c in _] => destruct c
      end ];
  (split; [reflexivity|intros r; try discriminate; try (intros [= <-]; reflexivity)]).

Lemma fncPotential_settled obj : settled_by_input 1 (fncPotential conv obj).
Proof. unfold fncPotential. sized_result. Qed.

Lemma fncDensity_settled obj : settled_by_input 1 (fncDensity conv obj).
Proof. unfold fncDensity. sized_result. Qed.

Lemma fncForce_settled obj : settled_by_input 3 (fncForce conv obj).
Proof. unfold fncForce. sized_result. Qed.

Lemma fncForceDeriv_settled obj : settled_by_input 9 (fncForceDeriv conv obj).
Proof. unfold fncForceDeriv. sized_result. Qed.


End Callbacks.

Section Methods.
Context `{Library} `{!Cartesian} `{Units} `{math.Math}.
Variable heap_garbage : loc -> nat -> float.
Variable stack_garbage : nat -> float.
Variable conv : ExternalUnits.

Local Abbreviation method_of := (observe_methods.method_of heap_garbage stack_garbage conv).
Local Abbreviation instantiation := (py_methods.instantiation heap_garbage stack_garbage).
Local Abbreviation ActionFinder_actions :=
  (py_methods.ActionFinder_actions heap_garbage stack_garbage conv).

(** On an object that has a potential, a method is the instantiation of
    the dispatcher for its output, on the function that it names. *)
Lemma method_of_initialised (m : evaluation) (p : potential.BasePotential) args s :
  method_of m (Some {| pot := Some p |}) args s =
  instantiation INPUT_VALUE_TRIPLET (output_of m) args
    (function_of conv m (Some {| pot := Some p |})) s.
Proof. destruct m; reflexivity. Qed.

Lemma method_instantiation_exists (m : evaluation) :
  callAnyFunctionOnArray heap_garbage stack_garbage INPUT_VALUE_TRIPLET (output_of m)
  = Some (instantiation INPUT_VALUE_TRIPLET (output_of m)).
Proof. destruct m; reflexivity. Qed.

Lemma function_of_settled (m : evaluation) obj :
  settled_by_input (outputLength (output_of m)) (function_of conv m obj).
Proof.
  destruct m; cbn [output_of outputLength function_of].
  - apply fncPotential_settled.
  - apply fncPotential_settled.
  - apply fncDensity_settled.
  - apply fncForce_settled.
  - apply fncForceDeriv_settled.
Qed.



Lemma PosCar_point_defined (input : list float) :
  length input = 3%nat -> exists point, PosCar_point conv input = Done point.
Proof.
  intros Hlen.
  do 4 (destruct input as [|? input]; try discriminate Hlen).
  eexists. reflexivity.
Qed.

(** What each function of a potential leaves in a [result] array of the
    length of its output, by the outcome of the potential. *)
Lemma fncPotential_outcome (p : potential.BasePotential) input point
    (result : list float) :
  PosCar_point conv input = Done point ->
  length result = 1%nat ->
  fncPotential conv (Some {| pot := Some p |}) input result =
  match potential.value p point with
  | Done v => Done [(v / math.pow_2 (velocityUnit conv))%float]
  | Thrown w => Thrown w
  | Undefined => Undefined
  end.
Proof.
  intros Hpoint Hlen.
  do 2 (destruct result as [|? result]; try discriminate Hlen).
  unfold fncPotential, pot_of, deref. rewrite Hpoint.
  unfold mbind, completion_bind, mret, completion_ret. cbn [pot].
  destruct (potential.value p point); reflexivity.
Qed.

Lemma fncDensity_outcome (p : potential.BasePotential) input point
    (result : list float) :
  PosCar_point conv input = Done point ->
  length result = 1%nat ->
  fncDensity conv (Some {| pot := Some p |}) input result =
  match potential.density p point with
  | Done v => Done [(v / (massUnit conv / math.pow_2 (lengthUnit conv)))%float]
  | Thrown w => Thrown w
  | Undefined => Undefined
  end.
Proof.
  intros Hpoint Hlen.
  do 2 (destruct result as [|? result]; try discriminate Hlen).
  unfold fncDensity, pot_of, deref. rewrite Hpoint.
  unfold mbind, completion_bind, mret, completion_ret. cbn [pot].
  destruct (potential.density p point); reflexivity.
Qed.

Lemma fncForce_outcome (p : potential.BasePotential) input point
    (result : list float) :
  PosCar_point conv input = Done point ->
  length result = 3%nat ->
  fncForce conv (Some {| pot := Some p |}) input result =
  match potential.eval_grad p point with
  | Done grad =>
      Done [ (- dx grad * (1 / (velocityUnit conv / timeUnit conv)));
             (- dy grad * (1 / (velocityUnit conv / timeUnit conv)));
             (- dz grad * (1 / (velocityUnit conv / timeUnit conv))) ]%float
  | Thrown w => Thrown w
  | Undefined => Undefined
  end.
Proof.
  intros Hpoint Hlen.
  do 4 (destruct result as [|? result]; try discriminate Hlen).
  unfold fncForce, pot_of, deref. rewrite Hpoint.
  unfold mbind, completion_bind, mret, completion_ret. cbn [pot].
  destruct (potential.eval_grad p point); reflexivity.
Qed.

Lemma fncForceDeriv_outcome (p : potential.BasePotential) input point
    (result : list float) :
  PosCar_point conv input = Done point ->
  length result = 9%nat ->
  fncForceDeriv conv (Some {| pot := Some p |}) input result =
  match potential.eval_grad_hess p point with
  | Done (grad, hess) =>
      Done [ (- dx grad * (1 / (velocityUnit conv / timeUnit conv)));
             (- dy grad * (1 / (velocityUnit conv / timeUnit conv)));
             (- dz grad * (1 / (velocityUnit conv / timeUnit conv)));
             (- dx2 hess * (1 / (velocityUnit conv / math.pow_2 (timeUnit conv))));
             (- dy2 hess * (1 / (velocityUnit conv / math.pow_2 (timeUnit conv))));
             (- dz2 hess * (1 / (velocityUnit conv / math.pow_2 (timeUnit conv))));
             (- dxdy hess * (1 / (velocityUnit conv / math.pow_2 (timeUnit conv))));
             (- dydz hess * (1 / (velocityUnit conv / math.pow_2 (timeUnit conv))));
             (- dxdz hess * (1 / (velocityUnit conv / math.pow_2 (timeUnit conv))))
           ]%float
  | Thrown w => Thrown w
  | Undefined => Undefined
  end.
Proof.
  intros Hpoint Hlen.
  do 10 (destruct result as [|? result]; try discriminate Hlen).
  unfold fncForceDeriv, pot_of, deref. rewrite Hpoint.
  unfold mbind, completion_bind, mret, completion_ret. cbn [pot].
  destruct (potential.eval_grad_hess p point) as [[grad hess]| |]; reflexivity.
Qed.

(** X6: a method of an initialised [Potential] that is given an array of
    [N] points, at each of which the potential returns what the method
    asks of it, returns output arrays of [N] rows and of the widths of
    the method's output, and row [i] holds what the potential gives at
    point [i], the point and the values converted between the caller's
    units and the library's: for [potential] and the call operator the
    value over the square of the velocity unit; for [density] the
    density over the unit of mass per square of the unit of length, as
    the code has it; for [force] minus the gradient times the inverse
    of the unit of velocity per time; for [force_deriv] that force and,
    in a second array, minus the six second derivatives times the
    inverse of the unit of velocity per square of time.  The function
    that each method passes to the dispatcher leaves in [result] what
    the input point alone settles.  The number of rows is such that
    every offset into the output arrays is an [int]. *)
Theorem Potential_methods_batch_pointwise (m : evaluation)
    (p : potential.BasePotential) obj a (N : nat) s :
  array_of (heap s) obj = Some a ->
  PyArray_DIMS a = [Z.of_nat N; 3] ->
  length (PyArray_DATA a) = (N * 3)%nat ->
  Forall (fun w => Z.of_nat N * w <= INT_MAX) (output_widths (output_of m)) ->
  (forall i point, (i < N)%nat ->
     PosCar_point conv (input_row 3 a i) = Done point ->
     match m with
     | by_potential | by_value => exists v, potential.value p point = Done v
     | by_density => exists v, potential.density p point = Done v
     | by_force => exists grad, potential.eval_grad p point = Done grad
     | by_force_deriv => exists gh, potential.eval_grad_hess p point = Done gh
     end) ->
  settled_by_input (outputLength (output_of m))
    (function_of conv m (Some {| pot := Some p |})) /\
  exists resultObj bufs s',
    method_of m (Some {| pot := Some p |}) [obj] s = (Done (Some resultObj), s') /\
    output_bufs (output_of m) resultObj = Some bufs /\
    Forall (fun b => exists a',
              heap s' !! buf_array b = Some a' /\
              PyArray_DIMS a' = output_dims (output_of m) (Z.of_nat N) (buf_width b) /\
              length (PyArray_DATA a') = (N * buf_width b)%nat) bufs /\
    forall i, (i < N)%nat ->
      exists point,
        PosCar_point conv (input_row 3 a i) = Done point /\
        match m with
        | by_potential | by_value =>
            exists v,
              potential.value p point = Done v /\
              output_row (heap s') resultObj i =
              [ (v / math.pow_2 (velocityUnit conv))%float ]
        | by_density =>
            exists v,
              potential.density p point = Done v /\
              output_row (heap s') resultObj i =
              [ (v / (massUnit conv / math.pow_2 (lengthUnit conv)))%float ]
        | by_force =>
            exists grad,
              potential.eval_grad p point = Done grad /\
              output_row (heap s') resultObj i =
              [ (- dx grad * (1 / (velocityUnit conv / timeUnit conv)));
                (- dy grad * (1 / (velocityUnit conv / timeUnit conv)));
                (- dz grad * (1 / (velocityUnit conv / timeUnit conv))) ]%float
        | by_force_deriv =>
            exists grad hess,
              potential.eval_grad_hess p point = Done (grad, hess) /\
              output_row (heap s') resultObj i =
              [ (- dx grad * (1 / (velocityUnit conv / timeUnit conv)));
                (- dy grad * (1 / (velocityUnit conv / timeUnit conv)));
                (- dz grad * (1 / (velocityUnit conv / timeUnit conv)));
                (- dx2 hess * (1 / (velocityUnit conv / math.pow_2 (timeUnit conv))));
                (- dy2 hess * (1 / (velocityUnit conv / math.pow_2 (timeUnit conv))));
                (- dz2 hess * (1 / (velocityUnit conv / math.pow_2 (timeUnit conv))));
                (- dxdy hess * (1 / (velocityUnit conv / math.pow_2 (timeUnit conv))));
                (- dydz hess * (1 / (velocityUnit conv / math.pow_2 (timeUnit conv))));
                (- dxdz hess * (1 / (velocityUnit conv / math.pow_2 (timeUnit conv))))
              ]%float
        end.
Proof.
  intros Harr Hdims Hlen Hint Hdefined.
  split; [apply function_of_settled|].
  set (self := Some {| pot := Some p |}).
  assert (Hpoint : forall i, (i < N)%nat ->
            exists point, PosCar_point conv (input_row 3 a i) = Done point).
  { intros i Hi. apply PosCar_point_defined, (input_row_length 3 N); done. }
  destruct (batch_of_settled heap_garbage stack_garbage
              INPUT_VALUE_TRIPLET (output_of m)
              (instantiation INPUT_VALUE_TRIPLET (output_of m))
              obj a N (function_of conv m self) s
              (method_instantiation_exists m) Harr Hdims Hlen Hint
              (function_of_settled m self))
    as (resultObj & bufs & s' & Hrun & Hbufs & Hshape & Hrows).
  { intros i Hi. destruct (Hpoint i Hi) as [point Hp].
    specialize (Hdefined i point Hi Hp). unfold self.
    destruct m; cbn [function_of output_of].
    - rewrite (fncPotential_outcome p _ point _ Hp)
        by apply result_on_entry_length.
      destruct Hdefined as [v ->]. eauto.
    - rewrite (fncPotential_outcome p _ point _ Hp)
        by apply result_on_entry_length.
      destruct Hdefined as [v ->]. eauto.
    - rewrite (fncDensity_outcome p _ point _ Hp)
        by apply result_on_entry_length.
      destruct Hdefined as [v ->]. eauto.
    - rewrite (fncForce_outcome p _ point _ Hp)
        by apply result_on_entry_length.
      destruct Hdefined as [grad ->]. eauto.
    - rewrite (fncForceDeriv_outcome p _ point _ Hp)
        by apply result_on_entry_length.
      destruct Hdefined as [[grad hess] ->]. eauto. }
  exists resultObj, bufs, s'.
  split; [unfold self; rewrite method_of_initialised; exact Hrun|].
  split; [exact Hbufs|]. split; [exact Hshape|].
  intros i Hi. destruct (Hpoint i Hi) as [point Hp]. exists point.
  split; [exact Hp|].
  destruct (Hrows i Hi) as (r & Hr & _ & ->).
  specialize (Hdefined i point Hi Hp). unfold self in Hr.
  destruct m; cbn [function_of output_of] in Hr.
  - rewrite (fncPotential_outcome p _ point _ Hp) in Hr
      by apply result_on_entry_length.
    destruct Hdefined as [v Hv]. rewrite Hv in Hr. injection Hr as <-. eauto.
  - rewrite (fncPotential_outcome p _ point _ Hp) in Hr
      by apply result_on_entry_length.
    destruct Hdefined as [v Hv]. rewrite Hv in Hr. injection Hr as <-. eauto.
  - rewrite (fncDensity_outcome p _ point _ Hp) in Hr
      by apply result_on_entry_length.
    destruct Hdefined as [v Hv]. rewrite Hv in Hr. injection Hr as <-. eauto.
  - rewrite (fncForce_outcome p _ point _ Hp) in Hr
      by apply result_on_entry_length.
    destruct Hdefined as [grad Hv]. rewrite Hv in Hr. injection Hr as <-. eauto.
  - rewrite (fncForceDeriv_outcome p _ point _ Hp) in Hr
      by apply result_on_entry_length.
    destruct Hdefined as [[grad hess] Hv]. rewrite Hv in Hr. injection Hr as <-.
    eauto.
Qed.

(** X7: the methods on objects that were not initialised.  A method of
    [Potential] returns [NULL] with [ValueError] set, without a look at
    its arguments, when it is called without an object or on an object
    that has no potential; [ActionFinder_actions] on an object that has
    no action finder returns [NULL] and leaves the error indicator as it
    was. *)
Theorem uninitialised_objects_refuse (m : evaluation) (args : list PyObject)
    (fp : option loc) s :
  method_of m None args s =
    (Done None,
     {| heap := heap s;
        error := Some (PyExc_ValueError,
                       "Should be called as method of Potential object") |}) /\
  method_of m (Some {| pot := None |}) args s =
    (Done None,
     {| heap := heap s;
        error := Some (PyExc_ValueError, "Potential is not initialized properly") |}) /\
  ActionFinder_actions (Some {| finder := None; finder_pot := fp |}) args s =
    (Done None, s).
Proof. destruct m; repeat split; reflexivity. Qed.


End Methods.

Lemma batch_rows_are_single_point_results_witness :
  exists resultObj bufs s',
    instance_of INPUT_VALUE_TRIPLET OUTPUT_VALUE_TRIPLET [PyArray 5] sum_force two_points
      = (Done (Some resultObj), s') /\
    output_bufs OUTPUT_VALUE_TRIPLET resultObj = Some bufs /\
    Forall (fun b => exists a',
              heap s' !! buf_array b = Some a' /\
              PyArray_DIMS a' = output_dims OUTPUT_VALUE_TRIPLET 2 (buf_width b) /\
              length (PyArray_DATA a') = (2 * buf_width b)%nat) bufs /\
    forall i, (i < 2)%nat ->
      exists r,
        sum_force
          (input_row 3 {| PyArray_DIMS := [2; 3];
                          PyArray_DATA := [1; 2; 3; 4; 5; 6]%float |} i)
          (result_on_entry (fun _ => 0%float) OUTPUT_VALUE_TRIPLET) = Done r /\
        output_row (heap s') resultObj i = r /\
        instance_of INPUT_VALUE_TRIPLET OUTPUT_VALUE_TRIPLET
          (map PyFloat
             (input_row 3 {| PyArray_DIMS := [2; 3];
                             PyArray_DATA := [1; 2; 3; 4; 5; 6]%float |} i))
          sum_force two_points
          = (Done (Some (PyTuple [PyFloat (at_index r 0); PyFloat (at_index r 1);
                                  PyFloat (at_index r 2)])), two_points) /\
        tuple_values (PyTuple [PyFloat (at_index r 0); PyFloat (at_index r 1);
                               PyFloat (at_index r 2)]) = r.
Proof.
  apply (batch_rows_are_single_point_results
           (fun _ _ => 0%float) (fun _ => 0%float)
           INPUT_VALUE_TRIPLET OUTPUT_VALUE_TRIPLET
           (instance_of INPUT_VALUE_TRIPLET OUTPUT_VALUE_TRIPLET)
           (fun result => PyTuple [PyFloat (at_index result 0);
                                   PyFloat (at_index result 1);
                                   PyFloat (at_index result 2)])
           (PyArray 5)
           {| PyArray_DIMS := [2; 3]; PyArray_DATA := [1; 2; 3; 4; 5; 6]%float |}
           2 sum_force two_points).
  - reflexivity.
  - reflexivity.
  - reflexivity.
  - reflexivity.
  - reflexivity.
  - repeat constructor. unfold INT_MAX. lia.
  - apply fncForce_settled.
  - intros [|[|i]] Hi; [eexists; vm_compute; reflexivity..|lia].
Defined.

Lemma Potential_methods_batch_pointwise_witness :
  exists resultObj bufs s',
    @method_of triples plain_cartesian plain_units plain_math
      (fun _ _ => 0%float) (fun _ => 0%float) some_units
      by_force_deriv (Some {| pot := Some sum_potential |}) [PyArray 5] two_points
    = (Done (Some resultObj), s') /\
    output_bufs OUTPUT_VALUE_TRIPLET_AND_SEXTET resultObj = Some bufs /\
    Forall (fun b => exists a',
              heap s' !! buf_array b = Some a' /\
              PyArray_DIMS a' = [2; Z.of_nat (buf_width b)] /\
              length (PyArray_DATA a') = (2 * buf_width b)%nat) bufs /\
    forall i, (i < 2)%nat ->
      exists point,
        @PosCar_point triples plain_cartesian plain_units some_units
          (input_row 3 {| PyArray_DIMS := [2; 3];
                          PyArray_DATA := [1; 2; 3; 4; 5; 6]%float |} i)
        = Done point /\
        exists grad hess,
          potential.eval_grad_hess sum_potential point = Done (grad, hess) /\
          output_row (heap s') resultObj i =
          [ (- dx grad * (1 / (4 / 0.5)));
            (- dy grad * (1 / (4 / 0.5)));
            (- dz grad * (1 / (4 / 0.5)));
            (- dx2 hess * (1 / (4 / (0.5 * 0.5))));
            (- dy2 hess * (1 / (4 / (0.5 * 0.5))));
            (- dz2 hess * (1 / (4 / (0.5 * 0.5))));
            (- dxdy hess * (1 / (4 / (0.5 * 0.5))));
            (- dydz hess * (1 / (4 / (0.5 * 0.5))));
            (- dxdz hess * (1 / (4 / (0.5 * 0.5)))) ]%float.
Proof.
  destruct (@Potential_methods_batch_pointwise triples plain_cartesian plain_units
              plain_math (fun _ _ => 0%float) (fun _ => 0%float) some_units
              by_force_deriv sum_potential (PyArray 5)
              {| PyArray_DIMS := [2; 3]; PyArray_DATA := [1; 2; 3; 4; 5; 6]%float |}
              2 two_points) as [_ Hbatch].
  - reflexivity.
  - reflexivity.
  - reflexivity.
  - repeat constructor; vm_compute; discriminate.
  - intros i point Hi Hpoint. eexists. reflexivity.
  - exact Hbatch.
Defined.


(** *** The methods on a potential and an action finder *)

(** The force of [sum_potential] at two points, in units of two for
    lengths: minus the gradient, which is the point in internal units,
    times the factor [1 / (4 / 0.5)]. *)
Example force_example :
  let out := @method_of triples plain_cartesian plain_units plain_math
               (fun _ _ => 0%float) (fun _ => 0%float) some_units
               by_force (Some {| pot := Some sum_potential |})
               [PyArray 5] two_points in
  out.1 = Done (Some (PyArray 6)) /\
  heap out.2 !! 6%positive =
    Some {| PyArray_DIMS := [2; 3];
            PyArray_DATA := [-0.25; -0.5; -0.75; -1; -1.25; -1.5]%float |}.
Proof. cbv zeta. split; vm_compute; reflexivity. Qed.

(** The finder fails on the second of two points: its row is NaN, and
    the call succeeds. *)
Example actions_example :
  let out := @ActionFinder_actions triples plain_cartesian plain_units
               (fun _ _ => 0%float) (fun _ => 0%float) some_units
               (Some {| finder := Some fussy_finder; finder_pot := None |})
               [PyArray 5] two_orbits in
  out.1 = Done (Some (PyArray 6)) /\
  error out.2 = None /\
  (fun a => (PyArray_DIMS a, take 3 (PyArray_DATA a))) <$> heap out.2 !! 6%positive =
    Some ([2; 3], [2; 2.5; 3]%float) /\
  (fun a => map PrimFloat.is_nan (drop 3 (PyArray_DATA a))) <$> heap out.2 !! 6%positive =
    Some [true; true; true].
Proof. cbv zeta. repeat split; vm_compute; reflexivity. Qed.

End py_methods_facts.

(** * Properties of the module's state and of the constructors *)

Module py_classes_facts.
Import Stdlib.Strings.Ascii.
Import MachineInt coord cartesian units particles potential.
Import py_wrapper py_methods py_classes.
Import observe observe_py observe_methods observe_classes py_wrapper_facts.

Section Parser.

(** The parser returns: it stores the arguments and leaves the state as
    it was, or it fails, with an error set. *)
Lemma PyArg_ParseTupleAndKeywords_cases args namedArgs format keywords s :
  (exists stored,
     PyArg_ParseTupleAndKeywords args namedArgs format keywords s
     = (Done (Some stored), s)) \/
  PyArg_ParseTupleAndKeywords args namedArgs format keywords s
  = (Done None, {| heap := heap s;
                   error := Some (PyExc_TypeError, "bad argument list") |}).
Proof.
  unfold PyArg_ParseTupleAndKeywords.
  destruct (if decide _ then _ else _) as [stored|]; [left; eauto|right; reflexivity].
Qed.

End Parser.

Section SetUnits.
Context `{Library} `{!Cartesian} `{Units}.
Context `{Names} `{!Factory} `{!actions_staeckel.Finders}.
Implicit Types (w : ModuleState).

Lemma fail_with_spec {A : Type} exc msg (r : A) w :
  fail_with exc msg r w =
  (Done r, {| py := {| heap := heap (py w); error := Some (exc, msg) |};
              conv := conv w; potentials := potentials w;
              finders := finders w |}).
Proof. reflexivity. Qed.

(** Case analysis on the tests that [set_units] makes. *)
Ltac set_units_tests stored :=
  change (id stored) with stored;
  generalize (stored_double 0 stored 0) (stored_double 0 stored 1)
             (stored_double 0 stored 2) (stored_double 0 stored 3);
  intros m l v t;
  destruct (m <? 0)%float eqn:Hm; destruct (l <? 0)%float eqn:Hl;
  destruct (v <? 0)%float eqn:Hv; destruct (t <? 0)%float eqn:Ht;
  destruct (m =? 0)%float eqn:Hm0; destruct (0 <? l)%float eqn:Hl0;
  destruct (0 <? v)%float eqn:Hv0; destruct (0 <? t)%float eqn:Ht0;
  cbn [negb orb andb]; rewrite ?fail_with_spec; cbn [fst snd].

(** X9: [set_units] succeeds exactly when its arguments parse as up to
    four numbers, none of them is negative, the mass is not zero, and
    exactly two of length, velocity and time are positive. *)
Theorem set_units_accepts_exactly_two args namedArgs w :
  (set_units args namedArgs w).1 = Done (Some tt) <->
  exists mass length velocity time,
    units_given (py w) args namedArgs = Some (mass, length, velocity, time) /\
    (mass <? 0)%float = false /\ (length <? 0)%float = false /\
    (velocity <? 0)%float = false /\ (time <? 0)%float = false /\
    (mass =? 0)%float = false /\
    scales_given length velocity time = 2%nat.
Proof.
  unfold set_units, units_given, scales_given, mbind, W_bind, in_py.
  destruct (PyArg_ParseTupleAndKeywords_cases args namedArgs "|dddd"
              ["mass"; "length"; "velocity"; "time"] (py w))
    as [[stored ->]| ->]; cbn [fst snd default].
  - rewrite bool_decide_true by eauto.
    set_units_tests stored.
    all: split;
      [ intros Hrun; try discriminate Hrun;
        exists m, l, v, t; cbn [List.filter]; rewrite ?Hl0, ?Hv0, ?Ht0; done
      | intros (m' & l' & v' & t' & [= <- <- <- <-] & Hm' & Hl' & Hv' & Ht' & Hm0' & Hn);
        try congruence;
        cbn [List.filter] in Hn; rewrite ?Hl0, ?Hv0, ?Ht0 in Hn;
        try discriminate Hn; reflexivity ].
  - rewrite bool_decide_false by (intros [? ?]; discriminate).
    cbn [negb orb]. rewrite fail_with_spec. cbn [fst].
    split; [discriminate|]. intros (? & ? & ? & ? & ? & _). discriminate.
Qed.

(** X10: what [set_units] leaves behind.  It never touches an array or
    an object.  When it fails it returns [NULL] with [ValueError] set
    and the unit conversion is the one that was in place.  When it
    succeeds it returns [None], leaves the error indicator alone, and
    the new conversion is built from the mass, from the length when one
    is given and else from velocity and time, and from the velocity
    when one is given and else from length and time. *)
Theorem set_units_outcome args namedArgs w :
  let out := set_units args namedArgs w in
  heap (py out.2) = heap (py w) /\
  potentials out.2 = potentials w /\
  finders out.2 = finders w /\
  ((out.1 = Done None /\ conv out.2 = conv w /\
    exists msg, error (py out.2) = Some (PyExc_ValueError, msg)) \/
   (exists mass length velocity time,
      units_given (py w) args namedArgs = Some (mass, length, velocity, time) /\
      out.1 = Done (Some tt) /\
      error (py out.2) = error (py w) /\
      conv out.2 =
      ExternalUnits_new unit
        (if 0 <? length then length * Kpc else velocity * time * kms * Myr)
        (if 0 <? velocity then velocity * kms else length / time * Kpc / Myr)
        (mass * Msun))%float).
Proof.
  cbv zeta.
  unfold set_units, units_given, mbind, W_bind, in_py.
  destruct (PyArg_ParseTupleAndKeywords_cases args namedArgs "|dddd"
              ["mass"; "length"; "velocity"; "time"] (py w))
    as [[stored ->]| ->]; cbn [fst snd default].
  - rewrite bool_decide_true by eauto.
    set_units_tests stored.
    all: cbn [py conv potentials finders heap error].
    all: split; [reflexivity|]; split; [reflexivity|]; split; [reflexivity|].
    all: first
      [ left; split; [reflexivity|]; split; [reflexivity|]; eexists; reflexivity
      | right; exists m, l, v, t; rewrite ?Hl0, ?Hv0; done ].
  - rewrite bool_decide_false by (intros [? ?]; discriminate).
    cbn [negb orb]. rewrite fail_with_spec.
    cbn [fst snd py conv potentials finders heap error].
    split; [reflexivity|]. split; [reflexivity|]. split; [reflexivity|].
    left. split; [reflexivity|]. split; [reflexivity|]. eexists. reflexivity.
Qed.


End SetUnits.

(** *** [set_units] on the example of its documentation *)

(** [setUnits(mass=1e10, length=1, velocity=1)] *)
Example set_units_example :
  let out := @set_units triples plain_units []
               {[ "mass" := Other (PyFloat 1e10); "length" := PyInt 1;
                  "velocity" := PyInt 1 ]}
               three_potentials in
  out.1 = Done (Some tt) /\
  conv out.2 = (1, 1, 1, 1e10)%float.
Proof. cbv zeta. split; vm_compute; reflexivity. Qed.

(** All three scales at once, one scale alone, no mass, and a name that
    is not a keyword, are refused. *)
Example set_units_refusals :
  let refused args namedArgs :=
    (@set_units triples plain_units args namedArgs
       three_potentials).1 = Done None in
  refused [PyInt 1; PyInt 1; PyInt 1; PyInt 1] ∅ /\
  refused [PyInt 1; Other (PyFloat 1)] ∅ /\
  refused [] {[ "length" := PyInt 1; "time" := PyInt 1 ]} /\
  refused [PyInt 1; PyInt 1] {[ "length" := PyInt 1 ]} /\
  refused [PyInt 1] {[ "length" := PyInt 1; "speed" := PyInt 1 ]} /\
  refused [PyString "1"; PyInt 1] ∅.
Proof. cbv zeta. repeat split; vm_compute; reflexivity. Qed.

Section Composite.
Context `{Library} `{!Cartesian} `{Units} `{math.Math}.
Context `{Names} `{!Factory} `{!actions_staeckel.Finders}.
Implicit Types (w : ModuleState) (store : gmap loc PotentialObject) (ls : list loc).

Lemma handed_over_components store ls :
  handed_over store ls = components_of store ls.
Proof.
  unfold components_of. revert store.
  induction ls as [|l ls IH]; intros store; [reflexivity|].
  cbn [handed_over imap]. f_equal. rewrite IH.
  apply imap_ext. intros i l' Hi. cbn.
  destruct (decide (l' = l)) as [->|Hne].
  - rewrite (bool_decide_true (l ∈ l :: take i ls)) by left.
    rewrite lookup_insert_eq. cbn. destruct (bool_decide _); reflexivity.
  - rewrite lookup_insert_ne by done.
    apply (f_equal (fun b : bool => if b then None else store !! l' ≫= pot)).
    apply bool_decide_ext. rewrite elem_of_cons.
    split; [intros Hin; right; exact Hin|intros [Heq|Hin]; [done|exact Hin]].
Qed.

Lemma emptied_lookup_in ls : forall store l,
  l ∈ ls -> is_Some (store !! l) -> emptied ls store !! l = Some {| pot := None |}.
Proof.
  unfold emptied.
  induction ls as [|l0 ls IH]; intros store l Hin Hsome; [by apply elem_of_nil in Hin|].
  cbn [foldl].
  destruct (decide (l ∈ ls)) as [Hin'|Hnotin].
  - apply IH; [exact Hin'|].
    destruct (decide (l = l0)) as [->|Hne];
      [rewrite lookup_insert_eq|rewrite lookup_insert_ne by done]; eauto.
  - apply elem_of_cons in Hin as [->|Hin]; [|done].
    clear IH. revert store Hsome.
    induction ls as [|l1 ls IH]; intros store Hsome; cbn [foldl].
    + apply lookup_insert_eq.
    + apply not_elem_of_cons in Hnotin as [Hne Hnotin].
      rewrite (insert_insert_ne store); [|congruence]. apply IH; [exact Hnotin|].
      rewrite lookup_insert_ne by congruence. exact Hsome.
Qed.

Lemma emptied_lookup_notin ls : forall store l,
  l ∉ ls -> emptied ls store !! l = store !! l.
Proof.
  unfold emptied.
  induction ls as [|l0 ls IH]; intros store l Hnotin; [reflexivity|].
  apply not_elem_of_cons in Hnotin as [Hne Hnotin].
  cbn [foldl]. rewrite IH by exact Hnotin. apply lookup_insert_ne. congruence.
Qed.

Lemma emptied_is_Some ls store l :
  is_Some (store !! l) -> is_Some (emptied ls store !! l).
Proof.
  intros Hsome. destruct (decide (l ∈ ls)) as [Hin|Hnotin].
  - rewrite emptied_lookup_in by done. eauto.
  - rewrite emptied_lookup_notin by done. exact Hsome.
Qed.

Lemma forallb_is_Potential ls :
  forallb is_Potential (map PotentialInstance ls) = true.
Proof. induction ls as [|l ls IH]; [reflexivity|exact IH]. Qed.

(** The second loop, on objects that exist. *)
Lemma take_components_spec ls : forall components w,
  (forall l, l ∈ ls -> is_Some (potentials w !! l)) ->
  take_components (map PotentialInstance ls) components w =
  (Done (components ++ handed_over (potentials w) ls),
   {| py := py w; conv := conv w;
      potentials := emptied ls (potentials w); finders := finders w |}).
Proof.
  induction ls as [|l ls IH]; intros components w Hsome.
  - cbn. rewrite app_nil_r. destruct w; reflexivity.
  - cbn [map take_components handed_over].
    destruct (Hsome l ltac:(left)) as [obj Hobj].
    unfold mbind, W_bind, potential_at, set_pot.
    rewrite Hobj. cbn beta iota. rewrite Hobj. cbn beta iota.
    rewrite IH.
    + cbn [py conv potentials finders option_bind].
      rewrite <- app_assoc. reflexivity.
    + cbn [potentials]. intros l' Hl'.
      destruct (decide (l' = l)) as [->|Hne];
        [rewrite lookup_insert_eq|rewrite lookup_insert_ne by done]; eauto.
      apply Hsome. right. exact Hl'.
Qed.

(** [Potential_initComposite] on a tuple of instances of [Potential],
    by the outcome of the constructor of the composite. *)
Lemma Potential_initComposite_spec self ls w :
  ls <> [] ->
  (forall l, l ∈ ls -> is_Some (potentials w !! l)) ->
  is_Some (potentials w !! self) ->
  Potential_initComposite self (map PotentialInstance ls) w =
  match CompositeCyl (components_of (potentials w) ls) with
  | Done p =>
      (Done 0,
       {| py := py w; conv := conv w;
          potentials := <[self := {| pot := Some p |}]> (emptied ls (potentials w));
          finders := finders w |})
  | Thrown what =>
      (Done (-1),
       {| py := {| heap := heap (py w);
                   error := Some (PyExc_ValueError,
                                  "Error in creating composite potential: "
                                  +:+ what) |};
          conv := conv w;
          potentials := emptied ls (potentials w);
          finders := finders w |})
  | Undefined =>
      (Undefined,
       {| py := py w; conv := conv w;
          potentials := emptied ls (potentials w); finders := finders w |})
  end.
Proof.
  intros Hne Hsome Hself. unfold Potential_initComposite.
  rewrite decide_True by (destruct ls; [done|cbn; lia]).
  rewrite forallb_is_Potential.
  cbn [negb]. unfold mbind at 1, W_bind at 1.
  rewrite take_components_spec by exact Hsome.
  cbn [app]. rewrite handed_over_components.
  unfold w_try_catch, mbind, W_bind, w_lift.
  destruct (CompositeCyl _) as [p|what|]; [|reflexivity..].
  unfold Potential_initMemberVar, set_pot. cbn [potentials].
  destruct (emptied_is_Some ls (potentials w) self Hself) as [obj ->].
  reflexivity.
Qed.

End Composite.

Section CompositeTheorems.
Context `{Library} `{!Cartesian} `{Units} `{math.Math}.
Context `{Names} `{!Factory} `{!actions_staeckel.Finders}.
Variable heap_garbage : loc -> nat -> float.
Variable stack_garbage : nat -> float.
Implicit Types (w : ModuleState) (ls : list loc).

(** X11: a composite potential takes its components over.  Called on a
    tuple of instances of [Potential], with a constructor of the
    composite that returns, [Potential_initComposite] returns 0 and
    gives the composite to [self]; the constructor has received the
    potentials of the objects in order, with [NULL] for an object that
    occurs a second time; and every other object of the tuple is left
    without a potential: its methods fail with ["Potential is not
    initialized properly"], and no [ActionFinder] can be made from it.
    Nothing else changes. *)
Theorem Potential_initComposite_takes_over self ls w p :
  ls <> [] ->
  (forall l, l ∈ ls -> is_Some (potentials w !! l)) ->
  is_Some (potentials w !! self) ->
  CompositeCyl (components_of (potentials w) ls) = Done p ->
  exists w',
    Potential_initComposite self (map PotentialInstance ls) w = (Done 0, w') /\
    py w' = py w /\ conv w' = conv w /\ finders w' = finders w /\
    potentials w' !! self = Some {| pot := Some p |} /\
    (forall l, l ∉ ls -> l <> self -> potentials w' !! l = potentials w !! l) /\
    (forall l, l ∈ ls -> l <> self ->
       potentials w' !! l = Some {| pot := None |} /\
       (forall m args s,
          method_of heap_garbage stack_garbage (conv w') m (potentials w' !! l) args s =
          (Done None,
           {| heap := heap s;
              error := Some (PyExc_ValueError,
                             "Potential is not initialized properly") |})) /\
       (forall finder_self,
          ActionFinder_init finder_self [PotentialInstance l] w' =
          (Done (-1),
           {| py := {| heap := heap (py w');
                       error := Some (PyExc_TypeError,
                                      "Argument must be a valid instance " +:+
                                      "of Potential class") |};
              conv := conv w'; potentials := potentials w';
              finders := finders w' |}))).
Proof.
  intros Hne Hsome Hself Hp.
  eexists. split.
  { rewrite Potential_initComposite_spec by done. rewrite Hp. reflexivity. }
  cbn [py conv potentials finders].
  split; [reflexivity|]. split; [reflexivity|]. split; [reflexivity|].
  split; [apply lookup_insert_eq|]. split.
  - intros l Hl Hneq. rewrite lookup_insert_ne by congruence.
    apply emptied_lookup_notin, Hl.
  - intros l Hl Hneq.
    assert (Hempty : <[self := {| pot := Some p |}]> (emptied ls (potentials w)) !! l
                     = Some {| pot := None |}).
    { rewrite lookup_insert_ne by congruence.
      apply emptied_lookup_in; [exact Hl|apply Hsome, Hl]. }
    split; [exact Hempty|]. split.
    + intros m args s. rewrite Hempty. destruct m; reflexivity.
    + intros finder_self. unfold ActionFinder_init, mbind, W_bind, potential_at.
      cbn [potentials]. rewrite Hempty. reflexivity.
Qed.

(** X12: a composite that cannot be made still costs its components.
    When the constructor of the composite throws,
    [Potential_initComposite] returns -1 with [ValueError] set to the
    text of the exception, and every object of the tuple has lost its
    potential all the same; the objects that are not in the tuple are
    as they were. *)
Theorem Potential_initComposite_failure_empties self ls w what :
  ls <> [] ->
  (forall l, l ∈ ls -> is_Some (potentials w !! l)) ->
  is_Some (potentials w !! self) ->
  CompositeCyl (components_of (potentials w) ls) = Thrown what ->
  exists w',
    Potential_initComposite self (map PotentialInstance ls) w = (Done (-1), w') /\
    error (py w') =
      Some (PyExc_ValueError, "Error in creating composite potential: " +:+ what) /\
    heap (py w') = heap (py w) /\ conv w' = conv w /\ finders w' = finders w /\
    (forall l, l ∈ ls -> potentials w' !! l = Some {| pot := None |}) /\
    (forall l, l ∉ ls -> potentials w' !! l = potentials w !! l).
Proof.
  intros Hne Hsome Hself Hthrown.
  eexists. split.
  { rewrite Potential_initComposite_spec by done. rewrite Hthrown. reflexivity. }
  cbn [py conv potentials finders heap error].
  split; [reflexivity|]. split; [reflexivity|]. split; [reflexivity|].
  split; [reflexivity|]. split.
  - intros l Hl. apply emptied_lookup_in; [exact Hl|apply Hsome, Hl].
  - intros l Hl. apply emptied_lookup_notin, Hl.
Qed.

(** X13: what [Potential_initComposite] refuses, it refuses before it
    touches an object.  On the empty tuple it returns -1 and sets no
    error; on a tuple with an item that is not an instance of
    [Potential] it returns -1 with [ValueError] set, and the objects,
    those of the tuple among them, keep their potentials. *)
Theorem Potential_initComposite_refuses self args w :
  Potential_initComposite self [] w = (Done (-1), w) /\
  ((exists item, item ∈ args /\ is_Potential item = false) ->
   Potential_initComposite self args w =
   (Done (-1),
    {| py := {| heap := heap (py w);
                error := Some (PyExc_ValueError,
                               "The arguments of constructor are not " +:+
                               "a tuple of Potential objects") |};
       conv := conv w; potentials := potentials w; finders := finders w |})).
Proof.
  split; [reflexivity|].
  intros (item & Hin & Hitem). unfold Potential_initComposite.
  rewrite decide_True by (destruct args; [by apply elem_of_nil in Hin|cbn; lia]).
  assert (Hcorrect : forallb is_Potential args = false).
  { apply not_true_is_false. rewrite forallb_forall. intros Hall.
    apply list_elem_of_In in Hin. rewrite (Hall item Hin) in Hitem. discriminate. }
  rewrite Hcorrect. reflexivity.
Qed.

End CompositeTheorems.

Lemma Potential_initComposite_takes_over_witness :
  exists w',
    @Potential_initComposite triples plain_units plain_names plain_factory 3
      (map PotentialInstance [1; 2]%positive) three_potentials = (Done 0, w') /\
    py w' = py three_potentials /\ conv w' = conv three_potentials /\
    finders w' = finders three_potentials /\
    potentials w' !! 3%positive =
      Some {| pot := Some (flat_potential 2) |} /\
    (forall l, l ∉ [1; 2]%positive -> l <> 3%positive ->
       potentials w' !! l = potentials three_potentials !! l) /\
    (forall l, l ∈ [1; 2]%positive -> l <> 3%positive ->
       potentials w' !! l = Some {| pot := None |} /\
       (forall m args s,
          @method_of triples plain_cartesian plain_units plain_math
            (fun _ _ => 0%float) (fun _ => 0%float) (conv w') m
            (potentials w' !! l) args s =
          (Done None,
           {| heap := heap s;
              error := Some (PyExc_ValueError,
                             "Potential is not initialized properly") |})) /\
       (forall finder_self,
          @ActionFinder_init triples plain_units plain_finders finder_self
            [PotentialInstance l] w' =
          (Done (-1),
           {| py := {| heap := heap (py w');
                       error := Some (PyExc_TypeError,
                                      "Argument must be a valid instance " +:+
                                      "of Potential class") |};
              conv := conv w'; potentials := potentials w';
              finders := finders w' |}))).
Proof.
  apply (@Potential_initComposite_takes_over triples plain_cartesian plain_units
           plain_math plain_names plain_factory plain_finders
           (fun _ _ => 0%float) (fun _ => 0%float)
           3%positive [1; 2]%positive three_potentials (flat_potential 2)).
  - discriminate.
  - intros l Hl.
    repeat (apply elem_of_cons in Hl as [->|Hl]; [eexists; reflexivity|]).
    by apply elem_of_nil in Hl.
  - eexists. reflexivity.
  - reflexivity.
Defined.

Lemma Potential_initComposite_failure_empties_witness :
  exists w',
    @Potential_initComposite triples plain_units plain_names plain_factory 3
      (map PotentialInstance [1; 2; 1]%positive) three_potentials = (Done (-1), w') /\
    error (py w') =
      Some (PyExc_ValueError,
            "Error in creating composite potential: " +:+ "a component is missing") /\
    heap (py w') = heap (py three_potentials) /\
    conv w' = conv three_potentials /\
    finders w' = finders three_potentials /\
    (forall l, l ∈ [1; 2; 1]%positive -> potentials w' !! l = Some {| pot := None |}) /\
    (forall l, l ∉ [1; 2; 1]%positive ->
       potentials w' !! l = potentials three_potentials !! l).
Proof.
  apply (@Potential_initComposite_failure_empties triples plain_units plain_names plain_factory
           3%positive [1; 2; 1]%positive three_potentials "a component is missing").
  - discriminate.
  - intros l Hl.
    repeat (apply elem_of_cons in Hl as [->|Hl]; [eexists; reflexivity|]).
    by apply elem_of_nil in Hl.
  - eexists. reflexivity.
  - reflexivity.
Defined.

Lemma Potential_initComposite_refuses_witness :
  @Potential_initComposite triples plain_units plain_names plain_factory 3 [] three_potentials
  = (Done (-1), three_potentials) /\
  @Potential_initComposite triples plain_units plain_names plain_factory 3
    [PotentialInstance 1; Other (PyFloat 1)] three_potentials =
  (Done (-1),
   {| py := {| heap := heap (py three_potentials);
               error := Some (PyExc_ValueError,
                              "The arguments of constructor are not " +:+
                              "a tuple of Potential objects") |};
      conv := conv three_potentials; potentials := potentials three_potentials;
      finders := finders three_potentials |}).
Proof.
  split.
  - apply (@Potential_initComposite_refuses triples plain_units plain_names plain_factory
             3%positive [] three_potentials).
  - apply (@Potential_initComposite_refuses triples plain_units plain_names plain_factory
             3%positive [PotentialInstance 1; Other (PyFloat 1)] three_potentials).
    exists (Other (PyFloat 1)). split; [|reflexivity].
    right. left.
Defined.

Section Particles.
Context `{Library} `{!Cartesian} `{Units}.
Context `{Names} `{!Factory} `{!actions_staeckel.Finders}.
Implicit Types (w : ModuleState).

(** The array that an object converts to does not change when arrays are
    added to the heap. *)
Lemma array_of_mono (h h' : gmap loc PyArrayObject) :
  h ⊆ h' -> forall o a, array_of h o = Some a -> array_of h' o = Some a.
Proof.
  intros Hsub. fix IH 1. intros [d|items|l|] a; cbn [array_of].
  - done.
  - assert (Hall : forall r,
              (fix all (os : list PyObject) : option (list PyArrayObject) :=
                 match os with
                 | [] => Some []
                 | o' :: os' =>
                     match array_of h o', all os' with
                     | Some a, Some r => Some (a :: r)
                     | _, _ => None
                     end
                 end) items = Some r ->
              (fix all (os : list PyObject) : option (list PyArrayObject) :=
                 match os with
                 | [] => Some []
                 | o' :: os' =>
                     match array_of h' o', all os' with
                     | Some a, Some r => Some (a :: r)
                     | _, _ => None
                     end
                 end) items = Some r).
    { induction items as [|o' os IHos]; intros r; [done|].
      destruct (array_of h o') as [a'|] eqn:Ho'; [|done].
      rewrite (IH o' a' Ho').
      destruct ((fix all (os : list PyObject) : option (list PyArrayObject) :=
                   match os with
                   | [] => Some []
                   | o' :: os' =>
                       match array_of h o', all os' with
                       | Some a, Some r => Some (a :: r)
                       | _, _ => None
                       end
                   end) os) as [r'|] eqn:Hos; [|done].
      rewrite (IHos r' eq_refl). done. }
    destruct ((fix all (os : list PyObject) : option (list PyArrayObject) :=
                 match os with
                 | [] => Some []
                 | o' :: os' =>
                     match array_of h o', all os' with
                     | Some a, Some r => Some (a :: r)
                     | _, _ => None
                     end
                 end) items) as [r|] eqn:Hitems; [|done].
    rewrite (Hall r eq_refl). done.
  - intros Hl. eapply lookup_weaken; [exact Hl|exact Hsub].
  - done.
Qed.

Lemma read_double_spec l (offset : nat) s a :
  heap s !! l = Some a ->
  (offset < length (PyArray_DATA a))%nat ->
  read_double l (Z.of_nat offset) s = (Done (nth offset (PyArray_DATA a) 0%float), s).
Proof.
  intros Hl Hlen. unfold read_double.
  rewrite (bind_Done _ _ _ _ _ (read_doubles_spec l offset 1 s a Hl ltac:(lia))).
  destruct (lookup_lt_is_Some_2 (PyArray_DATA a) offset Hlen) as [v Hv].
  rewrite (drop_S _ _ _ Hv). cbn [take].
  rewrite (nth_lookup_Some _ _ _ _ Hv). reflexivity.
Qed.

Lemma in_py_Done {A : Type} (m : M A) w a s' :
  m (py w) = (Done a, s') ->
  in_py m w = (Done a, {| py := s'; conv := conv w; potentials := potentials w;
                          finders := finders w |}).
Proof. intros Hm. unfold in_py. rewrite Hm. reflexivity. Qed.

Lemma in_py_same {A : Type} (m : M A) w a :
  m (py w) = (Done a, py w) -> in_py m w = (Done a, w).
Proof. intros Hm. rewrite (in_py_Done m w a (py w) Hm). destruct w; reflexivity. Qed.

Lemma W_bind_Done {A B : Type} (m : W A) (k : A -> W B) w a w' :
  m w = (Done a, w') -> (m ≫= k) w = k a w'.
Proof. intros Hm. unfold mbind, W_bind. rewrite Hm. reflexivity. Qed.

(** The loop over the points: it reads, and appends one particle for
    each row. *)
Lemma points_loop_spec lc lm coords masses w : forall n i pointArray,
  heap (py w) !! lc = Some coords ->
  heap (py w) !! lm = Some masses ->
  ((i + n) * 3 <= length (PyArray_DATA coords))%nat ->
  (i + n <= length (PyArray_DATA masses))%nat ->
  points_loop lc lm n (Z.of_nat i) pointArray w =
  (Done {| data := data pointArray ++
                   map (particle_of (conv w) coords masses) (seq i n) |}, w).
Proof.
  induction n as [|n IH]; intros i pointArray Hc Hm Hlenc Hlenm.
  - cbn. rewrite app_nil_r. destruct pointArray; reflexivity.
  - cbn [points_loop].
    rewrite (W_bind_Done get_conv _ w (conv w) w eq_refl).
    replace (Z.of_nat i * 3 + 0) with (Z.of_nat (i * 3)) by lia.
    replace (Z.of_nat i * 3 + 1) with (Z.of_nat (i * 3 + 1)) by lia.
    replace (Z.of_nat i * 3 + 2) with (Z.of_nat (i * 3 + 2)) by lia.
    erewrite W_bind_Done;
      [|apply in_py_same, (read_double_spec lc _ _ coords Hc); lia].
    erewrite W_bind_Done;
      [|apply in_py_same, (read_double_spec lc _ _ coords Hc); lia].
    erewrite W_bind_Done;
      [|apply in_py_same, (read_double_spec lc _ _ coords Hc); lia].
    erewrite W_bind_Done;
      [|apply in_py_same, (read_double_spec lm _ _ masses Hm); lia].
    replace (Z.of_nat i + 1) with (Z.of_nat (S i)) by lia.
    rewrite IH by (try done; lia).
    unfold add. cbn [data seq map]. rewrite <- app_assoc. reflexivity.
Qed.

(** The run of [Potential_initFromParticles] on well-shaped arrays, by
    the outcome of the factory; [s2] is the interpreter state once the
    two objects have been converted to arrays. *)
Lemma Potential_initFromParticles_run self cfg pointCoordObj pointMassObj
    coords masses (N : nat) w :
  fileName cfg = "" ->
  potentialType cfg = PT_BSE \/ potentialType cfg = PT_SPLINE \/
    potentialType cfg = PT_CYLSPLINE ->
  array_of (heap (py w)) pointCoordObj = Some coords ->
  array_of (heap (py w)) pointMassObj = Some masses ->
  PyArray_DIMS coords = [Z.of_nat N; 3] ->
  length (PyArray_DATA coords) = (N * 3)%nat ->
  PyArray_DIMS masses = [Z.of_nat N] ->
  length (PyArray_DATA masses) = N ->
  (0 < N)%nat ->
  Z.of_nat N <= INT_MAX ->
  is_Some (potentials w !! self) ->
  exists s2,
    heap (py w) ⊆ heap s2 /\ error s2 = error (py w) /\
    Potential_initFromParticles self cfg (Other (PyTuple [pointCoordObj; pointMassObj])) w =
    match createPotentialFromPoints cfg
            {| data := map (particle_of (conv w) coords masses) (seq 0 N) |} with
    | Done p =>
        (Done 0,
         {| py := s2; conv := conv w;
            potentials := <[self := {| pot := Some p |}]> (potentials w);
            finders := finders w |})
    | Thrown what =>
        (Done (-1),
         {| py := {| heap := heap s2;
                     error := Some (PyExc_ValueError,
                                    "Error in creating potential from points: "
                                    +:+ what) |};
            conv := conv w; potentials := potentials w; finders := finders w |})
    | Undefined =>
        (Undefined,
         {| py := s2; conv := conv w; potentials := potentials w;
            finders := finders w |})
    end.
Proof.
  intros Hfile Htype Hc Hm Hdc Hlc Hdm Hlm Hpos Hmax [obj Hself].
  destruct (PyArray_FROM_OTF_spec pointCoordObj (py w) coords Hc)
    as (lc & s1 & Hfrom1 & Hlc1 & Hsub1 & _ & Herr1).
  destruct (PyArray_FROM_OTF_spec pointMassObj s1 masses
              (array_of_mono _ _ Hsub1 _ _ Hm))
    as (lm & s2 & Hfrom2 & Hlm2 & Hsub2 & _ & Herr2).
  pose proof (lookup_weaken _ _ _ _ Hlc1 Hsub2) as Hlc2.
  exists s2. split; [etrans; [exact Hsub1|exact Hsub2]|]. split; [congruence|].
  unfold Potential_initFromParticles.
  rewrite bool_decide_true by exact Hfile. cbn [negb].
  replace (negb (bool_decide (potentialType cfg = PT_BSE))
           && negb (bool_decide (potentialType cfg = PT_SPLINE))
           && negb (bool_decide (potentialType cfg = PT_CYLSPLINE))) with false.
  2:{ symmetry. destruct Htype as [Ht|[Ht|Ht]]; rewrite Ht.
      - rewrite (bool_decide_true (PT_BSE = PT_BSE)) by done. reflexivity.
      - rewrite (bool_decide_true (PT_SPLINE = PT_SPLINE)) by done.
        apply andb_false_iff. left. apply andb_false_iff. right. reflexivity.
      - rewrite (bool_decide_true (PT_CYLSPLINE = PT_CYLSPLINE)) by done.
        apply andb_false_iff. right. reflexivity. }
  cbv beta iota.
  erewrite W_bind_Done; [|apply in_py_Done; exact Hfrom1].
  erewrite W_bind_Done; [|apply in_py_Done; exact Hfrom2].
  cbv beta iota.
  erewrite W_bind_Done; [|apply in_py_same, array_at_spec; exact Hlc2].
  erewrite W_bind_Done; [|apply in_py_same, array_at_spec; exact Hlm2].
  unfold PyArray_NDIM, PyArray_DIM. rewrite Hdc, Hdm. cbn [length nth].
  change (Z.of_nat 1 =? 1) with true. change (Z.of_nat 2 =? 2) with true.
  cbv beta iota.
  rewrite to_int_small by (unfold INT_MIN; lia).
  rewrite !Z.eqb_refl.
  replace (Z.of_nat N =? 0) with false by (symmetry; apply Z.eqb_neq; lia).
  cbn [negb orb]. rewrite Nat2Z.id.
  unfold w_try_catch. unfold mbind at 1, W_bind at 1.
  change 0 with (Z.of_nat 0) at 1.
  rewrite (points_loop_spec lc lm coords masses _ N 0 empty)
    by (cbn [py heap]; try done; lia).
  cbn [empty data app conv].
  unfold mbind, W_bind, w_lift.
  destruct (createPotentialFromPoints cfg _) as [p|what|].
  - unfold Potential_initMemberVar, set_pot. cbn [potentials]. rewrite Hself.
    reflexivity.
  - rewrite fail_with_spec. reflexivity.
  - reflexivity.
Qed.

(** X14: [Potential_initFromParticles] hands the points to the factory
    as they are given.  For coordinates of shape [N x 3] and masses of
    shape [N], [N] positive, a configuration of an expansion type and
    without a file name, the factory is called on [N] particles in the
    order of the rows, particle [i] at the coordinates of row [i] times
    the unit of length, with mass [i] times the unit of mass.  When the
    factory returns a potential, [self] gets it and the result is 0;
    when it throws, the result is -1 with [ValueError] set to its text,
    and [self] is as it was.  No array that existed changes. *)
Theorem Potential_initFromParticles_builds self cfg pointCoordObj pointMassObj
    coords masses (N : nat) w :
  fileName cfg = "" ->
  potentialType cfg = PT_BSE \/ potentialType cfg = PT_SPLINE \/
    potentialType cfg = PT_CYLSPLINE ->
  array_of (heap (py w)) pointCoordObj = Some coords ->
  array_of (heap (py w)) pointMassObj = Some masses ->
  PyArray_DIMS coords = [Z.of_nat N; 3] ->
  length (PyArray_DATA coords) = (N * 3)%nat ->
  PyArray_DIMS masses = [Z.of_nat N] ->
  length (PyArray_DATA masses) = N ->
  (0 < N)%nat ->
  Z.of_nat N <= INT_MAX ->
  is_Some (potentials w !! self) ->
  exists w',
    heap (py w) ⊆ heap (py w') /\ conv w' = conv w /\ finders w' = finders w /\
    match createPotentialFromPoints cfg
            {| data := map (particle_of (conv w) coords masses) (seq 0 N) |} with
    | Done p =>
        Potential_initFromParticles self cfg (Other (PyTuple [pointCoordObj; pointMassObj])) w
        = (Done 0, w') /\
        potentials w' = <[self := {| pot := Some p |}]> (potentials w) /\
        error (py w') = error (py w)
    | Thrown what =>
        Potential_initFromParticles self cfg (Other (PyTuple [pointCoordObj; pointMassObj])) w
        = (Done (-1), w') /\
        potentials w' = potentials w /\
        error (py w') =
          Some (PyExc_ValueError,
                "Error in creating potential from points: " +:+ what)
    | Undefined =>
        Potential_initFromParticles self cfg (Other (PyTuple [pointCoordObj; pointMassObj])) w
        = (Undefined, w')
    end.
Proof.
  intros Hfile Htype Hc Hm Hdc Hlc Hdm Hlm Hpos Hmax Hself.
  destruct (Potential_initFromParticles_run self cfg pointCoordObj pointMassObj
              coords masses N w Hfile Htype Hc Hm Hdc Hlc Hdm Hlm Hpos Hmax Hself)
    as (s2 & Hsub & Herr & Hrun).
  destruct (createPotentialFromPoints cfg _) as [p|what|];
    (eexists; split; [|split; [|split; [|first [split; [exact Hrun|]|exact Hrun]]]]);
    cbn [py conv potentials finders heap error]; try done.
Qed.

Lemma same_objects_refl w : same_objects w w.
Proof. done. Qed.

Lemma same_objects_trans w1 w2 w3 :
  same_objects w1 w2 -> same_objects w2 w3 -> same_objects w1 w3.
Proof. intros (? & ? & ?) (? & ? & ?). repeat split; congruence. Qed.

Lemma keeps_objects_in_py {A : Type} (m : M A) : keeps_objects (in_py m).
Proof. intros w r w' [= <- <-]. done. Qed.

Lemma keeps_objects_mret {A : Type} (a : A) : keeps_objects (mret a : W A).
Proof. intros w r w' [= <- <-]. done. Qed.

Lemma keeps_objects_w_lift {A : Type} (c : completion A) : keeps_objects (w_lift c).
Proof. intros w r w' [= <- <-]. done. Qed.

Lemma keeps_objects_bind {A B : Type} (m : W A) (k : A -> W B) :
  keeps_objects m -> (forall a, keeps_objects (k a)) -> keeps_objects (m ≫= k).
Proof.
  intros Hm Hk w r w'. unfold mbind, W_bind.
  destruct (m w) as [[a|what|] w1] eqn:Hrun; specialize (Hm _ _ _ Hrun).
  - intros Hk'. eapply same_objects_trans; [exact Hm|]. eapply Hk, Hk'.
  - intros [= <- <-]. exact Hm.
  - intros [= <- <-]. exact Hm.
Qed.

Lemma keeps_objects_fail_with {A : Type} exc msg (r : A) :
  keeps_objects (fail_with exc msg r).
Proof. intros w r' w'. rewrite fail_with_spec. intros [= <- <-]. done. Qed.

Lemma changes_to_return_keeps {A : Type} (ok : A) (m : W A) :
  keeps_objects m -> changes_to_return ok m.
Proof. intros Hm w r w' Hrun _. eapply Hm, Hrun. Qed.

Lemma changes_to_return_bind {A B : Type} (ok : B) (m : W A) (k : A -> W B) :
  keeps_objects m -> (forall a, changes_to_return ok (k a)) ->
  changes_to_return ok (m ≫= k).
Proof.
  intros Hm Hk w r w'. unfold mbind, W_bind.
  destruct (m w) as [[a|what|] w1] eqn:Hrun; specialize (Hm _ _ _ Hrun).
  - intros Hk' Hr. eapply same_objects_trans; [exact Hm|]. eapply Hk; eauto.
  - intros [= <- <-] _. exact Hm.
  - intros [= <- <-] _. exact Hm.
Qed.

Lemma changes_to_return_try_catch {A : Type} (ok : A) (body : W A)
    (handler : string -> W A) :
  changes_to_return ok body -> (forall what, keeps_objects (handler what)) ->
  changes_to_return ok (w_try_catch body handler).
Proof.
  intros Hbody Hhandler w r w'. unfold w_try_catch.
  destruct (body w) as [[a|what|] w1] eqn:Hrun.
  - intros [= <- <-] Hr. eapply Hbody; eauto.
  - intros Hh _. eapply same_objects_trans; [eapply Hbody; [exact Hrun|done]|].
    eapply Hhandler, Hh.
  - intros [= <- <-] Hr. eapply Hbody; eauto.
Qed.

Lemma keeps_objects_points_loop lc lm : forall n i pointArray,
  keeps_objects (points_loop lc lm n i pointArray).
Proof.
  induction n as [|n IH]; intros i pointArray; cbn [points_loop].
  - apply keeps_objects_mret.
  - apply keeps_objects_bind; [intros w r w' [= <- <-]; done|]. intros u.
    do 4 (apply keeps_objects_bind; [apply keeps_objects_in_py|]; intros ?).
    apply IH.
Qed.

(** X15: [Potential_initFromParticles] changes an object only when it
    succeeds.  Whenever the result is not 0, be it that the arguments
    are refused, that the factory throws, or that the call does not
    return, the instances of [Potential] and of [ActionFinder] and the
    unit conversion are what they were. *)
Theorem Potential_initFromParticles_failure_keeps self cfg points w r w' :
  Potential_initFromParticles self cfg points w = (r, w') ->
  r <> Done 0 ->
  potentials w' = potentials w /\ conv w' = conv w /\ finders w' = finders w.
Proof.
  revert w r w'. change (changes_to_return 0 (Potential_initFromParticles self cfg points)).
  unfold Potential_initFromParticles.
  destruct (negb _); [apply changes_to_return_keeps, keeps_objects_fail_with|].
  destruct (_ && _); [apply changes_to_return_keeps, keeps_objects_fail_with|].
  destruct points as [?|?|?|[d|[|c [|m [|? ?]]]|l|]];
    try apply changes_to_return_keeps, keeps_objects_fail_with.
  apply changes_to_return_bind; [apply keeps_objects_in_py|]. intros pointCoordArr.
  apply changes_to_return_bind; [apply keeps_objects_in_py|]. intros pointMassArr.
  destruct pointCoordArr as [lc|], pointMassArr as [lm|];
    try apply changes_to_return_keeps, keeps_objects_fail_with.
  apply changes_to_return_bind; [apply keeps_objects_in_py|]. intros coords.
  apply changes_to_return_bind; [apply keeps_objects_in_py|]. intros masses.
  destruct (_ || _); [apply changes_to_return_keeps, keeps_objects_fail_with|].
  apply changes_to_return_try_catch; [|intros what; apply keeps_objects_fail_with].
  apply changes_to_return_bind; [apply keeps_objects_points_loop|]. intros pointArray.
  apply changes_to_return_bind; [apply keeps_objects_w_lift|]. intros p.
  intros w r w'. unfold mbind, W_bind, Potential_initMemberVar, set_pot.
  destruct (potentials w !! self).
  - intros [= <- <-] Hr. done.
  - intros [= <- <-] _. done.
Qed.

(** X16: no points, no potential.  When the array of masses is empty,
    [Potential_initFromParticles] returns -1 with [ValueError] set,
    whatever the coordinates are, an array of no rows of three among
    them; the factory is not called. *)
Theorem Potential_initFromParticles_refuses_no_points self cfg
    pointCoordObj pointMassObj coords masses w :
  fileName cfg = "" ->
  potentialType cfg = PT_BSE \/ potentialType cfg = PT_SPLINE \/
    potentialType cfg = PT_CYLSPLINE ->
  array_of (heap (py w)) pointCoordObj = Some coords ->
  array_of (heap (py w)) pointMassObj = Some masses ->
  PyArray_DIMS masses = [0] ->
  exists s2,
    heap (py w) ⊆ heap s2 /\
    Potential_initFromParticles self cfg (Other (PyTuple [pointCoordObj; pointMassObj])) w =
    (Done (-1),
     {| py := {| heap := heap s2;
                 error := Some (PyExc_ValueError,
                   "'points' does not contain valid arrays " +:+
                   "(the first one must be 2d array of shape Nx3 " +:+
                   "and the second one must be 1d array of length N)") |};
        conv := conv w; potentials := potentials w; finders := finders w |}).
Proof.
  intros Hfile Htype Hc Hm Hdm.
  destruct (PyArray_FROM_OTF_spec pointCoordObj (py w) coords Hc)
    as (lc & s1 & Hfrom1 & Hlc1 & Hsub1 & _ & Herr1).
  destruct (PyArray_FROM_OTF_spec pointMassObj s1 masses
              (array_of_mono _ _ Hsub1 _ _ Hm))
    as (lm & s2 & Hfrom2 & Hlm2 & Hsub2 & _ & Herr2).
  pose proof (lookup_weaken _ _ _ _ Hlc1 Hsub2) as Hlc2.
  exists s2. split; [etrans; [exact Hsub1|exact Hsub2]|].
  unfold Potential_initFromParticles.
  rewrite bool_decide_true by exact Hfile. cbn [negb].
  replace (negb (bool_decide (potentialType cfg = PT_BSE))
           && negb (bool_decide (potentialType cfg = PT_SPLINE))
           && negb (bool_decide (potentialType cfg = PT_CYLSPLINE))) with false.
  2:{ symmetry. destruct Htype as [Ht|[Ht|Ht]]; rewrite Ht.
      - rewrite (bool_decide_true (PT_BSE = PT_BSE)) by done. reflexivity.
      - rewrite (bool_decide_true (PT_SPLINE = PT_SPLINE)) by done.
        apply andb_false_iff. left. apply andb_false_iff. right. reflexivity.
      - rewrite (bool_decide_true (PT_CYLSPLINE = PT_CYLSPLINE)) by done.
        apply andb_false_iff. right. reflexivity. }
  cbv beta iota.
  erewrite W_bind_Done; [|apply in_py_Done; exact Hfrom1].
  erewrite W_bind_Done; [|apply in_py_Done; exact Hfrom2].
  cbv beta iota.
  erewrite W_bind_Done; [|apply in_py_same, array_at_spec; exact Hlc2].
  erewrite W_bind_Done; [|apply in_py_same, array_at_spec; exact Hlm2].
  unfold PyArray_NDIM at 1 3, PyArray_DIM at 1 3. rewrite Hdm. cbn [length nth].
  change (Z.of_nat 1 =? 1) with true. cbv beta iota.
  change (to_int 0 =? 0) with true. cbn [orb].
  rewrite fail_with_spec. reflexivity.
Qed.

End Particles.

Section Finder.
Context `{Library} `{!Cartesian} `{Units}.
Context `{Names} `{!Factory} `{!actions_staeckel.Finders}.
Implicit Types (w : ModuleState).

(** X17: [ActionFinder_init] succeeds exactly when it is given one
    argument, an instance of [Potential] that has a potential, and the
    constructor of the action finder returns on that potential; [self]
    then holds the new finder and refers to the instance, and nothing
    else has changed.  In every other case the result is not 0. *)
Theorem ActionFinder_init_accepts_iff self args w w' :
  ActionFinder_init self args w = (Done 0, w') <->
  exists l p f,
    args = [PotentialInstance l] /\
    potentials w !! l = Some {| pot := Some p |} /\
    actions_staeckel.ActionFinderAxisymFudge p = Done f /\
    is_Some (finders w !! self) /\
    w' = {| py := py w; conv := conv w; potentials := potentials w;
            finders := <[self := {| finder := Some f; finder_pot := Some l |}]>
                         (finders w) |}.
Proof.
  unfold ActionFinder_init. split.
  - destruct args as [|[l|?|?|o] [|? ?]]; rewrite ?fail_with_spec; try discriminate.
    unfold mbind, W_bind, potential_at.
    destruct (potentials w !! l) as [[[p|]]|] eqn:Hl; cbn [pot];
      rewrite ?fail_with_spec; try discriminate.
    unfold w_try_catch, w_lift, set_finder, mret, W_ret.
    destruct (actions_staeckel.ActionFinderAxisymFudge p) as [f|what|] eqn:Hf;
      rewrite ?fail_with_spec; try discriminate.
    destruct (finders w !! self) as [old|] eqn:Hself; try discriminate.
    intros [= Hw']. subst w'. exists l, p, f. eauto 10.
  - intros (l & p & f & -> & Hl & Hf & [old Hself] & ->).
    unfold mbind, W_bind, potential_at. rewrite Hl. cbn [pot].
    unfold w_try_catch, w_lift, set_finder. rewrite Hf, Hself. reflexivity.
Qed.

End Finder.

Section Docstring.

Lemma string_app_cons c (s1 s2 : string) :
  String c s1 +:+ s2 = String c (s1 +:+ s2).
Proof. reflexivity. Qed.

Lemma string_app_nil_r (s1 : string) : s1 +:+ "" = s1.
Proof.
  induction s1 as [|c s1 IH]; [reflexivity|].
  rewrite string_app_cons, IH. reflexivity.
Qed.

Lemma string_app_assoc (s1 s2 s3 : string) :
  (s1 +:+ s2) +:+ s3 = s1 +:+ s2 +:+ s3.
Proof.
  induction s1 as [|c s1 IH]; [reflexivity|].
  rewrite !string_app_cons, IH. reflexivity.
Qed.

Lemma list_ascii_of_string_app (s1 s2 : string) :
  String.list_ascii_of_string (s1 +:+ s2) =
  String.list_ascii_of_string s1 ++ String.list_ascii_of_string s2.
Proof.
  induction s1 as [|c s1 IH]; [reflexivity|].
  rewrite string_app_cons. cbn. rewrite IH. reflexivity.
Qed.

Lemma length_list_ascii_of_string (str : string) :
  length (String.list_ascii_of_string str) = String.length str.
Proof. induction str as [|c str IH]; cbn; [reflexivity|by rewrite IH]. Qed.

Lemma string_length_app (s1 s2 : string) :
  String.length (s1 +:+ s2) = (String.length s1 + String.length s2)%nat.
Proof.
  induction s1 as [|c s1 IH]; [reflexivity|].
  rewrite string_app_cons. cbn. rewrite IH. reflexivity.
Qed.

(** Printing a text that fits after the text that the buffer holds. *)
Lemma snprintf_fits (held text : string) :
  (String.length held + String.length text < 4096)%nat ->
  snprintf (padded MAX_LEN_DOCSTRING NUL (String.list_ascii_of_string held))
    (Z.of_nat (String.length held))
    (MAX_LEN_DOCSTRING - Z.of_nat (String.length held)) text =
  (padded MAX_LEN_DOCSTRING NUL (String.list_ascii_of_string (held +:+ text)),
   Z.of_nat (String.length text)).
Proof.
  intros Hfits. unfold snprintf, padded, MAX_LEN_DOCSTRING.
  replace (0 <? 4096 - Z.of_nat (String.length held)) with true
    by (symmetry; apply Z.ltb_lt; lia).
  f_equal. rewrite Nat2Z.id.
  rewrite take_ge by (rewrite length_list_ascii_of_string; lia).
  rewrite list_ascii_of_string_app, length_app, !length_list_ascii_of_string.
  replace (Z.to_nat 4096 - String.length held)%nat
    with ((String.length text + 1)
          + (Z.to_nat 4096 - (String.length held + String.length text) - 1))%nat
    by lia.
  rewrite replicate_add.
  rewrite <- (Nat.add_0_r (String.length held)) at 1.
  rewrite <- (length_list_ascii_of_string held) at 1.
  rewrite list_inserts_app_r.
  rewrite list_inserts_0_r
    by (rewrite length_app, length_replicate, length_list_ascii_of_string;
        cbn [length]; lia).
  rewrite <- !app_assoc. do 2 f_equal.
  assert (Hone : forall n, (0 < n)%nat ->
            [NUL] ++ replicate (n - 1) NUL = replicate n NUL).
  { intros [|n] Hn; [lia|]. cbn. by rewrite Nat.sub_0_r. }
  apply Hone. lia.
Qed.

Lemma padded_insert {A : Type} (size : Z) (filler x : A) (elements : list A) :
  (length elements < Z.to_nat size)%nat ->
  <[length elements := x]> (padded size filler elements) =
  padded size filler (elements ++ [x]).
Proof.
  intros Hroom. unfold padded.
  rewrite insert_app_r_alt by lia. rewrite Nat.sub_diag.
  replace (Z.to_nat size - length elements)%nat
    with (S (Z.to_nat size - length (elements ++ [x])))
    by (rewrite length_app; cbn [length]; lia).
  cbn [replicate]. rewrite <- app_assoc. reflexivity.
Qed.

Lemma padded_insert_fmap {A B : Type} (f : A -> B) (size : Z) (filler : B)
    (done : list A) (a : A) :
  (length done < Z.to_nat size)%nat ->
  <[length done := f a]> (padded size filler (f <$> done)) =
  padded size filler (f <$> done ++ [a]).
Proof.
  intros Hroom. rewrite <- (length_fmap f done) at 1.
  rewrite padded_insert by (rewrite length_fmap; exact Hroom).
  rewrite fmap_app. reflexivity.
Qed.

(** The loop on entries whose lines fit: it goes through all of them. *)
Lemma docstring_loop_fits (last : ArgDescription) :
  name last = None ->
  forall entries done held,
  Forall (fun a => is_Some (name a) /\ is_Some (descr a)) entries ->
  (length done + length entries < 64)%nat ->
  (String.length held + String.length (docstring_lines entries) < 4096)%nat ->
  docstring_loop (entries ++ [last])
    {| docstringPotential :=
         padded MAX_LEN_DOCSTRING NUL (String.list_ascii_of_string held);
       keywordsPotential := padded MAX_NUM_KEYWORDS None (name <$> done);
       keywordTypesPotential :=
         "|"%char :: padded MAX_NUM_KEYWORDS NUL (type <$> done) |}
    (Z.of_nat (String.length held)) (Z.of_nat (length done)) =
  Done ({| docstringPotential :=
             padded MAX_LEN_DOCSTRING NUL
               (String.list_ascii_of_string (held +:+ docstring_lines entries));
           keywordsPotential :=
             padded MAX_NUM_KEYWORDS None (name <$> done ++ entries);
           keywordTypesPotential :=
             "|"%char :: padded MAX_NUM_KEYWORDS NUL (type <$> done ++ entries) |},
        Z.of_nat (String.length (held +:+ docstring_lines entries)),
        Z.of_nat (length (done ++ entries))).
Proof.
  intros Hlast entries.
  induction entries as [|a entries IH]; intros done held Hnamed Hcount Hfits.
  - cbn [app docstring_loop docstring_lines foldr]. rewrite Hlast.
    rewrite app_nil_r.
    rewrite string_app_nil_r.
    reflexivity.
  - apply Forall_cons in Hnamed as [[[n Hn] [d Hd]] Hnamed].
    cbn [length] in Hcount.
    change (docstring_lines (a :: entries))
      with (docstring_line a +:+ docstring_lines entries) in Hfits |- *.
    rewrite string_length_app in Hfits.
    cbn [app docstring_loop]. rewrite Hn.
    replace (Z.of_nat (String.length held) <? MAX_LEN_DOCSTRING) with true
      by (symmetry; apply Z.ltb_lt; unfold MAX_LEN_DOCSTRING; lia).
    replace (Z.of_nat (length done) <? MAX_NUM_KEYWORDS) with true
      by (symmetry; apply Z.ltb_lt; unfold MAX_NUM_KEYWORDS; lia).
    cbn [andb]. rewrite Hd. cbn [deref mbind completion_bind].
    change ("    " +:+ n +:+ " (" +:+ argTypeDescr (type a) +:+ ") - " +:+ d +:+ LF)
      with ("    " +:+ default "" (Some n) +:+ " (" +:+ argTypeDescr (type a)
            +:+ ") - " +:+ default "" (Some d) +:+ LF).
    rewrite <- Hn, <- Hd. fold (docstring_line a).
    cbn [docstringPotential keywordsPotential keywordTypesPotential].
    rewrite snprintf_fits by lia. cbn [fst snd].
    rewrite <- Nat2Z.inj_add, <- string_length_app.
    rewrite to_unsigned_small
      by (rewrite string_length_app; unfold UINT_MAX; lia).
    rewrite to_unsigned_small by (unfold UINT_MAX; lia).
    rewrite Nat2Z.id.
    replace (Z.to_nat (Z.of_nat (length done) + 1)) with (S (length done)) by lia.
    cbn [insert list_insert].
    change (list_insert (length done) (type a)) with (insert (length done) (type a)).
    rewrite (padded_insert_fmap name) by (unfold MAX_NUM_KEYWORDS; lia).
    rewrite (padded_insert_fmap type) by (unfold MAX_NUM_KEYWORDS; lia).
    replace (Z.of_nat (length done) + 1) with (Z.of_nat (length (done ++ [a])))
      by (rewrite length_app; cbn [length]; lia).
    rewrite IH.
    + rewrite <- !app_assoc. cbn [app].
      rewrite string_app_assoc. reflexivity.
    + exact Hnamed.
    + rewrite length_app. cbn [length]. lia.
    + rewrite string_length_app. lia.
Qed.

(** X20: when the table has fewer than [MAX_NUM_KEYWORDS] entries before
    the one that ends it and the whole text fits the buffer,
    [buildDocstringPotential] prints no warning and leaves the header,
    one line for each entry and the footer in [docstringPotential], the
    names of all entries in [keywordsPotential], and a bar and the types
    of all entries in [keywordTypesPotential]; each array ends in a
    null. *)
Theorem buildDocstringPotential_complete (entries : list ArgDescription)
    (last : ArgDescription) :
  Forall (fun a => is_Some (name a) /\ is_Some (descr a)) entries ->
  name last = None ->
  (length entries < 64)%nat ->
  (String.length (docstring_text entries) < 4096)%nat ->
  buildDocstringPotential (entries ++ [last]) Globals_initial =
  Done ({| docstringPotential :=
             padded MAX_LEN_DOCSTRING NUL
               (String.list_ascii_of_string (docstring_text entries));
           keywordsPotential := padded MAX_NUM_KEYWORDS None (name <$> entries);
           keywordTypesPotential :=
             "|"%char :: padded MAX_NUM_KEYWORDS NUL (type <$> entries) |},
        false).
Proof.
  intros Hnamed Hlast Hcount Hfits.
  unfold docstring_text in *. rewrite !string_length_app in Hfits.
  unfold buildDocstringPotential.
  pose proof (snprintf_fits "" docstring_header ltac:(cbn [String.length]; lia)) as Hhead.
  change (Z.of_nat (String.length "")) with 0 in Hhead.
  change (MAX_LEN_DOCSTRING - 0) with MAX_LEN_DOCSTRING in Hhead.
  change (padded MAX_LEN_DOCSTRING NUL (String.list_ascii_of_string ""))
    with (docstringPotential Globals_initial) in Hhead.
  rewrite Hhead. cbn [fst snd].
  rewrite to_unsigned_small by (unfold UINT_MAX; lia).
  change (keywordsPotential Globals_initial)
    with (padded MAX_NUM_KEYWORDS None (name <$> [])).
  change (keywordTypesPotential Globals_initial)
    with ("|"%char :: padded MAX_NUM_KEYWORDS NUL (type <$> [])).
  change ("" +:+ docstring_header) with docstring_header.
  assert (Hroom : (length (@nil ArgDescription) + length entries < 64)%nat)
    by (cbn [length]; lia).
  assert (Hlines : (String.length docstring_header
                    + String.length (docstring_lines entries) < 4096)%nat) by lia.
  pose proof (docstring_loop_fits last Hlast entries [] docstring_header
                Hnamed Hroom Hlines) as Hloop.
  cbn [length app] in Hloop. change (Z.of_nat 0) with 0 in Hloop.
  rewrite Hloop.
  cbn [mbind completion_bind app].
  cbn [docstringPotential keywordsPotential keywordTypesPotential].
  replace (Z.of_nat (String.length (docstring_header +:+ docstring_lines entries))
           <? MAX_LEN_DOCSTRING) with true
    by (symmetry; apply Z.ltb_lt; rewrite string_length_app;
        unfold MAX_LEN_DOCSTRING; lia).
  rewrite snprintf_fits by (rewrite string_length_app; lia).
  cbn [fst snd].
  rewrite string_app_assoc.
  do 2 f_equal.
  rewrite to_unsigned_small
    by (rewrite !string_length_app; unfold UINT_MAX; lia).
  replace (MAX_LEN_DOCSTRING <=? _) with false
    by (symmetry; apply Z.leb_gt; rewrite !string_length_app;
        unfold MAX_LEN_DOCSTRING; lia).
  replace (MAX_NUM_KEYWORDS <=? _) with false
    by (symmetry; apply Z.leb_gt; unfold MAX_NUM_KEYWORDS; lia).
  reflexivity.
Qed.

End Docstring.

Section Constructor.
Context `{Library} `{!Cartesian} `{Units}.
Context `{Names} `{!Factory} `{!actions_staeckel.Finders}.
Implicit Types (w : ModuleState) (thrown : string -> Prop).

(** *** Steps *)

Lemma step_of_weaken {A : Type} thrown thrown' (bad bad' : A -> Prop) (m : W A) :
  (forall what, thrown what -> thrown' what) -> (forall a, bad a -> bad' a) ->
  step_of thrown bad m -> step_of thrown' bad' m.
Proof.
  intros Ht Hb Hm w. specialize (Hm w).
  destruct (m w) as [[a|what|] w']; [|auto..].
  destruct Hm; auto.
Qed.

Lemma step_of_nothing {A : Type} thrown (bad : A -> Prop) (m : W A) :
  step_of nothing bad m -> step_of thrown bad m.
Proof. apply step_of_weaken; [intros what []|done]. Qed.

Lemma step_of_in_py {A : Type} (bad : A -> Prop) (m : M A) :
  (forall s, match m s with
             | (Done a, s') => bad a \/ error s' = error s
             | (Thrown _, _) => False
             | (Undefined, _) => True
             end) ->
  step_of nothing bad (in_py m).
Proof.
  intros Hm w. unfold in_py. specialize (Hm (py w)).
  destruct (m (py w)) as [[a|what|] s']; exact Hm.
Qed.

Lemma step_of_w_lift {A : Type} (c : completion A) :
  step_of (fun what => c = Thrown what) (fun _ => False) (w_lift c).
Proof. intros w. unfold w_lift. destruct c; auto. Qed.

Lemma step_of_get_conv : step_of nothing (fun _ => False) get_conv.
Proof. intros w. right. reflexivity. Qed.

Lemma step_of_set_pot l p : step_of nothing (fun _ => False) (set_pot l p).
Proof. intros w. unfold set_pot. destruct (potentials w !! l); [right|]; done. Qed.

Lemma step_of_potential_at l : step_of nothing (fun _ => False) (potential_at l).
Proof. intros w. unfold potential_at. destruct (potentials w !! l); [right|]; done. Qed.

Lemma step_of_bind {A B : Type} thrown (m : W A) (k : A -> W B) :
  step_of thrown (fun _ => False) m ->
  (forall a, step_of thrown (fun _ => False) (k a)) ->
  step_of thrown (fun _ => False) (m ≫= k).
Proof.
  intros Hm Hk w. unfold mbind, W_bind. specialize (Hm w).
  destruct (m w) as [[a|what|] w1]; [|exact Hm|exact I].
  destruct Hm as [[]|Hm]. specialize (Hk a w1).
  destruct (k a w1) as [[b|what|] w2]; [|exact Hk|exact I].
  destruct Hk as [[]|Hk]. right. congruence.
Qed.

Lemma step_of_mret {A : Type} thrown (a : A) :
  step_of thrown (fun _ => False) (mret a : W A).
Proof. intros w. right. reflexivity. Qed.

(** *** Computations that refuse *)

Lemma refusing_fail_with thrown msg :
  refusing thrown (fail_with PyExc_ValueError msg (-1)).
Proof. intros w. rewrite fail_with_spec. split; [reflexivity|]. eexists. reflexivity. Qed.

Lemma refusing_bind {A : Type} thrown (m : W A) (k : A -> W Z) :
  step_of thrown (fun _ => True) m -> (forall a, refusing thrown (k a)) ->
  refusing thrown (m ≫= k).
Proof.
  intros Hm Hk w. unfold mbind, W_bind. specialize (Hm w).
  destruct (m w) as [[a|what|] w1]; [|exact Hm|exact I].
  apply Hk.
Qed.

(** *** Computations that return 0 or refuse *)

Lemma disciplined_refusing thrown (m : W Z) : refusing thrown m -> disciplined thrown m.
Proof.
  intros Hm w. specialize (Hm w).
  destruct (m w) as [[r|what|] w']; [right; exact Hm|exact Hm|exact I].
Qed.

Lemma disciplined_mret thrown : disciplined thrown (mret 0).
Proof. intros w. left. split; reflexivity. Qed.

Lemma disciplined_bind {A : Type} thrown (bad : A -> Prop) (m : W A) (k : A -> W Z) :
  step_of thrown bad m ->
  (forall a, bad a -> refusing thrown (k a)) ->
  (forall a, disciplined thrown (k a)) ->
  disciplined thrown (m ≫= k).
Proof.
  intros Hm Hbad Hk w. unfold mbind, W_bind. specialize (Hm w).
  destruct (m w) as [[a|what|] w1]; [|exact Hm|exact I].
  destruct Hm as [Ha|Herr].
  - specialize (Hbad a Ha w1).
    destruct (k a w1) as [[r|what|] w2]; [right; exact Hbad|exact Hbad|exact I].
  - specialize (Hk a w1).
    destruct (k a w1) as [[r|what|] w2]; [|exact Hk|exact I].
    destruct Hk as [[-> Hr]|Hr]; [left; split; [reflexivity|congruence]|right; exact Hr].
Qed.

Lemma disciplined_try_catch thrown thrown' (body : W Z) (handler : string -> W Z) :
  disciplined thrown' body -> (forall what, refusing thrown (handler what)) ->
  disciplined thrown (w_try_catch body handler).
Proof.
  intros Hbody Hhandler w. unfold w_try_catch. specialize (Hbody w).
  destruct (body w) as [[r|what|] w1]; [exact Hbody| |exact I].
  specialize (Hhandler what w1).
  destruct (handler what w1) as [[r|what'|] w2]; [right; exact Hhandler|exact Hhandler|exact I].
Qed.

Lemma disciplined_weaken thrown thrown' (m : W Z) :
  (forall what, thrown what -> thrown' what) ->
  disciplined thrown m -> disciplined thrown' m.
Proof.
  intros Ht Hm w. specialize (Hm w).
  destruct (m w) as [[r|what|] w']; auto.
Qed.

(** *** The calls of the interpreter *)

Lemma PyArray_FROM_OTF_step (o : PyObject) :
  step_of nothing (fun arr => arr = None) (in_py (PyArray_FROM_OTF o)).
Proof.
  apply step_of_in_py. intros s. unfold PyArray_FROM_OTF.
  destruct o as [d|items|l|];
    try (destruct (array_of (heap s) _); [right|left]; reflexivity).
  destruct (heap s !! l); [right; reflexivity|exact I].
Qed.

Lemma array_at_step (l : loc) :
  step_of nothing (fun _ => False) (in_py (array_at l)).
Proof.
  apply step_of_in_py. intros s. unfold array_at.
  destruct (heap s !! l); [right; reflexivity|exact I].
Qed.

Lemma read_double_step (l : loc) (offset : Z) :
  step_of nothing (fun _ => False) (in_py (read_double l offset)).
Proof.
  apply step_of_in_py. intros s.
  unfold read_double, read_doubles, py_wrapper.bind, array_at.
  destruct (heap s !! l) as [arr|]; [|exact I].
  destruct (_ && _); [|exact I]. cbn.
  destruct (take 1 _) as [|v [|? ?]]; try exact I. right. reflexivity.
Qed.

Lemma PyArg_ParseTupleAndKeywords_step args namedArgs format keywords :
  step_of nothing (fun stored => stored = None)
    (in_py (PyArg_ParseTupleAndKeywords args namedArgs format keywords)).
Proof.
  apply step_of_in_py. intros s.
  destruct (PyArg_ParseTupleAndKeywords_cases args namedArgs format keywords s)
    as [[stored ->]| ->]; [right|left]; reflexivity.
Qed.

Lemma points_loop_step lc lm : forall n i pointArray,
  step_of nothing (fun _ => False) (points_loop lc lm n i pointArray).
Proof.
  induction n as [|n IH]; intros i pointArray; cbn [points_loop].
  - apply step_of_mret.
  - apply step_of_bind; [apply step_of_get_conv|]. intros u.
    do 4 (apply step_of_bind; [apply read_double_step|]; intros ?).
    apply IH.
Qed.

(** *** The constructors *)

Lemma Potential_initMemberVar_step self p :
  step_of nothing (fun _ => False) (Potential_initMemberVar self p).
Proof. apply step_of_set_pot. Qed.

Lemma take_components_step : forall args components,
  step_of nothing (fun _ => False) (take_components args components).
Proof.
  induction args as [|item args IH]; intros components; cbn [take_components].
  - apply step_of_mret.
  - destruct item as [l|?|?|?]; try (intros w; exact I).
    apply step_of_bind; [apply step_of_potential_at|]. intros obj.
    apply step_of_bind; [apply step_of_set_pot|]. intros _.
    apply IH.
Qed.

(** [Potential_initComposite] throws nothing. *)
Lemma Potential_initComposite_no_throw self args w what w' :
  Potential_initComposite self args w <> (Thrown what, w').
Proof.
  unfold Potential_initComposite.
  destruct (decide _); [|discriminate].
  destruct (negb _); [rewrite fail_with_spec; discriminate|].
  unfold mbind at 1, W_bind at 1.
  pose proof (take_components_step args [] w) as Htake.
  destruct (take_components args [] w) as [[components|what'|] w1];
    [|destruct Htake|discriminate].
  unfold w_try_catch, mbind, W_bind, w_lift.
  destruct (CompositeCyl components) as [p|what'|];
    [|rewrite fail_with_spec; discriminate|discriminate].
  unfold Potential_initMemberVar, set_pot.
  destruct (potentials w1 !! self); discriminate.
Qed.

Lemma Potential_initFromParticles_disciplined self cfg points :
  disciplined nothing (Potential_initFromParticles self cfg points).
Proof.
  unfold Potential_initFromParticles.
  destruct (negb _); [apply disciplined_refusing, refusing_fail_with|].
  destruct (_ && _); [apply disciplined_refusing, refusing_fail_with|].
  destruct points as [?|?|?|[d|[|c [|m [|? ?]]]|l|]];
    try apply disciplined_refusing, refusing_fail_with.
  eapply disciplined_bind; [apply PyArray_FROM_OTF_step| |].
  { intros ? ->. apply refusing_bind.
    - eapply step_of_weaken; [| |apply PyArray_FROM_OTF_step]; done.
    - intros ?. apply refusing_fail_with. }
  intros [lc|]; cycle 1.
  { apply disciplined_refusing, refusing_bind.
    - eapply step_of_weaken; [| |apply PyArray_FROM_OTF_step]; done.
    - intros ?. apply refusing_fail_with. }
  eapply disciplined_bind; [apply PyArray_FROM_OTF_step| |].
  { intros ? ->. apply refusing_fail_with. }
  intros [lm|]; [|apply disciplined_refusing, refusing_fail_with].
  eapply disciplined_bind; [apply array_at_step|intros ? []|]. intros coords.
  eapply disciplined_bind; [apply array_at_step|intros ? []|]. intros masses.
  destruct (_ || _); [apply disciplined_refusing, refusing_fail_with|].
  apply (disciplined_try_catch nothing anything);
    [|intros what; apply refusing_fail_with].
  eapply disciplined_bind;
    [apply step_of_nothing, points_loop_step|intros ? []|]. intros pointArray.
  eapply disciplined_bind;
    [eapply step_of_weaken; [| |apply step_of_w_lift]; done|intros ? []|].
  intros p.
  eapply disciplined_bind;
    [apply step_of_nothing, Potential_initMemberVar_step|intros ? []|].
  intros _. apply disciplined_mret.
Qed.

Lemma c_string_no_throw (buf : list ascii) : forall what, c_string buf <> Thrown what.
Proof.
  induction buf as [|c buf IH]; intros what; cbn [c_string]; [discriminate|].
  destruct (Ascii.eqb c NUL); [discriminate|].
  destruct (c_string buf) as [str|thrown|]; [discriminate| |discriminate].
  by destruct (IH thrown).
Qed.

Lemma null_terminated_no_throw (a : list (option string)) :
  forall what, null_terminated a <> Thrown what.
Proof.
  induction a as [|[str|] a IH]; intros what; cbn [null_terminated];
    [discriminate| |discriminate].
  destruct (null_terminated a) as [strs|thrown|]; [discriminate| |discriminate].
  by destruct (IH thrown).
Qed.

Lemma W_bind_cases {A B : Type} (m : W A) (k : A -> W B) w :
  (m ≫= k) w =
  match m w with
  | (Done a, w1) => k a w1
  | (Thrown what, w1) => (Thrown what, w1)
  | (Undefined, w1) => (Undefined, w1)
  end.
Proof. reflexivity. Qed.

(** [Potential_init] once [Potential_initComposite] has returned. *)
Lemma Potential_init_after_composite g self args namedArgs w :
  match Potential_initComposite self args w with
  | (Done composite, w1) =>
      if composite =? 0
      then Potential_init g self args namedArgs w = (Done 0, w1)
      else
        match Potential_init g self args namedArgs w with
        | (Done r, w') =>
            (r = 0 /\ error (py w') = error (py w1)) \/
            (r = -1 /\ exists msg, error (py w') = Some (PyExc_ValueError, msg))
        | (Thrown what, _) => lookup_throws what
        | (Undefined, _) => True
        end
  | (Thrown _, _) => False
  | (Undefined, w1) => Potential_init g self args namedArgs w = (Undefined, w1)
  end.
Proof.
  unfold Potential_init. rewrite W_bind_cases.
  pose proof (Potential_initComposite_no_throw self args w) as Hthrow.
  destruct (Potential_initComposite self args w) as [[composite|what|] w1];
    [|by destruct (Hthrow what w1)|reflexivity].
  clear Hthrow. destruct (composite =? 0); [reflexivity|].
  lazymatch goal with
  | |- match ?tail w1 with _ => _ end =>
      cut (disciplined lookup_throws tail); [intros Htail; exact (Htail w1)|]
  end.
  clear w w1 composite.
  eapply disciplined_bind;
    [eapply step_of_weaken; [| |apply step_of_w_lift]; [|done]|intros ? []|].
  { intros what Hwhat. by destruct (c_string_no_throw _ _ Hwhat). }
  intros format.
  eapply disciplined_bind;
    [eapply step_of_weaken; [| |apply step_of_w_lift]; [|done]|intros ? []|].
  { intros what Hwhat. by destruct (null_terminated_no_throw _ _ Hwhat). }
  intros keywords.
  destruct (negb _); [intros w; exact I|].
  eapply disciplined_bind;
    [apply step_of_nothing, PyArg_ParseTupleAndKeywords_step| |].
  { intros ? ->. apply refusing_fail_with. }
  intros [stored|]; [|apply disciplined_refusing, refusing_fail_with].
  cbv zeta.
  eapply disciplined_bind;
    [eapply step_of_weaken; [| |apply step_of_w_lift]; [|done]|intros ? []|].
  { intros what Hwhat. eexists. left. exact Hwhat. }
  intros potentialType.
  eapply disciplined_bind;
    [eapply step_of_weaken; [| |apply step_of_w_lift]; [|done]|intros ? []|].
  { intros what Hwhat. eexists. right. left. exact Hwhat. }
  intros densityType.
  eapply disciplined_bind;
    [eapply step_of_weaken; [| |apply step_of_w_lift]; [|done]|intros ? []|].
  { intros what Hwhat. eexists. right. right. exact Hwhat. }
  intros symmetryType.
  eapply disciplined_bind; [apply step_of_nothing, step_of_get_conv|intros ? []|].
  intros u.
  apply (disciplined_try_catch lookup_throws anything);
    [|intros what; apply refusing_fail_with].
  destruct (stored_object None stored 4) as [points|].
  { eapply disciplined_weaken; [|apply Potential_initFromParticles_disciplined].
    intros what []. }
  destruct (_ && _); [apply disciplined_refusing, refusing_fail_with|].
  eapply disciplined_bind;
    [eapply step_of_weaken; [| |apply step_of_w_lift]; done|intros ? []|].
  intros p.
  eapply disciplined_bind;
    [apply step_of_nothing, Potential_initMemberVar_step|intros ? []|].
  intros _. apply disciplined_mret.
Qed.

(** X21: what a call of [Potential_init] comes to.  When it returns,
    the result is 0 or -1, and -1 only with [ValueError] set.  What the
    factory throws never leaves it: the only exception that does is one
    that a lookup of a type by name throws, which is made before the
    [try] block. *)
Theorem Potential_init_outcome g self args namedArgs w :
  match Potential_init g self args namedArgs w with
  | (Done r, w') =>
      r = 0 \/
      (r = -1 /\ exists msg, error (py w') = Some (PyExc_ValueError, msg))
  | (Thrown what, _) => lookup_throws what
  | (Undefined, _) => True
  end.
Proof.
  pose proof (Potential_init_after_composite g self args namedArgs w) as Hinit.
  destruct (Potential_initComposite self args w) as [[composite|what|] w1];
    [|destruct Hinit|rewrite Hinit; exact I].
  destruct (composite =? 0); [rewrite Hinit; left; reflexivity|].
  destruct (Potential_init g self args namedArgs w) as [[r|what|] w'];
    [|exact Hinit|exact I].
  destruct Hinit as [[-> _]|Hr]; [left; reflexivity|right; exact Hr].
Qed.

(** X22: a call with positional arguments that are not all instances of
    [Potential] can succeed and still leave an error set.  Whenever
    such a call returns 0, the error indicator holds the [ValueError]
    that [Potential_initComposite] has set when it found that the
    arguments are no tuple of instances of [Potential]. *)
Theorem Potential_init_success_leaves_error g self args namedArgs w w' :
  args <> [] ->
  forallb is_Potential args = false ->
  Potential_init g self args namedArgs w = (Done 0, w') ->
  error (py w') =
  Some (PyExc_ValueError,
        "The arguments of constructor are not a tuple of Potential objects").
Proof.
  intros Hargs Hcorrect Hrun.
  pose proof (Potential_init_after_composite g self args namedArgs w) as Hinit.
  unfold Potential_initComposite in Hinit.
  rewrite decide_True in Hinit by (destruct args; [done|cbn; lia]).
  rewrite Hcorrect in Hinit. cbn [negb] in Hinit.
  rewrite fail_with_spec in Hinit. change (-1 =? 0) with false in Hinit.
  cbn beta iota in Hinit. rewrite Hrun in Hinit.
  destruct Hinit as [[_ Herr]|[Hr _]]; [exact Herr|discriminate Hr].
Qed.

Lemma format_units_first c format u us :
  format_units (c :: format) = Some (u :: us) ->
  IS_END_OF_FORMAT (c :: format) = false /\
  ((Ascii.eqb c "|" = true /\ format_units format = Some (u :: us)) \/
   (Ascii.eqb c "|" = false /\ format_unit_of c = Some u)).
Proof.
  cbn [format_units IS_END_OF_FORMAT].
  destruct (Ascii.eqb c ";" || Ascii.eqb c ":"); [discriminate|].
  destruct (Ascii.eqb c "|"); [intros Hrest; split; [done|left; done]|].
  destruct (format_unit_of c) as [u'|]; [|discriminate]. cbn.
  destruct (format_units format); [|discriminate]. cbn.
  intros [= -> ->]. split; [done|right; done].
Qed.

(** A first positional argument that is an instance of [Potential] does
    not parse when the first format unit is [s]. *)
Lemma parse_keywords_refuses_instance s l args namedArgs min nkeywords format
    keyword keywords us :
  format_units format = Some (unit_s :: us) ->
  parse_keywords s (PotentialInstance l :: args) namedArgs min 0 nkeywords format
    (keyword :: keywords) = None.
Proof.
  intros Hformat.
  assert (Hhead : exists c format',
            (if at_bar format then tail format else format) = c :: format' /\
            IS_END_OF_FORMAT (c :: format') = false /\
            (format_unit_of c = Some unit_s \/ format_unit_of c = None)).
  { destruct format as [|c format]; [discriminate|].
    apply format_units_first in Hformat as [Hend [[Hbar Hrest]|[Hbar Hunit]]].
    - cbn [at_bar tail]. rewrite Hbar.
      destruct format as [|c' format]; [discriminate|].
      apply format_units_first in Hrest as [Hend' [[Hbar' _]|[_ Hunit]]].
      + apply Ascii.eqb_eq in Hbar' as ->. eauto 10.
      + eauto 10.
    - cbn [at_bar]. rewrite Hbar. eauto 10. }
  destruct Hhead as (c & format' & Hskip & Hend & Hunit).
  cbn [parse_keywords]. cbv zeta. rewrite Hskip, Hend.
  destruct (if decide (0 < nkeywords)%nat then namedArgs !! keyword else None)
    as [current_arg|].
  - rewrite decide_True by (cbn [length]; lia). reflexivity.
  - destruct (_ && _); [reflexivity|].
    change ((PotentialInstance l :: args) !! 0%nat) with (Some (PotentialInstance l)).
    cbn beta iota. destruct Hunit as [-> | ->]; reflexivity.
Qed.

Lemma PyArg_ParseTupleAndKeywords_refuses_instance s l args namedArgs format
    keywords us :
  format_units (String.list_ascii_of_string format) = Some (unit_s :: us) ->
  PyArg_ParseTupleAndKeywords (PotentialInstance l :: args) namedArgs format
    keywords s =
  (Done None,
   {| heap := heap s; error := Some (PyExc_TypeError, "bad argument list") |}).
Proof.
  intros Hformat. unfold PyArg_ParseTupleAndKeywords.
  destruct (decide _) as [Hcount|]; [|reflexivity].
  destruct keywords as [|keyword keywords]; [cbn [length] in Hcount; lia|].
  rewrite (parse_keywords_refuses_instance _ _ _ _ _ _ _ _ _ us Hformat).
  reflexivity.
Qed.

(** X23: the error of a composite that cannot be made is not the one
    that is reported.  When the arguments are instances of [Potential]
    and the constructor of the composite throws, [Potential_init] goes
    on to parse the same arguments as names and numbers, which fails:
    it returns -1 with the [ValueError] of invalid arguments, in which
    the text of the exception does not appear, and the instances have
    given their potentials away. *)
Theorem Potential_init_composite_failure g self ls namedArgs w what format
    keywords :
  ls <> [] ->
  (forall l, l ∈ ls -> is_Some (potentials w !! l)) ->
  is_Some (potentials w !! self) ->
  CompositeCyl (components_of (potentials w) ls) = Thrown what ->
  c_string (keywordTypesPotential g) = Done format ->
  null_terminated (keywordsPotential g) = Done keywords ->
  format_units (String.list_ascii_of_string format) = Some Potential_variables ->
  Potential_init g self (map PotentialInstance ls) namedArgs w =
  (Done (-1),
   {| py := {| heap := heap (py w);
               error :=
                 Some (PyExc_ValueError,
                       "Invalid arguments passed to the Potential constructor;"
                       +:+ LF +:+
                       "type 'help(Potential)' to get the list of possible arguments "
                       +:+ "and their types") |};
      conv := conv w;
      potentials := emptied ls (potentials w);
      finders := finders w |}).
Proof.
  intros Hne Hsome Hself Hthrown Hformat Hkeywords Hunits.
  unfold Potential_init. rewrite W_bind_cases.
  rewrite Potential_initComposite_spec by assumption. rewrite Hthrown.
  change (-1 =? 0) with false. cbn beta iota.
  rewrite Hformat, Hkeywords.
  rewrite W_bind_cases. unfold w_lift at 1. cbn beta iota.
  rewrite W_bind_cases. unfold w_lift at 1. cbn beta iota.
  rewrite Hunits. rewrite bool_decide_true by reflexivity. cbn [negb].
  rewrite W_bind_cases. unfold in_py.
  destruct ls as [|l ls]; [done|]. cbn [map py].
  rewrite (PyArg_ParseTupleAndKeywords_refuses_instance _ _ _ _ _ _ _ Hunits).
  cbn [fst snd]. rewrite fail_with_spec. reflexivity.
Qed.

End Constructor.

(** *** The arguments of the constructor, as the module has them *)

Lemma buildDocstringPotential_complete_witness :
  buildDocstringPotential potentialArgs Globals_initial =
  Done ({| docstringPotential :=
             padded MAX_LEN_DOCSTRING NUL
               (String.list_ascii_of_string
                  (docstring_text (take 21 potentialArgs)));
           keywordsPotential :=
             padded MAX_NUM_KEYWORDS None (name <$> take 21 potentialArgs);
           keywordTypesPotential :=
             "|"%char :: padded MAX_NUM_KEYWORDS NUL (type <$> take 21 potentialArgs) |},
        false).
Proof.
  apply (buildDocstringPotential_complete (take 21 potentialArgs)
           (Arg None "000" None)).
  - apply (bool_decide_unpack _). vm_compute. exact I.
  - reflexivity.
  - vm_compute. lia.
  - vm_compute. lia.
Defined.

(** The arrays that the module has: the format, whose units are, one by
    one, the types of the variables of [Potential_init], the keywords,
    and the length of the documentation. *)
Example Globals_loaded_holds :
  c_string (keywordTypesPotential Globals_loaded) = Done "|ssssOdddddddiiidddddd" /\
  format_units (String.list_ascii_of_string "|ssssOdddddddiiidddddd")
  = Some Potential_variables /\
  null_terminated (keywordsPotential Globals_loaded) =
  Done ["file"; "type"; "density"; "symmetry"; "points"; "mass"; "scaleradius";
        "scaleradius2"; "q"; "p"; "gamma"; "sersicindex"; "numcoefsradial";
        "numcoefsangular"; "numcoefsvertical"; "alpha"; "splinesmoothfactor";
        "splinermin"; "splinermax"; "splinezmin"; "splinezmax"] /\
  String.length (docstring_text (take 21 potentialArgs)) = 2506%nat.
Proof. repeat split; vm_compute; reflexivity. Qed.

Lemma Potential_init_success_leaves_error_witness :
  error (py (@Potential_init triples plain_cartesian plain_units plain_names
               plain_factory Globals_loaded 3%positive
               [PyString ""; PyString "Plummer"] ∅ three_potentials).2) =
  Some (PyExc_ValueError,
        "The arguments of constructor are not a tuple of Potential objects").
Proof.
  apply (@Potential_init_success_leaves_error triples plain_cartesian plain_units
           plain_names plain_factory Globals_loaded 3%positive
           [PyString ""; PyString "Plummer"] ∅ three_potentials).
  - discriminate.
  - reflexivity.
  - apply injective_projections; [vm_compute; reflexivity|reflexivity].
Defined.

Lemma Potential_init_composite_failure_witness :
  @Potential_init triples plain_cartesian plain_units plain_names plain_factory
    Globals_loaded 3%positive (map PotentialInstance [1; 1]%positive) ∅
    three_potentials =
  (Done (-1),
   {| py := {| heap := heap (py three_potentials);
               error :=
                 Some (PyExc_ValueError,
                       "Invalid arguments passed to the Potential constructor;"
                       +:+ LF +:+
                       "type 'help(Potential)' to get the list of possible arguments "
                       +:+ "and their types") |};
      conv := conv three_potentials;
      potentials := emptied [1; 1]%positive (potentials three_potentials);
      finders := finders three_potentials |}).
Proof.
  apply (@Potential_init_composite_failure triples plain_cartesian plain_units
           plain_names plain_factory Globals_loaded 3%positive
           [1; 1]%positive ∅ three_potentials "a component is missing"
           "|ssssOdddddddiiidddddd"
           ["file"; "type"; "density"; "symmetry"; "points"; "mass"; "scaleradius";
            "scaleradius2"; "q"; "p"; "gamma"; "sersicindex"; "numcoefsradial";
            "numcoefsangular"; "numcoefsvertical"; "alpha"; "splinesmoothfactor";
            "splinermin"; "splinermax"; "splinezmin"; "splinezmax"]).
  - discriminate.
  - intros l Hl.
    repeat (apply elem_of_cons in Hl as [->|Hl]; [eexists; reflexivity|]).
    by apply elem_of_nil in Hl.
  - eexists. reflexivity.
  - reflexivity.
  - vm_compute. reflexivity.
  - vm_compute. reflexivity.
  - vm_compute. reflexivity.
Defined.

(** Calls of the constructor: by names, with the mass in the units that
    are in place; by position, which succeeds and leaves an error set;
    by position and by name at once, which is refused; and with no
    argument. *)
Example Potential_init_examples :
  let init args namedArgs :=
    @Potential_init triples plain_cartesian plain_units plain_names plain_factory
      Globals_loaded 3%positive args namedArgs three_potentials in
  let value_of (w : @ModuleState triples plain_units) :=
    match potentials w !! 3%positive with
    | Some {| pot := Some p |} =>
        Some (potential.value p ((0, 0, 0)%float : @PosT triples Car))
    | _ => None
    end in
  let refused out := out.1 = Done (-1) /\ value_of out.2 = None in
  (let out := init [] {[ "type" := PyString "Plummer"; "mass" := PyInt 3 ]} in
   out.1 = Done 0 /\ error (py out.2) = None /\
   value_of out.2 = Some (Done 30%float)) /\
  (let out := init [PyString ""; PyString "Plummer"] ∅ in
   out.1 = Done 0 /\ value_of out.2 = Some (Done 10%float)) /\
  refused (init [PyString ""; PyString "Plummer"] {[ "mass" := PyInt 3 ]}) /\
  refused (init [] ∅) /\
  refused (init [] {[ "type" := PyString "Plummer"; "weight" := PyInt 3 ]}).
Proof. cbv zeta. repeat split; vm_compute; reflexivity. Qed.




Lemma Potential_initFromParticles_builds_witness :
  exists w',
    heap (py three_potentials) ⊆ heap (py w') /\
    conv w' = conv three_potentials /\ finders w' = finders three_potentials /\
    match @createPotentialFromPoints triples plain_names plain_factory (plain_config "" 1)
            {| data := map (@particle_of triples plain_cartesian plain_units
                              (conv three_potentials)
                              {| PyArray_DIMS := [2; 3];
                                 PyArray_DATA := [1; 2; 3; 4; 5; 6]%float |}
                              {| PyArray_DIMS := [2];
                                 PyArray_DATA := [10; 20]%float |})
                         (seq 0 2) |} with
    | Done p =>
        @Potential_initFromParticles triples plain_cartesian plain_units plain_names plain_factory
          3 (plain_config "" 1) (Other (PyTuple [PyArray 5; PyArray 7])) three_potentials
        = (Done 0, w') /\
        potentials w' = <[3%positive := {| pot := Some p |}]>
                          (potentials three_potentials) /\
        error (py w') = error (py three_potentials)
    | Thrown what =>
        @Potential_initFromParticles triples plain_cartesian plain_units plain_names plain_factory
          3 (plain_config "" 1) (Other (PyTuple [PyArray 5; PyArray 7])) three_potentials
        = (Done (-1), w') /\
        potentials w' = potentials three_potentials /\
        error (py w') =
          Some (PyExc_ValueError,
                "Error in creating potential from points: " +:+ what)
    | Undefined =>
        @Potential_initFromParticles triples plain_cartesian plain_units plain_names plain_factory
          3 (plain_config "" 1) (Other (PyTuple [PyArray 5; PyArray 7])) three_potentials
        = (Undefined, w')
    end.
Proof.
  apply (@Potential_initFromParticles_builds triples plain_cartesian plain_units
           plain_names plain_factory 3%positive (plain_config "" 1) (PyArray 5) (PyArray 7)
           {| PyArray_DIMS := [2; 3]; PyArray_DATA := [1; 2; 3; 4; 5; 6]%float |}
           {| PyArray_DIMS := [2]; PyArray_DATA := [10; 20]%float |}
           2 three_potentials).
  - reflexivity.
  - left. reflexivity.
  - reflexivity.
  - reflexivity.
  - reflexivity.
  - reflexivity.
  - reflexivity.
  - reflexivity.
  - lia.
  - vm_compute. discriminate.
  - eexists. reflexivity.
Defined.

Lemma Potential_initFromParticles_failure_keeps_witness :
  let out := @Potential_initFromParticles triples plain_cartesian plain_units
               plain_names plain_factory 3 (plain_config "snapshot" 1)
               (Other (PyTuple [PyArray 5; PyArray 7])) three_potentials in
  potentials out.2 = potentials three_potentials /\
  conv out.2 = conv three_potentials /\
  finders out.2 = finders three_potentials.
Proof.
  cbv zeta.
  apply (@Potential_initFromParticles_failure_keeps triples plain_cartesian
           plain_units plain_names plain_factory 3%positive (plain_config "snapshot" 1)
           (Other (PyTuple [PyArray 5; PyArray 7])) three_potentials
           (Done (-1))).
  - reflexivity.
  - discriminate.
Defined.

Lemma Potential_initFromParticles_refuses_no_points_witness :
  exists s2,
    heap (py three_potentials) ⊆ heap s2 /\
    @Potential_initFromParticles triples plain_cartesian plain_units plain_names plain_factory
      3 (plain_config "" 1) (Other (PyTuple [PyTuple []; PyTuple []])) three_potentials =
    (Done (-1),
     {| py := {| heap := heap s2;
                 error := Some (PyExc_ValueError,
                   "'points' does not contain valid arrays " +:+
                   "(the first one must be 2d array of shape Nx3 " +:+
                   "and the second one must be 1d array of length N)") |};
        conv := conv three_potentials; potentials := potentials three_potentials;
        finders := finders three_potentials |}).
Proof.
  apply (@Potential_initFromParticles_refuses_no_points triples plain_cartesian
           plain_units plain_names plain_factory 3%positive (plain_config "" 1)
           (PyTuple []) (PyTuple [])
           {| PyArray_DIMS := [0]; PyArray_DATA := [] |}
           {| PyArray_DIMS := [0]; PyArray_DATA := [] |}
           three_potentials).
  - reflexivity.
  - left. reflexivity.
  - reflexivity.
  - reflexivity.
  - reflexivity.
Defined.

(** *** The constructors on the example state *)

(** Two points with masses 10 and 20, in units of ten for masses: the
    factory is given a total mass of 300. *)
Example initFromParticles_example :
  let out := @Potential_initFromParticles triples plain_cartesian plain_units
               plain_names plain_factory 3 (plain_config "" 2)
               (Other (PyTuple [PyArray 5; PyArray 7])) three_potentials in
  out.1 = Done 0 /\
  (fun obj : @PotentialObject triples =>
     (fun p => potential.value p ((0, 0, 0)%float : @PosT triples Car)) <$> pot obj)
    <$> potentials out.2 !! 3%positive = Some (Some (Done 300%float)).
Proof. cbv zeta. split; vm_compute; reflexivity. Qed.

(** An action finder made from a potential, and not from an object
    that has lost its potential to a composite. *)
Example ActionFinder_example :
  let made := @Potential_initComposite triples plain_units plain_names plain_factory 3
                [PotentialInstance 1; PotentialInstance 2] three_potentials in
  made.1 = Done 0 /\
  (@ActionFinder_init triples plain_units plain_finders 4
     [PotentialInstance 3] made.2).1 = Done 0 /\
  (@ActionFinder_init triples plain_units plain_finders 4
     [PotentialInstance 1] made.2).1 = Done (-1).
Proof. cbv zeta. repeat split; vm_compute; reflexivity. Qed.

End py_classes_facts.

(** * Properties of [SplineApprox] *)

Module py_spline_facts.
Import MachineInt py_wrapper py_methods py_classes py_spline.
Import observe_py observe_spline py_wrapper_facts py_classes_facts.

Section Value.
Variable raise_OverflowError : PyState -> PyState.

Local Abbreviation SplineApprox_value :=
  (py_spline.SplineApprox_value raise_OverflowError).

Lemma state_eta (s : PyState) : {| heap := heap s; error := error s |} = s.
Proof. destruct s; reflexivity. Qed.

(** The loop of [SplineApprox_value]: the values that have been
    computed are in place, the rest of the array is still the input. *)
Lemma value_loop_spec s0 der l dims : forall rest ys computed s,
  heap s !! l = Some {| PyArray_DIMS := dims; PyArray_DATA := computed ++ rest |} ->
  Forall2 (fun x y => spl_eval s0 x der = Done y) rest ys ->
  Z.of_nat (length computed + length rest) <= INT_MAX ->
  value_loop s0 der l (length rest) (Z.of_nat (length computed)) s =
  (Done tt,
   {| heap := <[l := {| PyArray_DIMS := dims; PyArray_DATA := computed ++ ys |}]>
                (heap s);
      error := error s |}).
Proof.
  induction rest as [|x rest IH]; intros ys computed s Hl Hys Hint.
  - apply Forall2_nil_inv_l in Hys as ->. cbn [length value_loop].
    rewrite insert_id by exact Hl. rewrite state_eta. reflexivity.
  - apply Forall2_cons_inv_l in Hys as (y & ys' & Hy & Hys & ->).
    cbn [length value_loop]. cbn [length] in Hint.
    erewrite bind_Done; cycle 1.
    { apply (read_double_spec l (length computed) s _ Hl).
      cbn [PyArray_DATA]. rewrite length_app. cbn [length]. lia. }
    cbn [PyArray_DATA].
    rewrite nth_middle.
    unfold lift at 1. unfold bind at 1. rewrite Hy.
    erewrite bind_Done; cycle 1.
    { apply (write_double_spec l (length computed) y s _ Hl).
      cbn [PyArray_DATA]. rewrite length_app. cbn [length]. lia. }
    erewrite bind_Done; cycle 1.
    { apply int_value_spec. unfold INT_MIN. lia. }
    replace (Z.of_nat (length computed) + 1)
      with (Z.of_nat (length (computed ++ [y])))
      by (rewrite length_app; cbn [length]; lia).
    rewrite (IH ys' (computed ++ [y])).
    + cbn [heap error]. rewrite <- (insert_as_alter _ _ _ _ Hl).
      rewrite insert_insert_eq. rewrite <- app_assoc. reflexivity.
    + cbn [heap]. rewrite lookup_alter_eq, Hl. cbn. unfold set_cell.
      cbn [PyArray_DIMS PyArray_DATA]. do 2 f_equal.
      rewrite <- app_assoc. cbn [app].
      rewrite insert_app_r_alt by lia. rewrite Nat.sub_diag. reflexivity.
    + exact Hys.
    + rewrite length_app. cbn [length]. lia.
Qed.

(** X18: called on something that is not a float and converts to an
    array with at least one dimension, a [SplineApprox] returns a new
    array of the same shape whose element [k] is the value, or the
    derivative of the index that is given, of the spline at element [k]
    of the input; the input, like every array that existed, is left as
    it was.  The spline returns on every element, and the number of
    elements is an [int]. *)
Theorem SplineApprox_value_maps (s0 : math.CubicSpline) (o : PyObject)
    (a : PyArrayObject) (given : option Z) (ys : list float) s :
  (forall d, o <> PyFloat d) ->
  array_of (heap s) o = Some a ->
  PyArray_DIMS a <> [] ->
  Z.of_nat (length (PyArray_DATA a)) = PyArray_SIZE a ->
  PyArray_SIZE a <= INT_MAX ->
  (forall z, given = Some z -> INT_MIN <= z <= 2) ->
  Forall2 (fun x y => spl_eval s0 x (default 0 given) = Done y) (PyArray_DATA a) ys ->
  SplineApprox_value (Some {| spl := Some s0 |}) (call_arguments (Obj o) given) s =
  (Done (Some (PyArray (fresh (dom (heap s))))),
   {| heap := <[fresh (dom (heap s)) :=
                  {| PyArray_DIMS := PyArray_DIMS a; PyArray_DATA := ys |}]> (heap s);
      error := error s |}).
Proof.
  intros Hfloat Harr Hdims Hsize Hint Hgiven Hys.
  unfold py_spline.SplineApprox_value. cbn [spl].
  assert (Hparse : PyArg_ParseTuple_Oi raise_OverflowError
                     (call_arguments (Obj o) given) s
                   = (Done (Some (Obj o, given)), s)).
  { destruct given as [z|]; [|reflexivity].
    unfold call_arguments, PyArg_ParseTuple_Oi.
    rewrite in_int_true; [reflexivity|].
    specialize (Hgiven z eq_refl). unfold INT_MAX. lia. }
  rewrite (bind_Done _ _ _ _ _ Hparse).
  replace (2 <? default 0 given) with false.
  2:{ symmetry. apply Z.ltb_ge. destruct given as [z|]; [|done].
      apply (Hgiven z eq_refl). }
  assert (Hcopy : PyArray_FROM_OTF_copy (Obj o) s =
                  (Done (Some (fresh (dom (heap s)))),
                   {| heap := <[fresh (dom (heap s)) := a]> (heap s);
                      error := error s |})).
  { unfold PyArray_FROM_OTF_copy. rewrite Harr. reflexivity. }
  assert (Hrun :
    (let* arr := PyArray_FROM_OTF_copy (Obj o) in
     match arr with
     | Some arr =>
         let* a := array_at arr in
         let* _ := value_loop s0 (default 0 given) arr
                     (Z.to_nat (PyArray_SIZE a)) 0 in
         PyArray_Return arr
     | None =>
         let* _ := PyErr_SetString PyExc_ValueError
                     ("Argument must be either float, " +:+
                      "list or numpy array") in
         ret None
     end) s =
    (Done (Some (PyArray (fresh (dom (heap s))))),
     {| heap := <[fresh (dom (heap s)) :=
                    {| PyArray_DIMS := PyArray_DIMS a; PyArray_DATA := ys |}]> (heap s);
        error := error s |})).
  { rewrite (bind_Done _ _ _ _ _ Hcopy).
    erewrite bind_Done; cycle 1.
    { apply array_at_spec. cbn [heap]. apply lookup_insert_eq. }
    rewrite <- Hsize, Nat2Z.id.
    erewrite bind_Done; cycle 1.
    { apply (value_loop_spec s0 _ _ (PyArray_DIMS a) (PyArray_DATA a) ys []).
      - cbn [heap app]. rewrite lookup_insert_eq. destruct a; reflexivity.
      - exact Hys.
      - cbn [length]. lia. }
    cbn [heap error app]. rewrite insert_insert_eq.
    unfold PyArray_Return.
    erewrite bind_Done; cycle 1.
    { apply array_at_spec. cbn [heap]. apply lookup_insert_eq. }
    cbn [PyArray_DIMS PyArray_DATA].
    destruct (PyArray_DIMS a); [done|reflexivity]. }
  destruct o as [d| | |]; [by destruct (Hfloat d)|exact Hrun..].
Qed.

(** X19: the index of the derivative.  An index above 2 is refused with
    [ValueError], whatever the point is.  An index below 0 is not
    refused: the call returns NaN for a float, and the spline is not
    evaluated. *)
Theorem SplineApprox_value_derivative_index (s0 : math.CubicSpline)
    (ptx : PyArg) (d : float) (z : Z) s :
  INT_MIN <= z <= INT_MAX ->
  (2 < z ->
   SplineApprox_value (Some {| spl := Some s0 |}) [ptx; Int z] s =
   (Done None,
    {| heap := heap s;
       error := Some (PyExc_ValueError,
                      "Can only compute derivatives up to 2nd") |})) /\
  (z < 0 ->
   SplineApprox_value (Some {| spl := Some s0 |}) [Obj (PyFloat d); Int z] s =
   (Done (Some (PyFloat nan)), s)).
Proof.
  intros Hz. unfold py_spline.SplineApprox_value. cbn [spl].
  unfold PyArg_ParseTuple_Oi. rewrite in_int_true by exact Hz.
  split; intros Hder.
  - unfold bind at 1, ret at 1. cbn [default]. change (id z) with z.
    replace (2 <? z) with true by (symmetry; apply Z.ltb_lt; exact Hder).
    reflexivity.
  - unfold bind at 1, ret at 1. cbn [default]. change (id z) with z.
    replace (2 <? z) with false by (symmetry; apply Z.ltb_ge; lia).
    destruct z as [|z|z]; try lia. reflexivity.
Qed.

End Value.

Lemma SplineApprox_value_maps_witness :
  SplineApprox_value (fun s => s)
    (Some {| spl := Some parabola |})
    (call_arguments (Obj (PyArray 5)) (Some 1)) two_points =
  (Done (Some (PyArray (fresh (dom (heap two_points))))),
   {| heap := <[fresh (dom (heap two_points)) :=
                  {| PyArray_DIMS := [2; 3];
                     PyArray_DATA := [2; 4; 6; 8; 10; 12]%float |}]>
                (heap two_points);
      error := error two_points |}).
Proof.
  apply (SplineApprox_value_maps (fun s => s) parabola
           (PyArray 5)
           {| PyArray_DIMS := [2; 3]; PyArray_DATA := [1; 2; 3; 4; 5; 6]%float |}
           (Some 1) [2; 4; 6; 8; 10; 12]%float two_points).
  - discriminate.
  - reflexivity.
  - discriminate.
  - reflexivity.
  - vm_compute. discriminate.
  - intros z [= <-]. vm_compute. split; discriminate.
  - repeat constructor.
Defined.

Lemma SplineApprox_value_derivative_index_witness :
  SplineApprox_value (fun s => s)
    (Some {| spl := Some broken |}) [Obj (PyArray 5); Int 3] two_points =
  (Done None,
   {| heap := heap two_points;
      error := Some (PyExc_ValueError,
                     "Can only compute derivatives up to 2nd") |}) /\
  SplineApprox_value (fun s => s)
    (Some {| spl := Some broken |}) [Obj (PyFloat 1); Int (-1)] two_points =
  (Done (Some (PyFloat nan)), two_points).
Proof.
  split.
  - apply (SplineApprox_value_derivative_index (fun s => s)
             broken (Obj (PyArray 5)) 0%float 3 two_points).
    + vm_compute. split; discriminate.
    + lia.
  - apply (SplineApprox_value_derivative_index (fun s => s)
             broken (Obj (PyArray 5)) 1%float (-1) two_points).
    + vm_compute. split; discriminate.
    + lia.
Defined.

(** *** The constructor *)

Section Init.
Context `{math.Splines}.
Variable raise_OverflowError : PyState -> PyState.
Variable double_of_string : string -> option float.

Local Abbreviation SplineApprox_init :=
  (py_spline.SplineApprox_init double_of_string).

Lemma quiet_weaken {A : Type} (bad bad' : A -> Prop) (m : M A) :
  (forall a, bad a -> bad' a) -> quiet bad m -> quiet bad' m.
Proof.
  intros Hbad Hm s. specialize (Hm s).
  destruct (m s) as [[a|what|] s']; [|exact Hm..].
  destruct Hm; auto.
Qed.

Lemma ruled_ret {A : Type} (good failed : A -> Prop) (a : A) :
  good a -> ruled good failed (ret a).
Proof. intros Ha s. left. split; [exact Ha|reflexivity]. Qed.

Lemma ruled_fail {A : Type} (good failed : A -> Prop) msg (a : A) :
  failed a ->
  ruled good failed (let* _ := PyErr_SetString PyExc_ValueError msg in ret a).
Proof. intros Ha s. right. split; [exact Ha|]. eexists. reflexivity. Qed.

Lemma ruled_undefined {A : Type} (good failed : A -> Prop) :
  ruled good failed undefined.
Proof. intros s. exact I. Qed.

Lemma ruled_bind {A B : Type} (bad : A -> Prop) (good failed : B -> Prop)
    (m : M A) (k : A -> M B) :
  quiet bad m ->
  (forall a, bad a -> ruled (fun _ => False) failed (k a)) ->
  (forall a, ruled good failed (k a)) ->
  ruled good failed (let* a := m in k a).
Proof.
  intros Hm Hbad Hk s. unfold bind. specialize (Hm s).
  destruct (m s) as [[a|what|] s1]; [|exact Hm|exact I].
  destruct Hm as [Ha|Herr].
  - specialize (Hbad a Ha s1).
    destruct (k a s1) as [[b|what|] s2]; [|exact Hbad|exact I].
    destruct Hbad as [[[] _]|Hb]. right. exact Hb.
  - specialize (Hk a s1).
    destruct (k a s1) as [[b|what|] s2]; [|exact Hk|exact I].
    destruct Hk as [[Hb Hs]|Hb]; [left; split; [exact Hb|congruence]|right; exact Hb].
Qed.

Lemma PyArray_FROM_OTF_item_quiet (obj : PyItem) :
  quiet (fun arr => arr = None) (PyArray_FROM_OTF_item double_of_string obj).
Proof.
  intros s. unfold PyArray_FROM_OTF_item.
  destruct obj as [l|str|z|o].
  - left. reflexivity.
  - destruct (double_of_string str); [right|left]; reflexivity.
  - right. reflexivity.
  - unfold PyArray_FROM_OTF.
    destruct o as [d|items|l|];
      try (destruct (array_of (heap s) _); [right|left]; reflexivity).
    destruct (heap s !! l); [right; reflexivity|exact I].
Qed.

Lemma array_at_quiet (l : loc) : quiet (fun _ => False) (array_at l).
Proof.
  intros s. unfold array_at. destruct (heap s !! l); [right; reflexivity|exact I].
Qed.

Lemma read_doubles_quiet (l : loc) (offset : Z) (n : nat) :
  quiet (fun _ => False) (read_doubles l offset n).
Proof.
  intros s. unfold read_doubles, bind, array_at.
  destruct (heap s !! l) as [arr|]; [|exact I].
  destruct (_ && _); [right; reflexivity|exact I].
Qed.

Lemma PyArg_ParseTupleAndKeywords_quiet args namedArgs format keywords :
  quiet (fun stored => stored = None)
    (PyArg_ParseTupleAndKeywords args namedArgs format keywords).
Proof.
  intros s.
  destruct (PyArg_ParseTupleAndKeywords_cases args namedArgs format keywords s)
    as [[stored ->]| ->]; [right|left]; reflexivity.
Qed.

(** X24: what a call of [SplineApprox_init] comes to.  It throws
    nothing.  When it returns 0 the object holds a new spline and the
    error indicator is what it was.  Otherwise it returns -1 with
    [ValueError] set, and the object is what it was, or, when it had a
    spline, it may be left with the spline deleted. *)
Theorem SplineApprox_init_outcome self args namedargs s :
  match SplineApprox_init self args namedargs s with
  | (Done (r, after), s') =>
      (r = 0 /\ (exists c, after = intact {| spl := Some c |}) /\
       error s' = error s) \/
      (r = -1 /\ (after = intact self \/ (after = dangling /\ is_Some (spl self))) /\
       exists msg, error s' = Some (PyExc_ValueError, msg))
  | (Thrown _, _) => False
  | (Undefined, _) => True
  end.
Proof.
  set (good := fun out : Z * SplineApprox_after =>
                 out.1 = 0 /\ exists c, out.2 = intact {| spl := Some c |}).
  set (failed := fun out : Z * SplineApprox_after =>
                   out.1 = -1 /\
                   (out.2 = intact self \/ (out.2 = dangling /\ is_Some (spl self)))).
  assert (Hkept : forall good', failed (-1, intact self) /\
            forall msg, ruled good' failed
              (let* _ := PyErr_SetString PyExc_ValueError msg in
               ret (-1, intact self))).
  { intros good'. assert (failed (-1, intact self)) by (split; [reflexivity|left; reflexivity]).
    split; [assumption|]. intros msg. by apply ruled_fail. }
  assert (Hcatch : forall good' what after,
            after = intact self \/ (after = dangling /\ is_Some (spl self)) ->
            ruled good' failed (SplineApprox_init_catch what after)).
  { intros good' what after Hafter. apply ruled_fail. split; [reflexivity|exact Hafter]. }
  enough (Hruled : ruled good failed (SplineApprox_init self args namedargs)).
  { specialize (Hruled s).
    destruct (SplineApprox_init self args namedargs s) as [[[r after]|what|] s'];
      [|exact Hruled|exact I].
    destruct Hruled as [[[Hr Hafter] Herr]|[[Hr Hafter] Herr]]; [left|right]; done. }
  unfold py_spline.SplineApprox_init.
  eapply ruled_bind; [apply PyArg_ParseTupleAndKeywords_quiet| |].
  { intros ? ->. apply Hkept. }
  intros [stored|]; [|apply Hkept]. cbv zeta.
  destruct (stored_object None stored 0) as [objx|]; [|apply ruled_undefined].
  destruct (stored_object None stored 1) as [objy|]; [|apply ruled_undefined].
  destruct (stored_object None stored 2) as [objk|]; [|apply ruled_undefined].
  assert (Hconvert : forall (rest : option loc -> M (Z * SplineApprox_after)) obj,
            (forall arr, ruled (fun _ => False) failed (rest arr)) ->
            ruled (fun _ => False) failed
              (let* arr := PyArray_FROM_OTF_item double_of_string obj in rest arr)).
  { intros rest obj Hrest.
    apply (ruled_bind (fun _ => True)); [|intros arr _; apply Hrest|exact Hrest].
    eapply quiet_weaken; [|apply PyArray_FROM_OTF_item_quiet]. done. }
  eapply ruled_bind; [apply PyArray_FROM_OTF_item_quiet| |].
  { intros ? ->. apply Hconvert. intros arry. apply Hconvert. intros arrk.
    destruct arry, arrk; apply Hkept. }
  intros arrx.
  eapply ruled_bind; [apply PyArray_FROM_OTF_item_quiet| |].
  { intros ? ->. apply Hconvert. intros arrk. destruct arrx, arrk; apply Hkept. }
  intros arry.
  eapply ruled_bind; [apply PyArray_FROM_OTF_item_quiet| |].
  { intros ? ->. destruct arrx, arry; apply Hkept. }
  intros arrk.
  destruct arrx as [arrx|], arry as [arry|], arrk as [arrk|]; try apply Hkept.
  eapply ruled_bind; [apply array_at_quiet|intros ? []|]. intros ax.
  eapply ruled_bind; [apply array_at_quiet|intros ? []|]. intros ay.
  eapply ruled_bind; [apply array_at_quiet|intros ? []|]. intros ak.
  destruct (_ || _); [apply Hkept|].
  eapply ruled_bind; [apply read_doubles_quiet|intros ? []|]. intros xvalues.
  eapply ruled_bind; [apply read_doubles_quiet|intros ? []|]. intros yvalues.
  eapply ruled_bind; [apply read_doubles_quiet|intros ? []|]. intros knots.
  destruct (_ ≫= _) as [[[splinevals der1] der2]|what|];
    [|apply Hcatch; left; reflexivity|apply ruled_undefined].
  destruct (math.CubicSpline_new knots splinevals der1 der2) as [c|what|];
    [|apply Hcatch|apply ruled_undefined].
  - apply ruled_ret. split; [reflexivity|]. eexists. reflexivity.
  - destruct (spl self); [right; split; [reflexivity|eauto]|left; reflexivity].
Qed.

(** The constructor on three arrays, up to the test of their shapes. *)
Lemma SplineApprox_init_on_arrays self args namedargs s lx ly lk smoothfactor
    ax ay ak :
  spline_arguments s args namedargs =
    Some (Other (PyArray lx), Other (PyArray ly), Other (PyArray lk), smoothfactor) ->
  heap s !! lx = Some ax -> heap s !! ly = Some ay -> heap s !! lk = Some ak ->
  SplineApprox_init self args namedargs s =
  (let numpt := if PyArray_NDIM ax =? 1 then to_int (PyArray_DIM ax 0) else 0 in
   let numknots := if PyArray_NDIM ak =? 1 then to_int (PyArray_DIM ak 0) else 0 in
   if (numpt <=? 0) || (numknots <=? 4) || negb (PyArray_NDIM ay =? 1)
      || negb (PyArray_DIM ay 0 =? numpt)
   then
     let* _ := PyErr_SetString PyExc_ValueError
                 ("Arguments must be two arrays of equal length " +:+
                  "(x and y) and a third array (knots, at least 4)") in
     ret (-1, intact self)
   else
     let* xvalues := read_doubles lx 0 (Z.to_nat numpt) in
     let* yvalues := read_doubles ly 0 (Z.to_nat numpt) in
     let* knots := read_doubles lk 0 (Z.to_nat numknots) in
     match fit_of smoothfactor xvalues yvalues knots with
     | Done (splinevals, der1, der2) =>
         match math.CubicSpline_new knots splinevals der1 der2 with
         | Done c => ret (0, intact {| spl := Some c |})
         | Thrown what =>
             SplineApprox_init_catch what
               match spl self with
               | Some _ => dangling
               | None => intact self
               end
         | Undefined => undefined
         end
     | Thrown what => SplineApprox_init_catch what (intact self)
     | Undefined => undefined
     end) s.
Proof.
  intros Hargs Hx Hy Hk. unfold spline_arguments in Hargs.
  unfold py_spline.SplineApprox_init.
  destruct (PyArg_ParseTupleAndKeywords_cases args namedargs "OOO|d"
              ["x"; "y"; "knots"; "smooth"] s) as [[stored Hparse]|Hparse];
    rewrite Hparse in Hargs; [|discriminate Hargs].
  rewrite (bind_Done _ _ _ _ _ Hparse). cbn [fst] in Hargs.
  destruct (stored_object None stored 0) as [objx|]; [|discriminate Hargs].
  destruct (stored_object None stored 1) as [objy|]; [|discriminate Hargs].
  destruct (stored_object None stored 2) as [objk|]; [|discriminate Hargs].
  injection Hargs as -> -> -> <-.
  assert (Hconvert : forall l a, heap s !! l = Some a ->
            PyArray_FROM_OTF_item double_of_string (Other (PyArray l)) s
            = (Done (Some l), s)).
  { intros l a Hl. unfold PyArray_FROM_OTF_item, PyArray_FROM_OTF.
    rewrite Hl. reflexivity. }
  rewrite (bind_Done _ _ _ _ _ (Hconvert lx ax Hx)).
  rewrite (bind_Done _ _ _ _ _ (Hconvert ly ay Hy)).
  rewrite (bind_Done _ _ _ _ _ (Hconvert lk ak Hk)).
  rewrite (bind_Done _ _ _ _ _ (array_at_spec lx s ax Hx)).
  rewrite (bind_Done _ _ _ _ _ (array_at_spec ly s ay Hy)).
  rewrite (bind_Done _ _ _ _ _ (array_at_spec lk s ak Hk)).
  reflexivity.
Qed.

(** X25: five knots are needed, where the message asks for four.  On
    three arrays the last of which has one dimension and at most four
    elements, [SplineApprox_init] returns -1 with the [ValueError] that
    asks for at least 4 knots; the object and the arrays are left as
    they were and no spline is fitted. *)
Theorem SplineApprox_init_refuses_four_knots self args namedargs s lx ly lk
    smoothfactor ax ay ak nk :
  spline_arguments s args namedargs =
    Some (Other (PyArray lx), Other (PyArray ly), Other (PyArray lk), smoothfactor) ->
  heap s !! lx = Some ax -> heap s !! ly = Some ay -> heap s !! lk = Some ak ->
  PyArray_DIMS ak = [nk] ->
  0 <= nk <= 4 ->
  SplineApprox_init self args namedargs s =
  (Done (-1, intact self),
   {| heap := heap s;
      error := Some (PyExc_ValueError,
                     "Arguments must be two arrays of equal length " +:+
                     "(x and y) and a third array (knots, at least 4)") |}).
Proof.
  intros Hargs Hx Hy Hk Hdims Hnk.
  rewrite (SplineApprox_init_on_arrays _ _ _ _ _ _ _ _ _ _ _ Hargs Hx Hy Hk).
  cbv zeta. unfold PyArray_NDIM at 2, PyArray_DIM at 2. rewrite Hdims.
  cbn [length nth]. change (Z.of_nat 1 =? 1) with true. cbn beta iota.
  replace (to_int nk) with nk
    by (unfold to_int; rewrite Z.mod_small by lia; lia).
  replace (nk <=? 4) with true by (symmetry; apply Z.leb_le; lia).
  rewrite orb_true_r. reflexivity.
Qed.

(** X26: how the spline of an object is replaced.  On three arrays of
    one dimension, as many y values as x values, at least one, and at
    least five knots, when the fit returns, [SplineApprox_init] deletes
    the spline that the object has and constructs the new one from the
    knots and from what the fit gives.  When the constructor returns,
    the result is 0, the object holds the new spline, and the
    interpreter state is untouched.  When it throws, the result is -1
    with [ValueError] set, and an object that had a spline is left with
    a pointer to the spline that has been deleted. *)
Theorem SplineApprox_init_replaces self args namedargs s lx ly lk smoothfactor
    xvalues yvalues knots splinevals der1 der2 :
  spline_arguments s args namedargs =
    Some (Other (PyArray lx), Other (PyArray ly), Other (PyArray lk), smoothfactor) ->
  heap s !! lx = Some (vector xvalues) ->
  heap s !! ly = Some (vector yvalues) ->
  heap s !! lk = Some (vector knots) ->
  (0 < length xvalues)%nat ->
  length yvalues = length xvalues ->
  (4 < length knots)%nat ->
  Z.of_nat (length xvalues) <= INT_MAX ->
  Z.of_nat (length knots) <= INT_MAX ->
  fit_of smoothfactor xvalues yvalues knots = Done (splinevals, der1, der2) ->
  SplineApprox_init self args namedargs s =
  match math.CubicSpline_new knots splinevals der1 der2 with
  | Done c => (Done (0, intact {| spl := Some c |}), s)
  | Thrown what =>
      (Done (-1, match spl self with
                 | Some _ => dangling
                 | None => intact self
                 end),
       {| heap := heap s;
          error := Some (PyExc_ValueError,
                         "Error in SplineApprox initialization: " +:+ what) |})
  | Undefined => (Undefined, s)
  end.
Proof.
  intros Hargs Hx Hy Hk Hnx Hny Hnk Hintx Hintk Hfit.
  rewrite (SplineApprox_init_on_arrays _ _ _ _ _ _ _ _ _ _ _ Hargs Hx Hy Hk).
  cbv zeta. unfold PyArray_NDIM, PyArray_DIM, vector. cbn [PyArray_DIMS length nth].
  change (Z.of_nat 1 =? 1) with true. cbn beta iota.
  assert (Hto : forall n, Z.of_nat n <= INT_MAX -> to_int (Z.of_nat n) = Z.of_nat n).
  { intros n Hn. unfold to_int, INT_MAX in *. rewrite Z.mod_small by lia. lia. }
  rewrite !Hto by assumption.
  replace (Z.of_nat (length xvalues) <=? 0) with false by (symmetry; apply Z.leb_gt; lia).
  replace (Z.of_nat (length knots) <=? 4) with false by (symmetry; apply Z.leb_gt; lia).
  rewrite Hny, Z.eqb_refl. cbn [orb negb]. rewrite !Nat2Z.id.
  assert (Hread : forall l values n, heap s !! l = Some (vector values) ->
            n = length values ->
            read_doubles l 0 n s = (Done values, s)).
  { intros l values n Hl ->.
    change (read_doubles l 0) with (read_doubles l (Z.of_nat 0)).
    rewrite (read_doubles_spec l 0 (length values) s (vector values) Hl)
      by (cbn; lia).
    unfold vector. cbn [PyArray_DATA drop]. rewrite firstn_all. reflexivity. }
  rewrite (bind_Done _ _ _ _ _ (Hread lx xvalues _ Hx eq_refl)).
  rewrite (bind_Done _ _ _ _ _ (Hread ly yvalues _ Hy (eq_sym Hny))).
  rewrite (bind_Done _ _ _ _ _ (Hread lk knots _ Hk eq_refl)).
  rewrite Hfit.
  destruct (math.CubicSpline_new knots splinevals der1 der2); reflexivity.
Qed.

End Init.

Lemma SplineApprox_init_refuses_four_knots_witness :
  @SplineApprox_init (fun _ => None) plain_splines {| spl := Some parabola |}
    [Other (PyArray 1); Other (PyArray 2); Other (PyArray 4)] ∅ six_points =
  (Done (-1, intact {| spl := Some parabola |}),
   {| heap := heap six_points;
      error := Some (PyExc_ValueError,
                     "Arguments must be two arrays of equal length " +:+
                     "(x and y) and a third array (knots, at least 4)") |}).
Proof.
  apply (@SplineApprox_init_refuses_four_knots plain_splines (fun _ => None)
           {| spl := Some parabola |}
           [Other (PyArray 1); Other (PyArray 2); Other (PyArray 4)] ∅ six_points
           1%positive 2%positive 4%positive 0%float
           (vector [0; 1; 2; 3; 4; 5]%float) (vector [0; 1; 4; 9; 16; 25]%float)
           (vector [0; 1; 3; 5]%float) 4).
  - vm_compute. reflexivity.
  - reflexivity.
  - reflexivity.
  - reflexivity.
  - reflexivity.
  - lia.
Defined.

Lemma SplineApprox_init_replaces_witness :
  (exists c,
     @SplineApprox_init (fun _ => None) plain_splines {| spl := Some parabola |}
       [Other (PyArray 1); Other (PyArray 2)] {[ "knots" := Other (PyArray 3) ]}
       six_points =
     (Done (0, intact {| spl := Some c |}), six_points) /\
     math.value c 0%float = Done 11%float) /\
  @SplineApprox_init (fun _ => None) plain_splines {| spl := Some parabola |}
    [Other (PyArray 1); Other (PyArray 2); Other (PyArray 3); PyInt 1] ∅
    six_points =
  (Done (-1, dangling),
   {| heap := heap six_points;
      error := Some (PyExc_ValueError,
                     "Error in SplineApprox initialization: " +:+
                     "as many values as knots are needed") |}).
Proof.
  split.
  - eexists. split.
    + apply (@SplineApprox_init_replaces plain_splines (fun _ => None)
               {| spl := Some parabola |}
               [Other (PyArray 1); Other (PyArray 2)]
               {[ "knots" := Other (PyArray 3) ]} six_points
               1%positive 2%positive 3%positive 0%float
               [0; 1; 2; 3; 4; 5]%float [0; 1; 4; 9; 16; 25]%float
               [0; 1; 2; 3; 5]%float [0; 1; 2; 3; 5]%float 0%float 0%float).
      * vm_compute. reflexivity.
      * reflexivity.
      * reflexivity.
      * reflexivity.
      * cbn [length]. lia.
      * reflexivity.
      * cbn [length]. lia.
      * vm_compute. discriminate.
      * vm_compute. discriminate.
      * vm_compute. reflexivity.
    + vm_compute. reflexivity.
  - apply (@SplineApprox_init_replaces plain_splines (fun _ => None)
             {| spl := Some parabola |}
             [Other (PyArray 1); Other (PyArray 2); Other (PyArray 3); PyInt 1] ∅
             six_points
             1%positive 2%positive 3%positive 1%float
             [0; 1; 2; 3; 4; 5]%float [0; 1; 4; 9; 16; 25]%float
             [0; 1; 2; 3; 5]%float [0; 1; 4; 9; 16; 25]%float 0%float 0%float).
    + vm_compute. reflexivity.
    + reflexivity.
    + reflexivity.
    + reflexivity.
    + cbn [length]. lia.
    + reflexivity.
    + cbn [length]. lia.
    + vm_compute. discriminate.
    + vm_compute. discriminate.
    + vm_compute. reflexivity.
Defined.

(** Calls of the constructor that are refused: two arguments, a name
    that is no keyword, x and y of different lengths, and a number in
    the place of an array. *)
Example SplineApprox_init_refusals :
  let refused args namedargs :=
    (@SplineApprox_init (fun _ => None) plain_splines {| spl := None |}
       args namedargs six_points).1 = Done (-1, intact {| spl := None |}) in
  refused [Other (PyArray 1); Other (PyArray 2)] ∅ /\
  refused [Other (PyArray 1); Other (PyArray 2)] {[ "nodes" := Other (PyArray 3) ]} /\
  refused [Other (PyArray 1); Other (PyArray 3); Other (PyArray 3)] ∅ /\
  refused [PyInt 1; Other (PyArray 2); Other (PyArray 3)] ∅ /\
  refused [PyString "x"; Other (PyArray 2); Other (PyArray 3)] ∅.
Proof. cbv zeta. repeat split; vm_compute; reflexivity. Qed.


End py_spline_facts.
